(** * The LLM integration layer of the rental platform

    A shallow embedding of
      - [llm_services/services/cache.py]              (response cache),
      - [llm_services/services/llm_client.py]         (provider clients, unified
        client, JSON repair, property formatting),
      - [llm_services/services/cache_analyzer.py]     (the tracking of the
        server-side cache, which the optimized client calls),
      - [llm_services/services/optimized_deepseek.py] (context store, optimized
        client),
      - [llm_services/services/llm_manager.py]        (routing policy),
      - [reviews/models.py] and the first migration of [properties] (the
        fields [format_property_data] reads),
    together with models of the parts of the Python standard library the code
    calls ([str] methods, [re], [json], [hashlib.md5]).

    Conventions.
      - A Python [str] is the list of its code points ([pystr]); [lit] injects
        a literal.  The character [DQ] is the double quote.
      - Python values that travel through [json] (None, bool, int, float, str,
        list, dict) are the type [value]; a float is represented by the exact
        rational it denotes, rounding to binary64 is not modelled.
      - Effects (the clock, the two cache directories, the remote APIs, the
        sleeps) are threaded through an explicit [world]; a Python exception
        is the [Raise] outcome of a computation. *)

From Stdlib Require Import String Ascii List ZArith NArith QArith Lia Bool.
From stdpp Require Import gmap strings list finite.
Import ListNotations.

Local Open Scope N_scope.

(** ** Python strings *)

Definition pystr : Type := list N.

Definition lit (s : string) : pystr :=
  map N_of_ascii (list_ascii_of_string s).
Arguments lit s%_string.

Definition DQ : N := 34.       (* the double quote character *)
Definition dq : pystr := [DQ].

Module PyStr.

Definition eqb (a b : pystr) : bool := bool_decide (a = b).

(** [str.isspace] on one character (Py_UNICODE_ISSPACE). *)
Definition isspace (c : N) : bool :=
  ((9 <=? c) && (c <=? 13)) || ((28 <=? c) && (c <=? 32))
  || (c =? 133) || (c =? 160) || (c =? 5760)
  || ((8192 <=? c) && (c <=? 8202))
  || (c =? 8232) || (c =? 8233) || (c =? 8239) || (c =? 8287)
  || (c =? 12288).

(** [s.startswith(p)] *)
Fixpoint startswith (p s : pystr) : bool :=
  match p, s with
  | [], _ => true
  | _ :: _, [] => false
  | a :: p', b :: s' => (a =? b) && startswith p' s'
  end.

(** [sub in s] *)
Fixpoint contains (sub s : pystr) : bool :=
  startswith sub s ||
  match s with
  | [] => false
  | _ :: s' => contains sub s'
  end.

(** [s.find(sub)], with -1 for "not found". *)
Fixpoint find_from (sub s : pystr) (i : Z) : Z :=
  if startswith sub s then i
  else match s with
       | [] => (-1)%Z
       | _ :: s' => find_from sub s' (i + 1)%Z
       end.
Definition find (sub s : pystr) : Z := find_from sub s 0%Z.

(** [s.replace(old, new)]: every non-overlapping occurrence, left to
    right.  [skip] counts the characters of an occurrence still to drop. *)
Fixpoint replace_aux (old new : pystr) (skip : nat) (s : pystr) : pystr :=
  match s with
  | [] => []
  | c :: s' =>
      match skip with
      | S k => replace_aux old new k s'
      | O => if startswith old s
             then new ++ replace_aux old new (length old - 1) s'
             else c :: replace_aux old new 0 s'
      end
  end.
Definition replace (old new s : pystr) : pystr :=
  match old with
  | [] => new ++ flat_map (fun c => c :: new) s
  | _ => replace_aux old new 0 s
  end.

(** [sep.join(parts)] *)
Fixpoint join (sep : pystr) (parts : list pystr) : pystr :=
  match parts with
  | [] => []
  | [p] => p
  | p :: rest => p ++ sep ++ join sep rest
  end.

(** [s.split(sep)] for a non-empty separator. *)
Fixpoint split_aux (sep : pystr) (skip : nat) (cur : pystr) (s : pystr)
  : list pystr :=
  match s with
  | [] => [rev cur]
  | c :: s' =>
      match skip with
      | S k => split_aux sep k cur s'
      | O => if startswith sep s
             then rev cur :: split_aux sep (length sep - 1) [] s'
             else split_aux sep 0 (c :: cur) s'
      end
  end.
Definition split (sep s : pystr) : list pystr := split_aux sep 0 [] s.

(** [s.lstrip()], [s.rstrip()], [s.strip()] over a character predicate:
    whitespace for the call without argument, membership in the argument
    otherwise. *)
Fixpoint lstrip_by (p : N -> bool) (s : pystr) : pystr :=
  match s with
  | c :: s' => if p c then lstrip_by p s' else s
  | [] => []
  end.
Definition strip_by (p : N -> bool) (s : pystr) : pystr :=
  rev (lstrip_by p (rev (lstrip_by p s))).
Definition strip (s : pystr) : pystr := strip_by isspace s.
Definition strip_chars (chars s : pystr) : pystr :=
  strip_by (fun c => existsb (N.eqb c) chars) s.

(** [s.lower()] on the Latin-1 range (other code points are left as they
    are). *)
Definition lower_char (c : N) : N :=
  if ((65 <=? c) && (c <=? 90))
     || ((192 <=? c) && (c <=? 222) && negb (c =? 215))
  then c + 32 else c.
Definition lower (s : pystr) : pystr := map lower_char s.

(** [str(n)] for a natural number. *)
Fixpoint digits_aux (fuel : nat) (n : N) (acc : pystr) : pystr :=
  match fuel with
  | O => acc
  | S f => let acc' := (48 + n mod 10) :: acc in
           if n / 10 =? 0 then acc' else digits_aux f (n / 10) acc'
  end.
Definition of_N (n : N) : pystr := digits_aux (S (N.to_nat (N.log2 n))) n [].
Definition of_Z (z : Z) : pystr :=
  match z with
  | Zneg p => 45 :: of_N (Npos p)
  | _ => of_N (Z.to_N z)
  end.

(** Slices [s[:n]] and [s[n:]] for non-negative [n]. *)
Definition slice_to (n : nat) (s : pystr) : pystr := take n s.
Definition slice_from (n : nat) (s : pystr) : pystr := drop n s.

(** [s.splitlines()] on the line ends of a byte stream: LF, CR LF, CR. *)
Fixpoint splitlines_aux (cur : pystr) (s : pystr) : list pystr :=
  match s with
  | [] => match cur with [] => [] | _ => [rev cur] end
  | c :: s' =>
      if c =? 10 then rev cur :: splitlines_aux [] s'
      else if c =? 13 then
        match s' with
        | c' :: s'' =>
            if c' =? 10 then rev cur :: splitlines_aux [] s''
            else rev cur :: splitlines_aux [] s'
        | [] => [rev cur]
        end
      else splitlines_aux (c :: cur) s'
  end.
Definition splitlines (s : pystr) : list pystr := splitlines_aux [] s.

End PyStr.

Infix "=s?" := PyStr.eqb (at level 70).

(** ** Regular expressions ([re])

    The patterns of the source only repeat single-character classes, so
    repetition is over a class.  Matching is by backtracking with Python's
    priorities: the left alternative first, greedy repetition longest first,
    lazy repetition shortest first.  Groups that take no part in a match are
    absent from the group map ([m.group(n)] is [None]). *)

Module Re.

Inductive regex : Type :=
| Eps
| Chr (p : N -> bool)
| Seq (r1 r2 : regex)
| Alt (r1 r2 : regex)
| Star (greedy : bool) (p : N -> bool)
| Group (n : nat) (r : regex).

Definition Opt (r : regex) : regex := Alt r Eps.
Definition Plus (p : N -> bool) : regex := Seq (Chr p) (Star true p).
Definition Char (c : N) : regex := Chr (N.eqb c).
Fixpoint Lit (s : pystr) : regex :=
  match s with
  | [] => Eps
  | c :: s' => Seq (Char c) (Lit s')
  end.
Fixpoint Cat (rs : list regex) : regex :=
  match rs with
  | [] => Eps
  | [r] => r
  | r :: rs' => Seq r (Cat rs')
  end.

(** Character classes. *)
Definition any : N -> bool := fun _ => true.                  (* . with DOTALL *)
Definition space : N -> bool := PyStr.isspace.                (* \s *)
Definition word : N -> bool := fun c =>                       (* [a-zA-Z0-9_] *)
  ((97 <=? c) && (c <=? 122)) || ((65 <=? c) && (c <=? 90))
  || ((48 <=? c) && (c <=? 57)) || (c =? 95).
Definition none_of (cs : list N) : N -> bool :=               (* [^...] *)
  fun c => negb (existsb (N.eqb c) cs).

Section Matcher.
Context {R : Type}.

Fixpoint star_greedy (p : N -> bool) (s : pystr)
         (k : pystr -> option R) : option R :=
  match s with
  | c :: s' =>
      if p c
      then match star_greedy p s' k with
           | Some r => Some r
           | None => k s
           end
      else k s
  | [] => k s
  end.

Fixpoint star_lazy (p : N -> bool) (s : pystr)
         (k : pystr -> option R) : option R :=
  match k s with
  | Some r => Some r
  | None =>
      match s with
      | c :: s' => if p c then star_lazy p s' k else None
      | [] => None
      end
  end.

(** The text consumed between the input [s] and its suffix [s']. *)
Definition consumed (s s' : pystr) : pystr :=
  take (length s - length s')%nat s.

Fixpoint rmatch (r : regex) (s : pystr) (g : gmap nat pystr)
         (k : pystr -> gmap nat pystr -> option R) : option R :=
  match r with
  | Eps => k s g
  | Chr p =>
      match s with
      | c :: s' => if p c then k s' g else None
      | [] => None
      end
  | Seq r1 r2 => rmatch r1 s g (fun s' g' => rmatch r2 s' g' k)
  | Alt r1 r2 =>
      match rmatch r1 s g k with
      | Some x => Some x
      | None => rmatch r2 s g k
      end
  | Star true p => star_greedy p s (fun s' => k s' g)
  | Star false p => star_lazy p s (fun s' => k s' g)
  | Group n r' =>
      rmatch r' s g (fun s' g' => k s' (<[n := consumed s s']> g'))
  end.
End Matcher.

(** A match object: where it starts, the text of group 0 and the groups. *)
Record mobj : Type := MkMatch {
  m_start : nat;
  m_text : pystr;
  m_groups : gmap nat pystr
}.

Definition group (m : mobj) (n : nat) : option pystr := m_groups m !! n.

(** [re.match] at the head of [s]: the rest of the text and the groups. *)
Definition match_at (r : regex) (s : pystr)
  : option (pystr * gmap nat pystr) :=
  rmatch r s ∅ (fun s' g => Some (s', g)).

(** [re.search(r, s)]: the leftmost match. *)
Fixpoint search_from (r : regex) (i : nat) (s : pystr) : option mobj :=
  match match_at r s with
  | Some (rest, g) => Some (MkMatch i (consumed s rest) g)
  | None =>
      match s with
      | [] => None
      | _ :: s' => search_from r (S i) s'
      end
  end.
Definition search (r : regex) (s : pystr) : option mobj := search_from r 0 s.

(** [re.finditer(r, s)] for a pattern that matches only non-empty text (as
    all patterns of the source do): the non-overlapping matches, left to
    right.  [skip] counts the characters of the last match still to pass. *)
Fixpoint finditer_aux (r : regex) (skip i : nat) (s : pystr) : list mobj :=
  match skip with
  | S k =>
      match s with
      | [] => []
      | _ :: s' => finditer_aux r k (S i) s'
      end
  | O =>
      match match_at r s with
      | Some (rest, g) =>
          MkMatch i (consumed s rest) g ::
          match s with
          | [] => []
          | _ :: s' =>
              finditer_aux r (length (consumed s rest) - 1) (S i) s'
          end
      | None =>
          match s with
          | [] => []
          | _ :: s' => finditer_aux r 0 (S i) s'
          end
      end
  end.
Definition finditer (r : regex) (s : pystr) : list mobj :=
  finditer_aux r 0 0 s.

(** [re.findall(r, s)] for a pattern with exactly one group. *)
Definition findall1 (r : regex) (s : pystr) : list pystr :=
  map (fun m => default [] (group m 1)) (finditer r s).

(** [re.sub(r, repl, s)], the replacement given as a function of the
    groups; same restriction as [finditer]. *)
Fixpoint sub_aux (r : regex) (repl : gmap nat pystr -> pystr)
         (skip : nat) (s : pystr) : pystr :=
  match skip with
  | S k =>
      match s with
      | [] => []
      | _ :: s' => sub_aux r repl k s'
      end
  | O =>
      match match_at r s with
      | Some (rest, g) =>
          repl g ++
          match s with
          | [] => []
          | c :: s' =>
              match length (consumed s rest) with
              | O => c :: sub_aux r repl 0 s'
              | S n => sub_aux r repl n s'
              end
          end
      | None =>
          match s with
          | [] => []
          | c :: s' => c :: sub_aux r repl 0 s'
          end
      end
  end.
Definition sub (r : regex) (repl : gmap nat pystr -> pystr) (s : pystr)
  : pystr := sub_aux r repl 0 s.

End Re.

(** ** Python values *)

#[local] Set Warnings "-register-all".

Definition ch (a : ascii) : N := N_of_ascii a.
Arguments ch a%_char.

Inductive nonfinite : Type := NaN | PosInfinity | NegInfinity.

Inductive value : Type :=
| VNone
| VBool (b : bool)
| VInt (z : Z)
| VFloat (q : Q)
| VNonFinite (f : nonfinite)
| VStr (s : pystr)
| VList (l : list value)
| VDict (d : list (pystr * value)).

(** A [dict] keeps its keys in insertion order; assigning an existing key
    replaces the value in place. *)
Module Dict.
Definition t : Type := list (pystr * value).

Fixpoint get (k : pystr) (d : t) : option value :=
  match d with
  | [] => None
  | (k', v) :: d' => if k =s? k' then Some v else get k d'
  end.

Fixpoint set (k : pystr) (v : value) (d : t) : t :=
  match d with
  | [] => [(k, v)]
  | (k', v') :: d' =>
      if k =s? k' then (k', v) :: d' else (k', v') :: set k v d'
  end.

(** [dict(pairs)] and the dict display [{k1: v1, k2: v2, ...}]: the pairs
    are assigned one after the other. *)
Definition of_pairs (pairs : list (pystr * value)) : t :=
  fold_left (fun d kv => set (fst kv) (snd kv) d) pairs [].

Definition mem (k : pystr) (d : t) : bool :=
  match get k d with Some _ => true | None => false end.
End Dict.

(** Truth value of a Python object. *)
Definition truthy (v : value) : bool :=
  match v with
  | VNone => false
  | VBool b => b
  | VInt z => negb (z =? 0)%Z
  | VFloat q => negb (Qeq_bool q 0)
  | VNonFinite _ => true
  | VStr s => match s with [] => false | _ => true end
  | VList l => match l with [] => false | _ => true end
  | VDict d => match d with [] => false | _ => true end
  end.

(** ** [json.loads]

    The decoder of CPython 3.8 to 3.12.  [fuel] bounds the depth of the
    calls; [loads] supplies more than any text needs. *)

Module Json.

Inductive scan (A : Type) : Type :=
| Scanned (a : A) (rest : pystr) (pos : nat)
| StopIteration (pos : nat)
| DecodeError (msg : pystr) (pos : nat)
| RecursionError.
Arguments Scanned {A} a rest pos.
Arguments StopIteration {A} pos.
Arguments DecodeError {A} msg pos.
Arguments RecursionError {A}.

Definition is_ws (c : N) : bool :=
  (c =? 32) || (c =? 9) || (c =? 10) || (c =? 13).
Definition is_digit (c : N) : bool := (48 <=? c) && (c <=? 57).

Fixpoint skip_ws (s : pystr) (pos : nat) : pystr * nat :=
  match s with
  | c :: s' => if is_ws c then skip_ws s' (S pos) else (s, pos)
  | [] => (s, pos)
  end.

Definition hex_digit (c : N) : option N :=
  if is_digit c then Some (c - 48)
  else if (97 <=? c) && (c <=? 102) then Some (c - 87)
  else if (65 <=? c) && (c <=? 70) then Some (c - 55)
  else None.

(** The four hexadecimal digits of a [\uXXXX] escape. *)
Definition hex4_digits (s : pystr) : option N :=
  match s with
  | a :: b :: c :: d :: _ =>
      match hex_digit a, hex_digit b, hex_digit c, hex_digit d with
      | Some x, Some y, Some z, Some w =>
          Some (((x * 16 + y) * 16 + z) * 16 + w)
      | _, _, _, _ => None
      end
  | _ => None
  end.

(** The scanner asks for at least one character after the digits. *)
Definition hex4 (s : pystr) : option N :=
  if (4 <? length s)%nat then hex4_digits s else None.

Definition escape_char (e : N) : option N :=
  if e =? DQ then Some DQ
  else if e =? ch "\" then Some (ch "\")
  else if e =? ch "/" then Some (ch "/")
  else if e =? ch "b" then Some 8
  else if e =? ch "f" then Some 12
  else if e =? ch "n" then Some 10
  else if e =? ch "r" then Some 13
  else if e =? ch "t" then Some 9
  else None.

Definition is_high_surrogate (c : N) : bool := (55296 <=? c) && (c <=? 56319).
Definition is_low_surrogate (c : N) : bool := (56320 <=? c) && (c <=? 57343).

(** [scanstring]: the text after the opening quote, which is at [begin]. *)
Fixpoint scanstring (fuel : nat) (acc : pystr) (s : pystr) (pos begin : nat)
  : scan pystr :=
  match fuel with
  | O => RecursionError
  | S f =>
      match s with
      | [] => DecodeError (lit "Unterminated string starting at") begin
      | c :: s' =>
          if c =? DQ then Scanned (rev acc) s' (S pos)
          else if c =? ch "\" then
            match s' with
            | [] => DecodeError (lit "Unterminated string starting at") begin
            | e :: s'' =>
                if e =? ch "u" then
                  match hex4 s'' with
                  | None =>
                      DecodeError (lit "Invalid \uXXXX escape") (pos + 1)
                  | Some uni =>
                      let rest := drop 4 s'' in
                      let pos' := (pos + 6)%nat in
                      if is_high_surrogate uni
                         && (6 <? length rest)%nat
                         && PyStr.startswith (lit "\u") rest
                      then
                        match hex4 (drop 2 rest) with
                        | None =>
                            DecodeError (lit "Invalid \uXXXX escape")
                                        (pos' + 1)
                        | Some uni2 =>
                            if is_low_surrogate uni2
                            then scanstring f
                                   (65536 + (N.lor
                                               (N.shiftl (uni - 55296) 10)
                                               (uni2 - 56320)) :: acc)
                                   (drop 6 rest) (pos' + 6) begin
                            else scanstring f (uni :: acc) rest pos' begin
                        end
                      else scanstring f (uni :: acc) rest pos' begin
                  end
                else
                  match escape_char e with
                  | Some c' => scanstring f (c' :: acc) s'' (pos + 2) begin
                  | None => DecodeError (lit "Invalid \escape") pos
                  end
            end
          else if c <? 32 then
            DecodeError (lit "Invalid control character at") pos
          else scanstring f (c :: acc) s' (S pos) begin
      end
  end.

(** Numbers: an optional minus sign; 0 or a non-zero digit followed by
    digits; optionally a point and one or more digits; optionally e or E,
    an optional sign and one or more digits. *)
Fixpoint take_digits (s : pystr) : pystr * pystr :=
  match s with
  | c :: s' =>
      if is_digit c
      then let '(ds, rest) := take_digits s' in (c :: ds, rest)
      else ([], s)
  | [] => ([], s)
  end.

Definition digits_value (ds : pystr) : Z :=
  fold_left (fun acc c => (acc * 10 + Z.of_N (c - 48))%Z) ds 0%Z.

Definition decimal (neg : bool) (mantissa : Z) (scale : Z) : Q :=
  let m := if neg then (- mantissa)%Z else mantissa in
  Qred (if (0 <=? scale)%Z
        then Qmake (m * 10 ^ scale) 1
        else Qmake m (Z.to_pos (10 ^ (- scale)))).

Definition match_number (s : pystr) (pos : nat) : scan value :=
  let '(neg, s1) :=
    match s with
    | c :: s' => if c =? ch "-" then (true, s') else (false, s)
    | [] => (false, s)
    end in
  let int_part : option (pystr * pystr) :=
    match s1 with
    | c :: s' =>
        if c =? ch "0" then Some ([c], s')
        else if is_digit c then Some (take_digits s1)
        else None
    | [] => None
    end in
  match int_part with
  | None => StopIteration pos
  | Some (ids, s2) =>
      let '(fds, s3) :=
        match s2 with
        | c :: s' =>
            if c =? ch "." then
              match take_digits s' with
              | ([], _) => ([], s2)
              | (ds, rest) => (ds, rest)
              end
            else ([], s2)
        | [] => ([], s2)
        end in
      let '(eopt, s4) :=
        match s3 with
        | c :: s' =>
            if (c =? ch "e") || (c =? ch "E") then
              let '(eneg, s5) :=
                match s' with
                | c' :: s'' =>
                    if c' =? ch "-" then (true, s'')
                    else if c' =? ch "+" then (false, s'')
                    else (false, s')
                | [] => (false, s')
                end in
              match take_digits s5 with
              | ([], _) => (None, s3)
              | (ds, rest) =>
                  (Some (if eneg then (- digits_value ds)%Z
                         else digits_value ds), rest)
              end
            else (None, s3)
        | [] => (None, s3)
        end in
      let pos' := (pos + (length s - length s4))%nat in
      match fds, eopt with
      | [], None =>
          Scanned (VInt (if neg then (- digits_value ids)%Z
                         else digits_value ids)) s4 pos'
      | _, _ =>
          Scanned (VFloat (decimal neg (digits_value (ids ++ fds))
                             (default 0%Z eopt - Z.of_nat (length fds))))
                  s4 pos'
      end
  end.

Definition expect_word (w : pystr) (v : value) (s : pystr) (pos : nat)
  : option (scan value) :=
  if PyStr.startswith w s
  then Some (Scanned v (drop (length w) s) (pos + length w))
  else None.

(** [scan_once], [JSONObject] and [JSONArray]. *)
Fixpoint scan_once (fuel : nat) (s : pystr) (pos : nat) : scan value :=
  match fuel with
  | O => RecursionError
  | S f =>
      match s with
      | [] => StopIteration pos
      | c :: s' =>
          if c =? DQ then
            match scanstring (S (length s')) [] s' (S pos) pos with
            | Scanned str rest p => Scanned (VStr str) rest p
            | StopIteration p => StopIteration p
            | DecodeError m p => DecodeError m p
            | RecursionError => RecursionError
            end
          else if c =? ch "{" then
            let '(s1, p1) := skip_ws s' (S pos) in
            match s1 with
            | c1 :: s1' =>
                if c1 =? ch "}" then Scanned (VDict []) s1' (S p1)
                else parse_pairs f [] s1 p1
            | [] => parse_pairs f [] s1 p1
            end
          else if c =? ch "[" then
            let '(s1, p1) := skip_ws s' (S pos) in
            match s1 with
            | c1 :: s1' =>
                if c1 =? ch "]" then Scanned (VList []) s1' (S p1)
                else parse_items f [] s1 p1
            | [] => parse_items f [] s1 p1
            end
          else
            match
              (if c =? ch "n" then expect_word (lit "null") VNone s pos
               else if c =? ch "t"
                    then expect_word (lit "true") (VBool true) s pos
               else if c =? ch "f"
                    then expect_word (lit "false") (VBool false) s pos
               else if c =? ch "N"
                    then expect_word (lit "NaN") (VNonFinite NaN) s pos
               else if c =? ch "I"
                    then expect_word (lit "Infinity")
                           (VNonFinite PosInfinity) s pos
               else if c =? ch "-"
                    then expect_word (lit "-Infinity")
                           (VNonFinite NegInfinity) s pos
               else None)
            with
            | Some r => r
            | None => match_number s pos
            end
      end
  end

(** The members of an object, [s] at the quote that opens the next key. *)
with parse_pairs (fuel : nat) (acc : list (pystr * value))
                 (s : pystr) (pos : nat) : scan value :=
  match fuel with
  | O => RecursionError
  | S f =>
      match s with
      | c :: s' =>
          if c =? DQ then
            match scanstring (S (length s')) [] s' (S pos) pos with
            | Scanned key s1 p1 =>
                let '(s2, p2) := skip_ws s1 p1 in
                match s2 with
                | c2 :: s2' =>
                    if c2 =? ch ":" then
                      let '(s3, p3) := skip_ws s2' (S p2) in
                      match scan_once f s3 p3 with
                      | Scanned v s4 p4 =>
                          let '(s5, p5) := skip_ws s4 p4 in
                          match s5 with
                          | c5 :: s5' =>
                              if c5 =? ch "}" then
                                Scanned
                                  (VDict (Dict.of_pairs (rev ((key, v) :: acc))))
                                  s5' (S p5)
                              else if c5 =? ch "," then
                                let '(s6, p6) := skip_ws s5' (S p5) in
                                parse_pairs f ((key, v) :: acc) s6 p6
                              else
                                DecodeError (lit "Expecting ',' delimiter") p5
                          | [] =>
                              DecodeError (lit "Expecting ',' delimiter") p5
                          end
                      | StopIteration p =>
                          DecodeError (lit "Expecting value") p
                      | DecodeError m p => DecodeError m p
                      | RecursionError => RecursionError
                      end
                    else DecodeError (lit "Expecting ':' delimiter") p2
                | [] => DecodeError (lit "Expecting ':' delimiter") p2
                end
            | StopIteration p => StopIteration p
            | DecodeError m p => DecodeError m p
            | RecursionError => RecursionError
            end
          else
            DecodeError
              (lit "Expecting property name enclosed in double quotes") pos
      | [] =>
          DecodeError
            (lit "Expecting property name enclosed in double quotes") pos
      end
  end

(** The elements of an array, [s] at the start of the next element. *)
with parse_items (fuel : nat) (acc : list value)
                 (s : pystr) (pos : nat) : scan value :=
  match fuel with
  | O => RecursionError
  | S f =>
      match scan_once f s pos with
      | Scanned v s1 p1 =>
          let '(s2, p2) := skip_ws s1 p1 in
          match s2 with
          | c2 :: s2' =>
              if c2 =? ch "]" then Scanned (VList (rev (v :: acc))) s2' (S p2)
              else if c2 =? ch "," then
                let '(s3, p3) := skip_ws s2' (S p2) in
                parse_items f (v :: acc) s3 p3
              else DecodeError (lit "Expecting ',' delimiter") p2
          | [] => DecodeError (lit "Expecting ',' delimiter") p2
          end
      | StopIteration p => DecodeError (lit "Expecting value") p
      | DecodeError m p => DecodeError m p
      | RecursionError => RecursionError
      end
  end.

(** The outcome of [json.loads(doc)]. *)
Inductive loads_result : Type :=
| Loaded (v : value)
| JSONDecodeError (msg : pystr) (pos : nat)
| DepthExceeded.

Definition loads (doc : pystr) : loads_result :=
  if PyStr.startswith [65279] doc
  then JSONDecodeError
         (lit "Unexpected UTF-8 BOM (decode using utf-8-sig)") 0
  else
    let '(s0, p0) := skip_ws doc 0 in
    match scan_once (2 * length doc + 2) s0 p0 with
    | Scanned v s1 p1 =>
        let '(s2, p2) := skip_ws s1 p1 in
        match s2 with
        | [] => Loaded v
        | _ => JSONDecodeError (lit "Extra data") p2
        end
    | StopIteration p => JSONDecodeError (lit "Expecting value") p
    | DecodeError m p => JSONDecodeError m p
    | RecursionError => DepthExceeded
    end.

(** [str(e)] for [e = JSONDecodeError(msg, doc, pos)]:
    [msg: line L column C (char pos)]. *)
Fixpoint line_col (s : pystr) (n : nat) (line col : nat) : nat * nat :=
  match n, s with
  | S n', c :: s' =>
      if c =? 10 then line_col s' n' (S line) 1
      else line_col s' n' line (S col)
  | _, _ => (line, col)
  end.

Definition error_str (doc msg : pystr) (pos : nat) : pystr :=
  let '(line, col) := line_col doc pos 1%nat 1%nat in
  msg ++ lit ": line " ++ PyStr.of_N (N.of_nat line)
      ++ lit " column " ++ PyStr.of_N (N.of_nat col)
      ++ lit " (char " ++ PyStr.of_N (N.of_nat pos) ++ lit ")".

End Json.

(** ** [str.encode('utf-8')] and [hashlib.md5] *)

Module Utf8.
(** The bytes of one code point; a surrogate cannot be encoded
    ([UnicodeEncodeError]). *)
Definition encode_char (c : N) : option (list N) :=
  if c <? 128 then Some [c]
  else if c <? 2048 then Some [192 + c / 64; 128 + c mod 64]
  else if (55296 <=? c) && (c <=? 57343) then None
  else if c <? 65536
       then Some [224 + c / 4096; 128 + (c / 64) mod 64; 128 + c mod 64]
  else Some [240 + c / 262144; 128 + (c / 4096) mod 64;
             128 + (c / 64) mod 64; 128 + c mod 64].

Fixpoint encode (s : pystr) : option (list N) :=
  match s with
  | [] => Some []
  | c :: s' =>
      match encode_char c, encode s' with
      | Some bs, Some rest => Some (bs ++ rest)
      | _, _ => None
      end
  end.
End Utf8.

Module MD5.
Definition w32 : N := 4294967296.
Definition add32 (a b : N) : N := (a + b) mod w32.
Definition not32 (a : N) : N := N.lxor a (w32 - 1).
Definition rotl32 (x n : N) : N :=
  N.lor (N.shiftl x n mod w32) (N.shiftr x (32 - n)).

Definition sines : list N :=
  [ 3614090360; 3905402710; 606105819; 3250441966;
    4118548399; 1200080426; 2821735955; 4249261313;
    1770035416; 2336552879; 4294925233; 2304563134;
    1804603682; 4254626195; 2792965006; 1236535329;
    4129170786; 3225465664; 643717713; 3921069994;
    3593408605; 38016083; 3634488961; 3889429448;
    568446438; 3275163606; 4107603335; 1163531501;
    2850285829; 4243563512; 1735328473; 2368359562;
    4294588738; 2272392833; 1839030562; 4259657740;
    2763975236; 1272893353; 4139469664; 3200236656;
    681279174; 3936430074; 3572445317; 76029189;
    3654602809; 3873151461; 530742520; 3299628645;
    4096336452; 1126891415; 2878612391; 4237533241;
    1700485571; 2399980690; 4293915773; 2240044497;
    1873313359; 4264355552; 2734768916; 1309151649;
    4149444226; 3174756917; 718787259; 3951481745 ].

Definition shifts : list N :=
  [ 7; 12; 17; 22; 7; 12; 17; 22; 7; 12; 17; 22; 7; 12; 17; 22;
    5; 9; 14; 20; 5; 9; 14; 20; 5; 9; 14; 20; 5; 9; 14; 20;
    4; 11; 16; 23; 4; 11; 16; 23; 4; 11; 16; 23; 4; 11; 16; 23;
    6; 10; 15; 21; 6; 10; 15; 21; 6; 10; 15; 21; 6; 10; 15; 21 ].

Definition state : Type := N * N * N * N.
Definition init : state := (1732584193, 4023233417, 2562383102, 271733878).

(** One of the 64 steps on the 16 words [m] of a block. *)
Definition step (m : list N) (st : state) (i : nat) : state :=
  let '(a, b, c, d) := st in
  let '(f, g) :=
    if (i <? 16)%nat
    then (N.lor (N.land b c) (N.land (not32 b) d), i)
    else if (i <? 32)%nat
    then (N.lor (N.land d b) (N.land (not32 d) c), ((5 * i + 1) mod 16)%nat)
    else if (i <? 48)%nat
    then (N.lxor b (N.lxor c d), ((3 * i + 5) mod 16)%nat)
    else (N.lxor c (N.lor b (not32 d)), ((7 * i) mod 16)%nat) in
  let f' := add32 (add32 (add32 f a) (nth i sines 0)) (nth g m 0) in
  (d, add32 b (rotl32 f' (nth i shifts 0)), b, c).

(** Little-endian words of a block of bytes. *)
Fixpoint words (bs : list N) : list N :=
  match bs with
  | b0 :: b1 :: b2 :: b3 :: rest =>
      (b0 + 256 * (b1 + 256 * (b2 + 256 * b3))) :: words rest
  | _ => []
  end.

Definition block (st : state) (bs : list N) : state :=
  let '(a0, b0, c0, d0) := st in
  let '(a, b, c, d) := fold_left (step (words bs)) (seq 0 64) st in
  (add32 a0 a, add32 b0 b, add32 c0 c, add32 d0 d).

Fixpoint blocks (n : nat) (st : state) (bs : list N) : state :=
  match n with
  | O => st
  | S n' => blocks n' (block st (take 64 bs)) (drop 64 bs)
  end.

Definition le_bytes (k : nat) (x : N) : list N :=
  map (fun i => (x / 256 ^ N.of_nat i) mod 256) (seq 0 k).

(** The message, a single 1 bit, zeros up to 56 modulo 64, and the length
    in bits on 8 bytes. *)
Definition pad (msg : list N) : list N :=
  let l := length msg in
  let zeros := ((119 - l mod 64) mod 64)%nat in
  msg ++ [128] ++ repeat 0 zeros ++ le_bytes 8 (8 * N.of_nat l).

Definition digest (msg : list N) : list N :=
  let p := pad msg in
  let '(a, b, c, d) := blocks (length p / 64) init p in
  le_bytes 4 a ++ le_bytes 4 b ++ le_bytes 4 c ++ le_bytes 4 d.

Definition hex_char (d : N) : N := if d <? 10 then 48 + d else 87 + d.

(** [hashlib.md5(msg).hexdigest()] *)
Definition hexdigest (msg : list N) : pystr :=
  flat_map (fun b => [hex_char (b / 16); hex_char (b mod 16)]) (digest msg).
End MD5.

(** ** Exceptions and outcomes *)

Inductive exn_class : Type :=
| RequestException            (* requests.exceptions.RequestException *)
| HTTPError                   (* requests: a RequestException *)
| ConnectionError             (* requests: a RequestException *)
| Timeout                     (* requests: a RequestException *)
| RequestsJSONDecodeError     (* requests: a RequestException and a ValueError *)
| ValueError
| RuntimeError
| KeyError
| IndexError
| TypeError
| AttributeError
| UnicodeEncodeError
| RecursionError
| ZeroDivisionError
| NotImplementedError
| OSError.                    (* PermissionError, IsADirectoryError, ... *)

Record exn : Type := Exn { exn_class_of : exn_class; exn_msg : pystr }.

Definition exn_class_eqb (a b : exn_class) : bool :=
  match a, b with
  | RequestException, RequestException | HTTPError, HTTPError
  | ConnectionError, ConnectionError | Timeout, Timeout
  | RequestsJSONDecodeError, RequestsJSONDecodeError
  | ValueError, ValueError | RuntimeError, RuntimeError
  | KeyError, KeyError | IndexError, IndexError | TypeError, TypeError
  | AttributeError, AttributeError | UnicodeEncodeError, UnicodeEncodeError
  | RecursionError, RecursionError
  | ZeroDivisionError, ZeroDivisionError
  | NotImplementedError, NotImplementedError
  | OSError, OSError => true
  | _, _ => false
  end.

(** [isinstance(e, requests.exceptions.RequestException)] *)
Definition is_request_exception (e : exn) : bool :=
  match exn_class_of e with
  | RequestException | HTTPError | ConnectionError | Timeout
  | RequestsJSONDecodeError => true
  | _ => false
  end.

Inductive outcome (A : Type) : Type :=
| Return (a : A)
| Raise (e : exn).
Arguments Return {A} a.
Arguments Raise {A} e.

(** ** The world: clock, cache directories, remote APIs, trace *)

(** A file of one of the two cache directories.  [content] is what
    [json.load] reads from it, [None] when the file cannot be opened or does
    not hold JSON. *)
Record file : Type := File { st_mtime : Q; content : option value }.

Inductive directory : Type := CacheDir | ContextDir.

Inductive endpoint : Type := DeepSeekAPI | ClaudeAPI.

Record response : Type := Response {
  status_code : Z;
  reason : pystr;
  text : pystr
}.

(** What one [requests.post] does: it raises, or it returns a response. *)
Inductive http_outcome : Type :=
| Fails (e : exn)
| Responds (r : response).

Inductive client : Type :=
| TheDeepSeekClient | TheClaudeClient | TheOptimizedDeepSeekClient.

Inductive event : Type :=
| EvPost (target : endpoint) (payload : value)     (* requests.post *)
| EvSleep (seconds : Z)                            (* time.sleep *)
| EvCacheRead (name : pystr)                       (* llm_cache.get, get_advanced *)
| EvCacheWrite (name : pystr) (v : value)          (* llm_cache.set, set_advanced *)
| EvGenerate (c : client).                         (* a client's generate_response is entered *)

Record world : Type := World {
  now : Q;                                   (* time.time() *)
  cache_dir : gmap pystr file;               (* llm_cache.cache_dir *)
  context_cache_dir : gmap pystr file;       (* context_cache_dir *)
  write_fails : directory -> pystr -> bool;  (* open(file, 'w') raises *)
  remote : endpoint -> nat -> http_outcome;  (* the n-th post to an endpoint *)
  posts : endpoint -> nat;                   (* posts made so far *)
  trace : list event                         (* what happened, oldest first *)
}.

Definition M (A : Type) : Type := world -> outcome A * world.

Definition ret {A} (a : A) : M A := fun w => (Return a, w).
Definition raise {A} (e : exn) : M A := fun w => (Raise e, w).
Definition bind {A B} (m : M A) (k : A -> M B) : M B :=
  fun w => match m w with
           | (Return a, w') => k a w'
           | (Raise e, w') => (Raise e, w')
           end.
Definition lift {A} (o : outcome A) : M A := fun w => (o, w).

Notation "x <- m ;; k" := (bind m (fun x => k))
  (at level 63, m at next level, right associativity).
Notation "m ;;; k" := (bind m (fun _ => k))
  (at level 63, right associativity).

(** [try: body except C as e: handler(e)], [handles] deciding whether the
    clause catches the exception. *)
Definition try_except {A} (body : M A) (handles : exn -> bool)
           (handler : exn -> M A) : M A :=
  fun w => match body w with
           | (Return a, w') => (Return a, w')
           | (Raise e, w') =>
               if handles e then handler e w' else (Raise e, w')
           end.

(** The world with one more event in its trace. *)
Definition logged (e : event) (w : world) : world :=
  World (now w) (cache_dir w) (context_cache_dir w) (write_fails w)
        (remote w) (posts w) (trace w ++ [e]).

Definition emit (e : event) : M unit :=
  fun w => (Return tt, logged e w).

(** The world after [seconds] of sleep. *)
Definition slept (seconds : Z) (w : world) : world :=
  World (now w + inject_Z seconds) (cache_dir w) (context_cache_dir w)
        (write_fails w) (remote w) (posts w) (trace w ++ [EvSleep seconds]).

(** [time.sleep(seconds)] *)
Definition sleep (seconds : Z) : M unit :=
  fun w => (Return tt, slept seconds w).

Definition endpoint_eqb (a b : endpoint) : bool :=
  match a, b with
  | DeepSeekAPI, DeepSeekAPI | ClaudeAPI, ClaudeAPI => true
  | _, _ => false
  end.

(** The world after one more post to [target]. *)
Definition posted (target : endpoint) (payload : value) (w : world) : world :=
  World (now w) (cache_dir w) (context_cache_dir w) (write_fails w) (remote w)
        (fun t => if endpoint_eqb t target then S (posts w t) else posts w t)
        (trace w ++ [EvPost target payload]).

(** [requests.post(url, headers=..., json=payload, timeout=60)] *)
Definition requests_post (target : endpoint) (payload : value) : M response :=
  fun w =>
    match remote w target (posts w target) with
    | Fails e => (Raise e, posted target payload w)
    | Responds r => (Return r, posted target payload w)
    end.

Definition get_dir (d : directory) (w : world) : gmap pystr file :=
  match d with CacheDir => cache_dir w | ContextDir => context_cache_dir w end.

Definition set_dir (d : directory) (files : gmap pystr file) (w : world)
  : world :=
  match d with
  | CacheDir => World (now w) files (context_cache_dir w) (write_fails w)
                      (remote w) (posts w) (trace w)
  | ContextDir => World (now w) (cache_dir w) files (write_fails w)
                        (remote w) (posts w) (trace w)
  end.

Definition Qlt_bool (a b : Q) : bool := negb (Qle_bool b a).

(** The float written [0.2] in the source: the binary64 number nearest to
    one fifth. *)
Definition float_0_2 : Q := 3602879701896397 # 18014398509481984.

(** ** Operations on Python objects, with the exceptions they raise *)

Module Py.

Definition type_name (v : value) : pystr :=
  match v with
  | VNone => lit "NoneType"
  | VBool _ => lit "bool"
  | VInt _ => lit "int"
  | VFloat _ | VNonFinite _ => lit "float"
  | VStr _ => lit "str"
  | VList _ => lit "list"
  | VDict _ => lit "dict"
  end.

Definition quoted (s : pystr) : pystr := lit "'" ++ s ++ lit "'".

Definition no_attribute (v : value) (name : pystr) : exn :=
  Exn AttributeError
      (quoted (type_name v) ++ lit " object has no attribute " ++ quoted name).

Definition not_subscriptable (v : value) : exn :=
  Exn TypeError (quoted (type_name v) ++ lit " object is not subscriptable").

(** [l[i]] with Python's negative indices. *)
Definition index {A} (l : list A) (i : Z) : option A :=
  let n := Z.of_nat (length l) in
  if (0 <=? i)%Z then l !! Z.to_nat i
  else if (0 <=? n + i)%Z then l !! Z.to_nat (n + i)
  else None.

(** [v[k]] for a string key [k]; the keys the source uses are plain
    identifiers, whose [repr] is the key between single quotes. *)
Definition getitem_key (v : value) (k : pystr) : outcome value :=
  match v with
  | VDict d =>
      match Dict.get k d with
      | Some x => Return x
      | None => Raise (Exn KeyError (quoted k))
      end
  | VList _ =>
      Raise (Exn TypeError
                 (lit "list indices must be integers or slices, not str"))
  | VStr _ =>
      Raise (Exn TypeError
                 (lit "string indices must be integers, not 'str'"))
  | _ => Raise (not_subscriptable v)
  end.

(** [v[i]] for an integer [i]. *)
Definition getitem_index (v : value) (i : Z) : outcome value :=
  match v with
  | VList l =>
      match index l i with
      | Some x => Return x
      | None => Raise (Exn IndexError (lit "list index out of range"))
      end
  | VStr s =>
      match index s i with
      | Some c => Return (VStr [c])
      | None => Raise (Exn IndexError (lit "string index out of range"))
      end
  | VDict _ => Raise (Exn KeyError (PyStr.of_Z i))
  | _ => Raise (not_subscriptable v)
  end.

(** [v.get(k, dflt)] *)
Definition get (v : value) (k : pystr) (dflt : value) : outcome value :=
  match v with
  | VDict d => Return (default dflt (Dict.get k d))
  | _ => Raise (no_attribute v (lit "get"))
  end.

(** The string methods are attributes of [str] objects only. *)
Definition as_str (v : value) (method : pystr) : outcome pystr :=
  match v with
  | VStr s => Return s
  | _ => Raise (no_attribute v method)
  end.

Definition number (v : value) : option (Z + Q) :=
  match v with
  | VInt z => Some (inl z)
  | VBool b => Some (inl (if b then 1 else 0)%Z)
  | VFloat q => Some (inr q)
  | _ => None
  end.

(** [a + b] *)
Definition add (a b : value) : outcome value :=
  match number a, number b with
  | Some (inl x), Some (inl y) => Return (VInt (x + y))
  | Some (inl x), Some (inr y) => Return (VFloat (Qred (inject_Z x + y)))
  | Some (inr x), Some (inl y) => Return (VFloat (Qred (x + inject_Z y)))
  | Some (inr x), Some (inr y) => Return (VFloat (Qred (x + y)))
  | _, _ =>
      match a, b with
      | VNonFinite f, VNonFinite g =>
          Return (VNonFinite
                    match f, g with
                    | PosInfinity, PosInfinity => PosInfinity
                    | NegInfinity, NegInfinity => NegInfinity
                    | _, _ => NaN
                    end)
      | VNonFinite f, (VInt _ | VBool _ | VFloat _) => Return (VNonFinite f)
      | (VInt _ | VBool _ | VFloat _), VNonFinite g => Return (VNonFinite g)
      | VStr x, VStr y => Return (VStr (x ++ y))
      | VList x, VList y => Return (VList (x ++ y))
      | VStr _, _ =>
          Raise (Exn TypeError
                     (lit "can only concatenate str (not " ++ dq
                      ++ type_name b ++ dq ++ lit ") to str"))
      | VList _, _ =>
          Raise (Exn TypeError
                     (lit "can only concatenate list (not " ++ dq
                      ++ type_name b ++ dq ++ lit ") to list"))
      | _, _ =>
          Raise (Exn TypeError
                     (lit "unsupported operand type(s) for +: "
                      ++ quoted (type_name a) ++ lit " and "
                      ++ quoted (type_name b)))
      end
  end.

(** [key in v] for a string [key] *)
Definition contains_str (key : pystr) (v : value) : outcome bool :=
  match v with
  | VDict d => Return (Dict.mem key d)
  | VList l =>
      Return (existsb (fun x => match x with
                                | VStr s => key =s? s
                                | _ => false
                                end) l)
  | VStr s => Return (PyStr.contains key s)
  | _ =>
      Raise (Exn TypeError (lit "argument of type " ++ quoted (type_name v)
                            ++ lit " is not iterable"))
  end.

(** [v[key] = x] for a string [key] *)
Definition setitem_key (v : value) (key : pystr) (x : value) : outcome value :=
  match v with
  | VDict d => Return (VDict (Dict.set key x d))
  | VList _ =>
      Raise (Exn TypeError
                 (lit "list indices must be integers or slices, not str"))
  | _ =>
      Raise (Exn TypeError (quoted (type_name v)
                            ++ lit " object does not support item assignment"))
  end.

(** [v == 0] *)
Definition is_zero (v : value) : bool :=
  match number v with
  | Some (inl z) => (z =? 0)%Z
  | Some (inr q) => Qeq_bool q 0
  | None => false
  end.

(** [v * f / n] for a float literal [f] and an integer literal [n]; the
    result is a float. *)
Definition scale (v : value) (f : Q) (n : Z) : outcome value :=
  match v with
  | VStr _ | VList _ =>
      Raise (Exn TypeError
                 (lit "can't multiply sequence by non-int of type 'float'"))
  | VNonFinite NaN => Return (VNonFinite NaN)
  | VNonFinite x => Return (VNonFinite x)
  | _ =>
      match number v with
      | Some (inl z) => Return (VFloat (Qred (inject_Z z * f / inject_Z n)))
      | Some (inr q) => Return (VFloat (Qred (q * f / inject_Z n)))
      | None =>
          Raise (Exn TypeError
                     (lit "unsupported operand type(s) for *: "
                      ++ quoted (type_name v) ++ lit " and 'float'"))
      end
  end.

(** [a - b] for two floats *)
Definition sub_floats (a b : value) : value :=
  match a, b with
  | VFloat x, VFloat y => VFloat (Qred (x - y))
  | _, _ => VNonFinite NaN
  end.

(** [l.append(x)] *)
Definition append (l : value) (x : value) : outcome value :=
  match l with
  | VList items => Return (VList (items ++ [x]))
  | _ => Raise (no_attribute l (lit "append"))
  end.

End Py.

(** Sequencing of outcomes. *)
Definition obind {A B} (o : outcome A) (k : A -> outcome B) : outcome B :=
  match o with
  | Return a => k a
  | Raise e => Raise e
  end.

Notation "x <~ o ;; k" := (obind o (fun x => k))
  (at level 63, o at next level, right associativity).

(** ** [json.dumps] (default options), for values without floats *)

Module JsonDump.

Definition hex4 (n : N) : pystr :=
  [MD5.hex_char (n / 4096); MD5.hex_char ((n / 256) mod 16);
   MD5.hex_char ((n / 16) mod 16); MD5.hex_char (n mod 16)].

Definition escape (c : N) : pystr :=
  if c =? DQ then [ch "\"; DQ]
  else if c =? ch "\" then [ch "\"; ch "\"]
  else if c =? 10 then lit "\n"
  else if c =? 13 then lit "\r"
  else if c =? 9 then lit "\t"
  else if c =? 8 then lit "\b"
  else if c =? 12 then lit "\f"
  else if (32 <=? c) && (c <=? 126) then [c]
  else if c <? 65536 then lit "\u" ++ hex4 c
  else let v := c - 65536 in
       lit "\u" ++ hex4 (55296 + v / 1024)
           ++ lit "\u" ++ hex4 (56320 + v mod 1024).

Definition string (s : pystr) : pystr := dq ++ flat_map escape s ++ dq.

Definition sequence (items : list (option pystr)) : option pystr :=
  fold_right (fun o acc =>
                match o, acc with
                | Some x, Some [] => Some x
                | Some x, Some rest => Some (x ++ lit ", " ++ rest)
                | _, _ => None
                end) (Some []) items.

Fixpoint dumps (v : value) : option pystr :=
  match v with
  | VNone => Some (lit "null")
  | VBool true => Some (lit "true")
  | VBool false => Some (lit "false")
  | VInt z => Some (PyStr.of_Z z)
  | VFloat _ => None
  | VNonFinite NaN => Some (lit "NaN")
  | VNonFinite PosInfinity => Some (lit "Infinity")
  | VNonFinite NegInfinity => Some (lit "-Infinity")
  | VStr s => Some (string s)
  | VList l =>
      match sequence (map dumps l) with
      | Some body => Some (lit "[" ++ body ++ lit "]")
      | None => None
      end
  | VDict d =>
      match sequence (map (fun kv =>
                             match dumps (snd kv) with
                             | Some x => Some (string (fst kv) ++ lit ": " ++ x)
                             | None => None
                             end) d) with
      | Some body => Some (lit "{" ++ body ++ lit "}")
      | None => None
      end
  end.

End JsonDump.

(** * cache.py *)

Module LLMResponseCache.

Record t : Type := Cache { max_age_seconds : Z }.

(** [LLMResponseCache()]: seven days. *)
Definition new : t := Cache (86400 * 7)%Z.

(** [hashlib.md5(s.encode('utf-8')).hexdigest()] *)
Definition md5_hex (s : pystr) : outcome pystr :=
  match Utf8.encode s with
  | Some bytes => Return (MD5.hexdigest bytes)
  | None =>
      Raise (Exn UnicodeEncodeError
                 (lit "'utf-8' codec can't encode character: surrogates not allowed"))
  end.

Definition get_cache_key (system_prompt user_prompt model : pystr)
  : outcome pystr :=
  let content := system_prompt ++ lit "|" ++ user_prompt ++ lit "|" ++ model in
  md5_hex content.

Definition get_advanced_cache_key (key_str : pystr) : outcome pystr :=
  md5_hex key_str.

(** The name of the file of a key, inside the cache directory. *)
Definition file_name (key : pystr) : pystr := key ++ lit ".json".

Definition unlink (d : directory) (name : pystr) : M unit :=
  fun w => (Return tt, set_dir d (delete name (get_dir d w)) w).

Definition get (self : t) (system_prompt user_prompt model : pystr)
  : M value :=
  key <- lift (get_cache_key system_prompt user_prompt model) ;;
  let cache_file := file_name key in
  emit (EvCacheRead cache_file) ;;;
  fun w =>
    match cache_dir w !! cache_file with
    | None => ret VNone w
    | Some f =>
        (* Check if the cache is stale *)
        let file_age := (now w - st_mtime f)%Q in
        if Qlt_bool (inject_Z (max_age_seconds self)) file_age then
          (unlink CacheDir cache_file ;;; ret VNone) w
        else
          match content f with
          | Some v => ret v w
          | None => (unlink CacheDir cache_file ;;; ret VNone) w
          end
    end.

(** [open(cache_file, 'w')] followed by [json.dump]; a failure is logged,
    not raised. *)
Definition write_json (d : directory) (name : pystr) (v : value) : M unit :=
  fun w =>
    if write_fails w d name then (Return tt, w)
    else (Return tt, set_dir d (<[name := File (now w) (Some v)]> (get_dir d w)) w).

Definition set (self : t) (system_prompt user_prompt model : pystr)
           (response : value) : M unit :=
  key <- lift (get_cache_key system_prompt user_prompt model) ;;
  let cache_file := file_name key in
  emit (EvCacheWrite cache_file response) ;;;
  write_json CacheDir cache_file response.

Definition get_advanced (self : t) (key_str : pystr) : M value :=
  key <- lift (get_advanced_cache_key key_str) ;;
  let cache_file := file_name key in
  emit (EvCacheRead cache_file) ;;;
  fun w =>
    match cache_dir w !! cache_file with
    | None => ret VNone w
    | Some f =>
        let file_age := (now w - st_mtime f)%Q in
        if Qlt_bool (inject_Z (max_age_seconds self)) file_age then
          (unlink CacheDir cache_file ;;; ret VNone) w
        else
          match content f with
          | Some v => ret v w
          | None => (unlink CacheDir cache_file ;;; ret VNone) w
          end
    end.

Definition set_advanced (self : t) (key_str : pystr) (response : value)
  : M unit :=
  key <- lift (get_advanced_cache_key key_str) ;;
  let cache_file := file_name key in
  emit (EvCacheWrite cache_file response) ;;;
  write_json CacheDir cache_file response.

End LLMResponseCache.

(** ** Deletions that the file system refuses

    [cache_file.unlink(missing_ok=True)] raises an [OSError] when the file
    system refuses the deletion (a directory that cannot be written, an
    entry that is itself a directory), and no handler stands around it in
    [get].  [LLMResponseCache.unlink] is the deletion that is granted.  Here
    the file system may refuse: [refused name] is the error it raises for
    the file [name], if any. *)

Module Fallible.

Definition unlink (refused : pystr -> option exn) (d : directory)
           (name : pystr) : M unit :=
  match refused name with
  | Some e => raise e
  | None => LLMResponseCache.unlink d name
  end.

Definition get (refused : pystr -> option exn) (self : LLMResponseCache.t)
           (system_prompt user_prompt model : pystr) : M value :=
  key <- lift (LLMResponseCache.get_cache_key system_prompt user_prompt model) ;;
  let cache_file := LLMResponseCache.file_name key in
  emit (EvCacheRead cache_file) ;;;
  fun w =>
    match cache_dir w !! cache_file with
    | None => ret VNone w
    | Some f =>
        (* Check if the cache is stale *)
        let file_age := (now w - st_mtime f)%Q in
        if Qlt_bool (inject_Z (LLMResponseCache.max_age_seconds self)) file_age
        then
          (* Cache is stale, remove it *)
          (unlink refused CacheDir cache_file ;;; ret VNone) w
        else
          match content f with
          | Some v => ret v w
          | None =>
              (* If there's an error reading the cache, consider it invalid *)
              (unlink refused CacheDir cache_file ;;; ret VNone) w
          end
    end.

End Fallible.

(** The global cache instance. *)
Definition llm_cache : LLMResponseCache.t := LLMResponseCache.new.

(** * llm_client.py: the provider clients *)

(** The Django settings the layer reads; [None] is an absent setting. *)
Record settings : Type := Settings {
  DEBUG_LLM : option bool;
  DEBUG : option bool;
  DEEPSEEK_API_KEY : option pystr;
  CLAUDE_API_KEY : option pystr;
  DEFAULT_LLM_PROVIDER : option pystr;
  USE_OPTIMIZED_DEEPSEEK : option bool
}.

Definition message (role content : pystr) : value :=
  VDict [(lit "role", VStr role); (lit "content", VStr content)].

(** [x or dflt] for an optional string. *)
Definition str_or (x : option pystr) (dflt : pystr) : pystr :=
  match x with
  | Some (c :: s) => c :: s
  | _ => dflt
  end.

Definition max_retries : Z := 3.

(** [response.raise_for_status()] *)
Definition raise_for_status (url : pystr) (r : response) : outcome unit :=
  let code := status_code r in
  if ((400 <=? code) && (code <? 500))%Z then
    Raise (Exn HTTPError (PyStr.of_Z code ++ lit " Client Error: " ++ reason r
                          ++ lit " for url: " ++ url))
  else if ((500 <=? code) && (code <? 600))%Z then
    Raise (Exn HTTPError (PyStr.of_Z code ++ lit " Server Error: " ++ reason r
                          ++ lit " for url: " ++ url))
  else Return tt.

(** [response.json()]: [requests] turns a decoding error into its own
    [JSONDecodeError], which is both a [RequestException] and a
    [json.JSONDecodeError]. *)
Definition response_json (r : response) : outcome value :=
  match Json.loads (text r) with
  | Json.Loaded v => Return v
  | Json.JSONDecodeError msg pos =>
      Raise (Exn RequestsJSONDecodeError (Json.error_str (text r) msg pos))
  | Json.DepthExceeded =>
      Raise (Exn RecursionError
                 (lit "maximum recursion depth exceeded while decoding a JSON document"))
  end.

Module BaseLLMClient.

(** [debug_mode if debug_mode is not None else getattr(settings,
    'DEBUG_LLM', False)] *)
Definition init (st : settings) (debug_mode : option bool) : bool :=
  match debug_mode with
  | Some b => b
  | None => default false (DEBUG_LLM st)
  end.

Definition dumps (v : value) : pystr := default [] (JsonDump.dumps v).

Definition strings (l : list string) : value := VList (map (fun s => VStr (lit s)) l).

Definition _get_mock_response (system_prompt user_prompt model : pystr)
           (structured_output : value) : outcome value :=
  let hash_input := system_prompt ++ lit ":" ++ user_prompt ++ lit ":" ++ model in
  digest <~ LLMResponseCache.md5_hex hash_input ;;
  let hash_value := take 8 digest in
  let mock_content :=
    if truthy structured_output then
      match
        (props <~ Py.get structured_output (lit "properties") (VDict []) ;;
         summary <~ Py.get props (lit "summary") VNone ;;
         if truthy summary then
           Return (dumps (VDict
             [(lit "summary",
               VStr (lit "Mock property summary for debug mode. Hash: "
                     ++ hash_value));
              (lit "highlights",
               strings ["Debug highlight 1"; "Debug highlight 2";
                        "Debug highlight 3"]%string)]))
         else
           props <~ Py.get structured_output (lit "properties") (VDict []) ;;
           persona <~ Py.get props (lit "persona") VNone ;;
           if truthy persona then
             Return (dumps (VDict
               [(lit "persona",
                 VStr (lit "Mock persona for debug mode. Hash: " ++ hash_value));
                (lit "traits",
                 strings ["Friendly"; "Organized"; "Professional"]%string);
                (lit "preferences",
                 strings ["Modern homes"; "Urban locations";
                          "Pet-friendly"]%string)]))
           else
             props <~ Py.get structured_output (lit "properties") (VDict []) ;;
             recs <~ Py.get props (lit "recommendations") VNone ;;
             if truthy recs then
               Return (dumps (VDict
                 [(lit "recommendations",
                   VList (map (fun i =>
                                 VDict [(lit "id", VInt i);
                                        (lit "reason",
                                         VStr (lit "Mock recommendation "
                                               ++ PyStr.of_Z i))])
                              [1; 2; 3]%Z))]))
             else
               props <~ Py.get structured_output (lit "properties") (VDict []) ;;
               match props with
               | VDict d =>
                   Return (dumps (VDict
                     (Dict.of_pairs
                        (map (fun kv => (fst kv, VStr (lit "Mock value"))) d))))
               | _ => Raise (Py.no_attribute props (lit "keys"))
               end)
      with
      | Return c => c
      | Raise _ =>
          dumps (VDict [(lit "error",
                         VStr (lit "Failed to create structured mock response"))])
      end
    else
      lit "This is a mock response from the LLM client in debug mode."
      ++ [10] ++ lit "No actual API call was made."
      ++ [10] ++ lit "Response ID: " ++ hash_value in
  Return (VDict [(lit "content", VStr mock_content);
                 (lit "model", VStr model);
                 (lit "usage", VDict [(lit "input_tokens", VInt 100);
                                      (lit "output_tokens", VInt 150)]);
                 (lit "stop_reason", VStr (lit "end_turn"));
                 (lit "is_mock", VBool true)]).

End BaseLLMClient.

(** [if use_cache and temperature < 0.2] *)
Definition cache_eligible (use_cache : bool) (temperature : Q) : bool :=
  use_cache && Qlt_bool temperature float_0_2.

Module DeepSeekClient.

Record t : Type := Client { debug_mode : bool; api_key : pystr }.

Definition BASE_URL : pystr := lit "https://api.deepseek.com/v1/chat/completions".
Definition DEFAULT_MODEL : pystr := lit "deepseek-chat".

Definition init (st : settings) (debug : option bool) : outcome t :=
  let debug_mode := BaseLLMClient.init st debug in
  let api_key := default [] (DEEPSEEK_API_KEY st) in
  if negb (truthy (VStr api_key)) && negb debug_mode
  then Raise (Exn ValueError (lit "DEEPSEEK_API_KEY not found in settings."))
  else Return (Client debug_mode api_key).

(** The response dict built from the decoded body. *)
Definition response_data_of (result : value) (model : pystr)
  : outcome value :=
  choices <~ Py.getitem_key result (lit "choices") ;;
  choice <~ Py.getitem_index choices 0 ;;
  msg <~ Py.getitem_key choice (lit "message") ;;
  content <~ Py.getitem_key msg (lit "content") ;;
  model' <~ Py.get result (lit "model") (VStr model) ;;
  usage <~ Py.get result (lit "usage") (VDict []) ;;
  choices' <~ Py.getitem_key result (lit "choices") ;;
  choice' <~ Py.getitem_index choices' 0 ;;
  stop_reason <~ Py.get choice' (lit "finish_reason") VNone ;;
  Return (VDict [(lit "content", content); (lit "model", model');
                 (lit "usage", usage); (lit "stop_reason", stop_reason)]).

(** The loop [for attempt in range(max_retries)], [remaining] iterations
    before the loop is left. *)
Fixpoint retry_loop (system_prompt user_prompt model : pystr)
         (temperature : Q) (use_cache : bool) (payload : value)
         (remaining : nat) (attempt : Z) (retry_delay : Z) : M value :=
  match remaining with
  | O =>
      raise (Exn RuntimeError
                 (lit "Failed to get response from DeepSeek API after multiple attempts"))
  | S remaining' =>
      try_except
        (response <- requests_post DeepSeekAPI payload ;;
         lift (raise_for_status BASE_URL response) ;;;
         result <- lift (response_json response) ;;
         response_data <- lift (response_data_of result model) ;;
         (if cache_eligible use_cache temperature
          then LLMResponseCache.set llm_cache system_prompt user_prompt model
                                    response_data
          else ret tt) ;;;
         ret response_data)
        is_request_exception
        (fun e =>
           if (attempt <? max_retries - 1)%Z then
             sleep retry_delay ;;;
             retry_loop system_prompt user_prompt model temperature use_cache
                        payload remaining' (attempt + 1)%Z (retry_delay * 2)%Z
           else raise e)
  end.

Definition generate_response (self : t) (system_prompt user_prompt : pystr)
           (model : option pystr) (max_tokens : Z) (temperature : Q)
           (structured_output : value) (use_cache : bool) : M value :=
  emit (EvGenerate TheDeepSeekClient) ;;;
  let model := str_or model DEFAULT_MODEL in
  if debug_mode self then
    lift (BaseLLMClient._get_mock_response system_prompt user_prompt model
                                           structured_output)
  else
    cached_response <-
      (if cache_eligible use_cache temperature
       then LLMResponseCache.get llm_cache system_prompt user_prompt model
       else ret VNone) ;;
    if cache_eligible use_cache temperature && truthy cached_response
    then ret cached_response
    else
      let messages := [message (lit "system") system_prompt;
                       message (lit "user") user_prompt] in
      let payload :=
        [(lit "model", VStr model);
         (lit "messages", VList messages);
         (lit "max_tokens", VInt max_tokens);
         (lit "temperature", VFloat temperature)] in
      let payload :=
        if truthy structured_output
        then Dict.set (lit "response_format")
                      (VDict [(lit "type", VStr (lit "json_object"))]) payload
        else payload in
      retry_loop system_prompt user_prompt model temperature use_cache
                 (VDict payload) (Z.to_nat max_retries) 0%Z 2%Z.

End DeepSeekClient.

Module ClaudeClient.

Record t : Type := Client { debug_mode : bool; api_key : pystr }.

Definition BASE_URL : pystr := lit "https://api.anthropic.com/v1/messages".
Definition DEFAULT_MODEL : pystr := lit "claude-3-sonnet-20240229".

Definition init (st : settings) (debug : option bool) : outcome t :=
  let debug_mode := BaseLLMClient.init st debug in
  let api_key := default [] (CLAUDE_API_KEY st) in
  if negb (truthy (VStr api_key)) && negb debug_mode
  then Raise (Exn ValueError
                  (lit "CLAUDE_API_KEY not found in settings or environment variables"))
  else Return (Client debug_mode api_key).

(** The text of [error_message] inside the f-string of the 400 branch.
    The exception that carries it is caught by the retry loop and only
    logged, so the text of a message that is not a string is left open. *)
Definition format_message (v : value) : pystr :=
  match v with
  | VStr s => s
  | VNone => lit "None"
  | VBool true => lit "True"
  | VBool false => lit "False"
  | VInt z => PyStr.of_Z z
  | _ => lit "..."
  end.

(** The exception raised for a response whose status is not 200. *)
Definition status_error (r : response) : exn :=
  let code := status_code r in
  if (code =? 401)%Z then
    Exn HTTPError
        (lit "Claude API authentication error (401): Invalid API key or authentication failure")
  else if (code =? 400)%Z then
    let error_message :=
      match
        (error_json <~ response_json r ;;
         err <~ Py.get error_json (lit "error") (VDict []) ;;
         error_message <~ Py.get err (lit "message") (VStr (lit "Unknown error")) ;;
         err' <~ Py.get error_json (lit "error") (VDict []) ;;
         error_type <~ Py.get err' (lit "type") (VStr (lit "Unknown error type")) ;;
         Return (format_message error_message))
      with
      | Return m => m
      | Raise _ => lit "Bad request - Check API request format"
      end in
    Exn HTTPError (lit "Claude API error (400): " ++ error_message)
  else if (code =? 429)%Z then
    Exn HTTPError (lit "Claude API rate limit exceeded (429): Too many requests")
  else if (500 <=? code)%Z then
    Exn HTTPError (lit "Claude API server error (" ++ PyStr.of_Z code
                   ++ lit "): Service unavailable")
  else
    Exn HTTPError (lit "Claude API error (" ++ PyStr.of_Z code ++ lit "): "
                   ++ text r).

(** [response.json()] inside [try ... except json.JSONDecodeError]. *)
Definition decode_body (r : response) : outcome value :=
  match response_json r with
  | Return v => Return v
  | Raise e =>
      match exn_class_of e with
      | RequestsJSONDecodeError =>
          Raise (Exn ValueError (lit "Invalid JSON response from Claude API"))
      | _ => Raise e
      end
  end.

Definition response_data_of (result : value) (model : pystr)
  : outcome (list (pystr * value)) :=
  blocks <~ Py.getitem_key result (lit "content") ;;
  block <~ Py.getitem_index blocks 0 ;;
  content <~ Py.getitem_key block (lit "text") ;;
  model' <~ Py.get result (lit "model") (VStr model) ;;
  u1 <~ Py.get result (lit "usage") (VDict []) ;;
  prompt_tokens <~ Py.get u1 (lit "input_tokens") (VInt 0) ;;
  u2 <~ Py.get result (lit "usage") (VDict []) ;;
  completion_tokens <~ Py.get u2 (lit "output_tokens") (VInt 0) ;;
  u3 <~ Py.get result (lit "usage") (VDict []) ;;
  i <~ Py.get u3 (lit "input_tokens") (VInt 0) ;;
  u4 <~ Py.get result (lit "usage") (VDict []) ;;
  o <~ Py.get u4 (lit "output_tokens") (VInt 0) ;;
  total_tokens <~ Py.add i o ;;
  stop_reason <~ Py.get result (lit "stop_reason") VNone ;;
  Return [(lit "content", content); (lit "model", model');
          (lit "usage",
           VDict [(lit "prompt_tokens", prompt_tokens);
                  (lit "completion_tokens", completion_tokens);
                  (lit "total_tokens", total_tokens)]);
          (lit "stop_reason", stop_reason)].

(** "Fix JSON response if using structured output". *)
Definition fix_structured (response_data : list (pystr * value))
  : outcome (list (pystr * value)) :=
  content_v <~ Py.getitem_key (VDict response_data) (lit "content") ;;
  content <~ Py.as_str content_v (lit "startswith") ;;
  if PyStr.startswith (lit "{") content
     && negb (PyStr.startswith (lit "{" ++ dq) content) then
    let field_end := PyStr.find dq content in
    if (1 <? field_end)%Z then
      let field_name := drop 1 (take (Z.to_nat field_end) content) in
      let fixed_content :=
        lit "{" ++ dq ++ field_name ++ drop (Z.to_nat field_end) content in
      Return (Dict.set (lit "content") (VStr fixed_content) response_data)
    else Return response_data
  else if negb (PyStr.startswith (lit "{") content) then
    Return (Dict.set (lit "content") (VStr (lit "{" ++ content)) response_data)
  else Return response_data.

Fixpoint retry_loop (system_prompt user_prompt model : pystr)
         (temperature : Q) (structured_output : value) (use_cache : bool)
         (payload : value)
         (remaining : nat) (attempt : Z) (retry_delay : Z) : M value :=
  match remaining with
  | O =>
      raise (Exn RuntimeError
                 (lit "Failed to get response from Claude API after multiple attempts"))
  | S remaining' =>
      try_except
        (response <- requests_post ClaudeAPI payload ;;
         (if negb (status_code response =? 200)%Z
          then raise (status_error response)
          else ret tt) ;;;
         result <- lift (decode_body response) ;;
         response_data <- lift (response_data_of result model) ;;
         response_data <-
           lift (if truthy structured_output
                 then fixed <~ fix_structured response_data ;;
                      Return (VDict fixed)
                 else Return (VDict response_data)) ;;
         (if cache_eligible use_cache temperature
          then LLMResponseCache.set llm_cache system_prompt user_prompt model
                                    response_data
          else ret tt) ;;;
         ret response_data)
        is_request_exception
        (fun e =>
           if (attempt <? max_retries - 1)%Z then
             sleep retry_delay ;;;
             retry_loop system_prompt user_prompt model temperature
                        structured_output use_cache payload remaining'
                        (attempt + 1)%Z (retry_delay * 2)%Z
           else
             retry_loop system_prompt user_prompt model temperature
                        structured_output use_cache payload remaining'
                        (attempt + 1)%Z retry_delay)
  end.

Definition json_instruction : pystr :=
  [10] ++ lit "Make sure to return your response as a valid JSON object.".

Definition generate_response (self : t) (system_prompt user_prompt : pystr)
           (model : option pystr) (max_tokens : Z) (temperature : Q)
           (structured_output : value) (use_cache : bool) : M value :=
  emit (EvGenerate TheClaudeClient) ;;;
  let model := str_or model DEFAULT_MODEL in
  if debug_mode self then
    lift (BaseLLMClient._get_mock_response system_prompt user_prompt model
                                           structured_output)
  else
    cached_response <-
      (if cache_eligible use_cache temperature
       then LLMResponseCache.get llm_cache system_prompt user_prompt model
       else ret VNone) ;;
    if cache_eligible use_cache temperature && truthy cached_response
    then ret cached_response
    else
      let payload :=
        [(lit "model", VStr model);
         (lit "system", VStr system_prompt);
         (lit "max_tokens", VInt max_tokens);
         (lit "temperature", VFloat temperature)] in
      let messages := [message (lit "user") user_prompt] in
      let '(payload, messages) :=
        if truthy structured_output then
          (if negb (PyStr.contains
                      (lit "Return your response as a valid JSON") system_prompt)
           then Dict.set (lit "system")
                         (VStr (system_prompt ++ json_instruction)) payload
           else payload,
           messages ++ [message (lit "assistant") (lit "{" ++ [10] ++ lit "  " ++ dq)])
        else (payload, messages) in
      let payload := Dict.set (lit "messages") (VList messages) payload in
      retry_loop system_prompt user_prompt model temperature
                 structured_output use_cache (VDict payload)
                 (Z.to_nat max_retries) 0%Z 2%Z.

End ClaudeClient.

(** * llm_client.py: the unified client *)

Module UnifiedLLMClient.

Record t : Type := Client {
  debug_mode : bool;
  preferred_provider : pystr;
  deepseek_client : option DeepSeekClient.t;
  has_deepseek : bool;
  claude_client : option ClaudeClient.t;
  has_claude : bool
}.

Definition init (st : settings) (debug : option bool)
           (preferred_provider : pystr) : outcome t :=
  let debug_mode := BaseLLMClient.init st debug in
  let preferred_provider := PyStr.lower preferred_provider in
  let '(deepseek_client, has_deepseek) :=
    match DeepSeekClient.init st debug with
    | Return c => (Some c, true)
    | Raise _ => (None, false)
    end in
  let '(claude_client, has_claude) :=
    match ClaudeClient.init st debug with
    | Return c => (Some c, true)
    | Raise _ => (None, false)
    end in
  if negb (has_deepseek || has_claude) && negb debug_mode
  then Raise (Exn ValueError
                  (lit "No LLM providers available. Please configure at least one API key."))
  else Return (Client debug_mode preferred_provider deepseek_client
                      has_deepseek claude_client has_claude).

Definition missing_attribute (name : string) : exn :=
  Exn AttributeError
      (lit "'UnifiedLLMClient' object has no attribute '" ++ lit name ++ lit "'").

(** [self.deepseek_client.generate_response(...)] *)
Definition call_deepseek (self : t) (system_prompt user_prompt : pystr)
           (model : option pystr) (max_tokens : Z) (temperature : Q)
           (structured_output : value) (use_cache : bool) : M value :=
  match deepseek_client self with
  | Some c => DeepSeekClient.generate_response c system_prompt user_prompt
                model max_tokens temperature structured_output use_cache
  | None => raise (missing_attribute "deepseek_client")
  end.

(** [self.claude_client.generate_response(...)] *)
Definition call_claude (self : t) (system_prompt user_prompt : pystr)
           (model : option pystr) (max_tokens : Z) (temperature : Q)
           (structured_output : value) (use_cache : bool) : M value :=
  match claude_client self with
  | Some c => ClaudeClient.generate_response c system_prompt user_prompt
                model max_tokens temperature structured_output use_cache
  | None => raise (missing_attribute "claude_client")
  end.

(** ['deepseek' in flags] for a list of booleans: a [str] is never equal
    to a [bool]. *)
Definition str_in_bools (s : pystr) (flags : list bool) : bool :=
  existsb (fun _ => false) flags.

Definition any_exception (e : exn) : bool := true.

Definition generate_response (self : t) (system_prompt user_prompt : pystr)
           (model : option pystr) (max_tokens : Z) (temperature : Q)
           (structured_output : value) (use_cache : bool)
           (provider : option pystr) : M value :=
  (* Determine which provider to use *)
  let provider :=
    match provider with
    | Some (c :: p) => PyStr.lower (c :: p)
    | _ => preferred_provider self
    end in
  if debug_mode self then
    if provider =s? lit "deepseek"
    then call_deepseek self system_prompt user_prompt model max_tokens
                       temperature structured_output use_cache
    else call_claude self system_prompt user_prompt model max_tokens
                     temperature structured_output use_cache
  else
    (* Try the preferred provider first *)
    let errors : list pystr := [] in
    first <-
      (if (provider =s? lit "deepseek") && has_deepseek self then
         try_except
           (r <- call_deepseek self system_prompt user_prompt model
                               max_tokens temperature structured_output
                               use_cache ;;
            ret (inl r))
           any_exception
           (fun e =>
              let errors := errors ++ [lit "DeepSeek error: " ++ exn_msg e] in
              (* Fall back to Claude *)
              if has_claude self
              then ret (inr (errors, lit "claude"))
              else raise (Exn RuntimeError
                              (lit "DeepSeek API failed and no fallback available: "
                               ++ exn_msg e)))
       else ret (inr (errors, provider))) ;;
    match first with
    | inl r => ret r
    | inr (errors, provider) =>
        second <-
          (if (provider =s? lit "claude") && has_claude self then
             try_except
               (r <- call_claude self system_prompt user_prompt model
                                 max_tokens temperature structured_output
                                 use_cache ;;
                ret (inl r))
               any_exception
               (fun e =>
                  let errors := errors ++ [lit "Claude error: " ++ exn_msg e] in
                  (* Fall back to DeepSeek if we haven't tried it yet *)
                  if has_deepseek self
                     && negb (str_in_bools
                                (lit "deepseek")
                                (map (PyStr.startswith (lit "DeepSeek")) errors))
                  then
                    r <- call_deepseek self system_prompt user_prompt model
                                       max_tokens temperature
                                       structured_output use_cache ;;
                    ret (inl r)
                  else ret (inr errors))
           else ret (inr errors)) ;;
        match second with
        | inl r => ret r
        | inr errors =>
            (* all available providers failed or none were available *)
            let error_msg :=
              match errors with
              | [] => lit "No LLM providers available"
              | _ => PyStr.join (lit "; ") errors
              end in
            raise (Exn RuntimeError
                       (lit "All LLM providers failed: " ++ error_msg))
        end
    end.

End UnifiedLLMClient.

(** * llm_client.py: repairing structured output *)

Definition strs (l : list pystr) : value := VList (map VStr l).

(** The pattern of a quoted item: a quote, any characters but quotes
    (group 1), a quote. *)
Definition quoted_items : Re.regex :=
  Re.Cat [Re.Char DQ; Re.Group 1 (Re.Star true (Re.none_of [DQ])); Re.Char DQ].

Definition parse_string_array (text : pystr) : list pystr :=
  (* Clean up the text *)
  let text := PyStr.strip text in
  (* Use regex to find all quoted strings *)
  let items := Re.findall1 quoted_items text in
  match items with
  | _ :: _ => items
  | [] =>
      (* Fallback: split by commas and clean each item *)
      map (fun item =>
             PyStr.strip_chars (lit "'") (PyStr.strip_chars dq (PyStr.strip item)))
          (List.filter (fun item => truthy (VStr (PyStr.strip item)))
                       (PyStr.split (lit ",") text))
  end.

(** The pattern of an array field: an optional quote, the key, an optional
    quote, spaces, a colon, spaces, an opening bracket, as few characters as
    possible (group 1, with DOTALL), a closing bracket. *)
Definition array_field (key : string) : Re.regex :=
  Re.Cat [Re.Opt (Re.Char DQ); Re.Lit (lit key); Re.Opt (Re.Char DQ);
          Re.Star true Re.space; Re.Char (ch ":"); Re.Star true Re.space;
          Re.Char (ch "["); Re.Group 1 (Re.Star false Re.any);
          Re.Char (ch "]")].

(** The pattern of a string field: an optional quote, the key, an optional
    quote, spaces, a colon, spaces, a quote, one or more characters but
    quotes (group 1), a quote. *)
Definition string_field (key : string) : Re.regex :=
  Re.Cat [Re.Opt (Re.Char DQ); Re.Lit (lit key); Re.Opt (Re.Char DQ);
          Re.Star true Re.space; Re.Char (ch ":"); Re.Star true Re.space;
          Re.Char DQ; Re.Group 1 (Re.Plus (Re.none_of [DQ])); Re.Char DQ].

(** [result[outer][inner] = v] on a dict of dicts. *)
Definition set_nested (outer inner : string) (v : value) (result : Dict.t)
  : Dict.t :=
  match Dict.get (lit outer) result with
  | Some (VDict d) => Dict.set (lit outer) (VDict (Dict.set (lit inner) v d)) result
  | _ => result
  end.

Definition extract_array (content : pystr) (key outer inner : string)
           (result : Dict.t) : Dict.t :=
  match Re.search (array_field key) content with
  | Some m =>
      set_nested outer inner
                 (strs (parse_string_array (default [] (Re.group m 1)))) result
  | None => result
  end.

Definition extract_string (content : pystr) (key outer inner : string)
           (result : Dict.t) : Dict.t :=
  match Re.search (string_field key) content with
  | Some m => set_nested outer inner (VStr (default [] (Re.group m 1))) result
  | None => result
  end.

(** Base structure for property persona. *)
Definition persona_defaults : Dict.t :=
  [(lit "ideal_guests",
    VDict [(lit "demographics", VList []); (lit "traveler_types", VList [])]);
   (lit "use_cases",
    VDict [(lit "primary", VList []); (lit "secondary", VList [])]);
   (lit "unique_attributes",
    VDict [(lit "key_selling_points", VList []);
           (lit "stand_out_amenities", VList [])]);
   (lit "atmosphere",
    VDict [(lit "overall_vibe", VStr (lit "comfortable"));
           (lit "descriptors", VList [])]);
   (lit "market_position",
    VDict [(lit "property_class", VStr (lit "mid-range"));
           (lit "comparable_to", VList [])])].

Definition reconstruct_json_from_claude (content : pystr) : value :=
  let result := persona_defaults in
  let result := extract_array content "demographics" "ideal_guests" "demographics" result in
  let result := extract_array content "traveler_types" "ideal_guests" "traveler_types" result in
  let result := extract_array content "primary" "use_cases" "primary" result in
  let result := extract_array content "secondary" "use_cases" "secondary" result in
  let result := extract_array content "key_selling_points" "unique_attributes" "key_selling_points" result in
  let result := extract_array content "stand_out_amenities" "unique_attributes" "stand_out_amenities" result in
  let result := extract_string content "overall_vibe" "atmosphere" "overall_vibe" result in
  let result := extract_array content "descriptors" "atmosphere" "descriptors" result in
  let result := extract_string content "property_class" "market_position" "property_class" result in
  let result := extract_array content "comparable_to" "market_position" "comparable_to" result in
  VDict result.

(** Property names without quotes after an opening brace, resp. after a
    comma: the brace (comma), as few spaces as possible (group 1), one or
    more of [a-zA-Z0-9_] (group 2), as few spaces as possible (group 3), a
    colon. *)
Definition bare_name_after (opener : N) : Re.regex :=
  Re.Cat [Re.Char opener; Re.Group 1 (Re.Star false Re.space);
          Re.Group 2 (Re.Plus Re.word); Re.Group 3 (Re.Star false Re.space);
          Re.Char (ch ":")].

(** The replacement: the opener, group 1, the name between quotes, group 3
    and the colon. *)
Definition quote_name (opener : N) (g : gmap nat pystr) : pystr :=
  [opener] ++ default [] (g !! 1%nat) ++ dq ++ default [] (g !! 2%nat) ++ dq
           ++ default [] (g !! 3%nat) ++ lit ":".

(** [pairs_pattern]: a comma or an opening brace; spaces; a name between
    quotes (group 1) or bare (group 2); spaces, a colon, spaces; then a
    string (group 3), an object (group 4), an array (group 5) or anything up
    to a comma or a closing brace (group 6). *)
Definition pairs_pattern : Re.regex :=
  Re.Cat [Re.Alt (Re.Char (ch ",")) (Re.Char (ch "{"));
          Re.Star true Re.space;
          Re.Alt (Re.Cat [Re.Char DQ; Re.Group 1 (Re.Plus (Re.none_of [DQ]));
                          Re.Char DQ])
                 (Re.Group 2 (Re.Plus Re.word));
          Re.Star true Re.space; Re.Char (ch ":"); Re.Star true Re.space;
          Re.Alt (Re.Cat [Re.Char DQ; Re.Group 3 (Re.Star true (Re.none_of [DQ]));
                          Re.Char DQ])
            (Re.Alt (Re.Cat [Re.Char (ch "{");
                             Re.Group 4 (Re.Star true (Re.none_of [ch "}"]));
                             Re.Char (ch "}")])
               (Re.Alt (Re.Cat [Re.Char (ch "[");
                                Re.Group 5 (Re.Star true (Re.none_of [ch "]"]));
                                Re.Char (ch "]")])
                       (Re.Group 6 (Re.Star true (Re.none_of [ch ","; ch "}"])))))].

Definition group_truthy (m : Re.mobj) (n : nat) : option pystr :=
  match Re.group m n with
  | Some (c :: s) => Some (c :: s)
  | _ => None
  end.

(** One iteration of the loop over the matches of [pairs_pattern]. *)
Definition formatted_pair (m : Re.mobj) : outcome pystr :=
  (* Get the property name (either quoted or unquoted) *)
  let prop_name :=
    match group_truthy m 1 with
    | Some name => name
    | None => default [] (Re.group m 2)
    end in
  value <~
    match group_truthy m 3 with
    | Some s => Return (dq ++ s ++ dq)
    | None =>
        match group_truthy m 4 with
        | Some o => Return (lit "{" ++ o ++ lit "}")
        | None =>
            match group_truthy m 5 with
            | Some a => Return (lit "[" ++ a ++ lit "]")
            | None =>
                match Re.group m 6 with
                | Some other => Return (PyStr.strip other)
                | None => Raise (Py.no_attribute VNone (lit "strip"))
                end
            end
        end
    end ;;
  Return (dq ++ prop_name ++ dq ++ lit ": " ++ value).

Fixpoint formatted_pairs (ms : list Re.mobj) : outcome (list pystr) :=
  match ms with
  | [] => Return []
  | m :: ms' =>
      p <~ formatted_pair m ;;
      ps <~ formatted_pairs ms' ;;
      Return (p :: ps)
  end.

(** Which [return] of [fix_json_format] produced the result. *)
Inductive fix_stage : Type :=
| BasicFixes          (* "JSON parsed successfully without advanced fixes" *)
| RegexFixes          (* "JSON fixed successfully with regex" *)
| Reconstruction      (* "JSON fixed successfully with complete reconstruction" *)
| LastResort.         (* "All JSON fixing attempts failed" *)

Definition expecting_property_name : pystr :=
  lit "Expecting property name enclosed in double quotes".

Definition fix_json_format_staged (content : pystr)
  : outcome (pystr * fix_stage) :=
  (* Step 1: Check if we need to add the opening brace *)
  let content :=
    if negb (PyStr.startswith (lit "{") content) then lit "{" ++ content
    else content in
  (* Step 2: Normalize line endings *)
  let content := PyStr.replace [13] [10] (PyStr.replace [13; 10] [10] content) in
  (* Step 3: Replace single quotes with double quotes *)
  let content := PyStr.replace (lit "'") dq content in
  (* Try the basic fixes first *)
  match Json.loads content with
  | Json.Loaded _ => Return (content, BasicFixes)
  | Json.DepthExceeded =>
      Raise (Exn RecursionError
                 (lit "maximum recursion depth exceeded while decoding a JSON document"))
  | Json.JSONDecodeError msg pos =>
      (* Step 4: Advanced fix for missing quotes around property names *)
      let '(content, fixed) :=
        if PyStr.contains expecting_property_name
                          (Json.error_str content msg pos)
        then
          let content :=
            Re.sub (bare_name_after (ch "{")) (quote_name (ch "{")) content in
          let content :=
            Re.sub (bare_name_after (ch ",")) (quote_name (ch ",")) content in
          match Json.loads content with
          | Json.Loaded _ => (content, true)
          | _ => (content, false)
          end
        else (content, false) in
      if fixed then Return (content, RegexFixes)
      else
        (* Step 5: Most aggressive fix *)
        let reconstructed : option pystr :=
          match formatted_pairs (Re.finditer pairs_pattern content) with
          | Return pairs =>
              let fixed_content :=
                lit "{" ++ [10] ++ PyStr.join (lit "," ++ [10]) pairs
                    ++ [10] ++ lit "}" in
              match Json.loads fixed_content with
              | Json.Loaded _ => Some fixed_content
              | _ => None
              end
          | Raise _ => None
          end in
        match reconstructed with
        | Some fixed_content => Return (fixed_content, Reconstruction)
        | None =>
            (* Last resort basic fixes *)
            let content :=
              if negb (PyStr.startswith (lit "{" ++ dq) content) then
                PyStr.replace (dq ++ dq) dq
                  (PyStr.replace (lit ",") (lit "," ++ dq)
                     (PyStr.replace (lit ":") (dq ++ lit ":")
                        (PyStr.replace (lit "{") (lit "{" ++ dq) content)))
              else content in
            Return (content, LastResort)
        end
  end.

Definition fix_json_format (content : pystr) : outcome pystr :=
  r <~ fix_json_format_staged content ;;
  Return (fst r).

(** * llm_client.py: [generate_property_persona], reading one response

    The "multi-level JSON parsing approach" of one attempt, from
    [content = response["content"]] to the [return result] statements:
    direct parsing, parsing after [fix_json_format], extraction with
    [reconstruct_json_from_claude].  The result carries its origin under
    "created_by"; [None] is the extraction that misses a required key, after
    which the function asks the model again. *)

Definition required_keys : list pystr :=
  [lit "ideal_guests"; lit "use_cases"; lit "unique_attributes";
   lit "atmosphere"; lit "market_position"].

(** [result["created_by"] = origin; return result] *)
Definition created_by (result : value) (origin : string)
  : outcome (option value) :=
  result <~ Py.setitem_key result (lit "created_by") (VStr (lit origin)) ;;
  Return (Some result).

Definition persona_of_content (content : pystr) : outcome (option value) :=
  match Json.loads content with
  | Json.Loaded result =>
      (* Level 1: Direct parsing *)
      created_by result "claude"
  | Json.DepthExceeded =>
      Raise (Exn RecursionError
                 (lit "maximum recursion depth exceeded while decoding a JSON document"))
  | Json.JSONDecodeError _ _ =>
      (* Level 2: Try with basic JSON fixes *)
      fixed_content <~ fix_json_format content ;;
      match Json.loads fixed_content with
      | Json.Loaded result => created_by result "claude-fixed"
      | Json.DepthExceeded =>
          Raise (Exn RecursionError
                     (lit "maximum recursion depth exceeded while decoding a JSON document"))
      | Json.JSONDecodeError _ _ =>
          (* Level 3: Regex-based extraction for complex failures *)
          let result := reconstruct_json_from_claude content in
          missing <~
            (fix missing_keys (keys : list pystr) : outcome (list pystr) :=
               match keys with
               | [] => Return []
               | key :: rest =>
                   present <~ Py.contains_str key result ;;
                   others <~ missing_keys rest ;;
                   Return (if present then others else key :: others)
               end) required_keys ;;
          match missing with
          | [] => created_by result "regex-extraction"
          | _ => Return None
          end
      end
  end.

(** * llm_client.py: formatting a property for a prompt *)

(** [datetime] values, as far as [strftime("%Y-%m-%d")] reads them. *)
Record datetime : Type := DateTime { year : Z; month : Z; day : Z }.

Definition pad (width : nat) (s : pystr) : pystr :=
  repeat (ch "0") (width - length s) ++ s.

Definition strftime_Ymd (d : datetime) : pystr :=
  pad 4 (PyStr.of_Z (year d)) ++ lit "-" ++ pad 2 (PyStr.of_Z (month d))
      ++ lit "-" ++ pad 2 (PyStr.of_Z (day d)).

(** A [Decimal] with a fixed number of places, as a [DecimalField] holds it:
    [unscaled / 10 ^ places]. *)
Record decimal : Type := Decimal { unscaled : Z; places : nat }.

(** [str(d)] *)
Definition decimal_str (d : decimal) : pystr :=
  let digits := pad (S (places d)) (PyStr.of_Z (Z.abs (unscaled d))) in
  let n := (length digits - places d)%nat in
  (if (unscaled d <? 0)%Z then lit "-" else [])
    ++ take n digits
    ++ match places d with O => [] | _ => lit "." ++ drop n digits end.

(** The attributes of model instances. *)
Inductive attr : Type :=
| AInt (z : Z)
| AStr (s : pystr)
| AOptStr (s : option pystr)
| ABool (b : bool)
| ADecimal (d : decimal)
| ADateTime (d : datetime)
| AOptDateTime (d : option datetime)
| ARef (id : Z)                  (* a related object *)
| AMethod.                       (* a bound method *)

(** reviews/models.py *)
Module Review.

Record t : Type := Row {
  id : Z;
  property : Z;
  booking : Z;
  booking_property : Z;          (* booking.property *)
  reviewer : Z;
  overall_rating : Z;
  cleanliness_rating : Z;
  accuracy_rating : Z;
  location_rating : Z;
  value_rating : Z;
  communication_rating : Z;
  comment : pystr;
  leaser_response : option pystr;
  response_date : option datetime;
  is_approved : bool;
  created_at : datetime;
  updated_at : datetime
}.

(** The fields and methods the class defines. *)
Definition attributes (r : t) : list (string * attr) :=
  [("id", AInt (id r)); ("pk", AInt (id r));
   ("property", ARef (property r)); ("property_id", AInt (property r));
   ("booking", ARef (booking r)); ("booking_id", AInt (booking r));
   ("reviewer", ARef (reviewer r)); ("reviewer_id", AInt (reviewer r));
   ("overall_rating", AInt (overall_rating r));
   ("cleanliness_rating", AInt (cleanliness_rating r));
   ("accuracy_rating", AInt (accuracy_rating r));
   ("location_rating", AInt (location_rating r));
   ("value_rating", AInt (value_rating r));
   ("communication_rating", AInt (communication_rating r));
   ("comment", AStr (comment r));
   ("leaser_response", AOptStr (leaser_response r));
   ("response_date", AOptDateTime (response_date r));
   ("is_approved", ABool (is_approved r));
   ("created_at", ADateTime (created_at r));
   ("updated_at", ADateTime (updated_at r));
   ("average_rating", AMethod)]%string.

Fixpoint lookup (name : string) (l : list (string * attr)) : option attr :=
  match l with
  | [] => None
  | (n, a) :: l' => if String.eqb name n then Some a else lookup name l'
  end.

(** [review.name] *)
Definition getattr (r : t) (name : string) : outcome attr :=
  match lookup name (attributes r) with
  | Some a => Return a
  | None =>
      Raise (Exn AttributeError
                 (lit "'Review' object has no attribute '" ++ lit name ++ lit "'"))
  end.

End Review.

(** The [Property] model, from properties/migrations/0001_initial.py, as far
    as [format_property_data] reads it; [amenities] are the names of
    [property_obj.amenities.all()]. *)
Module Property.
Record t : Type := Row {
  id : Z;
  title : pystr;
  description : pystr;
  property_type : pystr;
  bedroom_count : Z;
  bathroom_count : decimal;
  max_guests : Z;
  base_price : decimal;
  city : pystr;
  state : pystr;
  country : pystr;
  address_line1 : pystr;
  address_line2 : option pystr;
  amenities : list pystr
}.
End Property.

(** [float(x)] for an attribute. *)
Definition float_of_attr (a : attr) : outcome Q :=
  match a with
  | AInt z => Return (inject_Z z)
  | ABool b => Return (if b then 1 else 0)%Q
  | ADecimal d => Return (Qred (Qmake (unscaled d) (Z.to_pos (10 ^ Z.of_nat (places d)))))
  | _ => Raise (Exn TypeError
                    (lit "float() argument must be a string or a real number"))
  end.

(** [x.strftime("%Y-%m-%d")] *)
Definition strftime_of_attr (a : attr) : outcome pystr :=
  match a with
  | ADateTime d => Return (strftime_Ymd d)
  | _ => Raise (Exn AttributeError (lit "object has no attribute 'strftime'"))
  end.

Definition value_of_attr (a : attr) : value :=
  match a with
  | AInt z => VInt z
  | AStr s => VStr s
  | AOptStr (Some s) => VStr s
  | ABool b => VBool b
  | _ => VNone
  end.

(** The dict display of the loop body; it names the key "rating" twice. *)
Definition entry_display (rating1 rating2 : Q) (comment : value) (date : pystr)
  : value :=
  VDict (Dict.of_pairs [(lit "rating", VFloat rating1);
                        (lit "rating", VFloat rating2);
                        (lit "comment", comment);
                        (lit "date", VStr date)]).

(** The dict appended to [review_data] for one review. *)
Definition review_entry (review : Review.t) : outcome value :=
  r1 <~ Review.getattr review "rating" ;;
  rating1 <~ float_of_attr r1 ;;
  r2 <~ Review.getattr review "rating" ;;
  rating2 <~ float_of_attr r2 ;;
  c <~ Review.getattr review "comment" ;;
  created <~ Review.getattr review "created_at" ;;
  date <~ strftime_of_attr created ;;
  Return (entry_display rating1 rating2 (value_of_attr c) date).

Fixpoint review_entries (reviews : list Review.t) : outcome (list value) :=
  match reviews with
  | [] => Return []
  | review :: rest =>
      entry <~ review_entry review ;;
      entries <~ review_entries rest ;;
      Return (entry :: entries)
  end.

(** [sum(r["rating"] for r in review_data)], from the accumulator [acc]. *)
Fixpoint sum_ratings (review_data : list value) (acc : value) : outcome value :=
  match review_data with
  | [] => Return acc
  | r :: rest =>
      x <~ Py.getitem_key r (lit "rating") ;;
      acc' <~ Py.add acc x ;;
      sum_ratings rest acc'
  end.

(** [float(total / n)] for a total and a positive length. *)
Definition float_div (total : value) (n : nat) : outcome value :=
  match Py.number total with
  | Some (inl z) => Return (VFloat (Qred (inject_Z z / inject_Z (Z.of_nat n))))
  | Some (inr q) => Return (VFloat (Qred (q / inject_Z (Z.of_nat n))))
  | None =>
      Raise (Exn TypeError (lit "unsupported operand type(s) for /: "
                            ++ Py.quoted (Py.type_name total) ++ lit " and 'int'"))
  end.

(** The value under "average_rating". *)
Definition average_rating (review_data : list value) : outcome value :=
  match review_data with
  | [] => Return VNone
  | _ =>
      total <~ sum_ratings review_data (VInt 0) ;;
      float_div total (length review_data)
  end.

(** [Review.objects.filter(booking__property=property_obj)] over the rows
    of the review table. *)
Definition reviews_of (table : list Review.t) (property_obj : Property.t)
  : list Review.t :=
  List.filter
    (fun r => (Review.booking_property r =? Property.id property_obj)%Z) table.

Definition format_property_data (table : list Review.t)
           (property_obj : Property.t) : outcome value :=
  (* Get all reviews for this property *)
  let reviews := reviews_of table property_obj in
  review_data <~ review_entries reviews ;;
  let amenities := Property.amenities property_obj in
  average <~ average_rating review_data ;;
  Return (VDict
    [(lit "id", VInt (Property.id property_obj));
     (lit "title", VStr (Property.title property_obj));
     (lit "description", VStr (Property.description property_obj));
     (lit "property_type", VStr (Property.property_type property_obj));
     (lit "bedroom_count", VInt (Property.bedroom_count property_obj));
     (lit "bathroom_count",
      VStr (decimal_str (Property.bathroom_count property_obj)));
     (lit "max_guests", VInt (Property.max_guests property_obj));
     (lit "base_price", VStr (decimal_str (Property.base_price property_obj)));
     (lit "location",
      VDict [(lit "city", VStr (Property.city property_obj));
             (lit "state", VStr (Property.state property_obj));
             (lit "country", VStr (Property.country property_obj));
             (lit "address_line1", VStr (Property.address_line1 property_obj));
             (lit "address_line2",
              VStr (str_or (Property.address_line2 property_obj) []))]);
     (lit "amenities", strs amenities);
     (lit "reviews", VList review_data);
     (lit "review_count", VInt (Z.of_nat (length review_data)));
     (lit "average_rating", average)]).

(** * cache_analyzer.py: [track_deepseek_server_cache]

    The one function of the module that the clients call.  Before it
    defines this function the module rebinds [llm_cache.get] to a wrapper
    that hands the cache a second time to the bound original, so that where
    the module has been initialised a call of [llm_cache.get] raises
    [TypeError]; [get_advanced], [set] and [set_advanced] are not rebound.
    [LLMResponseCache.get] is the method of the class of cache.py. *)

Definition metadata_file : pystr := lit "cache_metadata.json".

Definition initial_server_cache_stats : value :=
  VDict [(lit "total_hit_tokens", VInt 0);
         (lit "total_miss_tokens", VInt 0);
         (lit "estimated_savings", VFloat 0);
         (lit "total_requests", VInt 0)].

(** [stats[key] += x] *)
Definition add_to (stats : value) (key : pystr) (x : value) : outcome value :=
  old <~ Py.getitem_key stats key ;;
  new <~ Py.add old x ;;
  Py.setitem_key stats key new.

Definition track_deepseek_server_cache (usage_data : value) : M unit :=
  if negb (truthy usage_data) then ret tt
  else
    cache_hit_tokens <-
      lift (Py.get usage_data (lit "prompt_cache_hit_tokens") (VInt 0)) ;;
    cache_miss_tokens <-
      lift (Py.get usage_data (lit "prompt_cache_miss_tokens") (VInt 0)) ;;
    if Py.is_zero cache_hit_tokens && Py.is_zero cache_miss_tokens then ret tt
    else
      (* Calculate savings from cache hits *)
      regular_cost <- lift (Py.scale cache_hit_tokens (2 # 10) 1000000) ;;
      cache_cost <- lift (Py.scale cache_hit_tokens (14 # 1000) 1000000) ;;
      let savings := Py.sub_floats regular_cost cache_cost in
      fun w =>
        (* Load existing metadata if available *)
        let metadata :=
          match cache_dir w !! metadata_file with
          | Some f => default (VDict []) (content f)
          | None => VDict []
          end in
        (metadata <-
           lift (present <~ Py.contains_str (lit "server_cache_stats") metadata ;;
               metadata <~
                 (if negb present
                  then Py.setitem_key metadata (lit "server_cache_stats")
                                      initial_server_cache_stats
                  else Return metadata) ;;
               (* Update server cache statistics *)
               stats <~ Py.getitem_key metadata (lit "server_cache_stats") ;;
               stats <~ add_to stats (lit "total_hit_tokens") cache_hit_tokens ;;
               stats <~ add_to stats (lit "total_miss_tokens") cache_miss_tokens ;;
               stats <~ add_to stats (lit "estimated_savings") savings ;;
               stats <~ add_to stats (lit "total_requests") (VInt 1) ;;
               Py.setitem_key metadata (lit "server_cache_stats") stats) ;;
         (* Save updated metadata *)
         LLMResponseCache.write_json CacheDir metadata_file metadata) w.

(** * optimized_deepseek.py *)

Module OptimizedDeepSeekClient.

Record t : Type := Client { debug_mode : bool; api_key : pystr }.

Definition BASE_URL : pystr := lit "https://api.deepseek.com/v1/chat/completions".
Definition DEFAULT_MODEL : pystr := lit "deepseek-chat".

Definition init (st : settings) (debug : option bool) : outcome t :=
  let debug_mode := BaseLLMClient.init st debug in
  let api_key := default [] (DEEPSEEK_API_KEY st) in
  if negb (truthy (VStr api_key)) && negb debug_mode
  then Raise (Exn ValueError (lit "DEEPSEEK_API_KEY not found in settings."))
  else Return (Client debug_mode api_key).

Definition _get_context_key (context_id : pystr) : outcome pystr :=
  LLMResponseCache.md5_hex context_id.

Definition save_context (self : t) (context_id : pystr) (messages : value)
  : M unit :=
  key <- lift (_get_context_key context_id) ;;
  let cache_file := LLMResponseCache.file_name key in
  LLMResponseCache.write_json ContextDir cache_file messages.

Definition load_context (self : t) (context_id : pystr) : M value :=
  key <- lift (_get_context_key context_id) ;;
  let cache_file := LLMResponseCache.file_name key in
  fun w =>
    match context_cache_dir w !! cache_file with
    | None => ret (VList []) w
    | Some f =>
        match content f with
        | Some messages => ret messages w
        | None => ret (VList []) w
        end
    end.

Definition clear_context (self : t) (context_id : pystr) : M unit :=
  key <- lift (_get_context_key context_id) ;;
  let cache_file := LLMResponseCache.file_name key in
  fun w =>
    match context_cache_dir w !! cache_file with
    | Some _ => LLMResponseCache.unlink ContextDir cache_file w
    | None => ret tt w
    end.

(** The state of the loop of [_handle_streaming_response]. *)
Record stream_state : Type := Stream {
  combined_content : value;
  usage : value;
  finish_reason : value;
  model : value;
  cache_id : value
}.

(** The body of the [try] for one decoded chunk. *)
Definition absorb_chunk (chunk : value) (st : stream_state)
  : outcome stream_state :=
  has_choices <~ Py.contains_str (lit "choices") chunk ;;
  st <~
    (if has_choices then
       choices <~ Py.getitem_key chunk (lit "choices") ;;
       if truthy choices then
         choice <~ Py.getitem_index choices 0 ;;
         delta <~ Py.get choice (lit "delta") (VDict []) ;;
         content <~ Py.get delta (lit "content") (VStr []) ;;
         combined <~
           (if truthy content then Py.add (combined_content st) content
            else Return (combined_content st)) ;;
         choice' <~ Py.getitem_index choices 0 ;;
         has_reason <~ Py.contains_str (lit "finish_reason") choice' ;;
         reason <~
           (if has_reason then
              r <~ Py.getitem_key choice' (lit "finish_reason") ;;
              Return (if truthy r then r else finish_reason st)
            else Return (finish_reason st)) ;;
         Return (Stream combined (usage st) reason (model st) (cache_id st))
       else Return st
     else Return st) ;;
  has_model <~ Py.contains_str (lit "model") chunk ;;
  st <~
    (if has_model && negb (truthy (model st)) then
       m <~ Py.getitem_key chunk (lit "model") ;;
       Return (Stream (combined_content st) (usage st) (finish_reason st) m
                      (cache_id st))
     else Return st) ;;
  has_usage <~ Py.contains_str (lit "usage") chunk ;;
  st <~
    (if has_usage then
       u <~ Py.getitem_key chunk (lit "usage") ;;
       Return (Stream (combined_content st) u (finish_reason st) (model st)
                      (cache_id st))
     else Return st) ;;
  has_cache_id <~ Py.contains_str (lit "cache_id") chunk ;;
  if has_cache_id && negb (truthy (cache_id st)) then
    c <~ Py.getitem_key chunk (lit "cache_id") ;;
    Return (Stream (combined_content st) (usage st) (finish_reason st)
                   (model st) c)
  else Return st.

Fixpoint stream_lines (lines : list pystr) (st : stream_state)
  : outcome stream_state :=
  match lines with
  | [] => Return st
  | line :: rest =>
      if negb (truthy (VStr line)) then stream_lines rest st
      else if PyStr.startswith (lit ":") line
              || negb (truthy (VStr (PyStr.strip line)))
      then stream_lines rest st
      else if PyStr.startswith (lit "data: ") line then
        let data := drop 6 line in
        if data =s? lit "[DONE]" then Return st
        else
          match Json.loads data with
          | Json.Loaded chunk =>
              st' <~ absorb_chunk chunk st ;;
              stream_lines rest st'
          | Json.JSONDecodeError _ _ => stream_lines rest st
          | Json.DepthExceeded =>
              Raise (Exn RecursionError
                         (lit "maximum recursion depth exceeded while decoding a JSON document"))
          end
      else stream_lines rest st
  end.

Definition _handle_streaming_response (self : t) (response : response)
  : outcome value :=
  st <~ stream_lines (PyStr.splitlines (text response))
                     (Stream (VStr []) (VDict []) VNone VNone VNone) ;;
  Return (VDict [(lit "content", combined_content st);
                 (lit "model", model st);
                 (lit "usage", usage st);
                 (lit "stop_reason", finish_reason st);
                 (lit "cache_id", cache_id st)]).

Definition response_data_of (result : value) (model : pystr)
  : outcome value :=
  choices <~ Py.getitem_key result (lit "choices") ;;
  choice <~ Py.getitem_index choices 0 ;;
  msg <~ Py.getitem_key choice (lit "message") ;;
  content <~ Py.getitem_key msg (lit "content") ;;
  model' <~ Py.get result (lit "model") (VStr model) ;;
  usage <~ Py.get result (lit "usage") (VDict []) ;;
  choices' <~ Py.getitem_key result (lit "choices") ;;
  choice' <~ Py.getitem_index choices' 0 ;;
  stop_reason <~ Py.get choice' (lit "finish_reason") VNone ;;
  cache_id <~ Py.get result (lit "cache_id") VNone ;;
  Return (VDict [(lit "content", content); (lit "model", model');
                 (lit "usage", usage); (lit "stop_reason", stop_reason);
                 (lit "cache_id", cache_id)]).

(** "Track server-side cache hits for cost analysis". *)
Definition track_server_cache (result : value) : M unit :=
  u <- lift (Py.get result (lit "usage") VNone) ;;
  if truthy u then
    usage <- lift (Py.getitem_key result (lit "usage")) ;;
    hit <- lift (Py.contains_str (lit "prompt_cache_hit_tokens") usage) ;;
    tracked <-
      (if hit then ret true
       else
         usage' <- lift (Py.getitem_key result (lit "usage")) ;;
         lift (Py.contains_str (lit "prompt_cache_miss_tokens") usage')) ;;
    if tracked then
      usage'' <- lift (Py.getitem_key result (lit "usage")) ;;
      track_deepseek_server_cache usage''
    else ret tt
  else ret tt.

(** The key string of the local cache: the prompts and the model, and the
    context id when there is one, joined by a bar. *)
Definition cache_key_of (system_prompt user_prompt model : pystr)
           (context_id : option pystr) : pystr :=
  let cache_key_parts := [system_prompt; user_prompt; model] in
  let cache_key_parts :=
    match context_id with
    | Some (c :: s) => cache_key_parts ++ [c :: s]
    | _ => cache_key_parts
    end in
  PyStr.join (lit "|") cache_key_parts.

(** The key string computed again before the write. *)
Definition cache_key_for_write (system_prompt user_prompt model : pystr)
           (context_id : option pystr) : pystr :=
  let cache_key := PyStr.join (lit "|") [system_prompt; user_prompt; model] in
  match context_id with
  | Some (c :: s) => cache_key ++ lit "|" ++ (c :: s)
  | _ => cache_key
  end.

Definition has_context (context_id : option pystr) : option pystr :=
  match context_id with
  | Some (c :: s) => Some (c :: s)
  | _ => None
  end.

Fixpoint retry_loop (self : t) (system_prompt user_prompt model : pystr)
         (temperature : Q) (use_cache stream : bool)
         (context_id : option pystr) (messages : value) (payload : value)
         (remaining : nat) (attempt : Z) (retry_delay : Z) : M value :=
  match remaining with
  | O =>
      raise (Exn RuntimeError
                 (lit "Failed to get response from DeepSeek API after multiple attempts"))
  | S remaining' =>
      try_except
        (response <- requests_post DeepSeekAPI payload ;;
         lift (raise_for_status BASE_URL response) ;;;
         if stream then
           (* Handle streaming response *)
           lift (_handle_streaming_response self response)
         else
           (* Handle regular response *)
           result <- lift (response_json response) ;;
           response_data <- lift (response_data_of result model) ;;
           track_server_cache result ;;;
           (* Update conversation context if needed *)
           (match has_context context_id with
            | Some cid =>
                content <- lift (Py.getitem_key response_data (lit "content")) ;;
                messages' <-
                  lift (Py.append messages
                          (VDict [(lit "role", VStr (lit "assistant"));
                                  (lit "content", content)])) ;;
                save_context self cid messages'
            | None => ret tt
            end) ;;;
           (if cache_eligible use_cache temperature
            then LLMResponseCache.set_advanced llm_cache
                   (cache_key_for_write system_prompt user_prompt model
                                        context_id)
                   response_data
            else ret tt) ;;;
           ret response_data)
        is_request_exception
        (fun e =>
           if (attempt <? max_retries - 1)%Z then
             sleep retry_delay ;;;
             retry_loop self system_prompt user_prompt model temperature
                        use_cache stream context_id messages payload
                        remaining' (attempt + 1)%Z (retry_delay * 2)%Z
           else raise e)
  end.

Definition generate_response (self : t) (system_prompt user_prompt : pystr)
           (model : option pystr) (max_tokens : Z) (temperature : Q)
           (structured_output : value) (use_cache : bool) (stream : bool)
           (context_id : option pystr) (cache_id : option pystr) : M value :=
  emit (EvGenerate TheOptimizedDeepSeekClient) ;;;
  let model := str_or model DEFAULT_MODEL in
  if debug_mode self then
    lift (BaseLLMClient._get_mock_response system_prompt user_prompt model
                                           structured_output)
  else
    (* Check local cache first if enabled *)
    cached_response <-
      (if cache_eligible use_cache temperature
       then LLMResponseCache.get_advanced llm_cache
              (cache_key_of system_prompt user_prompt model context_id)
       else ret VNone) ;;
    if cache_eligible use_cache temperature && truthy cached_response
    then ret cached_response
    else
      (* Prepare messages *)
      messages <-
        (match has_context context_id with
         | Some cid =>
             (* Add conversation history if context_id is provided *)
             messages <- load_context self cid ;;
             let messages :=
               if negb (truthy messages)
               then VList [message (lit "system") system_prompt]
               else messages in
             (* Add the new user message *)
             lift (Py.append messages (message (lit "user") user_prompt))
         | None =>
             ret (VList [message (lit "system") system_prompt;
                         message (lit "user") user_prompt])
         end) ;;
      let payload :=
        [(lit "model", VStr model);
         (lit "messages", messages);
         (lit "max_tokens", VInt max_tokens);
         (lit "temperature", VFloat temperature);
         (lit "stream", VBool stream)] in
      let payload :=
        if truthy structured_output
        then Dict.set (lit "response_format")
                      (VDict [(lit "type", VStr (lit "json_object"))]) payload
        else payload in
      let payload :=
        match cache_id with
        | Some (c :: s) => Dict.set (lit "cache_id") (VStr (c :: s)) payload
        | _ => payload
        end in
      retry_loop self system_prompt user_prompt model temperature use_cache
                 stream context_id messages (VDict payload)
                 (Z.to_nat max_retries) 0%Z 2%Z.

End OptimizedDeepSeekClient.

(** * llm_manager.py *)

Module LLMManager.

Record t : Type := Manager {
  deepseek_client : DeepSeekClient.t;
  claude_client : ClaudeClient.t;
  optimized_deepseek_client : OptimizedDeepSeekClient.t;
  unified_client : UnifiedLLMClient.t;
  has_deepseek : bool;
  has_claude : bool;
  default_provider : pystr;
  use_optimized_deepseek : bool;
  debug_mode : bool
}.

(** [LLMManager()], given the clients the modules built when they were
    imported. *)
Definition init (st : settings) (ds : DeepSeekClient.t) (cl : ClaudeClient.t)
           (opt : OptimizedDeepSeekClient.t) (unified : UnifiedLLMClient.t)
  : t :=
  let has_deepseek := negb (default [] (DEEPSEEK_API_KEY st) =s? []) in
  let has_claude := negb (default [] (CLAUDE_API_KEY st) =s? []) in
  let default_provider :=
    PyStr.lower (default (if has_claude then lit "claude" else lit "deepseek")
                         (DEFAULT_LLM_PROVIDER st)) in
  Manager ds cl opt unified has_deepseek has_claude default_provider
          (default true (USE_OPTIMIZED_DEEPSEEK st))
          (default false (DEBUG_LLM st)).

(** The first part of [generate_response]: the provider of the request
    and whether DeepSeek is to be used ([should_use_deepseek]). *)
Definition select_provider (self : t) (temperature : Q) (use_cache : bool)
           (provider : option pystr) (context_id : option pystr)
           (force_cache : bool) : bool * pystr :=
  (* Determine which provider to use *)
  let provider :=
    match provider with
    | Some (c :: p) => PyStr.lower (c :: p)
    | _ => default_provider self
    end in
  (* If user explicitly asked for DeepSeek *)
  if (provider =s? lit "deepseek") && has_deepseek self then
    (true, provider)
  (* If forcing cache and cache is enabled, use DeepSeek for better caching *)
  else if force_cache && use_cache && has_deepseek self then
    (true, lit "deepseek")
  (* For highly deterministic requests (low temperature) *)
  else if Qlt_bool temperature float_0_2 && use_cache && has_deepseek self
          && negb (provider =s? lit "claude") then
    (true, lit "deepseek")
  (* For conversational contexts *)
  else if truthy (VStr (default [] context_id)) && has_deepseek self
          && negb (provider =s? lit "claude") then
    (true, lit "deepseek")
  else (false, provider).

Definition generate_response (self : t) (system_prompt user_prompt : pystr)
           (model : option pystr) (max_tokens : Z) (temperature : Q)
           (structured_output : value) (use_cache : bool)
           (provider : option pystr) (context_id : option pystr)
           (stream : bool) (force_cache : bool) : M value :=
  let '(should_use_deepseek, provider) :=
    select_provider self temperature use_cache provider context_id
                    force_cache in
  (* Use the optimized DeepSeek client if selected *)
  if should_use_deepseek && use_optimized_deepseek self then
    OptimizedDeepSeekClient.generate_response
      (optimized_deepseek_client self) system_prompt user_prompt model
      max_tokens temperature structured_output use_cache stream context_id
      None
  else
    (* Fall back to the unified client for standard behavior *)
    UnifiedLLMClient.generate_response
      (unified_client self) system_prompt user_prompt model max_tokens
      temperature structured_output use_cache (Some provider).

Definition clear_conversation_context (self : t) (context_id : pystr)
  : M value :=
  if use_optimized_deepseek self then
    OptimizedDeepSeekClient.clear_context (optimized_deepseek_client self)
                                          context_id ;;;
    ret (VDict [(lit "success", VBool true);
                (lit "message",
                 VStr (lit "Context " ++ context_id ++ lit " cleared"))])
  else
    ret (VDict [(lit "success", VBool false);
                (lit "message",
                 VStr (lit "Optimized DeepSeek client not enabled, context management unavailable"))]).

End LLMManager.

(** * Properties *)

(** ** Reading traces *)

(** The events of a run from [w] to [w']. *)
Definition events_since (w w' : world) : list event :=
  drop (length (trace w)) (trace w').

Definition sleeps (events : list event) : list Z :=
  omap (fun e => match e with EvSleep d => Some d | _ => None end) events.

Definition posts_to (target : endpoint) (events : list event) : nat :=
  length (List.filter (fun e => match e with
                                | EvPost t _ => endpoint_eqb t target
                                | _ => false
                                end) events).

Definition generate_calls (events : list event) : list client :=
  omap (fun e => match e with EvGenerate c => Some c | _ => None end) events.

Definition is_cache_event (e : event) : bool :=
  match e with
  | EvCacheRead _ | EvCacheWrite _ _ => true
  | _ => false
  end.

Definition cache_events (events : list event) : list event :=
  List.filter is_cache_event events.

(** ** The repair pipeline on the two texts of the specification *)

(** The raw text with an unquoted key. *)
Definition unquoted_key_text : pystr :=
  lit "{" ++ dq ++ lit "a" ++ dq ++ lit ": 1, b: " ++ dq ++ lit "x" ++ dq ++ lit "}".

Definition quoted_key_text : pystr :=
  lit "{" ++ dq ++ lit "a" ++ dq ++ lit ": 1, " ++ dq ++ lit "b" ++ dq
      ++ lit ": " ++ dq ++ lit "x" ++ dq ++ lit "}".

(** The demographics field as it stands in the prose. *)
Definition demographics_field : pystr :=
  dq ++ lit "demographics" ++ dq ++ lit ": [" ++ dq ++ lit "A" ++ dq ++ lit ","
     ++ dq ++ lit "B" ++ dq ++ lit "]".

Definition prose_with_demographics : pystr :=
  lit "Here is what I found. The guests are " ++ demographics_field
      ++ lit " and that is all I can say" ++ [10] ++ lit "about this listing.".

(** The persona with only the demographics found. *)
Definition persona_with_demographics : value :=
  VDict
    [(lit "ideal_guests",
      VDict [(lit "demographics", VList [VStr (lit "A"); VStr (lit "B")]);
             (lit "traveler_types", VList [])]);
     (lit "use_cases",
      VDict [(lit "primary", VList []); (lit "secondary", VList [])]);
     (lit "unique_attributes",
      VDict [(lit "key_selling_points", VList []);
             (lit "stand_out_amenities", VList [])]);
     (lit "atmosphere",
      VDict [(lit "overall_vibe", VStr (lit "comfortable"));
             (lit "descriptors", VList [])]);
     (lit "market_position",
      VDict [(lit "property_class", VStr (lit "mid-range"));
             (lit "comparable_to", VList [])])].

(** The items of the field, between the brackets. *)
Definition items_text : pystr :=
  dq ++ lit "A" ++ dq ++ lit "," ++ dq ++ lit "B" ++ dq.

(** The names of the nine other fields. *)
Definition other_fields : list string :=
  ["traveler_types"; "primary"; "secondary"; "key_selling_points";
   "stand_out_amenities"; "overall_vibe"; "descriptors"; "property_class";
   "comparable_to"]%string.

(** The text holds the demographics field, the word demographics does not
    occur before the field, and the name of no other field occurs in the
    text. *)
Definition holds_only_demographics (content : pystr) : Prop :=
  exists before after,
    content = before ++ demographics_field ++ after
    /\ PyStr.contains (lit "demographics") before = false
    /\ Forall (fun name => PyStr.contains (lit name) content = false)
              other_fields.

(** A prose that mentions the demographics, without quotes, before the
    field. *)
Definition prose_with_earlier_mention : pystr :=
  lit "Typical demographics: [young couples]. The guests are "
      ++ demographics_field ++ lit " and that is all.".

(** A prose in which a bare name and a colon follow a comma. *)
Definition prose_with_pair : pystr :=
  lit "Guests, mostly: families. The guests are " ++ demographics_field
      ++ lit " and that is all.".

(** The result of [generate_property_persona] with its origin. *)
Definition tagged (result : value) (origin : string) : option value :=
  match result with
  | VDict d => Some (VDict (d ++ [(lit "created_by", VStr (lit origin))]))
  | _ => None
  end.

(** ** The average rating of [format_property_data] *)

Definition rating_missing : exn :=
  Exn AttributeError (lit "'Review' object has no attribute 'rating'").

Definition number_value (n : Z + Q) : Q :=
  match n with inl z => inject_Z z | inr q => q end.

Definition total (ratings : list Q) : Q := fold_right Qplus 0%Q ratings.

(** A property with one review. *)
Definition reviewed_property : Property.t :=
  Property.Row 7 (lit "Sea view flat") (lit "Two rooms above the harbour.")
               (lit "apartment") 2 (Decimal 15 1) 4 (Decimal 12000 2)
               (lit "Lisbon") (lit "Lisboa") (lit "Portugal")
               (lit "Rua da Praia 1") None [lit "WiFi"; lit "Kitchen"].

Definition its_review : Review.t :=
  Review.Row 1 7 3 7 2 5 4 5 4 5 4 (lit "Lovely stay") None None true
             (DateTime 2024 5 17) (DateTime 2024 5 17).

(** The entry [f] is older than the cache allows. *)
Definition stale (self : LLMResponseCache.t) (w : world) (f : file) : Prop :=
  (inject_Z (LLMResponseCache.max_age_seconds self) < now w - st_mtime f)%Q.





(** The file system grants every deletion. *)
Definition granting : pystr -> option exn := fun _ => None.

(** ** The keys of two conversations *)

(** The key under which a request of the optimized client reads the cache,
    and the key under which it writes. *)
Definition read_key (sp up m : pystr) (context_id : option pystr)
  : outcome pystr :=
  LLMResponseCache.get_advanced_cache_key
    (OptimizedDeepSeekClient.cache_key_of sp up m context_id).

Definition write_key (sp up m : pystr) (context_id : option pystr)
  : outcome pystr :=
  LLMResponseCache.get_advanced_cache_key
    (OptimizedDeepSeekClient.cache_key_for_write sp up m context_id).

(** What the request with context [c] reads from the cache. *)
Definition lookup (sp up m : pystr) (c : option pystr) (w : world)
  : outcome value :=
  fst (LLMResponseCache.get_advanced llm_cache
         (OptimizedDeepSeekClient.cache_key_of sp up m c) w).

(** What the request with context [c2] reads from the cache once the
    request with context [c1] has stored the response [resp]. *)
Definition lookup_after_write (sp up m : pystr) (c1 c2 : option pystr)
           (resp : value) (w : world) : outcome value :=
  lookup sp up m c2
    (snd (LLMResponseCache.set_advanced llm_cache
            (OptimizedDeepSeekClient.cache_key_for_write sp up m c1) resp w)).

(** The state of MD5 after the last block of a message. *)
Definition md5_state (msg : list N) : MD5.state :=
  MD5.blocks (length (MD5.pad msg) / 64) MD5.init (MD5.pad msg).

(** The four words of a state are 32-bit words. *)
Definition words32 (st : MD5.state) : Prop :=
  let '(a, b, c, d) := st in
  a < MD5.w32 /\ b < MD5.w32 /\ c < MD5.w32 /\ d < MD5.w32.

(** A state as one number of 128 bits. *)
Definition state_number (st : MD5.state) : N :=
  let '(a, b, c, d) := st in
  a + MD5.w32 * (b + MD5.w32 * (c + MD5.w32 * d)).

(** The context ids a, aa, aaa, ... *)
Definition conversation (i : nat) : pystr := repeat (ch "a") (S i).

(** ** The routing policy of the manager *)

(** Where a request is executed. *)
Inductive path : Type :=
| OptimizedPath                       (* the optimized DeepSeek client *)
| UnifiedPath (provider : pystr).     (* the unified client, with this provider *)

(** The path [generate_response] takes. *)
Definition code_path (self : LLMManager.t) (temperature : Q) (use_cache : bool)
           (provider context_id : option pystr) (force_cache : bool) : path :=
  let '(should_use_deepseek, provider) :=
    LLMManager.select_provider self temperature use_cache provider context_id
                               force_cache in
  if should_use_deepseek && LLMManager.use_optimized_deepseek self
  then OptimizedPath else UnifiedPath provider.

(** The path as the specification words it: the rules test the provider
    override of the request, and a request that matches no rule goes to the
    unified client with the configured default provider. *)
Definition claimed_path (self : LLMManager.t) (temperature : Q)
           (use_cache : bool) (provider context_id : option pystr)
           (force_cache : bool) : path :=
  let deepseek :=
    if LLMManager.use_optimized_deepseek self then OptimizedPath
    else UnifiedPath (lit "deepseek") in
  let configured := LLMManager.has_deepseek self in
  let explicitly (name : pystr) := bool_decide (provider = Some name) in
  if explicitly (lit "deepseek") && configured then deepseek
  else if force_cache && use_cache && configured then deepseek
  else if Qlt_bool temperature float_0_2 && use_cache && configured
          && negb (explicitly (lit "claude")) then deepseek
  else if truthy (VStr (default [] context_id)) && configured
          && negb (explicitly (lit "claude")) then deepseek
  else UnifiedPath (LLMManager.default_provider self).

(** The provider of a request: the override in lower case, or the
    configured default when there is none. *)
Definition effective_provider (self : LLMManager.t) (provider : option pystr)
  : pystr :=
  match provider with
  | Some (c :: p) => PyStr.lower (c :: p)
  | _ => LLMManager.default_provider self
  end.

(** One of the four rules matches. *)
Definition prefers_deepseek (self : LLMManager.t) (temperature : Q)
           (use_cache : bool) (provider context_id : option pystr)
           (force_cache : bool) : Prop :=
  let p := effective_provider self provider in
  LLMManager.has_deepseek self = true
  /\ (p = lit "deepseek"
      \/ (force_cache = true /\ use_cache = true)
      \/ ((temperature < float_0_2)%Q /\ use_cache = true /\ p <> lit "claude")
      \/ (OptimizedDeepSeekClient.has_context context_id <> None
          /\ p <> lit "claude")).

(** A manager with both providers configured, DeepSeek the default, the
    optimized client enabled. *)
Definition both_configured : settings :=
  Settings None None (Some (lit "sk-deepseek")) (Some (lit "sk-ant-claude"))
           (Some (lit "deepseek")) None.

Definition the_unified_client : UnifiedLLMClient.t :=
  UnifiedLLMClient.Client false (lit "deepseek")
    (Some (DeepSeekClient.Client false (lit "sk-deepseek"))) true
    (Some (ClaudeClient.Client false (lit "sk-ant-claude"))) true.

Definition the_manager : LLMManager.t :=
  LLMManager.init both_configured
    (DeepSeekClient.Client false (lit "sk-deepseek"))
    (ClaudeClient.Client false (lit "sk-ant-claude"))
    (OptimizedDeepSeekClient.Client false (lit "sk-deepseek"))
    the_unified_client.

(** ** One attempt of a retry loop *)

(** What one iteration of the loop of [DeepSeekClient] computes from the
    outcome of its post, before the cache is written. *)
Definition deepseek_attempt (model : pystr) (o : http_outcome) : outcome value :=
  match o with
  | Fails e => Raise e
  | Responds r =>
      _ <~ raise_for_status DeepSeekClient.BASE_URL r ;;
      result <~ response_json r ;;
      DeepSeekClient.response_data_of result model
  end.

(** The same for [ClaudeClient]. *)
Definition claude_attempt (model : pystr) (structured_output : value)
           (o : http_outcome) : outcome value :=
  match o with
  | Fails e => Raise e
  | Responds r =>
      if negb (status_code r =? 200)%Z then Raise (ClaudeClient.status_error r)
      else
        result <~ ClaudeClient.decode_body r ;;
        response_data <~ ClaudeClient.response_data_of result model ;;
        if truthy structured_output
        then fixed <~ ClaudeClient.fix_structured response_data ;;
             Return (VDict fixed)
        else Return (VDict response_data)
  end.

(** The write to the cache that ends a successful attempt. *)
Definition cache_write (system_prompt user_prompt model : pystr)
           (temperature : Q) (use_cache : bool) (response_data : value)
  : M unit :=
  if cache_eligible use_cache temperature
  then LLMResponseCache.set llm_cache system_prompt user_prompt model
                            response_data
  else ret tt.

(** The request has no entry in the cache directory, or is not eligible for
    the cache. *)
Definition no_cached_answer (w : world) (system_prompt user_prompt model : pystr)
           (temperature : Q) (use_cache : bool) : Prop :=
  cache_eligible use_cache temperature = true ->
  exists key,
    LLMResponseCache.get_cache_key system_prompt user_prompt model = Return key
    /\ cache_dir w !! LLMResponseCache.file_name key = None.

(** [w1] is reached from [w] before any request is made: nothing has been
    posted and nothing slept, and the remote side is the same. *)
Definition before_first_request (w w1 : world) : Prop :=
  exists evs,
    trace w1 = trace w ++ evs
    /\ sleeps evs = []
    /\ (forall t, posts_to t evs = 0%nat)
    /\ remote w1 = remote w
    /\ posts w1 = posts w.

(** ** Retry and backoff *)

(** A provider client of llm_client.py. *)
Inductive provider_client : Type :=
| DeepSeekProvider (c : DeepSeekClient.t)
| ClaudeProvider (c : ClaudeClient.t).

Definition provider_endpoint (p : provider_client) : endpoint :=
  match p with
  | DeepSeekProvider _ => DeepSeekAPI
  | ClaudeProvider _ => ClaudeAPI
  end.

Definition provider_debug_mode (p : provider_client) : bool :=
  match p with
  | DeepSeekProvider c => DeepSeekClient.debug_mode c
  | ClaudeProvider c => ClaudeClient.debug_mode c
  end.

(** [model or self.DEFAULT_MODEL] *)
Definition provider_model (p : provider_client) (model : option pystr) : pystr :=
  match p with
  | DeepSeekProvider _ => str_or model DeepSeekClient.DEFAULT_MODEL
  | ClaudeProvider _ => str_or model ClaudeClient.DEFAULT_MODEL
  end.

Definition provider_attempt (p : provider_client) (model : option pystr)
           (structured_output : value) : http_outcome -> outcome value :=
  match p with
  | DeepSeekProvider _ => deepseek_attempt (provider_model p model)
  | ClaudeProvider _ => claude_attempt (provider_model p model) structured_output
  end.

Definition provider_generate (p : provider_client)
           (system_prompt user_prompt : pystr) (model : option pystr)
           (max_tokens : Z) (temperature : Q) (structured_output : value)
           (use_cache : bool) : M value :=
  match p with
  | DeepSeekProvider c =>
      DeepSeekClient.generate_response c system_prompt user_prompt model
        max_tokens temperature structured_output use_cache
  | ClaudeProvider c =>
      ClaudeClient.generate_response c system_prompt user_prompt model
        max_tokens temperature structured_output use_cache
  end.

(** The next two requests to [target] fail with a request exception and
    the one after them gives [response_data]. *)
Definition fails_twice_then_answers (attempt : http_outcome -> outcome value)
           (target : endpoint) (w : world) (response_data : value) : Prop :=
  let n := posts w target in
  (exists e, attempt (remote w target n) = Raise e
             /\ is_request_exception e = true)
  /\ (exists e, attempt (remote w target (S n)) = Raise e
                /\ is_request_exception e = true)
  /\ attempt (remote w target (S (S n))) = Return response_data.

(** The call returned [response_data] after three requests to [target]
    and two sleeps, of 2 and of 4 seconds. *)
Definition returns_after_backoff (target : endpoint) (w : world)
           (run : outcome value * world) (response_data : value) : Prop :=
  fst run = Return response_data
  /\ sleeps (events_since w (snd run)) = [2; 4]%Z
  /\ posts_to target (events_since w (snd run)) = 3%nat.

(** A body DeepSeek answers with. *)
Definition hello_body : pystr :=
  lit "{" ++ dq ++ lit "choices" ++ dq ++ lit ": [{" ++ dq ++ lit "message"
  ++ dq ++ lit ": {" ++ dq ++ lit "content" ++ dq ++ lit ": " ++ dq
  ++ lit "hello" ++ dq ++ lit "}}]}".

Definition connection_refused : http_outcome :=
  Fails (Exn ConnectionError (lit "connection refused")).

(** A world with empty cache directories in which the third request to
    DeepSeek is the first that is answered. *)
Definition world_third_time_lucky : world :=
  World 1000 ∅ ∅ (fun _ _ => false)
    (fun t n => match t, n with
                | DeepSeekAPI, 2%nat => Responds (Response 200 (lit "OK") hello_body)
                | _, _ => connection_refused
                end)
    (fun _ => 0%nat) [].

Definition hello_response : value :=
  VDict [(lit "content", VStr (lit "hello"));
         (lit "model", VStr DeepSeekClient.DEFAULT_MODEL);
         (lit "usage", VDict []);
         (lit "stop_reason", VNone)].

(** ** Authentication errors *)

(** The request after [k] more requests to [target] is answered with
    status 401. *)
Definition answers_401 (target : endpoint) (w : world) (k : nat) : Prop :=
  exists r, remote w target (posts w target + k) = Responds r
            /\ status_code r = 401%Z.

(** What [raise_for_status] raises in [DeepSeekClient] for a 401. *)
Definition client_error_401 (r : response) : exn :=
  Exn HTTPError (lit "401 Client Error: " ++ reason r ++ lit " for url: "
                 ++ DeepSeekClient.BASE_URL).

(** What [ClaudeClient] raises inside its loop for a 401. *)
Definition authentication_error : exn :=
  Exn HTTPError
      (lit "Claude API authentication error (401): Invalid API key or authentication failure").

(** What [ClaudeClient] raises after its loop. *)
Definition claude_gave_up : exn :=
  Exn RuntimeError
      (lit "Failed to get response from Claude API after multiple attempts").

(** The call surfaced the authentication error at once: one request, no
    sleep. *)
Definition surfaced_immediately (w : world) (run : outcome value * world)
  : Prop :=
  fst run = Raise authentication_error
  /\ sleeps (events_since w (snd run)) = []
  /\ posts_to ClaudeAPI (events_since w (snd run)) = 1%nat.

(** The call made three requests, slept 2 and 4 seconds in between, and
    raised the error that follows the loop. *)
Definition retried_then_gave_up (w : world) (run : outcome value * world)
  : Prop :=
  fst run = Raise claude_gave_up
  /\ sleeps (events_since w (snd run)) = [2; 4]%Z
  /\ posts_to ClaudeAPI (events_since w (snd run)) = 3%nat.

(** The call of provider [p] was retried: it made three requests to the
    provider's endpoint and slept 2 and 4 seconds in between. *)
Definition retried (p : provider_client) (w : world)
           (run : outcome value * world) : Prop :=
  sleeps (events_since w (snd run)) = [2; 4]%Z
  /\ posts_to (provider_endpoint p) (events_since w (snd run)) = 3%nat.

(** A world in which the key is rejected, every time. *)
Definition world_unauthorized : world :=
  World 1000 ∅ ∅ (fun _ _ => false)
    (fun t n => Responds (Response 401 (lit "Unauthorized")
                                   (lit "{" ++ dq ++ lit "error" ++ dq ++ lit ": {}}")))
    (fun _ => 0%nat) [].

Definition claude_with_bad_key : ClaudeClient.t :=
  ClaudeClient.Client false (lit "bad-key").

(** ** What a computation leaves behind *)

(** Every run of [m] relates the world it starts in to the world it ends
    in by [R], whatever its outcome. *)
Definition frame (R : world -> world -> Prop) {A} (m : M A) : Prop :=
  forall w, R w (snd (m w)).

(** [w'] is [w] with more events in its trace, all of them [allowed]. *)
Definition only (allowed : event -> bool) (w w' : world) : Prop :=
  exists evs, trace w' = trace w ++ evs /\ forallb allowed evs = true.

(** [w'] is [w] after client [c] was entered once, by the first event. *)
Definition entered (c : client) (allowed : event -> bool) (w w' : world)
  : Prop :=
  exists evs, trace w' = trace w ++ EvGenerate c :: evs
              /\ forallb allowed evs = true.

Definition not_generate (e : event) : bool :=
  match e with EvGenerate _ => false | _ => true end.

Definition not_cache_event (e : event) : bool := negb (is_cache_event e).

(** ** Fallback between the providers *)

(** [provider.lower() if provider else self.preferred_provider] *)
Definition requested_provider (self : UnifiedLLMClient.t)
           (provider : option pystr) : pystr :=
  match provider with
  | Some (c :: p) => PyStr.lower (c :: p)
  | _ => UnifiedLLMClient.preferred_provider self
  end.

(** A world in which no request is ever answered. *)
Definition world_offline : world :=
  World 1000 ∅ ∅ (fun _ _ => false) (fun _ _ => connection_refused)
        (fun _ => 0%nat) [].

(** The message the last lines of [UnifiedLLMClient.generate_response]
    build from the two failures. *)
Definition all_providers_failed (deepseek_error claude_error : exn) : exn :=
  Exn RuntimeError
      (lit "All LLM providers failed: "
       ++ PyStr.join (lit "; ")
            [lit "DeepSeek error: " ++ exn_msg deepseek_error;
             lit "Claude error: " ++ exn_msg claude_error]).

(** ** Caching and temperature *)

(** A temperature at or above the threshold of the clients. *)
Definition high_temperature (temperature : Q) : Prop :=
  Qlt_bool temperature float_0_2 = false.

(** ** Conversation contexts *)

(** The context files and what can be written are the same in [w']. *)
Definition same_context (w w' : world) : Prop :=
  context_cache_dir w' = context_cache_dir w
  /\ write_fails w' = write_fails w.

Definition assistant_message (content : value) : value :=
  VDict [(lit "role", VStr (lit "assistant")); (lit "content", content)].

(** From [w] to [w'] the file of conversation [cid] was rewritten, if it
    can be written, to [messages] followed by the reply in
    [response_data], and no other context file was touched. *)
Definition turn_saved (cid : pystr) (messages : value) (w w' : world)
           (response_data : value) : Prop :=
  exists key content messages' t,
    OptimizedDeepSeekClient._get_context_key cid = Return key
    /\ Py.getitem_key response_data (lit "content") = Return content
    /\ Py.append messages (assistant_message content) = Return messages'
    /\ context_cache_dir w'
       = (if write_fails w ContextDir (LLMResponseCache.file_name key)
          then context_cache_dir w
          else <[LLMResponseCache.file_name key := File t (Some messages')]>
                 (context_cache_dir w))
    /\ write_fails w' = write_fails w.

(** What the retry loop of the optimized client leaves in the context
    directory: nothing new when it raises, when it streams and when there
    is no context id; the turn otherwise. *)
Definition after_attempts (stream : bool) (context_id : option pystr)
           (messages : value) (w : world) (run : outcome value * world)
  : Prop :=
  match fst run with
  | Raise _ => same_context w (snd run)
  | Return response_data =>
      match OptimizedDeepSeekClient.has_context context_id with
      | Some cid =>
          if stream then same_context w (snd run)
          else turn_saved cid messages w (snd run) response_data
      | None => same_context w (snd run)
      end
  end.

(** The body of the [try] of the loop of the optimized client. *)
Definition optimized_attempt (self : OptimizedDeepSeekClient.t)
           (system_prompt user_prompt model : pystr) (temperature : Q)
           (use_cache stream : bool) (context_id : option pystr)
           (messages payload : value) : M value :=
  response <- requests_post DeepSeekAPI payload ;;
  lift (raise_for_status OptimizedDeepSeekClient.BASE_URL response) ;;;
  if stream then
    lift (OptimizedDeepSeekClient._handle_streaming_response self response)
  else
    result <- lift (response_json response) ;;
    response_data <- lift (OptimizedDeepSeekClient.response_data_of result model) ;;
    OptimizedDeepSeekClient.track_server_cache result ;;;
    (match OptimizedDeepSeekClient.has_context context_id with
     | Some cid =>
         content <- lift (Py.getitem_key response_data (lit "content")) ;;
         messages' <-
           lift (Py.append messages
                   (VDict [(lit "role", VStr (lit "assistant"));
                           (lit "content", content)])) ;;
         OptimizedDeepSeekClient.save_context self cid messages'
     | None => ret tt
     end) ;;;
    (if cache_eligible use_cache temperature
     then LLMResponseCache.set_advanced llm_cache
            (OptimizedDeepSeekClient.cache_key_for_write
               system_prompt user_prompt model context_id)
            response_data
     else ret tt) ;;;
    ret response_data.

(** The key string of the local cache can be hashed, when the cache is
    used. *)
Definition cache_key_hashable (system_prompt user_prompt model : pystr)
           (temperature : Q) (use_cache : bool) (context_id : option pystr)
  : Prop :=
  cache_eligible use_cache temperature = true ->
  exists key,
    LLMResponseCache.get_advanced_cache_key
      (OptimizedDeepSeekClient.cache_key_of system_prompt user_prompt model
                                            context_id)
    = Return key.

(** What [load_context] returns in [w] for the file [name]. *)
Definition stored_messages (w : world) (name : pystr) : value :=
  match context_cache_dir w !! name with
  | Some f => default (VList []) (content f)
  | None => VList []
  end.

(** The messages a turn starts from: the stored ones, or the system
    message when there are none. *)
Definition turn_base (system_prompt : pystr) (stored : value) : value :=
  if negb (truthy stored)
  then VList [message (lit "system") system_prompt]
  else stored.
(** The local response cache has no answer for the request: it is not
    consulted, or what it gives is not truthy. *)
Definition no_local_answer (w : world) (system_prompt user_prompt model : pystr)
           (temperature : Q) (use_cache : bool) (context_id : option pystr)
  : Prop :=
  cache_eligible use_cache temperature = true ->
  forall v,
    fst (LLMResponseCache.get_advanced llm_cache
           (OptimizedDeepSeekClient.cache_key_of system_prompt user_prompt
                                                 model context_id) w)
    = Return v ->
    truthy v = false.

(** The context file after a turn that returned [response_data]: the
    messages the turn started from, the user message and the reply. *)
Definition turn_persisted (system_prompt user_prompt cid : pystr)
           (w w' : world) (response_data : value) : Prop :=
  exists key items content t,
    OptimizedDeepSeekClient._get_context_key cid = Return key
    /\ turn_base system_prompt
                 (stored_messages w (LLMResponseCache.file_name key))
       = VList items
    /\ Py.getitem_key response_data (lit "content") = Return content
    /\ context_cache_dir w'
       = (if write_fails w ContextDir (LLMResponseCache.file_name key)
          then context_cache_dir w
          else <[LLMResponseCache.file_name key :=
                   File t (Some (VList (items
                                        ++ [message (lit "user") user_prompt;
                                            assistant_message content])))]>
                 (context_cache_dir w)).

(** What a call with a context id leaves in the context directory. *)
Definition context_after_call (self : OptimizedDeepSeekClient.t)
           (system_prompt user_prompt model cid : pystr) (temperature : Q)
           (use_cache stream : bool) (w : world)
           (run : outcome value * world) : Prop :=
  (* a failed turn *)
  (forall e, fst run = Raise e ->
             context_cache_dir (snd run) = context_cache_dir w)
  (* a streamed turn *)
  /\ (stream = true -> context_cache_dir (snd run) = context_cache_dir w)
  (* a mocked turn *)
  /\ (OptimizedDeepSeekClient.debug_mode self = true ->
      context_cache_dir (snd run) = context_cache_dir w)
  (* a turn answered by the API *)
  /\ (stream = false ->
      OptimizedDeepSeekClient.debug_mode self = false ->
      no_local_answer w system_prompt user_prompt model temperature use_cache
                      (Some cid) ->
      forall response_data,
        fst run = Return response_data ->
        turn_persisted system_prompt user_prompt cid w (snd run) response_data).
(** What is persisted for a conversation: the content of its file. *)
Definition persisted (w : world) (name : pystr) : option value :=
  f ← context_cache_dir w !! name; content f.

(** The context file of the conversation was extended by the turn: it
    holds the messages stored before, the user message and the reply. *)
Definition context_extended_by_turn (user_prompt name : pystr)
           (w w' : world) (response_data : value) : Prop :=
  exists items content,
    stored_messages w name = VList items
    /\ Py.getitem_key response_data (lit "content") = Return content
    /\ persisted w' name
       = Some (VList (items ++ [message (lit "user") user_prompt;
                                assistant_message content])).

(** A world with empty directories in which DeepSeek answers every
    request with [body]. *)
Definition world_answering (body : pystr) : world :=
  World 1000 ∅ ∅ (fun _ _ => false)
        (fun _ _ => Responds (Response 200 (lit "OK") body))
        (fun _ => 0%nat) [].

(** A streamed answer: one chunk and the end marker. *)
Definition hello_stream : pystr :=
  lit "data: {" ++ dq ++ lit "choices" ++ dq ++ lit ": [{" ++ dq ++ lit "delta"
  ++ dq ++ lit ": {" ++ dq ++ lit "content" ++ dq ++ lit ": " ++ dq
  ++ lit "hello" ++ dq ++ lit "}}]}" ++ [10; 10] ++ lit "data: [DONE]" ++ [10].

Definition the_optimized_client : OptimizedDeepSeekClient.t :=
  OptimizedDeepSeekClient.Client false (lit "sk-deepseek").

(** The file of the conversation "conv". *)
Definition conv_file : pystr :=
  match OptimizedDeepSeekClient._get_context_key (lit "conv") with
  | Return key => LLMResponseCache.file_name key
  | Raise _ => []
  end.

(** A first turn of the conversation "conv". *)
Definition first_turn (stream : bool) (w : world) : outcome value * world :=
  OptimizedDeepSeekClient.generate_response the_optimized_client
    (lit "sys") (lit "usr") None 100 (7 # 10) VNone true stream
    (Some (lit "conv")) None w.
(** * Further properties of the code *)

(** ** The response cache *)

(** The file a stored response lives in. *)
Definition entry_of (key : pystr) (w : world) : option file :=
  cache_dir w !! LLMResponseCache.file_name key.

(** The key string of [get] and [set]. *)
Definition prompt_key (system_prompt user_prompt model : pystr) : pystr :=
  system_prompt ++ lit "|" ++ user_prompt ++ lit "|" ++ model.
(** ** The provider clients *)

Definition provider_tag (p : provider_client) : client :=
  match p with
  | DeepSeekProvider _ => TheDeepSeekClient
  | ClaudeProvider _ => TheClaudeClient
  end.

(** The cache holds, under [key], a readable entry with payload [v] that
    has not expired. *)
Definition fresh_entry (w : world) (key : pystr) (v : value) : Prop :=
  exists f, entry_of key w = Some f
            /\ content f = Some v
            /\ ~ stale llm_cache w f.

(** The sleeps of a retry loop that is left with [remaining] iterations at
    [attempt], the delay being [retry_delay]: the loops sleep before the
    next iteration while [attempt < max_retries - 1], doubling the delay. *)
Fixpoint backoff (remaining : nat) (attempt retry_delay : Z) : list Z :=
  match remaining with
  | O => []
  | S remaining' =>
      if (attempt <? max_retries - 1)%Z
      then retry_delay :: backoff remaining' (attempt + 1) (retry_delay * 2)
      else []
  end.

(** An event that is neither a request nor a sleep. *)
Definition quiet (e : event) : bool :=
  match e with
  | EvPost _ _ | EvSleep _ => false
  | _ => true
  end.

(** What a call may add to the trace: at most [n] requests, all of them to
    [target], and sleeps that are the first delays of [delays]. *)
Definition bounded_by (target : endpoint) (n : nat) (delays : list Z)
           (evs : list event) : Prop :=
  (posts_to target evs <= n)%nat
  /\ (forall t, t <> target -> posts_to t evs = 0%nat)
  /\ sleeps evs `prefix_of` delays.

(** ** The unified client *)

(** The provider is available to [self] and [p] is its client. *)
Definition configured (self : UnifiedLLMClient.t) (p : provider_client) : Prop :=
  match p with
  | DeepSeekProvider d =>
      UnifiedLLMClient.has_deepseek self = true
      /\ UnifiedLLMClient.deepseek_client self = Some d
  | ClaudeProvider c =>
      UnifiedLLMClient.has_claude self = true
      /\ UnifiedLLMClient.claude_client self = Some c
  end.

Definition provider_name (p : provider_client) : pystr :=
  match p with
  | DeepSeekProvider _ => lit "deepseek"
  | ClaudeProvider _ => lit "claude"
  end.

(** The errors [UnifiedLLMClient.generate_response] raises itself. *)
Definition no_fallback_available (e : exn) : exn :=
  Exn RuntimeError
      (lit "DeepSeek API failed and no fallback available: " ++ exn_msg e).

Definition only_claude_failed (e : exn) : exn :=
  Exn RuntimeError
      (lit "All LLM providers failed: Claude error: " ++ exn_msg e).

Definition no_providers_available : exn :=
  Exn RuntimeError (lit "All LLM providers failed: No LLM providers available").

Definition connection_refused_error : exn :=
  Exn ConnectionError (lit "connection refused").

(** ** Streamed calls *)

Definition is_cache_write (e : event) : bool :=
  match e with EvCacheWrite _ _ => true | _ => false end.

(** From [w] to [w'] no file was written: the context files are the same,
    every cache file of [w'] is a file of [w], and no write of the cache
    was attempted. *)
Definition wrote_nothing (w w' : world) : Prop :=
  context_cache_dir w' = context_cache_dir w
  /\ cache_dir w' ⊆ cache_dir w
  /\ exists evs, trace w' = trace w ++ evs
                 /\ forallb (fun e => negb (is_cache_write e)) evs = true.

(** ** cache.py: clearing the cache *)

Module CacheFiles.

(** [self.cache_dir.glob('*.json')]: the files of the directory whose name
    ends in [.json]. *)
Definition matches_json (name : pystr) : bool :=
  PyStr.startswith (rev (lit ".json")) (rev name).

(** The test of the loop of [clear] on one file. *)
Definition to_clear (max_age_seconds : option Z) (current_time : Q)
           (entry : pystr * file) : bool :=
  matches_json (fst entry)
  && match max_age_seconds with
     | None => true
     | Some age => Qlt_bool (inject_Z age) (current_time - st_mtime (snd entry))
     end.

(** [LLMResponseCache.clear]: the files removed are counted. *)
Definition clear (self : LLMResponseCache.t) (max_age_seconds : option Z)
  : M Z :=
  fun w =>
    let current_time := now w in
    let removed :=
      filter (fun entry => to_clear max_age_seconds current_time entry = true)
             (cache_dir w) in
    let kept :=
      filter (fun entry => to_clear max_age_seconds current_time entry <> true)
             (cache_dir w) in
    (Return (Z.of_nat (size removed)), set_dir CacheDir kept w).

End CacheFiles.

(** ** llm_manager.py: the status of the providers *)

Module ProviderStatus.

Definition status (state message : pystr) : value :=
  VDict [(lit "status", VStr state); (lit "message", VStr message)].

Definition check_claude_balance (self : LLMManager.t) : M value :=
  if negb (LLMManager.has_claude self) then
    ret (status (lit "inactive") (lit "Claude API key not configured"))
  else
    try_except
      ((* a minimal API call to check if it's working *)
       response <- ClaudeClient.generate_response
                     (LLMManager.claude_client self)
                     (lit "You are a helpful assistant.") (lit "Hi") None 1 0
                     VNone true ;;
       ret (status (lit "active")
                   (lit "Claude API is available and responding")))
      UnifiedLLMClient.any_exception
      (fun e =>
         ret (status (lit "error") (lit "Claude API error: " ++ exn_msg e))).

Definition check_deepseek_balance (self : LLMManager.t) : M value :=
  if negb (LLMManager.has_deepseek self) then
    ret (status (lit "inactive") (lit "DeepSeek API key not configured"))
  else
    try_except
      (response <-
         (if LLMManager.use_optimized_deepseek self then
            OptimizedDeepSeekClient.generate_response
              (LLMManager.optimized_deepseek_client self)
              (lit "You are a helpful assistant.") (lit "Hi") None 1 0 VNone
              true false None None
          else
            DeepSeekClient.generate_response
              (LLMManager.deepseek_client self)
              (lit "You are a helpful assistant.") (lit "Hi") None 1 0 VNone
              true) ;;
       ret (status (lit "active")
                   (lit "DeepSeek API is available and responding")))
      UnifiedLLMClient.any_exception
      (fun e =>
         ret (status (lit "error") (lit "DeepSeek API error: " ++ exn_msg e))).

Definition get_provider_status (self : LLMManager.t) : M value :=
  let providers : Dict.t := [] in
  providers <-
    (if LLMManager.has_claude self then
       r <- check_claude_balance self ;;
       ret (Dict.set (lit "claude") r providers)
     else ret providers) ;;
  providers <-
    (if LLMManager.has_deepseek self then
       r <- check_deepseek_balance self ;;
       ret (Dict.set (lit "deepseek") r providers)
     else ret providers) ;;
  ret (VDict [(lit "default_provider", VStr (LLMManager.default_provider self));
              (lit "providers", VDict providers)]).

End ProviderStatus.

(** The key of the request the status checks send. *)
Definition health_check_key (model : pystr) : outcome pystr :=
  LLMResponseCache.get_cache_key (lit "You are a helpful assistant.")
                                 (lit "Hi") model.

Definition active (provider : string) : value :=
  ProviderStatus.status (lit "active")
    (lit provider ++ lit " API is available and responding").

(** ** The persona extracted from a text *)

(** The persona with the given fields. *)
Definition persona (demographics traveler_types primary secondary
                    key_selling_points stand_out_amenities : list pystr)
           (overall_vibe : pystr) (descriptors : list pystr)
           (property_class : pystr) (comparable_to : list pystr) : Dict.t :=
  [(lit "ideal_guests",
    VDict [(lit "demographics", strs demographics);
           (lit "traveler_types", strs traveler_types)]);
   (lit "use_cases",
    VDict [(lit "primary", strs primary); (lit "secondary", strs secondary)]);
   (lit "unique_attributes",
    VDict [(lit "key_selling_points", strs key_selling_points);
           (lit "stand_out_amenities", strs stand_out_amenities)]);
   (lit "atmosphere",
    VDict [(lit "overall_vibe", VStr overall_vibe);
           (lit "descriptors", strs descriptors)]);
   (lit "market_position",
    VDict [(lit "property_class", VStr property_class);
           (lit "comparable_to", strs comparable_to)])].

Definition is_persona (result : Dict.t) : Prop :=
  exists demographics traveler_types primary secondary key_selling_points
         stand_out_amenities overall_vibe descriptors property_class
         comparable_to,
    result = persona demographics traveler_types primary secondary
                     key_selling_points stand_out_amenities overall_vibe
                     descriptors property_class comparable_to.

(** ** Prompts that cannot be encoded *)

(** The error of [str.encode] on a lone surrogate. *)
Definition surrogates_not_allowed : exn :=
  Exn UnicodeEncodeError
      (lit "'utf-8' codec can't encode character: surrogates not allowed").

(** ** Debug mode *)

(** Nothing but the trace differs between [w] and [w']: no request was
    made, no file written or removed, no time spent. *)
Definition untouched (w w' : world) : Prop :=
  posts w' = posts w
  /\ cache_dir w' = cache_dir w
  /\ context_cache_dir w' = context_cache_dir w
  /\ now w' = now w.

(** Every client the manager can reach is in debug mode. *)
Definition all_in_debug_mode (self : LLMManager.t) : Prop :=
  OptimizedDeepSeekClient.debug_mode (LLMManager.optimized_deepseek_client self)
  = true
  /\ (forall d,
        UnifiedLLMClient.deepseek_client (LLMManager.unified_client self) = Some d ->
        DeepSeekClient.debug_mode d = true)
  /\ (forall c,
        UnifiedLLMClient.claude_client (LLMManager.unified_client self) = Some c ->
        ClaudeClient.debug_mode c = true).

(** A manager whose clients were all built in debug mode, without keys. *)
Definition debug_settings : settings :=
  Settings (Some true) None None None None None.

Definition debug_manager : LLMManager.t :=
  LLMManager.init debug_settings
    (DeepSeekClient.Client true [])
    (ClaudeClient.Client true [])
    (OptimizedDeepSeekClient.Client true [])
    (UnifiedLLMClient.Client true (lit "deepseek")
       (Some (DeepSeekClient.Client true [])) true
       (Some (ClaudeClient.Client true [])) true).

(** ** The statistics of the server cache *)

Definition server_cache_stats (hit miss : Z) (savings : Q) (requests : Z)
  : value :=
  VDict [(lit "total_hit_tokens", VInt hit);
         (lit "total_miss_tokens", VInt miss);
         (lit "estimated_savings", VFloat savings);
         (lit "total_requests", VInt requests)].

(** The metadata file of [w] records these totals. *)
Definition records (w : world) (hit miss requests : Z) : Prop :=
  exists f d savings,
    cache_dir w !! metadata_file = Some f
    /\ content f = Some (VDict d)
    /\ Dict.get (lit "server_cache_stats") d
       = Some (server_cache_stats hit miss savings requests).

(** The totals before a call: those of the file, zero without a file. *)
Definition totals_before (w : world) (hit miss requests : Z) : Prop :=
  records w hit miss requests
  \/ (cache_dir w !! metadata_file = None
      /\ hit = 0%Z /\ miss = 0%Z /\ requests = 0%Z).

(** ** llm_client.py: [generate_property_summary], reading one response

    The parsing of one attempt, from [content = response["content"]] to
    the [return result] statements: direct parsing, parsing after
    [fix_json_format], extraction by patterns from the fixed text. *)

(** [sep.join(v)] for a decoded JSON value: the items of a list, which
    must be strings, the characters of a string, the keys of an object. *)
Fixpoint join_items (l : list value) (i : Z) : outcome (list pystr) :=
  match l with
  | [] => Return []
  | VStr s :: rest =>
      items <~ join_items rest (i + 1)%Z ;;
      Return (s :: items)
  | v :: _ =>
      Raise (Exn TypeError
                 (lit "sequence item " ++ PyStr.of_Z i
                  ++ lit ": expected str instance, " ++ Py.type_name v
                  ++ lit " found"))
  end.

Definition join_value (sep : pystr) (v : value) : outcome pystr :=
  match v with
  | VList l =>
      items <~ join_items l 0 ;;
      Return (PyStr.join sep items)
  | VStr s => Return (PyStr.join sep (map (fun c => [c]) s))
  | VDict d => Return (PyStr.join sep (map fst d))
  | _ => Raise (Exn TypeError (lit "can only join an iterable"))
  end.

Definition default_highlights (property_obj : Property.t) : value :=
  strs [PyStr.of_Z (Property.bedroom_count property_obj) ++ lit " bedroom "
          ++ Property.property_type property_obj;
        lit "Located in " ++ Property.city property_obj;
        lit "Modern amenities and comfort"].

Definition default_summary (property_obj : Property.t) : pystr :=
  lit "A " ++ Property.property_type property_obj ++ lit " in "
      ++ Property.city property_obj ++ lit " with "
      ++ PyStr.of_Z (Property.bedroom_count property_obj) ++ lit " bedrooms.".

(** "Ensure both required fields are present", then the origin. *)
Definition ensure_fields (property_obj : Property.t) (result : value)
           (origin : string) : outcome value :=
  has_summary <~ Py.contains_str (lit "summary") result ;;
  result <~
    (if negb has_summary then
       has_highlights <~ Py.contains_str (lit "highlights") result ;;
       if has_highlights then
         (* Create a summary from the highlights *)
         highlights <~ Py.getitem_key result (lit "highlights") ;;
         highlights_text <~ join_value (lit ", ") highlights ;;
         Py.setitem_key result (lit "summary")
           (VStr (lit "A " ++ Property.property_type property_obj ++ lit " in "
                  ++ Property.city property_obj ++ lit " featuring "
                  ++ highlights_text ++ lit "."))
       else Return result
     else Return result) ;;
  has_highlights <~ Py.contains_str (lit "highlights") result ;;
  result <~
    (if negb has_highlights then
       (* Create default highlights *)
       Py.setitem_key result (lit "highlights") (default_highlights property_obj)
     else Return result) ;;
  Py.setitem_key result (lit "created_by") (VStr (lit origin)).

(** The patterns of the third level: the summary between quotes (group
    1), the highlights between brackets (group 1), a non-empty quoted
    item (group 1). *)
Definition summary_field : Re.regex :=
  Re.Cat [Re.Char DQ; Re.Lit (lit "summary"); Re.Char DQ;
          Re.Star true Re.space; Re.Char (ch ":"); Re.Star true Re.space;
          Re.Char DQ; Re.Group 1 (Re.Plus (Re.none_of [DQ])); Re.Char DQ].

Definition highlights_field : Re.regex :=
  Re.Cat [Re.Char DQ; Re.Lit (lit "highlights"); Re.Char DQ;
          Re.Star true Re.space; Re.Char (ch ":"); Re.Star true Re.space;
          Re.Char (ch "["); Re.Group 1 (Re.Star false Re.any);
          Re.Char (ch "]")].

Definition quoted_nonempty : Re.regex :=
  Re.Cat [Re.Char DQ; Re.Group 1 (Re.Plus (Re.none_of [DQ])); Re.Char DQ].

Definition extract_summary (property_obj : Property.t) (fixed_content : pystr)
  : value :=
  let result : Dict.t := [] in
  let result :=
    match Re.search summary_field fixed_content with
    | Some m => Dict.set (lit "summary") (VStr (default [] (Re.group m 1))) result
    | None =>
        Dict.set (lit "summary") (VStr (default_summary property_obj)) result
    end in
  let result :=
    match Re.search highlights_field fixed_content with
    | Some m =>
        let highlights_text := default [] (Re.group m 1) in
        let highlights := Re.findall1 quoted_nonempty highlights_text in
        match highlights with
        | _ :: _ => Dict.set (lit "highlights") (strs highlights) result
        | [] =>
            Dict.set (lit "highlights") (default_highlights property_obj) result
        end
    | None =>
        Dict.set (lit "highlights") (default_highlights property_obj) result
    end in
  VDict (Dict.set (lit "created_by") (VStr (lit "regex-extraction")) result).

Definition summary_of_content (property_obj : Property.t) (content : pystr)
  : outcome value :=
  match Json.loads content with
  | Json.Loaded result =>
      (* Level 1: Direct parsing *)
      ensure_fields property_obj result "claude"
  | Json.DepthExceeded =>
      Raise (Exn RecursionError
                 (lit "maximum recursion depth exceeded while decoding a JSON document"))
  | Json.JSONDecodeError _ _ =>
      (* Level 2: Try with basic JSON fixes *)
      fixed_content <~ fix_json_format content ;;
      match Json.loads fixed_content with
      | Json.Loaded result => ensure_fields property_obj result "claude-fixed"
      | Json.DepthExceeded =>
          Raise (Exn RecursionError
                     (lit "maximum recursion depth exceeded while decoding a JSON document"))
      | Json.JSONDecodeError _ _ =>
          (* Level 3: Regex-based extraction for complex failures *)
          Return (extract_summary property_obj fixed_content)
      end
  end.
(** ** The repair pipeline *)

(** A name does not stand where a character it does not hold comes first. *)
Lemma startswith_stop (key b s : pystr) (c : N) :
  PyStr.startswith key b = false ->
  existsb (N.eqb c) key = false ->
  PyStr.startswith key (b ++ c :: s) = false.
Proof.
  revert b. induction key as [|a key IH]; intros b Hb Hc; [discriminate Hb|].
  cbn [existsb] in Hc. apply orb_false_iff in Hc as [Hca Hc].
  destruct b as [|x b]; cbn [app PyStr.startswith] in *.
  - rewrite N.eqb_sym, Hca. reflexivity.
  - destruct (a =? x); [|reflexivity]. cbn [andb] in *. apply IH; assumption.
Qed.

(** A text that does not contain a name does not start with it, and its
    tail does not contain it. *)
Lemma contains_false (key s : pystr) :
  PyStr.contains key s = false ->
  PyStr.startswith key s = false /\ PyStr.contains key (tail s) = false.
Proof.
  destruct s as [|c s]; cbn [PyStr.contains tail]; intros H;
    apply orb_false_iff in H as [H1 H2]; split; auto.
  cbn. rewrite H1. reflexivity.
Qed.

(** The pattern of a literal fails where the literal does not stand. *)
Lemma rmatch_lit_fails {R} (key s : pystr) (g : gmap nat pystr)
      (k : pystr -> gmap nat pystr -> option R) :
  PyStr.startswith key s = false -> Re.rmatch (Re.Lit key) s g k = None.
Proof.
  revert s k. induction key as [|a key IH]; intros s k H; [discriminate H|].
  cbn [Re.Lit Re.rmatch Re.Char]. destruct s as [|c s]; [reflexivity|].
  cbn [PyStr.startswith] in H. destruct (a =? c); [|reflexivity].
  apply IH. exact H.
Qed.

(** A pattern that starts with an optional quote and a name does not match
    where the name does not stand, with or without a quote before it. *)
Lemma field_not_here (key s : pystr) (r : Re.regex) :
  PyStr.startswith key s = false ->
  PyStr.startswith key (tail s) = false ->
  Re.match_at (Re.Seq (Re.Opt (Re.Char DQ)) (Re.Seq (Re.Lit key) r)) s = None.
Proof.
  intros H1 H2. unfold Re.match_at, Re.Opt.
  cbn [Re.rmatch Re.Char]. rewrite (rmatch_lit_fails key s) by exact H1.
  destruct s as [|c s]; [reflexivity|].
  destruct (DQ =? c); [|reflexivity].
  cbn [tail] in H2. rewrite (rmatch_lit_fails key s) by exact H2. reflexivity.
Qed.

(** The search of such a pattern finds nothing in a text that does not
    contain the name. *)
Lemma search_from_absent (key s : pystr) (r : Re.regex) (i : nat) :
  PyStr.contains key s = false ->
  Re.search_from (Re.Seq (Re.Opt (Re.Char DQ)) (Re.Seq (Re.Lit key) r)) i s
  = None.
Proof.
  revert i. induction s as [|c s IH]; intros i H.
  - destruct (contains_false _ _ H) as [H1 H2].
    cbn [Re.search_from]. rewrite field_not_here by assumption. reflexivity.
  - destruct (contains_false _ _ H) as [H1 H2].
    destruct (contains_false _ _ H2) as [H3 _].
    cbn [Re.search_from]. rewrite field_not_here by assumption.
    apply IH. exact H2.
Qed.

Lemma array_field_absent (key : string) (content : pystr) :
  PyStr.contains (lit key) content = false ->
  Re.search (array_field key) content = None.
Proof. apply search_from_absent. Qed.

Lemma string_field_absent (key : string) (content : pystr) :
  PyStr.contains (lit key) content = false ->
  Re.search (string_field key) content = None.
Proof. apply search_from_absent. Qed.

(** The search passes over a text that does not contain the name and
    that a quote follows. *)
Lemma search_from_skips (key before s : pystr) (r : Re.regex) (i : nat) :
  PyStr.contains key before = false ->
  existsb (N.eqb DQ) key = false ->
  Re.search_from (Re.Seq (Re.Opt (Re.Char DQ)) (Re.Seq (Re.Lit key) r)) i
    (before ++ DQ :: s)
  = Re.search_from (Re.Seq (Re.Opt (Re.Char DQ)) (Re.Seq (Re.Lit key) r))
      (i + length before) (DQ :: s).
Proof.
  intros H Hq. revert i H.
  induction before as [|c b IH]; intros i H.
  - cbn [app length]. rewrite Nat.add_0_r. reflexivity.
  - destruct (contains_false _ _ H) as [H1 H2]. cbn [tail] in H2.
    destruct (contains_false _ _ H2) as [H3 _].
    cbn [app Re.search_from]. rewrite field_not_here.
    + rewrite IH by exact H2. cbn [length].
      replace (i + S (length b))%nat with (S i + length b)%nat by lia.
      reflexivity.
    + exact (startswith_stop key (c :: b) s DQ H1 Hq).
    + cbn [tail]. exact (startswith_stop key b s DQ H3 Hq).
Qed.

Lemma consumed_app (pre s : pystr) : Re.consumed (pre ++ s) s = pre.
Proof.
  unfold Re.consumed. rewrite length_app.
  replace (length pre + length s - length s)%nat with (length pre) by lia.
  apply take_app_length.
Qed.

(** The pattern on the field: the lazy group stops at the first closing
    bracket. *)
Lemma demographics_matches (after : pystr) :
  Re.match_at (array_field "demographics") (demographics_field ++ after)
  = Some (after, <[1%nat := items_text]> ∅).
Proof.
  cbv - [Re.consumed insert empty items_text].
  change (34 :: 65 :: 34 :: 44 :: 34 :: 66 :: 34 :: 93 :: after)
    with ([34; 65; 34; 44; 34; 66; 34] ++ 93 :: after).
  rewrite consumed_app. reflexivity.
Qed.

Lemma search_demographics (before after : pystr) :
  PyStr.contains (lit "demographics") before = false ->
  exists text,
    Re.search (array_field "demographics")
              (before ++ demographics_field ++ after)
    = Some (Re.MkMatch (length before) text (<[1%nat := items_text]> ∅)).
Proof.
  intros H. unfold Re.search.
  pose proof (demographics_matches after) as Hm.
  change (demographics_field ++ after)
    with (DQ :: (lit "demographics" ++ dq ++ lit ": [" ++ items_text ++ lit "]")
             ++ after) in *.
  change (array_field "demographics")
    with (Re.Seq (Re.Opt (Re.Char DQ))
            (Re.Seq (Re.Lit (lit "demographics"))
               (Re.Cat [Re.Opt (Re.Char DQ);
                        Re.Star true Re.space; Re.Char (ch ":");
                        Re.Star true Re.space; Re.Char (ch "[");
                        Re.Group 1 (Re.Star false Re.any);
                        Re.Char (ch "]")]))) in *.
  rewrite search_from_skips by (exact H || reflexivity).
  cbn [Re.search_from]. rewrite Hm. cbn [Nat.add]. eexists. reflexivity.
Qed.

(** The extraction on a text that holds the demographics field, with no
    earlier occurrence of the word and no other field name. *)
Lemma extraction_of_demographics (content : pystr) :
  holds_only_demographics content ->
  reconstruct_json_from_claude content = persona_with_demographics.
Proof.
  intros (before & after & -> & Hb & Ho).
  destruct (search_demographics before after Hb) as (text & Hs).
  unfold other_fields in Ho.
  repeat match goal with
         | H : Forall _ (_ :: _) |- _ =>
             apply Forall_cons in H; destruct H as [? H]
         end.
  cbv beta in *.
  unfold reconstruct_json_from_claude, extract_array, extract_string.
  cbv zeta.
  rewrite Hs.
  rewrite !array_field_absent by assumption.
  rewrite !string_field_absent by assumption.
  vm_compute. reflexivity.
Qed.

(** C9, as the specification has it, fails: the extraction takes the
    leftmost match of the pattern of a field, and the quotes around the name
    are optional in the pattern.  A prose that holds the demographics field
    after an earlier mention of the word gets the demographics of the
    earlier mention. *)
Lemma extraction_takes_the_leftmost_field :
  (exists before after,
      prose_with_earlier_mention = before ++ demographics_field ++ after)
  /\ reconstruct_json_from_claude prose_with_earlier_mention
     = VDict (persona [lit "young couples"] [] [] [] [] [] (lit "comfortable")
                      [] (lit "mid-range") [])
  /\ reconstruct_json_from_claude prose_with_earlier_mention
     <> persona_with_demographics.
Proof.
  split; [|split].
  - eexists. eexists. reflexivity.
  - vm_compute. reflexivity.
  - vm_compute. discriminate.
Qed.

(** C9, amended.  The text with the unquoted key is repaired by the
    property-name quoting level (the basic fixes leave it unparsable, the
    regex fixes make it parse) into a text that [json.loads] reads as the
    object with a = 1 and b = "x"; and the field-specific extraction, given
    any text that holds the demographics field, in which the word
    demographics does not occur before the field and in which the name of
    no other field occurs, returns the persona whose demographics are A and
    B, every other array empty and the two strings at their placeholders
    "comfortable" and "mid-range". *)
Theorem repair_pipeline_levels :
  fix_json_format_staged unquoted_key_text = Return (quoted_key_text, RegexFixes)
  /\ fix_json_format unquoted_key_text = Return quoted_key_text
  /\ Json.loads quoted_key_text
     = Json.Loaded (VDict [(lit "a", VInt 1); (lit "b", VStr (lit "x"))])
  /\ (forall content : pystr,
        holds_only_demographics content ->
        reconstruct_json_from_claude content = persona_with_demographics).
Proof.
  split; [vm_compute; reflexivity|].
  split; [vm_compute; reflexivity|].
  split; [vm_compute; reflexivity|].
  exact extraction_of_demographics.
Qed.

Lemma repair_pipeline_levels_witness :
  holds_only_demographics prose_with_demographics
  /\ reconstruct_json_from_claude prose_with_demographics
     = persona_with_demographics.
Proof.
  assert (H : holds_only_demographics prose_with_demographics).
  { exists (lit "Here is what I found. The guests are ").
    exists (lit " and that is all I can say" ++ [10]
              ++ lit "about this listing.").
    split; [reflexivity|]. split; [vm_compute; reflexivity|].
    unfold other_fields.
    repeat (apply List.Forall_cons; [vm_compute; reflexivity|]).
    apply List.Forall_nil. }
  split; [exact H|].
  exact (proj2 (proj2 (proj2 repair_pipeline_levels)) prose_with_demographics H).
Defined.

(** The prose in which a bare name and a colon follow a comma holds the
    field in the same way; on it the extraction is also what the parsing of
    [generate_property_persona] returns, from its third level. *)
Lemma persona_of_prose_with_pair :
  holds_only_demographics prose_with_pair
  /\ reconstruct_json_from_claude prose_with_pair = persona_with_demographics
  /\ persona_of_content prose_with_pair
     = Return (tagged persona_with_demographics "regex-extraction").
Proof.
  split; [|split; vm_compute; reflexivity].
  exists (lit "Guests, mostly: families. The guests are ").
  exists (lit " and that is all.").
  split; [reflexivity|]. split; [vm_compute; reflexivity|].
  unfold other_fields.
  repeat (apply List.Forall_cons; [vm_compute; reflexivity|]).
  apply List.Forall_nil.
Qed.

(** What the basic fixes alone leave: the decoder stops at the bare key. *)
Lemma unquoted_key_needs_regex :
  Json.loads unquoted_key_text
  = Json.JSONDecodeError expecting_property_name 9.
Proof. vm_compute. reflexivity. Qed.

(** Inside [generate_property_persona] the text with the unquoted key is
    read at the second level, after [fix_json_format]. *)
Lemma persona_of_unquoted_key :
  persona_of_content unquoted_key_text
  = Return (tagged (VDict [(lit "a", VInt 1); (lit "b", VStr (lit "x"))])
                   "claude-fixed").
Proof. vm_compute. reflexivity. Qed.

(** The extraction is the third level of [generate_property_persona]: it
    is reached when the text [fix_json_format] returns does not parse, as
    for the prose with a bare pair, which goes through to the last resort
    of [fix_json_format]. *)
Lemma fix_json_format_prose_with_pair :
  match fix_json_format_staged prose_with_pair with
  | Return (text, stage) =>
      stage = LastResort
      /\ Json.loads text
         = Json.JSONDecodeError (lit "Expecting ':' delimiter") 11
  | Raise _ => False
  end.
Proof. vm_compute. split; reflexivity. Qed.

(** On a prose in which the pair pattern of [fix_json_format] matches
    nothing, the reconstruction is the empty object, which parses: there
    [generate_property_persona] stops at the second level and the
    extraction is not called. *)
Lemma persona_of_prose_without_pair :
  fix_json_format_staged prose_with_demographics
  = Return (lit "{" ++ [10; 10] ++ lit "}", Reconstruction)
  /\ persona_of_content prose_with_demographics
     = Return (tagged (VDict []) "claude-fixed").
Proof. split; vm_compute; reflexivity. Qed.

(** The class of reviews/models.py has six rating fields, none of them
    named [rating]. *)
Lemma review_has_no_rating (r : Review.t) :
  Review.getattr r "rating" = Raise rating_missing.
Proof. reflexivity. Qed.

Lemma review_has_overall_rating (r : Review.t) :
  Review.getattr r "overall_rating" = Return (AInt (Review.overall_rating r)).
Proof. reflexivity. Qed.

Lemma review_entry_raises (r : Review.t) :
  review_entry r = Raise rating_missing.
Proof. reflexivity. Qed.

Lemma format_property_data_reviewed (table : list Review.t) (p : Property.t) :
  reviews_of table p <> [] ->
  format_property_data table p = Raise rating_missing.
Proof.
  intros Hne. unfold format_property_data.
  destruct (reviews_of table p) as [|r rs]; [congruence|].
  reflexivity.
Qed.

Lemma format_property_data_unreviewed (table : list Review.t) (p : Property.t) :
  reviews_of table p = [] ->
  exists d, format_property_data table p = Return (VDict d)
            /\ Dict.get (lit "reviews") d = Some (VList [])
            /\ Dict.get (lit "review_count") d = Some (VInt 0)
            /\ Dict.get (lit "average_rating") d = Some VNone.
Proof.
  intros He. unfold format_property_data. rewrite He. cbn [review_entries obind average_rating length].
  eexists. split; [reflexivity|].
  repeat split; vm_compute; reflexivity.
Qed.

(** The display with the key named twice is the dict with one rating, the
    second one. *)
Lemma entry_display_once (r1 r2 : Q) (c : value) (d : pystr) :
  entry_display r1 r2 c d
  = VDict [(lit "rating", VFloat r2); (lit "comment", c); (lit "date", VStr d)].
Proof. vm_compute. reflexivity. Qed.

Lemma sum_ratings_total (entries : list (Q * value * pystr)) :
  forall (acc : value) (n : Z + Q),
    Py.number acc = Some n ->
    exists acc' n',
      sum_ratings (map (fun e => entry_display e.1.1 e.1.1 e.1.2 e.2) entries) acc
      = Return acc'
      /\ Py.number acc' = Some n'
      /\ (number_value n' == number_value n + total (map (fun e => e.1.1) entries))%Q.
Proof.
  induction entries as [|[[r c] d] rest IH]; intros acc n Hn.
  - exists acc, n. cbn [map sum_ratings total fold_right].
    repeat split; auto. ring.
  - cbn [map sum_ratings fst snd]. rewrite entry_display_once.
    change (Py.getitem_key _ (lit "rating")) with (Return (VFloat r)).
    cbn [obind].
    assert (exists q, Py.add acc (VFloat r) = Return (VFloat q)
                      /\ (q == number_value n + r)%Q) as (q & Hq & Hv).
    { unfold Py.add. rewrite Hn. cbn [Py.number].
      destruct n as [z|x]; eexists; (split; [reflexivity|]);
        rewrite Qred_correct; reflexivity. }
    rewrite Hq. cbn [obind].
    destruct (IH (VFloat q) (inr q) eq_refl) as (acc' & n' & Hs & Hn' & Hv').
    exists acc', n'. repeat split; auto.
    rewrite Hv'. cbn [number_value map fst]. rewrite Hv.
    change (total (r :: ?l)) with (r + total l)%Q. ring.
Qed.

(** Were the rating read from an attribute that exists, every review would
    count once: the average of the entries is the sum of their ratings over
    their number. *)
Lemma average_rating_counts_each_once (entries : list (Q * value * pystr)) :
  entries <> [] ->
  exists q,
    average_rating (map (fun e => entry_display e.1.1 e.1.1 e.1.2 e.2) entries)
    = Return (VFloat q)
    /\ (q == total (map (fun e => e.1.1) entries)
             / inject_Z (Z.of_nat (length entries)))%Q.
Proof.
  intros Hne.
  destruct entries as [|e rest]; [congruence|].
  destruct (sum_ratings_total (e :: rest) (VInt 0) (inl 0%Z) eq_refl)
    as (acc' & n' & Hs & Hn' & Hv).
  unfold average_rating. cbn [map] in *. rewrite Hs. cbn [obind].
  unfold float_div. rewrite Hn'. cbn [length]. rewrite length_map.
  cbn [number_value] in Hv.
  assert (Hz : ~ (inject_Z (Z.of_nat (S (length rest))) == 0)%Q).
  { unfold Qeq. cbn. lia. }
  destruct n' as [z|x]; eexists; (split; [reflexivity|]);
    rewrite Qred_correct; cbn [number_value] in Hv; rewrite Hv;
    field; exact Hz.
Qed.

(** C10.  For every property: without reviews the function returns a dict
    whose average_rating is [None] (and whose review list is empty); with
    at least one review it does not reach the average at all, because
    reading [review.rating] raises, the class having no such attribute. *)
Theorem format_property_data_average_rating
        (table : list Review.t) (property_obj : Property.t) :
  (reviews_of table property_obj = [] ->
   exists d, format_property_data table property_obj = Return (VDict d)
             /\ Dict.get (lit "reviews") d = Some (VList [])
             /\ Dict.get (lit "review_count") d = Some (VInt 0)
             /\ Dict.get (lit "average_rating") d = Some VNone)
  /\ (reviews_of table property_obj <> [] ->
      format_property_data table property_obj = Raise rating_missing).
Proof.
  split.
  - apply format_property_data_unreviewed.
  - apply format_property_data_reviewed.
Qed.

Lemma format_property_data_average_rating_witness :
  reviews_of [its_review] reviewed_property = [its_review]
  /\ format_property_data [its_review] reviewed_property = Raise rating_missing.
Proof.
  split; [reflexivity|].
  apply (proj2 (format_property_data_average_rating [its_review]
                  reviewed_property)).
  discriminate.
Defined.

(** ** Reading the response cache *)

Lemma Qlt_bool_iff (a b : Q) : Qlt_bool a b = true <-> (a < b)%Q.
Proof.
  unfold Qlt_bool. rewrite negb_true_iff, <- not_true_iff_false, Qle_bool_iff.
  split; [apply Qnot_le_lt | apply Qlt_not_le].
Qed.

Lemma Qlt_bool_zero_age (max_age : Z) (t : Q) :
  (0 <= max_age)%Z -> Qlt_bool (inject_Z max_age) (t - t) = false.
Proof.
  intros H. apply not_true_iff_false. rewrite Qlt_bool_iff.
  intros Hlt. assert (Hz : (t - t == 0)%Q) by ring.
  rewrite Hz in Hlt. change 0%Q with (inject_Z 0) in Hlt.
  rewrite <- Zlt_Qlt in Hlt. lia.
Qed.

Lemma seven_days : LLMResponseCache.max_age_seconds llm_cache = (7 * 24 * 3600)%Z.
Proof. reflexivity. Qed.

(** Where every deletion is granted, [Fallible.get] is [get]. *)
Lemma fallible_get_granted (self : LLMResponseCache.t)
      (system_prompt user_prompt model : pystr) :
  Fallible.get granting self system_prompt user_prompt model
  = LLMResponseCache.get self system_prompt user_prompt model.
Proof. reflexivity. Qed.




(** ** The cache key of the optimized client *)

Lemma join3_bar (a b c : pystr) :
  PyStr.join (lit "|") [a; b; c] = a ++ lit "|" ++ b ++ lit "|" ++ c.
Proof. reflexivity. Qed.

Lemma join4_bar (a b c d : pystr) :
  PyStr.join (lit "|") [a; b; c; d]
  = a ++ lit "|" ++ b ++ lit "|" ++ c ++ lit "|" ++ d.
Proof. reflexivity. Qed.

(** The key string of the write is the key string of the read. *)
Lemma cache_key_for_write_eq (sp up m : pystr) (c : option pystr) :
  OptimizedDeepSeekClient.cache_key_for_write sp up m c
  = OptimizedDeepSeekClient.cache_key_of sp up m c.
Proof.
  unfold OptimizedDeepSeekClient.cache_key_for_write,
    OptimizedDeepSeekClient.cache_key_of.
  destruct c as [[|x c]|]; try reflexivity.
  rewrite join3_bar. cbn [app]. rewrite join4_bar.
  rewrite <- !app_assoc. reflexivity.
Qed.

(** On these two requests the digests differ too. *)
Example digests_of_two_conversations :
  LLMResponseCache.get_advanced_cache_key
    (OptimizedDeepSeekClient.cache_key_of (lit "sys") (lit "Hi")
       (lit "deepseek-chat") (Some (lit "conversation-1")))
  = Return (lit "84fced01f7a602f541a8ba1c6a613fdb")
  /\ LLMResponseCache.get_advanced_cache_key
       (OptimizedDeepSeekClient.cache_key_of (lit "sys") (lit "Hi")
          (lit "deepseek-chat") (Some (lit "conversation-2")))
     = Return (lit "96e588f4c9037ed369bb80f0c1b0b1c9").
Proof. split; vm_compute; reflexivity. Qed.

Lemma file_name_inj (a b : pystr) :
  LLMResponseCache.file_name a = LLMResponseCache.file_name b -> a = b.
Proof. unfold LLMResponseCache.file_name. apply app_inv_tail. Qed.

(** The state of MD5 is four 32-bit words, whatever the message. *)
Lemma add32_lt (a b : N) : MD5.add32 a b < MD5.w32.
Proof. unfold MD5.add32. apply N.mod_lt. discriminate. Qed.

Lemma block_words32 (st : MD5.state) (bs : list N) : words32 (MD5.block st bs).
Proof.
  destruct st as [[[a0 b0] c0] d0]. unfold MD5.block.
  destruct (fold_left _ _ _) as [[[a b] c] d].
  repeat split; apply add32_lt.
Qed.

Lemma blocks_words32 (n : nat) (st : MD5.state) (bs : list N) :
  words32 st -> words32 (MD5.blocks n st bs).
Proof.
  revert st bs. induction n as [|n IH]; intros st bs H; [exact H|].
  cbn [MD5.blocks]. apply IH, block_words32.
Qed.

Lemma md5_state_words32 (msg : list N) : words32 (md5_state msg).
Proof.
  apply blocks_words32. vm_compute. repeat split.
Qed.

(** The number of a state is below 2^128 and determines the state. *)
Lemma state_number_lt (st : MD5.state) :
  words32 st -> state_number st < 2 ^ 128.
Proof.
  destruct st as [[[a b] c] d]. unfold words32, state_number, MD5.w32.
  change (2 ^ 128) with 340282366920938463463374607431768211456.
  lia.
Qed.

Lemma state_number_inj (s t : MD5.state) :
  words32 s -> words32 t -> state_number s = state_number t -> s = t.
Proof.
  destruct s as [[[a b] c] d], t as [[[a' b'] c'] d'].
  unfold words32, state_number, MD5.w32. intros H H' E.
  assert (a = a' /\ b = b' /\ c = c' /\ d = d') as (-> & -> & -> & ->) by lia.
  reflexivity.
Qed.

(** The digest is a function of the last state. *)
Lemma digest_of_state (m1 m2 : list N) :
  md5_state m1 = md5_state m2 -> MD5.hexdigest m1 = MD5.hexdigest m2.
Proof.
  unfold MD5.hexdigest, MD5.digest, md5_state. cbv zeta.
  intros ->. reflexivity.
Qed.

(** Among more numbers than [bound], all below [bound], two are equal. *)
Lemma two_of_them_agree (bound : N) (f : nat -> N) :
  (forall i, f i < bound) -> exists i j, (i < j)%nat /\ f i = f j.
Proof.
  intros H.
  destruct (nat_pigeonhole (fun i => N.to_nat (f i)) (S (N.to_nat bound))
              (N.to_nat bound)) as (i & j & (Hij & _) & E).
  - lia.
  - intros i _. specialize (H i). lia.
  - exists i, j. split; [exact Hij|]. apply N2Nat.inj, E.
Qed.

(** ASCII text is its own encoding. *)
Lemma encode_ascii (s : pystr) :
  Forall (fun c => c < 128) s -> Utf8.encode s = Some s.
Proof.
  induction 1 as [|c s Hc _ IH]; [reflexivity|].
  cbn [Utf8.encode]. unfold Utf8.encode_char.
  apply N.ltb_lt in Hc. rewrite Hc, IH. reflexivity.
Qed.

(** The key of the request in the conversation [conversation i]. *)
Lemma read_key_of_conversation (sp up m : pystr) (i : nat) :
  Forall (fun c => c < 128) (sp ++ lit "|" ++ up ++ lit "|" ++ m ++ lit "|") ->
  read_key sp up m (Some (conversation i))
  = Return (MD5.hexdigest (sp ++ lit "|" ++ up ++ lit "|" ++ m ++ lit "|"
                              ++ conversation i)).
Proof.
  intros H. unfold read_key, LLMResponseCache.get_advanced_cache_key,
              LLMResponseCache.md5_hex, conversation.
  cbn [repeat]. unfold OptimizedDeepSeekClient.cache_key_of. cbn [app].
  rewrite join4_bar. rewrite encode_ascii; [reflexivity|].
  rewrite !app_assoc. apply Forall_app. split.
  - rewrite <- !app_assoc. exact H.
  - clear. induction i as [|i IH]; constructor;
      [reflexivity|constructor|reflexivity|exact IH].
Qed.

(** There are more conversations than digests: two of them have the same
    key. *)
Lemma two_conversations_share_a_key (sp up m : pystr) :
  Forall (fun c => c < 128) (sp ++ lit "|" ++ up ++ lit "|" ++ m ++ lit "|") ->
  exists i j key,
    (i < j)%nat
    /\ read_key sp up m (Some (conversation i)) = Return key
    /\ read_key sp up m (Some (conversation j)) = Return key.
Proof.
  intros H.
  destruct (two_of_them_agree (2 ^ 128)
              (fun i => state_number
                          (md5_state (sp ++ lit "|" ++ up ++ lit "|" ++ m
                                         ++ lit "|" ++ conversation i))))
    as (i & j & Hij & E).
  - intros i. apply state_number_lt, md5_state_words32.
  - apply state_number_inj in E; try apply md5_state_words32.
    exists i, j. eexists. split; [exact Hij|].
    rewrite !read_key_of_conversation by exact H.
    rewrite (digest_of_state _ _ E). split; reflexivity.
Qed.

(** A write under one digest leaves the lookup under another digest as it
    was. *)
Lemma lookup_under_another_key (w : world) (s1 s2 k1 k2 : pystr)
      (resp : value) :
  LLMResponseCache.get_advanced_cache_key s1 = Return k1 ->
  LLMResponseCache.get_advanced_cache_key s2 = Return k2 ->
  k1 <> k2 ->
  fst (LLMResponseCache.get_advanced llm_cache s2
         (snd (LLMResponseCache.set_advanced llm_cache s1 resp w)))
  = fst (LLMResponseCache.get_advanced llm_cache s2 w).
Proof.
  intros H1 H2 Hne.
  unfold LLMResponseCache.get_advanced, LLMResponseCache.set_advanced.
  rewrite H1, H2.
  unfold bind, lift, emit, LLMResponseCache.write_json, ret.
  cbn [logged write_fails now get_dir set_dir cache_dir fst snd].
  destruct (write_fails w CacheDir (LLMResponseCache.file_name k1));
    cbn [fst snd set_dir cache_dir now logged].
  - destruct (cache_dir w !! _) as [f|]; [|reflexivity].
    destruct (Qlt_bool _ _); [reflexivity|].
    destruct (content f); reflexivity.
  - rewrite lookup_insert_ne by (intros E; apply Hne, file_name_inj, E).
    destruct (cache_dir w !! _) as [f|]; [|reflexivity].
    destruct (Qlt_bool _ _); [reflexivity|].
    destruct (content f); reflexivity.
Qed.

(** A write under a digest is what the lookup under the same digest
    returns. *)
Lemma lookup_under_the_same_key (w : world) (s1 s2 k : pystr) (resp : value) :
  LLMResponseCache.get_advanced_cache_key s1 = Return k ->
  LLMResponseCache.get_advanced_cache_key s2 = Return k ->
  write_fails w CacheDir (LLMResponseCache.file_name k) = false ->
  fst (LLMResponseCache.get_advanced llm_cache s2
         (snd (LLMResponseCache.set_advanced llm_cache s1 resp w)))
  = Return resp.
Proof.
  intros H1 H2 Hw.
  unfold LLMResponseCache.get_advanced, LLMResponseCache.set_advanced.
  rewrite H1, H2.
  unfold bind, lift, emit, LLMResponseCache.write_json, ret.
  cbn [logged write_fails now get_dir set_dir cache_dir fst snd].
  rewrite Hw. cbn [fst snd set_dir cache_dir now logged].
  rewrite lookup_insert_eq. cbn [st_mtime content].
  rewrite Qlt_bool_zero_age by (vm_compute; discriminate).
  reflexivity.
Qed.

(** C8, amended.  Two requests with the same prompts and model whose
    context ids differ, the empty context id counting as no context id,
    hash different strings, at the read and at the write: the key of each is
    the MD5 digest of its string.  When the two digests differ, a response
    stored for one request leaves what the other reads from the cache as it
    was; when MD5 gives both strings the same digest, the other request
    reads that response. *)
Theorem cache_key_separates_contexts
        (sp up m : pystr) (c1 c2 : option pystr) (k1 k2 : pystr) :
  OptimizedDeepSeekClient.has_context c1 <> OptimizedDeepSeekClient.has_context c2 ->
  read_key sp up m c1 = Return k1 ->
  read_key sp up m c2 = Return k2 ->
  OptimizedDeepSeekClient.cache_key_of sp up m c1
  <> OptimizedDeepSeekClient.cache_key_of sp up m c2
  /\ k1 = MD5.hexdigest
            (default [] (Utf8.encode
                           (OptimizedDeepSeekClient.cache_key_of sp up m c1)))
  /\ k2 = MD5.hexdigest
            (default [] (Utf8.encode
                           (OptimizedDeepSeekClient.cache_key_of sp up m c2)))
  /\ write_key sp up m c1 = Return k1
  /\ write_key sp up m c2 = Return k2
  /\ (k1 <> k2 ->
      forall resp w,
        lookup_after_write sp up m c1 c2 resp w = lookup sp up m c2 w)
  /\ (k1 = k2 ->
      forall resp w,
        write_fails w CacheDir (LLMResponseCache.file_name k1) = false ->
        lookup_after_write sp up m c1 c2 resp w = Return resp).
Proof.
  intros Hne H1 H2.
  assert (Hs : OptimizedDeepSeekClient.cache_key_of sp up m c1
               <> OptimizedDeepSeekClient.cache_key_of sp up m c2).
  { unfold OptimizedDeepSeekClient.cache_key_of.
    destruct c1 as [[|x1 c1]|], c2 as [[|x2 c2]|]; cbn in Hne.
    all: try congruence.
    all: cbn [app]; rewrite ?join3_bar, ?join4_bar; intros Heq.
    all: repeat (apply app_inv_head in Heq).
    all: first [ apply Hne; congruence
               | apply (f_equal length) in Heq; rewrite ?length_app in Heq;
                 cbn in Heq; lia ]. }
  unfold read_key, write_key, lookup_after_write, lookup in *.
  rewrite !cache_key_for_write_eq.
  split; [exact Hs|].
  split.
  { unfold LLMResponseCache.get_advanced_cache_key, LLMResponseCache.md5_hex in H1.
    destruct (Utf8.encode _); [|discriminate H1].
    injection H1 as <-. reflexivity. }
  split.
  { unfold LLMResponseCache.get_advanced_cache_key, LLMResponseCache.md5_hex in H2.
    destruct (Utf8.encode _); [|discriminate H2].
    injection H2 as <-. reflexivity. }
  split; [exact H1|]. split; [exact H2|]. split.
  - intros Hk resp w. exact (lookup_under_another_key w _ _ k1 k2 resp H1 H2 Hk).
  - intros <- resp w Hw. exact (lookup_under_the_same_key w _ _ k1 resp H1 H2 Hw).
Qed.

Lemma cache_key_separates_contexts_witness :
  let sp := lit "sys" in
  let up := lit "Hi" in
  let m := lit "deepseek-chat" in
  let c1 := Some (lit "conversation-1") in
  let c2 := Some (lit "conversation-2") in
  read_key sp up m c1 = Return (lit "84fced01f7a602f541a8ba1c6a613fdb")
  /\ read_key sp up m c2 = Return (lit "96e588f4c9037ed369bb80f0c1b0b1c9")
  /\ forall resp w,
       lookup_after_write sp up m c1 c2 resp w = lookup sp up m c2 w.
Proof.
  cbv zeta.
  assert (H1 : read_key (lit "sys") (lit "Hi") (lit "deepseek-chat")
                 (Some (lit "conversation-1"))
               = Return (lit "84fced01f7a602f541a8ba1c6a613fdb"))
    by (vm_compute; reflexivity).
  assert (H2 : read_key (lit "sys") (lit "Hi") (lit "deepseek-chat")
                 (Some (lit "conversation-2"))
               = Return (lit "96e588f4c9037ed369bb80f0c1b0b1c9"))
    by (vm_compute; reflexivity).
  split; [exact H1|]. split; [exact H2|].
  destruct (cache_key_separates_contexts (lit "sys") (lit "Hi")
              (lit "deepseek-chat") (Some (lit "conversation-1"))
              (Some (lit "conversation-2"))
              (lit "84fced01f7a602f541a8ba1c6a613fdb")
              (lit "96e588f4c9037ed369bb80f0c1b0b1c9"))
    as (_ & _ & _ & _ & _ & Hmiss & _).
  - vm_compute. discriminate.
  - exact H1.
  - exact H2.
  - apply Hmiss. vm_compute. discriminate.
Defined.

(** C8, as the specification has it, fails.  The empty context id is not
    the absent one and has its key.  And among the conversations a, aa,
    aaa, ... two have the same key, there being more of them than digests:
    each of the two reads what was stored for the other. *)
Lemma cache_keys_collide :
  let sp := lit "You are a helpful assistant." in
  let up := lit "Hi" in
  let m := lit "deepseek-chat" in
  ((Some [] : option pystr) <> None
   /\ read_key sp up m (Some []) = read_key sp up m None
   /\ lookup_after_write sp up m (Some []) None hello_response world_offline
      = Return hello_response)
  /\ exists c1 c2 key : pystr,
       c1 <> [] /\ c2 <> [] /\ c1 <> c2
       /\ read_key sp up m (Some c1) = Return key
       /\ read_key sp up m (Some c2) = Return key
       /\ lookup_after_write sp up m (Some c1) (Some c2) hello_response
            world_offline
          = Return hello_response.
Proof.
  cbv zeta. split.
  - split; [discriminate|]. split; [reflexivity|]. vm_compute. reflexivity.
  - destruct (two_conversations_share_a_key
                (lit "You are a helpful assistant.") (lit "Hi")
                (lit "deepseek-chat"))
      as (i & j & key & Hij & Hi & Hj).
    { vm_compute. repeat constructor. }
    exists (conversation i), (conversation j), key.
    split; [discriminate|]. split; [discriminate|]. split.
    { intros E. apply (f_equal length) in E. unfold conversation in E.
      rewrite !repeat_length in E. lia. }
    split; [exact Hi|]. split; [exact Hj|].
    unfold lookup_after_write, lookup. rewrite cache_key_for_write_eq.
    apply (lookup_under_the_same_key world_offline _ _ key hello_response Hi Hj).
    reflexivity.
Qed.

Lemma select_provider_spec (self : LLMManager.t) (temperature : Q)
      (use_cache : bool) (provider context_id : option pystr)
      (force_cache : bool) :
  (prefers_deepseek self temperature use_cache provider context_id force_cache
   /\ LLMManager.select_provider self temperature use_cache provider
        context_id force_cache = (true, lit "deepseek"))
  \/ (~ prefers_deepseek self temperature use_cache provider context_id
        force_cache
      /\ LLMManager.select_provider self temperature use_cache provider
           context_id force_cache
         = (false, effective_provider self provider)).
Proof.
  unfold prefers_deepseek, LLMManager.select_provider.
  fold (effective_provider self provider).
  generalize (effective_provider self provider). intros p.
  unfold PyStr.eqb.
  pose proof (Qlt_bool_iff temperature float_0_2) as Hlt.
  destruct (LLMManager.has_deepseek self), force_cache, use_cache,
    (Qlt_bool temperature float_0_2), context_id as [[|c cid]|];
    do 2 case_bool_decide; subst; cbn;
    first [ left; split; [|reflexivity];
            split; [reflexivity|];
            intuition (try congruence; try discriminate)
          | right; split; [|reflexivity];
            intuition (try congruence; try discriminate) ].
Qed.

Lemma generate_response_path (self : LLMManager.t)
      (system_prompt user_prompt : pystr) (model : option pystr)
      (max_tokens : Z) (temperature : Q) (structured_output : value)
      (use_cache : bool) (provider context_id : option pystr)
      (stream force_cache : bool) :
  LLMManager.generate_response self system_prompt user_prompt model max_tokens
    temperature structured_output use_cache provider context_id stream
    force_cache
  = match code_path self temperature use_cache provider context_id force_cache
    with
    | OptimizedPath =>
        OptimizedDeepSeekClient.generate_response
          (LLMManager.optimized_deepseek_client self) system_prompt user_prompt
          model max_tokens temperature structured_output use_cache stream
          context_id None
    | UnifiedPath p =>
        UnifiedLLMClient.generate_response
          (LLMManager.unified_client self) system_prompt user_prompt model
          max_tokens temperature structured_output use_cache (Some p)
    end.
Proof.
  unfold LLMManager.generate_response, code_path.
  destruct (LLMManager.select_provider _ _ _ _ _ _) as [should p].
  destruct (should && LLMManager.use_optimized_deepseek self); reflexivity.
Qed.

(** C6, amended.  The rules are about the provider of the request, which
    is the override in lower case or else the configured default: when
    DeepSeek is configured and that provider is deepseek, or the cache is
    forced and enabled, or the provider is not claude and either the
    temperature is below 0.2 with the cache enabled or there is a context id,
    the request goes to the optimized client if optimization is enabled and
    to the unified client with provider deepseek if not; any other request
    goes to the unified client with the provider of the request. *)
Theorem routing_policy (self : LLMManager.t)
        (system_prompt user_prompt : pystr) (model : option pystr)
        (max_tokens : Z) (temperature : Q) (structured_output : value)
        (use_cache : bool) (provider context_id : option pystr)
        (stream force_cache : bool) :
  (prefers_deepseek self temperature use_cache provider context_id force_cache ->
   LLMManager.generate_response self system_prompt user_prompt model max_tokens
     temperature structured_output use_cache provider context_id stream
     force_cache
   = if LLMManager.use_optimized_deepseek self
     then OptimizedDeepSeekClient.generate_response
            (LLMManager.optimized_deepseek_client self) system_prompt
            user_prompt model max_tokens temperature structured_output
            use_cache stream context_id None
     else UnifiedLLMClient.generate_response
            (LLMManager.unified_client self) system_prompt user_prompt model
            max_tokens temperature structured_output use_cache
            (Some (lit "deepseek")))
  /\ (~ prefers_deepseek self temperature use_cache provider context_id
        force_cache ->
      LLMManager.generate_response self system_prompt user_prompt model
        max_tokens temperature structured_output use_cache provider context_id
        stream force_cache
      = UnifiedLLMClient.generate_response
          (LLMManager.unified_client self) system_prompt user_prompt model
          max_tokens temperature structured_output use_cache
          (Some (effective_provider self provider))).
Proof.
  rewrite generate_response_path. unfold code_path.
  destruct (select_provider_spec self temperature use_cache provider
              context_id force_cache) as [[Hp Hs]|[Hp Hs]];
    rewrite Hs; cbn [andb]; split; intros H; try contradiction.
  - destruct (LLMManager.use_optimized_deepseek self); reflexivity.
  - reflexivity.
Qed.

Lemma the_clients_are_built :
  DeepSeekClient.init both_configured None
  = Return (DeepSeekClient.Client false (lit "sk-deepseek"))
  /\ ClaudeClient.init both_configured None
     = Return (ClaudeClient.Client false (lit "sk-ant-claude"))
  /\ OptimizedDeepSeekClient.init both_configured None
     = Return (OptimizedDeepSeekClient.Client false (lit "sk-deepseek"))
  /\ UnifiedLLMClient.init both_configured None (lit "deepseek")
     = Return the_unified_client.
Proof. repeat split; vm_compute; reflexivity. Qed.

(** C6, as stated, fails: a request without provider override, at
    temperature 0.7, without context id and without forced cache matches
    none of the rules as worded, yet the manager hands it to the optimized
    client, DeepSeek being the default. *)
Lemma routing_tests_effective_provider :
  claimed_path the_manager (7 # 10) true None None false
  = UnifiedPath (lit "deepseek")
  /\ code_path the_manager (7 # 10) true None None false = OptimizedPath
  /\ claimed_path the_manager (7 # 10) true None None false
     <> code_path the_manager (7 # 10) true None None false.
Proof.
  assert (H1 : claimed_path the_manager (7 # 10) true None None false
               = UnifiedPath (lit "deepseek")) by (vm_compute; reflexivity).
  assert (H2 : code_path the_manager (7 # 10) true None None false
               = OptimizedPath) by (vm_compute; reflexivity).
  rewrite H1, H2. repeat split. discriminate.
Qed.

Lemma routing_policy_witness :
  LLMManager.generate_response the_manager (lit "sys") (lit "usr") None 1000
    (7 # 10) VNone true None None false false
  = OptimizedDeepSeekClient.generate_response
      (LLMManager.optimized_deepseek_client the_manager) (lit "sys") (lit "usr")
      None 1000 (7 # 10) VNone true false None None.
Proof.
  apply (proj1 (routing_policy the_manager (lit "sys") (lit "usr") None 1000
                  (7 # 10) VNone true None None false false)).
  split; [reflexivity | left; vm_compute; reflexivity].
Defined.

(** ** Stepping through the retry loops *)

Lemma try_except_return {A} (a : A) (w : world) handles handler :
  try_except (ret a) handles handler w = (Return a, w).
Proof. reflexivity. Qed.

(** [LLMResponseCache.set] raises no request exception. *)
Lemma cache_set_outcome (sp up m : pystr) (rd : value) (w : world) :
  (exists w', LLMResponseCache.set llm_cache sp up m rd w = (Return tt, w')
              /\ remote w' = remote w /\ posts w' = posts w
              /\ sleeps (events_since w w') = []
              /\ (forall t, posts_to t (events_since w w') = 0%nat)
              /\ exists evs, trace w' = trace w ++ evs)
  \/ (exists e, LLMResponseCache.set llm_cache sp up m rd w = (Raise e, w)
                /\ LLMResponseCache.get_cache_key sp up m = Raise e
                /\ is_request_exception e = false).
Proof.
  unfold LLMResponseCache.set, LLMResponseCache.get_cache_key,
    LLMResponseCache.md5_hex.
  destruct (Utf8.encode _) as [bytes|].
  - left. unfold bind, lift, emit, LLMResponseCache.write_json. cbn.
    destruct (write_fails w CacheDir _); eexists; (split; [reflexivity|]);
      cbn; unfold events_since; cbn;
      rewrite drop_app_length; cbn; repeat split; eauto.
  - right. eexists. repeat split.
Qed.

Lemma deepseek_retry_step (sp up model : pystr) (temperature : Q)
      (use_cache : bool) (payload : value) (n : nat) (attempt d : Z)
      (w : world) :
  DeepSeekClient.retry_loop sp up model temperature use_cache payload (S n)
                            attempt d w
  = match deepseek_attempt model (remote w DeepSeekAPI (posts w DeepSeekAPI)) with
    | Return rd =>
        (cache_write sp up model temperature use_cache rd ;;; ret rd)
          (posted DeepSeekAPI payload w)
    | Raise e =>
        if is_request_exception e then
          if (attempt <? max_retries - 1)%Z then
            DeepSeekClient.retry_loop sp up model temperature use_cache payload
              n (attempt + 1)%Z (d * 2)%Z
              (slept d (posted DeepSeekAPI payload w))
          else (Raise e, posted DeepSeekAPI payload w)
        else (Raise e, posted DeepSeekAPI payload w)
    end.
Proof.
  cbn [DeepSeekClient.retry_loop].
  unfold try_except at 1. unfold bind at 1. unfold requests_post at 1.
  unfold deepseek_attempt.
  destruct (remote w DeepSeekAPI (posts w DeepSeekAPI)) as [e|r].
  - destruct (is_request_exception e); [|reflexivity].
    destruct (attempt <? max_retries - 1)%Z; reflexivity.
  - unfold bind at 1, lift at 1.
    destruct (raise_for_status DeepSeekClient.BASE_URL r) as [[]|e]; cbn [obind].
    2: { destruct (is_request_exception e); [|reflexivity].
         destruct (attempt <? max_retries - 1)%Z; reflexivity. }
    unfold bind at 1, lift at 1.
    destruct (response_json r) as [result|e]; cbn [obind].
    2: { destruct (is_request_exception e); [|reflexivity].
         destruct (attempt <? max_retries - 1)%Z; reflexivity. }
    unfold bind at 1, lift at 1.
    destruct (DeepSeekClient.response_data_of result model) as [rd|e].
    2: { destruct (is_request_exception e); [|reflexivity].
         destruct (attempt <? max_retries - 1)%Z; reflexivity. }
    fold (cache_write sp up model temperature use_cache rd).
    unfold cache_write.
    destruct (cache_eligible use_cache temperature).
    + destruct (cache_set_outcome sp up model rd (posted DeepSeekAPI payload w))
        as [(w' & Hs & _)|(e & Hs & _ & He)];
        unfold bind; rewrite Hs; [reflexivity|].
      rewrite He. reflexivity.
    + reflexivity.
Qed.

(** ** The trace of a call *)

Lemma events_since_app (w w' : world) (evs : list event) :
  trace w' = trace w ++ evs -> events_since w w' = evs.
Proof. intros H. unfold events_since. rewrite H. apply drop_app_length. Qed.

Lemma sleeps_app (a b : list event) : sleeps (a ++ b) = sleeps a ++ sleeps b.
Proof. apply omap_app. Qed.

Lemma posts_to_app (t : endpoint) (a b : list event) :
  posts_to t (a ++ b) = (posts_to t a + posts_to t b)%nat.
Proof. unfold posts_to. rewrite List.filter_app. apply length_app. Qed.

Lemma generate_calls_app (a b : list event) :
  generate_calls (a ++ b) = generate_calls a ++ generate_calls b.
Proof. apply omap_app. Qed.

Lemma cache_events_app (a b : list event) :
  cache_events (a ++ b) = cache_events a ++ cache_events b.
Proof. apply List.filter_app. Qed.

Lemma before_first_request_refl (w : world) : before_first_request w w.
Proof.
  exists []. rewrite app_nil_r. repeat split; reflexivity.
Qed.

Lemma before_first_request_logged (w w1 : world) (e : event) :
  before_first_request w w1 ->
  sleeps [e] = [] -> (forall t, posts_to t [e] = 0%nat) ->
  before_first_request w (logged e w1).
Proof.
  intros (evs & Ht & Hs & Hp & Hr & Hq) Hse Hpe.
  exists (evs ++ [e]). cbn [trace logged remote posts].
  rewrite Ht, <- app_assoc, sleeps_app, Hs, Hse.
  repeat split; auto.
  intros t. rewrite posts_to_app, Hp, Hpe. reflexivity.
Qed.

(** ** The cache around the retry loops *)

Lemma cache_get_miss (self : LLMResponseCache.t) (sp up m key : pystr) (w : world) :
  LLMResponseCache.get_cache_key sp up m = Return key ->
  cache_dir w !! LLMResponseCache.file_name key = None ->
  LLMResponseCache.get self sp up m w
  = (Return VNone, logged (EvCacheRead (LLMResponseCache.file_name key)) w).
Proof.
  intros Hk Hn. unfold LLMResponseCache.get. rewrite Hk.
  unfold bind, lift, emit. cbn. rewrite Hn. reflexivity.
Qed.

Lemma cache_set_run (self : LLMResponseCache.t) (sp up m key : pystr)
      (rd : value) (w : world) :
  LLMResponseCache.get_cache_key sp up m = Return key ->
  exists w', LLMResponseCache.set self sp up m rd w = (Return tt, w')
             /\ trace w' = trace w ++ [EvCacheWrite (LLMResponseCache.file_name key) rd].
Proof.
  intros Hk. unfold LLMResponseCache.set. rewrite Hk.
  unfold bind, lift, emit, LLMResponseCache.write_json. cbn.
  destruct (write_fails w CacheDir _); eexists; split; reflexivity.
Qed.

(** With nothing usable in the cache, a call of [DeepSeekClient] that is
    not mocked reaches its loop before any request is made. *)
Lemma deepseek_generate_enters_loop
      (self : DeepSeekClient.t) (sp up : pystr) (model : option pystr)
      (max_tokens : Z) (temperature : Q) (so : value) (use_cache : bool)
      (w : world) :
  DeepSeekClient.debug_mode self = false ->
  no_cached_answer w sp up (str_or model DeepSeekClient.DEFAULT_MODEL)
                   temperature use_cache ->
  exists w1 payload,
    DeepSeekClient.generate_response self sp up model max_tokens temperature
                                     so use_cache w
    = DeepSeekClient.retry_loop sp up (str_or model DeepSeekClient.DEFAULT_MODEL)
                                temperature use_cache payload
                                (Z.to_nat max_retries) 0 2 w1
    /\ before_first_request w w1.
Proof.
  intros Hdebug Hmiss.
  unfold DeepSeekClient.generate_response. rewrite Hdebug.
  set (m := str_or model DeepSeekClient.DEFAULT_MODEL) in *.
  set (payload := VDict _).
  unfold bind, emit.
  destruct (cache_eligible use_cache temperature) eqn:He.
  - destruct (Hmiss He) as (key & Hk & Hnone).
    rewrite (cache_get_miss llm_cache sp up m key
               (logged (EvGenerate TheDeepSeekClient) w) Hk Hnone).
    cbn [andb truthy].
    eexists _, payload. split; [reflexivity|].
    repeat apply before_first_request_logged;
      auto using before_first_request_refl.
  - cbn [andb ret].
    eexists _, payload. split; [reflexivity|].
    repeat apply before_first_request_logged;
      auto using before_first_request_refl.
Qed.

(** Two failed requests and a third that is answered: the loop of
    [DeepSeekClient] sleeps 2 and 4 seconds and returns the answer. *)
Lemma deepseek_loop_two_failures
      (sp up m : pystr) (temperature : Q) (use_cache : bool) (payload : value)
      (w w1 : world) (e1 e2 : exn) (rd : value) :
  before_first_request w w1 ->
  no_cached_answer w sp up m temperature use_cache ->
  let n := posts w DeepSeekAPI in
  deepseek_attempt m (remote w DeepSeekAPI n) = Raise e1 ->
  is_request_exception e1 = true ->
  deepseek_attempt m (remote w DeepSeekAPI (S n)) = Raise e2 ->
  is_request_exception e2 = true ->
  deepseek_attempt m (remote w DeepSeekAPI (S (S n))) = Return rd ->
  let run := DeepSeekClient.retry_loop sp up m temperature use_cache payload
               (Z.to_nat max_retries) 0 2 w1 in
  fst run = Return rd
  /\ sleeps (events_since w (snd run)) = [2; 4]%Z
  /\ posts_to DeepSeekAPI (events_since w (snd run)) = 3%nat.
Proof.
  intros (evs & Ht & Hs & Hp & Hr & Hq) Hmiss n H1 R1 H2 R2 H3.
  change (Z.to_nat max_retries) with 3%nat. cbv zeta.
  rewrite deepseek_retry_step. rewrite Hr, Hq. fold n. rewrite H1, R1.
  change (0 <? max_retries - 1)%Z with true. cbv iota.
  rewrite deepseek_retry_step.
  cbn [remote posts slept posted endpoint_eqb]. rewrite Hr, Hq. fold n.
  rewrite H2, R2.
  change (0 + 1 <? max_retries - 1)%Z with true. cbv iota.
  rewrite deepseek_retry_step.
  cbn [remote posts slept posted endpoint_eqb]. rewrite Hr, Hq. fold n.
  rewrite H3.
  unfold cache_write.
  destruct (cache_eligible use_cache temperature) eqn:He.
  - destruct (Hmiss He) as (key & Hk & _).
    unfold bind.
    match goal with |- context [LLMResponseCache.set _ _ _ _ _ ?W] =>
      destruct (cache_set_run llm_cache sp up m key rd W Hk) as (w' & Hset & Htr)
    end.
    rewrite Hset. cbn [fst snd ret].
    rewrite (events_since_app w w' _
               ltac:(rewrite Htr; cbn [trace slept posted]; rewrite Ht;
                     rewrite <- !app_assoc; reflexivity)).
    rewrite !sleeps_app, !posts_to_app, Hs, Hp. cbn. auto.
  - unfold bind, ret. cbn [fst snd].
    match goal with |- context [events_since w ?W] =>
      rewrite (events_since_app w W _
                 ltac:(cbn [trace slept posted]; rewrite Ht;
                       rewrite <- !app_assoc; reflexivity))
    end.
    rewrite !sleeps_app, !posts_to_app, Hs, Hp. cbn. auto.
Qed.
Lemma claude_retry_step (sp up model : pystr) (temperature : Q)
      (so : value) (use_cache : bool) (payload : value) (n : nat)
      (attempt d : Z) (w : world) :
  ClaudeClient.retry_loop sp up model temperature so use_cache payload (S n)
                          attempt d w
  = match claude_attempt model so (remote w ClaudeAPI (posts w ClaudeAPI)) with
    | Return rd =>
        (cache_write sp up model temperature use_cache rd ;;; ret rd)
          (posted ClaudeAPI payload w)
    | Raise e =>
        if is_request_exception e then
          if (attempt <? max_retries - 1)%Z then
            ClaudeClient.retry_loop sp up model temperature so use_cache
              payload n (attempt + 1)%Z (d * 2)%Z
              (slept d (posted ClaudeAPI payload w))
          else
            ClaudeClient.retry_loop sp up model temperature so use_cache
              payload n (attempt + 1)%Z d (posted ClaudeAPI payload w)
        else (Raise e, posted ClaudeAPI payload w)
    end.
Proof.
  cbn [ClaudeClient.retry_loop].
  unfold try_except at 1. unfold bind at 1. unfold requests_post at 1.
  unfold claude_attempt.
  destruct (remote w ClaudeAPI (posts w ClaudeAPI)) as [e|r].
  - destruct (is_request_exception e); [|reflexivity].
    destruct (attempt <? max_retries - 1)%Z; reflexivity.
  - unfold bind at 1.
    destruct (negb (status_code r =? 200)%Z).
    { unfold raise at 1.
      destruct (is_request_exception (ClaudeClient.status_error r)); [|reflexivity].
      destruct (attempt <? max_retries - 1)%Z; reflexivity. }
    unfold ret at 1.
    unfold bind at 1, lift at 1.
    destruct (ClaudeClient.decode_body r) as [result|e]; cbn [obind].
    2: { destruct (is_request_exception e); [|reflexivity].
         destruct (attempt <? max_retries - 1)%Z; reflexivity. }
    unfold bind at 1, lift at 1.
    destruct (ClaudeClient.response_data_of result model) as [rd|e]; cbn [obind].
    2: { destruct (is_request_exception e); [|reflexivity].
         destruct (attempt <? max_retries - 1)%Z; reflexivity. }
    unfold bind at 1, lift at 1.
    destruct (truthy so).
    + destruct (ClaudeClient.fix_structured rd) as [fixed|e]; cbn [obind].
      2: { destruct (is_request_exception e); [|reflexivity].
           destruct (attempt <? max_retries - 1)%Z; reflexivity. }
      fold (cache_write sp up model temperature use_cache (VDict fixed)).
      unfold cache_write.
      destruct (cache_eligible use_cache temperature); [|reflexivity].
      destruct (cache_set_outcome sp up model (VDict fixed)
                  (posted ClaudeAPI payload w))
        as [(w' & Hs & _)|(e & Hs & _ & He)];
        unfold bind; rewrite Hs; [reflexivity|].
      rewrite He. reflexivity.
    + fold (cache_write sp up model temperature use_cache (VDict rd)).
      unfold cache_write.
      destruct (cache_eligible use_cache temperature); [|reflexivity].
      destruct (cache_set_outcome sp up model (VDict rd)
                  (posted ClaudeAPI payload w))
        as [(w' & Hs & _)|(e & Hs & _ & He)];
        unfold bind; rewrite Hs; [reflexivity|].
      rewrite He. reflexivity.
Qed.

(** The payload [ClaudeClient.generate_response] posts. *)
Lemma claude_generate_enters_loop
      (self : ClaudeClient.t) (sp up : pystr) (model : option pystr)
      (max_tokens : Z) (temperature : Q) (so : value) (use_cache : bool)
      (w : world) :
  ClaudeClient.debug_mode self = false ->
  no_cached_answer w sp up (str_or model ClaudeClient.DEFAULT_MODEL)
                   temperature use_cache ->
  exists w1 payload,
    ClaudeClient.generate_response self sp up model max_tokens temperature
                                   so use_cache w
    = ClaudeClient.retry_loop sp up (str_or model ClaudeClient.DEFAULT_MODEL)
                              temperature so use_cache payload
                              (Z.to_nat max_retries) 0 2 w1
    /\ before_first_request w w1.
Proof.
  intros Hdebug Hmiss.
  unfold ClaudeClient.generate_response. rewrite Hdebug.
  set (m := str_or model ClaudeClient.DEFAULT_MODEL) in *.
  unfold bind, emit.
  destruct (cache_eligible use_cache temperature) eqn:He.
  - destruct (Hmiss He) as (key & Hk & Hnone).
    rewrite (cache_get_miss llm_cache sp up m key
               (logged (EvGenerate TheClaudeClient) w) Hk Hnone).
    cbn [andb truthy].
    destruct (truthy so);
      (eexists _, _; split; [reflexivity|]);
      repeat apply before_first_request_logged;
      auto using before_first_request_refl.
  - cbn [andb ret].
    destruct (truthy so);
      (eexists _, _; split; [reflexivity|]);
      repeat apply before_first_request_logged;
      auto using before_first_request_refl.
Qed.

Lemma claude_loop_two_failures
      (sp up m : pystr) (temperature : Q) (so : value) (use_cache : bool)
      (payload : value) (w w1 : world) (e1 e2 : exn) (rd : value) :
  before_first_request w w1 ->
  no_cached_answer w sp up m temperature use_cache ->
  let n := posts w ClaudeAPI in
  claude_attempt m so (remote w ClaudeAPI n) = Raise e1 ->
  is_request_exception e1 = true ->
  claude_attempt m so (remote w ClaudeAPI (S n)) = Raise e2 ->
  is_request_exception e2 = true ->
  claude_attempt m so (remote w ClaudeAPI (S (S n))) = Return rd ->
  let run := ClaudeClient.retry_loop sp up m temperature so use_cache payload
               (Z.to_nat max_retries) 0 2 w1 in
  fst run = Return rd
  /\ sleeps (events_since w (snd run)) = [2; 4]%Z
  /\ posts_to ClaudeAPI (events_since w (snd run)) = 3%nat.
Proof.
  intros (evs & Ht & Hs & Hp & Hr & Hq) Hmiss n H1 R1 H2 R2 H3.
  change (Z.to_nat max_retries) with 3%nat. cbv zeta.
  rewrite claude_retry_step. rewrite Hr, Hq. fold n. rewrite H1, R1.
  change (0 <? max_retries - 1)%Z with true. cbv iota.
  rewrite claude_retry_step.
  cbn [remote posts slept posted endpoint_eqb]. rewrite Hr, Hq. fold n.
  rewrite H2, R2.
  change (0 + 1 <? max_retries - 1)%Z with true. cbv iota.
  rewrite claude_retry_step.
  cbn [remote posts slept posted endpoint_eqb]. rewrite Hr, Hq. fold n.
  rewrite H3.
  unfold cache_write.
  destruct (cache_eligible use_cache temperature) eqn:He.
  - destruct (Hmiss He) as (key & Hk & _).
    unfold bind.
    match goal with |- context [LLMResponseCache.set _ _ _ _ _ ?W] =>
      destruct (cache_set_run llm_cache sp up m key rd W Hk) as (w' & Hset & Htr)
    end.
    rewrite Hset. cbn [fst snd ret].
    rewrite (events_since_app w w' _
               ltac:(rewrite Htr; cbn [trace slept posted]; rewrite Ht;
                     rewrite <- !app_assoc; reflexivity)).
    rewrite !sleeps_app, !posts_to_app, Hs, Hp. cbn. auto.
  - unfold bind, ret. cbn [fst snd].
    match goal with |- context [events_since w ?W] =>
      rewrite (events_since_app w W _
                 ltac:(cbn [trace slept posted]; rewrite Ht;
                       rewrite <- !app_assoc; reflexivity))
    end.
    rewrite !sleeps_app, !posts_to_app, Hs, Hp. cbn. auto.
Qed.

(** Three failed requests: the loop of [ClaudeClient] sleeps 2 and 4
    seconds, posts three times, and ends in the error after the loop. *)
Lemma claude_loop_three_failures
      (sp up m : pystr) (temperature : Q) (so : value) (use_cache : bool)
      (payload : value) (w w1 : world) (e1 e2 e3 : exn) :
  before_first_request w w1 ->
  let n := posts w ClaudeAPI in
  claude_attempt m so (remote w ClaudeAPI n) = Raise e1 ->
  is_request_exception e1 = true ->
  claude_attempt m so (remote w ClaudeAPI (S n)) = Raise e2 ->
  is_request_exception e2 = true ->
  claude_attempt m so (remote w ClaudeAPI (S (S n))) = Raise e3 ->
  is_request_exception e3 = true ->
  let run := ClaudeClient.retry_loop sp up m temperature so use_cache payload
               (Z.to_nat max_retries) 0 2 w1 in
  fst run
  = Raise (Exn RuntimeError
               (lit "Failed to get response from Claude API after multiple attempts"))
  /\ sleeps (events_since w (snd run)) = [2; 4]%Z
  /\ posts_to ClaudeAPI (events_since w (snd run)) = 3%nat.
Proof.
  intros (evs & Ht & Hs & Hp & Hr & Hq) n H1 R1 H2 R2 H3 R3.
  change (Z.to_nat max_retries) with 3%nat. cbv zeta.
  rewrite claude_retry_step. rewrite Hr, Hq. fold n. rewrite H1, R1.
  change (0 <? max_retries - 1)%Z with true. cbv iota.
  rewrite claude_retry_step.
  cbn [remote posts slept posted endpoint_eqb]. rewrite Hr, Hq. fold n.
  rewrite H2, R2.
  change (0 + 1 <? max_retries - 1)%Z with true. cbv iota.
  rewrite claude_retry_step.
  cbn [remote posts slept posted endpoint_eqb]. rewrite Hr, Hq. fold n.
  rewrite H3, R3.
  change (0 + 1 + 1 <? max_retries - 1)%Z with false. cbv iota.
  cbn [ClaudeClient.retry_loop raise fst snd].
  match goal with |- context [events_since w ?W] =>
    rewrite (events_since_app w W _
               ltac:(cbn [trace slept posted]; rewrite Ht;
                     rewrite <- !app_assoc; reflexivity))
  end.
  rewrite !sleeps_app, !posts_to_app, Hs, Hp. cbn. auto.
Qed.
(** C5.  A call of a provider client ([DeepSeekClient] or [ClaudeClient],
    not in debug mode, with no answer in the cache) whose first two
    requests fail with a request exception and whose third request is
    answered returns that answer; it posts three times and sleeps exactly
    twice in between, 2 seconds and then 4 seconds. *)
Theorem retry_backoff_two_failures_then_success
        (p : provider_client) (sp up : pystr) (model : option pystr)
        (max_tokens : Z) (temperature : Q) (so : value) (use_cache : bool)
        (w : world) (rd : value) :
  provider_debug_mode p = false ->
  no_cached_answer w sp up (provider_model p model) temperature use_cache ->
  fails_twice_then_answers (provider_attempt p model so)
                           (provider_endpoint p) w rd ->
  returns_after_backoff (provider_endpoint p) w
    (provider_generate p sp up model max_tokens temperature so use_cache w) rd.
Proof.
  intros Hdebug Hmiss ((e1 & H1 & R1) & (e2 & H2 & R2) & H3).
  destruct p as [c|c]; cbn [provider_debug_mode provider_model provider_attempt
                             provider_endpoint provider_generate] in *.
  - destruct (deepseek_generate_enters_loop c sp up model max_tokens temperature
                so use_cache w Hdebug Hmiss) as (w1 & payload & -> & Hw1).
    exact (deepseek_loop_two_failures sp up _ temperature use_cache payload
             w w1 e1 e2 rd Hw1 Hmiss H1 R1 H2 R2 H3).
  - destruct (claude_generate_enters_loop c sp up model max_tokens temperature
                so use_cache w Hdebug Hmiss) as (w1 & payload & -> & Hw1).
    exact (claude_loop_two_failures sp up _ temperature so use_cache payload
             w w1 e1 e2 rd Hw1 Hmiss H1 R1 H2 R2 H3).
Qed.

Lemma retry_backoff_two_failures_then_success_witness :
  returns_after_backoff DeepSeekAPI world_third_time_lucky
    (DeepSeekClient.generate_response (DeepSeekClient.Client false (lit "key"))
       (lit "sys") (lit "usr") None 100 0 VNone true world_third_time_lucky)
    hello_response.
Proof.
  apply (retry_backoff_two_failures_then_success
           (DeepSeekProvider (DeepSeekClient.Client false (lit "key")))
           (lit "sys") (lit "usr") None 100 0 VNone true
           world_third_time_lucky hello_response).
  - reflexivity.
  - intros _. eexists. split; vm_compute; reflexivity.
  - split; [|split].
    + eexists. split; vm_compute; reflexivity.
    + eexists. split; vm_compute; reflexivity.
    + vm_compute. reflexivity.
Defined.
(** The optimized client backs off in the same way: on the same world it
    returns the answer of the third request after sleeps of 2 and 4
    seconds. *)
Example optimized_third_time_lucky :
  let run := OptimizedDeepSeekClient.generate_response the_optimized_client
               (lit "sys") (lit "usr") None 100 0 VNone true false None None
               world_third_time_lucky in
  fst run = Return (VDict [(lit "content", VStr (lit "hello"));
                           (lit "model", VStr (lit "deepseek-chat"));
                           (lit "usage", VDict []);
                           (lit "stop_reason", VNone);
                           (lit "cache_id", VNone)])
  /\ sleeps (events_since world_third_time_lucky (snd run)) = [2; 4]%Z
  /\ posts_to DeepSeekAPI (events_since world_third_time_lucky (snd run)) = 3%nat.
Proof. cbv zeta. repeat split; vm_compute; reflexivity. Qed.

Lemma claude_attempt_401 (m : pystr) (so : value) (r : response) :
  status_code r = 401%Z ->
  claude_attempt m so (Responds r) = Raise authentication_error.
Proof.
  intros H. unfold claude_attempt, ClaudeClient.status_error.
  rewrite H. reflexivity.
Qed.

(** C3, as the specification has it, fails: with a rejected key
    [ClaudeClient.generate_response] posts three times and sleeps 2 and 4
    seconds, and what it raises is not the authentication error. *)
Lemma claude_401_is_retried :
  let run := ClaudeClient.generate_response claude_with_bad_key
               (lit "sys") (lit "usr") None 100 (7 # 10) VNone true
               world_unauthorized in
  retried_then_gave_up world_unauthorized run
  /\ ~ surfaced_immediately world_unauthorized run.
Proof.
  cbv zeta. split.
  - vm_compute. auto.
  - intros (H & _). vm_compute in H. discriminate H.
Qed.

Lemma deepseek_attempt_401 (m : pystr) (r : response) :
  status_code r = 401%Z ->
  deepseek_attempt m (Responds r) = Raise (client_error_401 r).
Proof.
  intros H. unfold deepseek_attempt, raise_for_status.
  rewrite H. reflexivity.
Qed.

(** Three failed requests: the loop of [DeepSeekClient] sleeps 2 and 4
    seconds, posts three times, and raises the last error. *)
Lemma deepseek_loop_three_failures
      (sp up m : pystr) (temperature : Q) (use_cache : bool) (payload : value)
      (w w1 : world) (e1 e2 e3 : exn) :
  before_first_request w w1 ->
  let n := posts w DeepSeekAPI in
  deepseek_attempt m (remote w DeepSeekAPI n) = Raise e1 ->
  is_request_exception e1 = true ->
  deepseek_attempt m (remote w DeepSeekAPI (S n)) = Raise e2 ->
  is_request_exception e2 = true ->
  deepseek_attempt m (remote w DeepSeekAPI (S (S n))) = Raise e3 ->
  is_request_exception e3 = true ->
  let run := DeepSeekClient.retry_loop sp up m temperature use_cache payload
               (Z.to_nat max_retries) 0 2 w1 in
  fst run = Raise e3
  /\ sleeps (events_since w (snd run)) = [2; 4]%Z
  /\ posts_to DeepSeekAPI (events_since w (snd run)) = 3%nat.
Proof.
  intros (evs & Ht & Hs & Hp & Hr & Hq) n H1 R1 H2 R2 H3 R3.
  change (Z.to_nat max_retries) with 3%nat. cbv zeta.
  rewrite deepseek_retry_step. rewrite Hr, Hq. fold n. rewrite H1, R1.
  change (0 <? max_retries - 1)%Z with true. cbv iota.
  rewrite deepseek_retry_step.
  cbn [remote posts slept posted endpoint_eqb]. rewrite Hr, Hq. fold n.
  rewrite H2, R2.
  change (0 + 1 <? max_retries - 1)%Z with true. cbv iota.
  rewrite deepseek_retry_step.
  cbn [remote posts slept posted endpoint_eqb]. rewrite Hr, Hq. fold n.
  rewrite H3, R3.
  change (0 + 1 + 1 <? max_retries - 1)%Z with false. cbv iota.
  cbn [fst snd].
  match goal with |- context [events_since w ?W] =>
    rewrite (events_since_app w W _
               ltac:(cbn [trace slept posted]; rewrite Ht;
                     rewrite <- !app_assoc; reflexivity))
  end.
  rewrite !sleeps_app, !posts_to_app, Hs, Hp. cbn. auto.
Qed.

(** C3, amended.  A call of a provider client (not in debug mode, with no
    answer in the cache) whose requests are answered with status 401 is
    retried like any other failed request: it posts three times and sleeps
    2 and 4 seconds in between. *)
Theorem provider_401_is_retried
        (p : provider_client) (sp up : pystr) (model : option pystr)
        (max_tokens : Z) (temperature : Q) (so : value) (use_cache : bool)
        (w : world) :
  provider_debug_mode p = false ->
  no_cached_answer w sp up (provider_model p model) temperature use_cache ->
  answers_401 (provider_endpoint p) w 0 ->
  answers_401 (provider_endpoint p) w 1 ->
  answers_401 (provider_endpoint p) w 2 ->
  retried p w
    (provider_generate p sp up model max_tokens temperature so use_cache w).
Proof.
  intros Hdebug Hmiss (r0 & H0 & S0) (r1 & H1 & S1) (r2 & H2 & S2).
  rewrite Nat.add_0_r in H0.
  rewrite Nat.add_1_r in H1.
  pose proof H2 as H2'.
  replace (posts w (provider_endpoint p) + 2)%nat
    with (S (S (posts w (provider_endpoint p)))) in H2 by lia.
  destruct p as [c|c]; cbn [provider_debug_mode provider_model
                             provider_endpoint provider_generate] in *.
  - destruct (deepseek_generate_enters_loop c sp up model max_tokens temperature
                so use_cache w Hdebug Hmiss) as (w1 & payload & -> & Hw1).
    destruct (deepseek_loop_three_failures sp up
                (str_or model DeepSeekClient.DEFAULT_MODEL) temperature
                use_cache payload w w1
                (client_error_401 r0) (client_error_401 r1)
                (client_error_401 r2) Hw1) as (Hrun & Hsleeps & Hposts);
      try reflexivity.
    + rewrite H0. apply deepseek_attempt_401, S0.
    + rewrite H1. apply deepseek_attempt_401, S1.
    + rewrite H2. apply deepseek_attempt_401, S2.
    + unfold retried. cbn [provider_endpoint]. auto.
  - destruct (claude_generate_enters_loop c sp up model max_tokens temperature
                so use_cache w Hdebug Hmiss) as (w1 & payload & -> & Hw1).
    destruct (claude_loop_three_failures sp up
                (str_or model ClaudeClient.DEFAULT_MODEL) temperature so
                use_cache payload w w1
                authentication_error authentication_error authentication_error
                Hw1) as (Hrun & Hsleeps & Hposts);
      try reflexivity.
    + rewrite H0. apply claude_attempt_401, S0.
    + rewrite H1. apply claude_attempt_401, S1.
    + rewrite H2. apply claude_attempt_401, S2.
    + unfold retried. cbn [provider_endpoint]. auto.
Qed.

Lemma provider_401_is_retried_witness :
  retried (ClaudeProvider claude_with_bad_key) world_unauthorized
    (ClaudeClient.generate_response claude_with_bad_key (lit "sys") (lit "usr")
       None 100 0 VNone true world_unauthorized)
  /\ retried
       (DeepSeekProvider (DeepSeekClient.Client false (lit "bad-key")))
       world_unauthorized
       (DeepSeekClient.generate_response
          (DeepSeekClient.Client false (lit "bad-key")) (lit "sys") (lit "usr")
          None 100 0 VNone true world_unauthorized).
Proof.
  split.
  - apply (provider_401_is_retried (ClaudeProvider claude_with_bad_key)
             (lit "sys") (lit "usr") None 100 0 VNone true world_unauthorized).
    + reflexivity.
    + intros _. eexists. split; vm_compute; reflexivity.
    + eexists. split; reflexivity.
    + eexists. split; reflexivity.
    + eexists. split; reflexivity.
  - apply (provider_401_is_retried
             (DeepSeekProvider (DeepSeekClient.Client false (lit "bad-key")))
             (lit "sys") (lit "usr") None 100 0 VNone true world_unauthorized).
    + reflexivity.
    + intros _. eexists. split; vm_compute; reflexivity.
    + eexists. split; reflexivity.
    + eexists. split; reflexivity.
    + eexists. split; reflexivity.
Defined.

(** ** Frames *)

Section Frame.

Variable R : world -> world -> Prop.
Hypothesis R_refl : forall w, R w w.
Hypothesis R_trans : forall a b c, R a b -> R b c -> R a c.

Lemma frame_ret {A} (a : A) : frame R (ret a).
Proof using R_refl. intros w. apply R_refl. Qed.

Lemma frame_raise {A} (e : exn) : frame R (@raise A e).
Proof using R_refl. intros w. apply R_refl. Qed.

Lemma frame_lift {A} (o : outcome A) : frame R (lift o).
Proof using R_refl. intros w. apply R_refl. Qed.

Lemma frame_bind {A B} (m : M A) (k : A -> M B) :
  frame R m -> (forall a, frame R (k a)) -> frame R (bind m k).
Proof using R_trans.
  intros Hm Hk w. unfold bind. specialize (Hm w).
  destruct (m w) as [[a|e] w1]; cbn [snd] in *; [|exact Hm].
  exact (R_trans _ _ _ Hm (Hk a w1)).
Qed.

Lemma frame_try_except {A} (body : M A) (handles : exn -> bool)
      (handler : exn -> M A) :
  frame R body -> (forall e, frame R (handler e)) ->
  frame R (try_except body handles handler).
Proof using R_trans.
  intros Hb Hh w. unfold try_except. specialize (Hb w).
  destruct (body w) as [[a|e] w1]; cbn [snd] in *; [exact Hb|].
  destruct (handles e); [|exact Hb].
  exact (R_trans _ _ _ Hb (Hh e w1)).
Qed.

End Frame.

Lemma only_refl (allowed : event -> bool) (w : world) : only allowed w w.
Proof. exists []. rewrite app_nil_r. auto. Qed.

Lemma only_trans (allowed : event -> bool) (a b c : world) :
  only allowed a b -> only allowed b c -> only allowed a c.
Proof.
  intros (e1 & H1 & A1) (e2 & H2 & A2). exists (e1 ++ e2).
  rewrite H2, H1, <- app_assoc, forallb_app, A1, A2. auto.
Qed.

Lemma only_logged (allowed : event -> bool) (e : event) (w : world) :
  allowed e = true -> only allowed w (logged e w).
Proof. intros H. exists [e]. cbn. rewrite H. auto. Qed.

Lemma only_same_trace (allowed : event -> bool) (w w' : world) :
  trace w' = trace w -> only allowed w w'.
Proof. intros H. exists []. rewrite app_nil_r. auto. Qed.

Lemma entered_emit (c : client) (allowed : event -> bool) {A} (m : M A) :
  frame (only allowed) m ->
  forall w, entered c allowed w (snd ((emit (EvGenerate c) ;;; m) w)).
Proof.
  intros Hm w. unfold bind, emit.
  destruct (Hm (logged (EvGenerate c) w)) as (evs & Ht & Ha).
  exists evs. rewrite Ht. cbn [trace logged]. rewrite <- app_assoc. auto.
Qed.

Lemma entered_only (c : client) (allowed : event -> bool) (w w' : world) :
  allowed (EvGenerate c) = true -> entered c allowed w w' -> only allowed w w'.
Proof.
  intros Hc (evs & Ht & Ha). exists (EvGenerate c :: evs).
  cbn. rewrite Hc, Ha. auto.
Qed.

Ltac frame_step :=
  lazymatch goal with
  | |- frame _ (bind _ _) =>
      apply frame_bind; [apply only_trans | | intros ?]
  | |- frame _ (try_except _ _ _) =>
      apply frame_try_except; [apply only_trans | | intros ?]
  | |- frame _ (ret _) => apply frame_ret, only_refl
  | |- frame _ (raise _) => apply frame_raise, only_refl
  | |- frame _ (lift _) => apply frame_lift, only_refl
  | |- frame _ (if ?b then _ else _) => destruct b eqn:?
  | |- frame _ (match ?x with _ => _ end) => destruct x eqn:?
  end.

(** ** The events of each operation *)

Section Traces.

Variable allowed : event -> bool.
Hypothesis allowed_post : forall t p, allowed (EvPost t p) = true.
Hypothesis allowed_sleep : forall d, allowed (EvSleep d) = true.

Lemma frame_emit (e : event) : allowed e = true -> frame (only allowed) (emit e).
Proof using Type. intros H w. apply only_logged, H. Qed.

Lemma frame_sleep (d : Z) : frame (only allowed) (sleep d).
Proof using allowed_sleep.
  intros w. exists [EvSleep d]. cbn. rewrite allowed_sleep. auto.
Qed.

Lemma frame_requests_post (t : endpoint) (p : value) :
  frame (only allowed) (requests_post t p).
Proof using allowed_post.
  intros w. unfold requests_post.
  destruct (remote w t (posts w t)); exists [EvPost t p]; cbn;
    rewrite allowed_post; auto.
Qed.

Lemma frame_unlink (d : directory) (name : pystr) :
  frame (only allowed) (LLMResponseCache.unlink d name).
Proof using Type. intros w. apply only_same_trace. destruct d; reflexivity. Qed.

Lemma frame_write_json (d : directory) (name : pystr) (v : value) :
  frame (only allowed) (LLMResponseCache.write_json d name v).
Proof using Type.
  intros w. apply only_same_trace. unfold LLMResponseCache.write_json.
  destruct (write_fails w d name); [reflexivity|]. destruct d; reflexivity.
Qed.

Lemma frame_read (self : LLMResponseCache.t) (cache_file : pystr) :
  frame (only allowed)
    (fun w =>
       match cache_dir w !! cache_file with
       | None => ret VNone w
       | Some f =>
           let file_age := (now w - st_mtime f)%Q in
           if Qlt_bool (inject_Z (LLMResponseCache.max_age_seconds self)) file_age
           then (LLMResponseCache.unlink CacheDir cache_file ;;; ret VNone) w
           else
             match content f with
             | Some v => ret v w
             | None => (LLMResponseCache.unlink CacheDir cache_file ;;; ret VNone) w
             end
       end).
Proof using Type.
  intros w. cbv beta zeta.
  destruct (cache_dir w !! cache_file) as [f|]; [|apply only_refl].
  destruct (Qlt_bool _ _); [apply only_same_trace; reflexivity|].
  destruct (content f); [apply only_refl|apply only_same_trace; reflexivity].
Qed.

Variables (use_cache : bool) (temperature : Q).
Hypothesis allowed_cache :
  cache_eligible use_cache temperature = true ->
  forall e, is_cache_event e = true -> allowed e = true.

Lemma frame_cache_get (sp up m : pystr) :
  frame (only allowed)
    (if cache_eligible use_cache temperature
     then LLMResponseCache.get llm_cache sp up m else ret VNone).
Proof using allowed_cache.
  destruct (cache_eligible use_cache temperature); [|apply frame_ret, only_refl].
  unfold LLMResponseCache.get.
  repeat first [apply frame_read
               | apply frame_emit, allowed_cache; reflexivity
               | frame_step].
Qed.

Lemma frame_cache_set (sp up m : pystr) (rd : value) :
  frame (only allowed)
    (if cache_eligible use_cache temperature
     then LLMResponseCache.set llm_cache sp up m rd else ret tt).
Proof using allowed_cache.
  destruct (cache_eligible use_cache temperature); [|apply frame_ret, only_refl].
  unfold LLMResponseCache.set.
  repeat first [apply frame_write_json
               | apply frame_emit, allowed_cache; reflexivity
               | frame_step].
Qed.

Lemma frame_cache_get_advanced (key : pystr) :
  frame (only allowed)
    (if cache_eligible use_cache temperature
     then LLMResponseCache.get_advanced llm_cache key else ret VNone).
Proof using allowed_cache.
  destruct (cache_eligible use_cache temperature); [|apply frame_ret, only_refl].
  unfold LLMResponseCache.get_advanced.
  repeat first [apply frame_read
               | apply frame_emit, allowed_cache; reflexivity
               | frame_step].
Qed.

Lemma frame_cache_set_advanced (key : pystr) (rd : value) :
  frame (only allowed)
    (if cache_eligible use_cache temperature
     then LLMResponseCache.set_advanced llm_cache key rd else ret tt).
Proof using allowed_cache.
  destruct (cache_eligible use_cache temperature); [|apply frame_ret, only_refl].
  unfold LLMResponseCache.set_advanced.
  repeat first [apply frame_write_json
               | apply frame_emit, allowed_cache; reflexivity
               | frame_step].
Qed.

Lemma frame_deepseek_loop (sp up m : pystr) (payload : value) (n : nat) :
  forall attempt d,
    frame (only allowed)
      (DeepSeekClient.retry_loop sp up m temperature use_cache payload n
                                 attempt d).
Proof using allowed_post allowed_sleep allowed_cache.
  induction n as [|n IH]; intros attempt d; cbn [DeepSeekClient.retry_loop].
  - apply frame_raise, only_refl.
  - repeat first [apply frame_requests_post | apply frame_sleep
                 | apply frame_cache_set | apply IH | frame_step].
Qed.

Lemma entered_deepseek (self : DeepSeekClient.t) (sp up : pystr)
      (model : option pystr) (max_tokens : Z) (so : value) (w : world) :
  entered TheDeepSeekClient allowed w
    (snd (DeepSeekClient.generate_response self sp up model max_tokens
            temperature so use_cache w)).
Proof using allowed_post allowed_sleep allowed_cache.
  unfold DeepSeekClient.generate_response. apply entered_emit.
  cbv zeta.
  destruct (DeepSeekClient.debug_mode self); [apply frame_lift, only_refl|].
  apply frame_bind; [apply only_trans|apply frame_cache_get|intros cached].
  destruct (_ && _); [apply frame_ret, only_refl|].
  apply frame_deepseek_loop.
Qed.

Lemma frame_claude_loop (sp up m : pystr) (so : value) (payload : value)
      (n : nat) :
  forall attempt d,
    frame (only allowed)
      (ClaudeClient.retry_loop sp up m temperature so use_cache payload n
                               attempt d).
Proof using allowed_post allowed_sleep allowed_cache.
  induction n as [|n IH]; intros attempt d; cbn [ClaudeClient.retry_loop].
  - apply frame_raise, only_refl.
  - repeat first [apply frame_requests_post | apply frame_sleep
                 | apply frame_cache_set | apply IH | frame_step].
Qed.

Lemma entered_claude (self : ClaudeClient.t) (sp up : pystr)
      (model : option pystr) (max_tokens : Z) (so : value) (w : world) :
  entered TheClaudeClient allowed w
    (snd (ClaudeClient.generate_response self sp up model max_tokens
            temperature so use_cache w)).
Proof using allowed_post allowed_sleep allowed_cache.
  unfold ClaudeClient.generate_response. apply entered_emit.
  cbv zeta.
  destruct (ClaudeClient.debug_mode self); [apply frame_lift, only_refl|].
  apply frame_bind; [apply only_trans|apply frame_cache_get|intros cached].
  destruct (_ && _); [apply frame_ret, only_refl|].
  destruct (truthy so); apply frame_claude_loop.
Qed.

End Traces.

(** ** The unified client *)

Lemma str_in_bools_false (s : pystr) (flags : list bool) :
  UnifiedLLMClient.str_in_bools s flags = false.
Proof. unfold UnifiedLLMClient.str_in_bools. induction flags; auto. Qed.

Lemma generate_calls_none (evs : list event) :
  forallb not_generate evs = true -> generate_calls evs = [].
Proof.
  induction evs as [|e evs IH]; [reflexivity|]. cbn [forallb].
  intros [He Hevs]%andb_prop. destruct e; try discriminate He; apply IH, Hevs.
Qed.

Lemma generate_calls_entered (c : client) (w w' : world) :
  entered c not_generate w w' -> generate_calls (events_since w w') = [c].
Proof.
  intros (evs & Ht & Ha). rewrite (events_since_app w w' _ Ht).
  cbn. f_equal. apply generate_calls_none, Ha.
Qed.

Lemma events_since_trans (a b c : world) (e1 e2 : list event) :
  trace b = trace a ++ e1 -> trace c = trace b ++ e2 ->
  events_since a c = events_since a b ++ events_since b c.
Proof.
  intros H1 H2.
  rewrite (events_since_app a b e1 H1), (events_since_app b c e2 H2).
  apply events_since_app. rewrite H2, H1, <- app_assoc. reflexivity.
Qed.

Lemma not_generate_cache (use_cache : bool) (temperature : Q) :
  cache_eligible use_cache temperature = true ->
  forall e, is_cache_event e = true -> not_generate e = true.
Proof. intros _ [] H; try reflexivity; discriminate H. Qed.

(** C1.  With both providers configured and DeepSeek requested: when the
    call of [DeepSeekClient] raises and the call of [ClaudeClient] that
    follows raises too, [UnifiedLLMClient.generate_response] calls
    [DeepSeekClient] a second time, and its outcome is the outcome of that
    third call: the clients entered are DeepSeek, Claude, DeepSeek, and the
    error assembled from both failures is not raised. *)
Theorem unified_fallback_calls_deepseek_again
        (self : UnifiedLLMClient.t) (d : DeepSeekClient.t) (c : ClaudeClient.t)
        (sp up : pystr) (model : option pystr) (max_tokens : Z)
        (temperature : Q) (so : value) (use_cache : bool)
        (provider : option pystr) (w : world) (e1 e2 : exn) :
  UnifiedLLMClient.debug_mode self = false ->
  UnifiedLLMClient.has_deepseek self = true ->
  UnifiedLLMClient.deepseek_client self = Some d ->
  UnifiedLLMClient.has_claude self = true ->
  UnifiedLLMClient.claude_client self = Some c ->
  requested_provider self provider = lit "deepseek" ->
  let first := DeepSeekClient.generate_response d sp up model max_tokens
                 temperature so use_cache w in
  fst first = Raise e1 ->
  let second := ClaudeClient.generate_response c sp up model max_tokens
                  temperature so use_cache (snd first) in
  fst second = Raise e2 ->
  let third := DeepSeekClient.generate_response d sp up model max_tokens
                 temperature so use_cache (snd second) in
  let run := UnifiedLLMClient.generate_response self sp up model max_tokens
               temperature so use_cache provider w in
  run = third
  /\ generate_calls (events_since w (snd run))
     = [TheDeepSeekClient; TheClaudeClient; TheDeepSeekClient].
Proof.
  intros Hdebug Hd Hdc Hc Hcc Hreq first H1 second H2 third run.
  assert (Hrun : run = third).
  { subst run. unfold UnifiedLLMClient.generate_response.
    change (match provider with
            | Some (c0 :: p) => PyStr.lower (c0 :: p)
            | _ => UnifiedLLMClient.preferred_provider self
            end) with (requested_provider self provider).
    rewrite Hdebug, Hreq, Hd, Hc.
    change (lit "deepseek" =s? lit "deepseek") with true.
    cbn [andb].
    unfold UnifiedLLMClient.call_deepseek, UnifiedLLMClient.call_claude.
    rewrite Hdc, Hcc.
    unfold bind at 1. unfold try_except at 1. unfold bind at 1.
    fold first. destruct first as [o1 w1] eqn:E1. cbn [fst snd] in *.
    subst o1. cbn [UnifiedLLMClient.any_exception ret].
    change (lit "claude" =s? lit "claude") with true. cbn [andb].
    unfold bind at 1. unfold try_except at 1. unfold bind at 1.
    fold second. destruct second as [o2 w2] eqn:E2. cbn [fst snd] in *.
    subst o2. cbn [UnifiedLLMClient.any_exception].
    rewrite str_in_bools_false. cbn [negb andb].
    unfold bind. subst third. cbn [snd].
    destruct (DeepSeekClient.generate_response d sp up model max_tokens
                temperature so use_cache w2) as [[r|e3] w3]; reflexivity. }
  split; [exact Hrun|]. rewrite Hrun.
  pose proof (entered_deepseek not_generate ltac:(reflexivity) ltac:(reflexivity)
                use_cache temperature (not_generate_cache use_cache temperature)
                d sp up model max_tokens so w) as G1.
  pose proof (entered_claude not_generate ltac:(reflexivity) ltac:(reflexivity)
                use_cache temperature (not_generate_cache use_cache temperature)
                c sp up model max_tokens so (snd first)) as G2.
  pose proof (entered_deepseek not_generate ltac:(reflexivity) ltac:(reflexivity)
                use_cache temperature (not_generate_cache use_cache temperature)
                d sp up model max_tokens so (snd second)) as G3.
  fold first in G1. fold second in G2. fold third in G3.
  pose proof (generate_calls_entered _ _ _ G1) as C1.
  pose proof (generate_calls_entered _ _ _ G2) as C2.
  pose proof (generate_calls_entered _ _ _ G3) as C3.
  destruct G1 as (v1 & T1 & _), G2 as (v2 & T2 & _), G3 as (v3 & T3 & _).
  rewrite (events_since_trans w (snd second) (snd third)
             ((EvGenerate TheDeepSeekClient :: v1)
              ++ EvGenerate TheClaudeClient :: v2)
             (EvGenerate TheDeepSeekClient :: v3)).
  - rewrite (events_since_trans w (snd first) (snd second) _ _ T1 T2).
    rewrite !generate_calls_app, C1, C2, C3. reflexivity.
  - rewrite T2, T1, <- app_assoc. reflexivity.
  - exact T3.
Qed.

Lemma unified_fallback_calls_deepseek_again_witness :
  let run := UnifiedLLMClient.generate_response the_unified_client
               (lit "sys") (lit "usr") None 100 (7 # 10) VNone true None
               world_offline in
  fst run = Raise (Exn ConnectionError (lit "connection refused"))
  /\ generate_calls (events_since world_offline (snd run))
     = [TheDeepSeekClient; TheClaudeClient; TheDeepSeekClient].
Proof.
  cbv zeta.
  destruct (unified_fallback_calls_deepseek_again the_unified_client
              (DeepSeekClient.Client false (lit "sk-deepseek"))
              (ClaudeClient.Client false (lit "sk-ant-claude"))
              (lit "sys") (lit "usr") None 100 (7 # 10) VNone true None
              world_offline
              (Exn ConnectionError (lit "connection refused"))
              claude_gave_up
              eq_refl eq_refl eq_refl eq_refl eq_refl eq_refl
              ltac:(vm_compute; reflexivity) ltac:(vm_compute; reflexivity))
    as [Hrun Hcalls].
  split; [|exact Hcalls].
  rewrite Hrun. vm_compute. reflexivity.
Defined.

(** Offline, the unified client posts six times to DeepSeek and three
    times to Claude, and what it raises is the last error of DeepSeek, not
    the error assembled from both failures. *)
Lemma unified_offline_run :
  let run := UnifiedLLMClient.generate_response the_unified_client
               (lit "sys") (lit "usr") None 100 (7 # 10) VNone true None
               world_offline in
  fst run = Raise (Exn ConnectionError (lit "connection refused"))
  /\ fst run <> Raise (all_providers_failed
                         (Exn ConnectionError (lit "connection refused"))
                         claude_gave_up)
  /\ posts_to DeepSeekAPI (events_since world_offline (snd run)) = 6%nat
  /\ posts_to ClaudeAPI (events_since world_offline (snd run)) = 3%nat
  /\ sleeps (events_since world_offline (snd run)) = [2; 4; 2; 4; 2; 4]%Z.
Proof.
  cbv zeta. vm_compute. repeat split; try reflexivity. discriminate.
Qed.

(** ** The events of the optimized client, the unified client and the manager *)

Section Calls.

Variable allowed : event -> bool.
Hypothesis allowed_post : forall t p, allowed (EvPost t p) = true.
Hypothesis allowed_sleep : forall d, allowed (EvSleep d) = true.
Variables (use_cache : bool) (temperature : Q).
Hypothesis allowed_cache :
  cache_eligible use_cache temperature = true ->
  forall e, is_cache_event e = true -> allowed e = true.

Lemma frame_track_deepseek_server_cache (usage_data : value) :
  frame (only allowed) (track_deepseek_server_cache usage_data).
Proof using Type.
  unfold track_deepseek_server_cache.
  repeat first [apply frame_write_json | frame_step].
  intros w. cbv beta zeta.
  match goal with
  | |- only _ _ (snd (bind ?m ?k w)) =>
      apply (frame_bind _ (only_trans allowed) m k)
  end.
  - apply frame_lift, only_refl.
  - intros metadata. apply frame_write_json.
Qed.

Lemma frame_track_server_cache (result : value) :
  frame (only allowed) (OptimizedDeepSeekClient.track_server_cache result).
Proof using Type.
  unfold OptimizedDeepSeekClient.track_server_cache.
  repeat first [apply frame_track_deepseek_server_cache | frame_step].
Qed.

Lemma frame_load_context (self : OptimizedDeepSeekClient.t) (cid : pystr) :
  frame (only allowed) (OptimizedDeepSeekClient.load_context self cid).
Proof using Type.
  unfold OptimizedDeepSeekClient.load_context.
  apply frame_bind; [apply only_trans|apply frame_lift, only_refl|intros key].
  intros w. cbv beta zeta.
  destruct (context_cache_dir w !! _) as [f|]; [|apply only_refl].
  destruct (content f); apply only_refl.
Qed.

Lemma frame_save_context (self : OptimizedDeepSeekClient.t) (cid : pystr)
      (messages : value) :
  frame (only allowed) (OptimizedDeepSeekClient.save_context self cid messages).
Proof using Type.
  unfold OptimizedDeepSeekClient.save_context.
  repeat first [apply frame_write_json | frame_step].
Qed.

Lemma frame_optimized_loop (self : OptimizedDeepSeekClient.t)
      (sp up m : pystr) (stream : bool) (context_id : option pystr)
      (messages payload : value) (n : nat) :
  forall attempt d,
    frame (only allowed)
      (OptimizedDeepSeekClient.retry_loop self sp up m temperature use_cache
         stream context_id messages payload n attempt d).
Proof using allowed_post allowed_sleep allowed_cache.
  induction n as [|n IH]; intros attempt d;
    cbn [OptimizedDeepSeekClient.retry_loop].
  - apply frame_raise, only_refl.
  - repeat first [apply frame_requests_post, allowed_post
                 | apply frame_sleep, allowed_sleep
                 | apply frame_cache_set_advanced, allowed_cache
                 | apply frame_track_server_cache
                 | apply frame_save_context
                 | apply IH | frame_step].
Qed.

Lemma entered_optimized (self : OptimizedDeepSeekClient.t) (sp up : pystr)
      (model : option pystr) (max_tokens : Z) (so : value) (stream : bool)
      (context_id cache_id : option pystr) (w : world) :
  entered TheOptimizedDeepSeekClient allowed w
    (snd (OptimizedDeepSeekClient.generate_response self sp up model
            max_tokens temperature so use_cache stream context_id cache_id w)).
Proof using allowed_post allowed_sleep allowed_cache.
  unfold OptimizedDeepSeekClient.generate_response. apply entered_emit.
  cbv zeta.
  destruct (OptimizedDeepSeekClient.debug_mode self);
    [apply frame_lift, only_refl|].
  apply frame_bind;
    [apply only_trans|apply frame_cache_get_advanced, allowed_cache
    |intros cached].
  destruct (_ && _); [apply frame_ret, only_refl|].
  apply frame_bind; [apply only_trans| |intros messages].
  - repeat first [apply frame_load_context | frame_step].
  - apply frame_optimized_loop.
Qed.

Hypothesis allowed_generate : forall c, allowed (EvGenerate c) = true.

Lemma frame_deepseek_generate (self : DeepSeekClient.t) (sp up : pystr)
      (model : option pystr) (max_tokens : Z) (so : value) :
  frame (only allowed)
    (DeepSeekClient.generate_response self sp up model max_tokens temperature
                                      so use_cache).
Proof using allowed_post allowed_sleep allowed_cache allowed_generate.
  intros w. eapply entered_only; [apply allowed_generate|].
  apply entered_deepseek; assumption.
Qed.

Lemma frame_claude_generate (self : ClaudeClient.t) (sp up : pystr)
      (model : option pystr) (max_tokens : Z) (so : value) :
  frame (only allowed)
    (ClaudeClient.generate_response self sp up model max_tokens temperature
                                    so use_cache).
Proof using allowed_post allowed_sleep allowed_cache allowed_generate.
  intros w. eapply entered_only; [apply allowed_generate|].
  apply entered_claude; assumption.
Qed.

Lemma frame_optimized_generate (self : OptimizedDeepSeekClient.t)
      (sp up : pystr) (model : option pystr) (max_tokens : Z) (so : value)
      (stream : bool) (context_id cache_id : option pystr) :
  frame (only allowed)
    (OptimizedDeepSeekClient.generate_response self sp up model max_tokens
       temperature so use_cache stream context_id cache_id).
Proof using allowed_post allowed_sleep allowed_cache allowed_generate.
  intros w. eapply entered_only; [apply allowed_generate|].
  apply entered_optimized.
Qed.

Lemma frame_unified_generate (self : UnifiedLLMClient.t) (sp up : pystr)
      (model : option pystr) (max_tokens : Z) (so : value)
      (provider : option pystr) :
  frame (only allowed)
    (UnifiedLLMClient.generate_response self sp up model max_tokens
                                        temperature so use_cache provider).
Proof using allowed_post allowed_sleep allowed_cache allowed_generate.
  unfold UnifiedLLMClient.generate_response,
    UnifiedLLMClient.call_deepseek, UnifiedLLMClient.call_claude.
  cbv zeta.
  repeat first [apply frame_deepseek_generate | apply frame_claude_generate
               | frame_step].
Qed.

Lemma frame_manager_generate (self : LLMManager.t) (sp up : pystr)
      (model : option pystr) (max_tokens : Z) (so : value)
      (provider context_id : option pystr) (stream force_cache : bool) :
  frame (only allowed)
    (LLMManager.generate_response self sp up model max_tokens temperature so
       use_cache provider context_id stream force_cache).
Proof using allowed_post allowed_sleep allowed_cache allowed_generate.
  unfold LLMManager.generate_response.
  destruct (LLMManager.select_provider _ _ _ _ _ _) as [should provider'].
  destruct (_ && _).
  - apply frame_optimized_generate.
  - apply frame_unified_generate.
Qed.

End Calls.

Lemma cache_events_none (evs : list event) :
  forallb not_cache_event evs = true -> cache_events evs = [].
Proof.
  induction evs as [|e evs IH]; [reflexivity|]. cbn [forallb].
  intros [He Hevs]%andb_prop. unfold cache_events in *. cbn [List.filter].
  unfold not_cache_event in He. destruct (is_cache_event e); [discriminate He|].
  apply IH, Hevs.
Qed.

Lemma high_temperature_not_eligible (use_cache : bool) (temperature : Q) :
  high_temperature temperature -> cache_eligible use_cache temperature = false.
Proof.
  intros H. unfold cache_eligible. rewrite H. apply andb_false_r.
Qed.

(** C2.  At a temperature of 0.2 or more, a call of
    [LLMManager.generate_response] neither reads nor writes the response
    cache, whether [force_cache] is set or not (and whatever the other
    arguments are): [force_cache] takes part in the choice of the client
    only and is not passed on. *)
Theorem force_cache_never_reaches_the_cache
        (self : LLMManager.t) (sp up : pystr) (model : option pystr)
        (max_tokens : Z) (temperature : Q) (so : value) (use_cache : bool)
        (provider context_id : option pystr) (stream force_cache : bool)
        (w : world) :
  high_temperature temperature ->
  let run := LLMManager.generate_response self sp up model max_tokens
               temperature so use_cache provider context_id stream
               force_cache w in
  cache_events (events_since w (snd run)) = [].
Proof.
  intros Hhigh run.
  destruct (frame_manager_generate not_cache_event
              ltac:(reflexivity) ltac:(reflexivity) use_cache temperature
              ltac:(rewrite (high_temperature_not_eligible _ _ Hhigh);
                    discriminate)
              ltac:(reflexivity)
              self sp up model max_tokens so provider context_id stream
              force_cache w) as (evs & Ht & Ha).
  fold run in Ht. rewrite (events_since_app w (snd run) evs Ht).
  apply cache_events_none, Ha.
Qed.

Lemma force_cache_never_reaches_the_cache_witness :
  cache_events
    (events_since world_third_time_lucky
       (snd (LLMManager.generate_response the_manager (lit "sys") (lit "usr")
               None 100 (7 # 10) VNone true None None false true
               world_third_time_lucky)))
  = [].
Proof.
  apply (force_cache_never_reaches_the_cache the_manager (lit "sys")
           (lit "usr") None 100 (7 # 10) VNone true None None false true
           world_third_time_lucky).
  vm_compute. reflexivity.
Defined.

(** The same request at temperature 0 does use the cache: it is the
    temperature, not [force_cache], that decides. *)
Lemma low_temperature_reaches_the_cache :
  cache_events
    (events_since world_third_time_lucky
       (snd (LLMManager.generate_response the_manager (lit "sys") (lit "usr")
               None 100 0 VNone true None None false false
               world_third_time_lucky)))
  <> [].
Proof. vm_compute. discriminate. Qed.

(** ** Conversation contexts *)

Lemma same_context_refl (w : world) : same_context w w.
Proof. split; reflexivity. Qed.

Lemma same_context_trans (a b c : world) :
  same_context a b -> same_context b c -> same_context a c.
Proof. intros [H1 H2] [H3 H4]. split; congruence. Qed.

Ltac context_step :=
  lazymatch goal with
  | |- frame _ (bind _ _) =>
      apply frame_bind; [apply same_context_trans | | intros ?]
  | |- frame _ (try_except _ _ _) =>
      apply frame_try_except; [apply same_context_trans | | intros ?]
  | |- frame _ (ret _) => apply frame_ret, same_context_refl
  | |- frame _ (raise _) => apply frame_raise, same_context_refl
  | |- frame _ (lift _) => apply frame_lift, same_context_refl
  | |- frame _ (if ?b then _ else _) => destruct b eqn:?
  | |- frame _ (match ?x with _ => _ end) => destruct x eqn:?
  end.

Lemma context_emit (e : event) : frame same_context (emit e).
Proof. intros w. split; reflexivity. Qed.

Lemma context_write_cache (name : pystr) (v : value) :
  frame same_context (LLMResponseCache.write_json CacheDir name v).
Proof.
  intros w. unfold LLMResponseCache.write_json.
  destruct (write_fails w CacheDir name); split; reflexivity.
Qed.

Lemma context_get_advanced (self : LLMResponseCache.t) (key_str : pystr) :
  frame same_context (LLMResponseCache.get_advanced self key_str).
Proof.
  unfold LLMResponseCache.get_advanced.
  repeat first [apply context_emit | context_step].
  intros w. cbv beta zeta.
  destruct (cache_dir w !! _) as [f|]; [|apply same_context_refl].
  destruct (Qlt_bool _ _); [split; reflexivity|].
  destruct (content f); split; reflexivity.
Qed.

Lemma context_set_advanced (self : LLMResponseCache.t) (key_str : pystr)
      (rd : value) :
  frame same_context (LLMResponseCache.set_advanced self key_str rd).
Proof.
  unfold LLMResponseCache.set_advanced.
  repeat first [apply context_emit | apply context_write_cache | context_step].
Qed.

Lemma context_track_deepseek_server_cache (usage_data : value) :
  frame same_context (track_deepseek_server_cache usage_data).
Proof.
  unfold track_deepseek_server_cache.
  repeat first [apply context_write_cache | context_step].
  intros w. cbv beta zeta.
  match goal with
  | |- same_context _ (snd (bind ?m ?k w)) =>
      apply (frame_bind _ same_context_trans m k)
  end.
  - apply frame_lift, same_context_refl.
  - intros metadata. apply context_write_cache.
Qed.

Lemma context_track_server_cache (result : value) :
  frame same_context (OptimizedDeepSeekClient.track_server_cache result).
Proof.
  unfold OptimizedDeepSeekClient.track_server_cache.
  repeat first [apply context_track_deepseek_server_cache | context_step].
Qed.

Lemma set_advanced_returns (self : LLMResponseCache.t) (key_str key : pystr)
      (rd : value) (w : world) :
  LLMResponseCache.get_advanced_cache_key key_str = Return key ->
  fst (LLMResponseCache.set_advanced self key_str rd w) = Return tt.
Proof.
  intros Hk. unfold LLMResponseCache.set_advanced. rewrite Hk.
  unfold bind, lift, emit, LLMResponseCache.write_json. cbn.
  destruct (write_fails w CacheDir _); reflexivity.
Qed.

Lemma get_advanced_hashable (self : LLMResponseCache.t) (key_str : pystr)
      (w : world) (v : value) :
  fst (LLMResponseCache.get_advanced self key_str w) = Return v ->
  exists key, LLMResponseCache.get_advanced_cache_key key_str = Return key.
Proof.
  unfold LLMResponseCache.get_advanced, bind, lift.
  destruct (LLMResponseCache.get_advanced_cache_key key_str) as [key|e];
    [eauto|discriminate].
Qed.

Lemma after_attempts_from (stream : bool) (context_id : option pystr)
      (messages : value) (w w1 : world) (run : outcome value * world) :
  same_context w w1 ->
  after_attempts stream context_id messages w1 run ->
  after_attempts stream context_id messages w run.
Proof.
  intros [Hc Hf]. unfold after_attempts, turn_saved, same_context.
  rewrite Hc, Hf. auto.
Qed.

Lemma after_attempts_raise (stream : bool) (context_id : option pystr)
      (messages : value) (w w' : world) (e : exn) :
  same_context w w' ->
  after_attempts stream context_id messages w (Raise e, w').
Proof. intros H. exact H. Qed.
Lemma optimized_retry_unfold (self : OptimizedDeepSeekClient.t)
      (sp up m : pystr) (temperature : Q) (use_cache stream : bool)
      (context_id : option pystr) (messages payload : value) (n : nat)
      (attempt d : Z) :
  OptimizedDeepSeekClient.retry_loop self sp up m temperature use_cache stream
    context_id messages payload (S n) attempt d
  = try_except
      (optimized_attempt self sp up m temperature use_cache stream context_id
                         messages payload)
      is_request_exception
      (fun e =>
         if (attempt <? max_retries - 1)%Z then
           sleep d ;;;
           OptimizedDeepSeekClient.retry_loop self sp up m temperature
             use_cache stream context_id messages payload n
             (attempt + 1)%Z (d * 2)%Z
         else raise e).
Proof. reflexivity. Qed.

(** The end of a successful attempt: the write to the local cache cannot
    raise once the key string is known to be hashable. *)
Lemma cache_write_advanced_context (sp up m : pystr) (temperature : Q)
      (use_cache : bool) (context_id : option pystr) (rd : value) (w : world) :
  cache_key_hashable sp up m temperature use_cache context_id ->
  exists w',
    ((if cache_eligible use_cache temperature
      then LLMResponseCache.set_advanced llm_cache
             (OptimizedDeepSeekClient.cache_key_for_write sp up m context_id) rd
      else ret tt) ;;; ret rd) w = (Return rd, w')
    /\ same_context w w'.
Proof.
  intros Hk. unfold bind.
  destruct (cache_eligible use_cache temperature) eqn:He.
  - destruct (Hk He) as (key & Hkey).
    rewrite <- cache_key_for_write_eq in Hkey.
    pose proof (set_advanced_returns llm_cache _ key rd w Hkey) as Hr.
    pose proof (context_set_advanced llm_cache
                  (OptimizedDeepSeekClient.cache_key_for_write sp up m context_id)
                  rd w) as Hc.
    destruct (LLMResponseCache.set_advanced _ _ _ w) as [[[]|e] w'];
      cbn [fst snd] in *; [|discriminate Hr].
    exists w'. split; [reflexivity|exact Hc].
  - exists w. split; [reflexivity|apply same_context_refl].
Qed.

Lemma optimized_attempt_context (self : OptimizedDeepSeekClient.t)
      (sp up m : pystr) (temperature : Q) (use_cache stream : bool)
      (context_id : option pystr) (messages payload : value) (w : world) :
  cache_key_hashable sp up m temperature use_cache context_id ->
  after_attempts stream context_id messages w
    (optimized_attempt self sp up m temperature use_cache stream context_id
                       messages payload w).
Proof.
  intros Hk. unfold optimized_attempt.
  unfold bind at 1, requests_post at 1.
  destruct (remote w DeepSeekAPI _) as [e|r].
  { apply after_attempts_raise. split; reflexivity. }
  apply (after_attempts_from _ _ _ w (posted DeepSeekAPI payload w));
    [split; reflexivity|].
  generalize (posted DeepSeekAPI payload w). clear w. intros w.
  unfold bind at 1, lift at 1.
  destruct (raise_for_status _ r) as [[]|e];
    [|apply after_attempts_raise, same_context_refl].
  destruct stream.
  { unfold lift.
    destruct (OptimizedDeepSeekClient._handle_streaming_response self r)
      as [v|e]; unfold after_attempts; cbn [fst snd];
      [destruct (OptimizedDeepSeekClient.has_context context_id)|];
      apply same_context_refl. }
  unfold bind at 1, lift at 1.
  destruct (response_json r) as [result|e];
    [|apply after_attempts_raise, same_context_refl].
  unfold bind at 1, lift at 1.
  destruct (OptimizedDeepSeekClient.response_data_of result m) as [rd|e];
    [|apply after_attempts_raise, same_context_refl].
  unfold bind at 1.
  pose proof (context_track_server_cache result w) as Ht.
  destruct (OptimizedDeepSeekClient.track_server_cache result w)
    as [[[]|e] w1]; cbn [snd] in Ht; [|apply after_attempts_raise, Ht].
  apply (after_attempts_from _ _ _ w w1 _ Ht). clear Ht w. rename w1 into w.
  destruct (OptimizedDeepSeekClient.has_context context_id) as [cid|] eqn:Hctx.
  - unfold bind at 1. unfold bind at 1, lift at 1.
    destruct (Py.getitem_key rd (lit "content")) as [content|e] eqn:Hcontent;
      [|apply after_attempts_raise, same_context_refl].
    unfold bind at 1, lift at 1.
    fold (assistant_message content).
    destruct (Py.append messages (assistant_message content))
      as [messages'|e] eqn:Happ;
      [|apply after_attempts_raise, same_context_refl].
    unfold OptimizedDeepSeekClient.save_context.
    unfold bind at 1, lift at 1.
    destruct (OptimizedDeepSeekClient._get_context_key cid) as [key|e] eqn:Hkey;
      [|apply after_attempts_raise, same_context_refl].
    unfold LLMResponseCache.write_json at 1.
    destruct (write_fails w ContextDir (LLMResponseCache.file_name key)) eqn:Hwf.
    + destruct (cache_write_advanced_context sp up m temperature use_cache
                  context_id rd w Hk) as (w' & -> & Hc1 & Hc2).
      unfold after_attempts. cbn [fst snd]. rewrite Hctx.
      exists key, content, messages', 0%Q. rewrite Hwf. auto.
    + match goal with |- context [set_dir ContextDir ?files w] =>
        destruct (cache_write_advanced_context sp up m temperature use_cache
                    context_id rd (set_dir ContextDir files w) Hk)
          as (w' & -> & Hc1 & Hc2)
      end.
      unfold after_attempts. cbn [fst snd]. rewrite Hctx.
      exists key, content, messages', (now w). rewrite Hwf.
      rewrite Hc1, Hc2. auto.
  - unfold bind at 1, ret at 1.
    destruct (cache_write_advanced_context sp up m temperature use_cache
                context_id rd w Hk) as (w' & -> & Hc).
    unfold after_attempts. cbn [fst snd]. rewrite Hctx. exact Hc.
Qed.

Lemma optimized_loop_context (self : OptimizedDeepSeekClient.t)
      (sp up m : pystr) (temperature : Q) (use_cache stream : bool)
      (context_id : option pystr) (messages payload : value) (n : nat) :
  cache_key_hashable sp up m temperature use_cache context_id ->
  forall attempt d w,
    after_attempts stream context_id messages w
      (OptimizedDeepSeekClient.retry_loop self sp up m temperature use_cache
         stream context_id messages payload n attempt d w).
Proof.
  intros Hk. induction n as [|n IH]; intros attempt d w.
  - apply after_attempts_raise, same_context_refl.
  - rewrite optimized_retry_unfold. unfold try_except.
    pose proof (optimized_attempt_context self sp up m temperature use_cache
                  stream context_id messages payload w Hk) as Ha.
    destruct (optimized_attempt _ _ _ _ _ _ _ _ _ _ w) as [[rd|e] w1].
    + exact Ha.
    + change (same_context w w1) in Ha.
      destruct (is_request_exception e); [|exact Ha].
      destruct (attempt <? max_retries - 1)%Z; [|exact Ha].
      unfold bind, sleep.
      apply (after_attempts_from _ _ _ w (slept d w1));
        [destruct Ha; split; assumption|].
      apply IH.
Qed.
Lemma get_advanced_logged (self : LLMResponseCache.t) (key_str : pystr)
      (e : event) (w : world) :
  fst (LLMResponseCache.get_advanced self key_str (logged e w))
  = fst (LLMResponseCache.get_advanced self key_str w).
Proof.
  unfold LLMResponseCache.get_advanced, bind, lift, emit.
  destruct (LLMResponseCache.get_advanced_cache_key key_str) as [key|x];
    [|reflexivity].
  cbn [cache_dir logged now].
  destruct (cache_dir w !! LLMResponseCache.file_name key) as [f|];
    [|reflexivity].
  destruct (Qlt_bool _ _); [reflexivity|].
  destruct (content f); reflexivity.
Qed.

Lemma load_context_run (self : OptimizedDeepSeekClient.t) (cid key : pystr)
      (w : world) :
  OptimizedDeepSeekClient._get_context_key cid = Return key ->
  OptimizedDeepSeekClient.load_context self cid w
  = (Return (stored_messages w (LLMResponseCache.file_name key)), w).
Proof.
  intros Hk. unfold OptimizedDeepSeekClient.load_context, bind, lift.
  rewrite Hk. unfold stored_messages.
  destruct (context_cache_dir w !! LLMResponseCache.file_name key) as [f|];
    [|reflexivity].
  destruct (content f); reflexivity.
Qed.

Lemma load_context_raise (self : OptimizedDeepSeekClient.t) (cid : pystr)
      (e : exn) (w : world) :
  OptimizedDeepSeekClient._get_context_key cid = Raise e ->
  OptimizedDeepSeekClient.load_context self cid w = (Raise e, w).
Proof.
  intros Hk. unfold OptimizedDeepSeekClient.load_context, bind, lift.
  rewrite Hk. reflexivity.
Qed.

Lemma context_unchanged (self : OptimizedDeepSeekClient.t)
      (sp up m cid : pystr) (temperature : Q) (use_cache stream : bool)
      (w w' : world) (e : exn) :
  same_context w w' ->
  context_after_call self sp up m cid temperature use_cache stream w
                     (Raise e, w').
Proof.
  intros [Hc _]. repeat split; cbn [fst snd]; auto. discriminate.
Qed.
(** C7, amended.  A call of [OptimizedDeepSeekClient.generate_response]
    with a context id leaves every context file as it was when it raises,
    when it streams, and when it is mocked.  When it returns an answer of
    the API without streaming, the file of the conversation holds, if it
    could be written, the messages the turn started from (the stored
    ones, or the system message alone when none are stored), then the
    user message, then the reply; no other context file changes. *)
Theorem context_file_after_turn
        (self : OptimizedDeepSeekClient.t) (sp up : pystr)
        (model : option pystr) (max_tokens : Z) (temperature : Q)
        (so : value) (use_cache stream : bool) (cid : pystr)
        (cache_id : option pystr) (w : world) :
  cid <> [] ->
  context_after_call self sp up
    (str_or model OptimizedDeepSeekClient.DEFAULT_MODEL) cid temperature
    use_cache stream w
    (OptimizedDeepSeekClient.generate_response self sp up model max_tokens
       temperature so use_cache stream (Some cid) cache_id w).
Proof.
  intros Hcid. destruct cid as [|c s]; [congruence|]. clear Hcid.
  unfold OptimizedDeepSeekClient.generate_response.
  set (m := str_or model OptimizedDeepSeekClient.DEFAULT_MODEL).
  unfold bind at 1, emit at 1.
  set (w0 := logged (EvGenerate TheOptimizedDeepSeekClient) w).
  assert (H0 : same_context w w0) by (split; reflexivity).
  destruct (OptimizedDeepSeekClient.debug_mode self) eqn:Hdebug.
  { unfold lift. repeat split; cbn [fst snd]; auto; intros; congruence. }
  unfold bind at 1.
  assert (Hget : same_context w0
                   (snd ((if cache_eligible use_cache temperature
                          then LLMResponseCache.get_advanced llm_cache
                                 (OptimizedDeepSeekClient.cache_key_of sp up m
                                    (Some (c :: s)))
                          else ret VNone) w0))).
  { destruct (cache_eligible use_cache temperature);
      [apply context_get_advanced|apply same_context_refl]. }
  assert (Hhash : forall v,
             fst ((if cache_eligible use_cache temperature
                   then LLMResponseCache.get_advanced llm_cache
                          (OptimizedDeepSeekClient.cache_key_of sp up m
                             (Some (c :: s)))
                   else ret VNone) w0) = Return v ->
             cache_key_hashable sp up m temperature use_cache (Some (c :: s))
             /\ (cache_eligible use_cache temperature = true ->
                 fst (LLMResponseCache.get_advanced llm_cache
                        (OptimizedDeepSeekClient.cache_key_of sp up m
                           (Some (c :: s))) w) = Return v)).
  { intros v Hv. unfold cache_key_hashable.
    destruct (cache_eligible use_cache temperature); [|split; discriminate].
    split; intros _.
    - exact (get_advanced_hashable _ _ _ _ Hv).
    - unfold w0 in Hv. rewrite get_advanced_logged in Hv. exact Hv. }
  destruct ((if cache_eligible use_cache temperature
             then LLMResponseCache.get_advanced llm_cache _
             else ret VNone) w0) as [[cached|e] w1];
    cbn [fst snd] in Hget, Hhash.
  2: { apply context_unchanged. exact (same_context_trans _ _ _ H0 Hget). }
  pose proof (same_context_trans _ _ _ H0 Hget) as H1.
  destruct (Hhash cached eq_refl) as [Hk Hread]. clear Hhash Hget H0.
  destruct (cache_eligible use_cache temperature && truthy cached) eqn:Hhit.
  { apply andb_prop in Hhit as [He Htruthy].
    destruct H1 as [Hc _].
    repeat split; cbn [fst snd ret]; auto; try discriminate.
    intros _ _ Hmiss rd _. rewrite (Hmiss He cached (Hread He)) in Htruthy.
    discriminate Htruthy. }
  cbn [OptimizedDeepSeekClient.has_context].
  unfold bind at 1. unfold bind at 1.
  destruct (OptimizedDeepSeekClient._get_context_key (c :: s))
    as [key|e] eqn:Hkey.
  2: { rewrite (load_context_raise self _ e w1 Hkey).
       apply context_unchanged, H1. }
  rewrite (load_context_run self _ key w1 Hkey).
  fold (turn_base sp (stored_messages w1 (LLMResponseCache.file_name key))).
  unfold lift at 1.
  destruct (Py.append _ (message (lit "user") up)) as [messages|e] eqn:Happ.
  2: { apply context_unchanged, H1. }
  match goal with
  | |- context_after_call _ _ _ _ _ _ _ _ _
         (OptimizedDeepSeekClient.retry_loop _ _ _ _ _ _ _ ?ctx _ ?payload
            ?n ?a ?d _) =>
      pose proof (optimized_loop_context self sp up m temperature use_cache
                    stream ctx messages payload n Hk a d w1) as Hloop;
      generalize dependent
        (OptimizedDeepSeekClient.retry_loop self sp up m temperature
           use_cache stream ctx messages payload n a d w1)
  end.
  intros [[rd|e] w2] Hloop.
  2: { apply context_unchanged.
       exact (same_context_trans _ _ _ H1 Hloop). }
  unfold after_attempts in Hloop.
  cbn [fst snd OptimizedDeepSeekClient.has_context] in Hloop.
  destruct H1 as [Hc1 Hf1].
  destruct stream.
  { destruct Hloop as [Hc2 _].
    repeat split; cbn [fst snd]; intros; congruence. }
  destruct Hloop as (key' & content & messages' & t & Hkey' & Hcontent
                     & Happ' & Hdir & _).
  rewrite Hkey in Hkey'. injection Hkey' as <-.
  unfold context_after_call. cbn [fst snd].
  split; [intros ? [=]|].
  split; [intros [=]|].
  split; [intros; congruence|].
  intros _ _ _ rd' [= <-].
  unfold stored_messages in Happ. rewrite Hc1 in Happ.
  fold (stored_messages w (LLMResponseCache.file_name key)) in Happ.
  destruct (turn_base sp (stored_messages w (LLMResponseCache.file_name key)))
    as [| | | | | |items|] eqn:Hbase; try discriminate Happ.
  cbn [Py.append] in Happ. injection Happ as <-.
  cbn [Py.append] in Happ'. injection Happ' as <-.
  exists key, items, content, t.
  rewrite Hdir, Hc1, Hf1, <- app_assoc. auto.
Qed.
(** C7, as the specification has it, fails twice over.  The first turn of
    a conversation stores the system message in front of the user message
    and the reply, although nothing was stored before; and a streamed turn
    returns its answer without writing the context file at all. *)
Lemma context_not_extended_by_turn :
  (let run := first_turn false (world_answering hello_body) in
   fst run = Return (VDict [(lit "content", VStr (lit "hello"));
                            (lit "model", VStr (lit "deepseek-chat"));
                            (lit "usage", VDict []);
                            (lit "stop_reason", VNone);
                            (lit "cache_id", VNone)])
   /\ stored_messages (world_answering hello_body) conv_file = VList []
   /\ persisted (snd run) conv_file
      = Some (VList [message (lit "system") (lit "sys");
                     message (lit "user") (lit "usr");
                     assistant_message (VStr (lit "hello"))])
   /\ ~ context_extended_by_turn (lit "usr") conv_file
          (world_answering hello_body) (snd run)
          (VDict [(lit "content", VStr (lit "hello"))]))
  /\ (let run := first_turn true (world_answering hello_stream) in
      fst run = Return (VDict [(lit "content", VStr (lit "hello"));
                               (lit "model", VNone);
                               (lit "usage", VDict []);
                               (lit "stop_reason", VNone);
                               (lit "cache_id", VNone)])
      /\ persisted (snd run) conv_file = None
      /\ context_cache_dir (snd run) = ∅).
Proof.
  cbv zeta. split; [split; [|split; [|split]]|split; [|split]].
  - vm_compute. reflexivity.
  - vm_compute. reflexivity.
  - vm_compute. reflexivity.
  - intros (items & content & Hs & Hc & Hp).
    vm_compute in Hs. injection Hs as <-.
    vm_compute in Hc. injection Hc as <-.
    vm_compute in Hp. discriminate Hp.
  - vm_compute. reflexivity.
  - vm_compute. reflexivity.
  - vm_compute. reflexivity.
Qed.

Lemma context_file_after_turn_witness :
  context_after_call the_optimized_client (lit "sys") (lit "usr")
    (lit "deepseek-chat") (lit "conv") (7 # 10) true false
    (world_answering hello_body)
    (first_turn false (world_answering hello_body)).
Proof.
  apply (context_file_after_turn the_optimized_client (lit "sys") (lit "usr")
           None 100 (7 # 10) VNone true false (lit "conv") None
           (world_answering hello_body)).
  discriminate.
Defined.

(** A second turn of the same conversation appends to what the first one
    stored. *)
Lemma second_turn_appends :
  let w1 := snd (first_turn false (world_answering hello_body)) in
  let run := OptimizedDeepSeekClient.generate_response the_optimized_client
               (lit "sys") (lit "more") None 100 (7 # 10) VNone true false
               (Some (lit "conv")) None w1 in
  persisted (snd run) conv_file
  = Some (VList [message (lit "system") (lit "sys");
                 message (lit "user") (lit "usr");
                 assistant_message (VStr (lit "hello"));
                 message (lit "user") (lit "more");
                 assistant_message (VStr (lit "hello"))]).
Proof. vm_compute. reflexivity. Qed.
(** * Further properties of the code *)

(** ** The response cache *)

(** X1.  A stored response is read back: [set] followed by [get] for the
    same prompts and model returns the response and keeps the entry, when
    the file can be written and the cache does not expire entries at once. *)
Theorem cache_set_then_get
        (self : LLMResponseCache.t) (sp up m key : pystr) (resp : value)
        (w : world) :
  LLMResponseCache.get_cache_key sp up m = Return key ->
  write_fails w CacheDir (LLMResponseCache.file_name key) = false ->
  (0 <= LLMResponseCache.max_age_seconds self)%Z ->
  let stored := LLMResponseCache.set self sp up m resp w in
  let read := LLMResponseCache.get self sp up m (snd stored) in
  fst stored = Return tt
  /\ fst read = Return resp
  /\ cache_dir (snd read) = cache_dir (snd stored)
  /\ entry_of key (snd read) = Some (File (now w) (Some resp)).
Proof.
  intros Hk Hw Hage. cbv zeta.
  unfold LLMResponseCache.set, LLMResponseCache.get, entry_of. rewrite Hk.
  unfold bind, lift, emit, LLMResponseCache.write_json.
  cbn [logged write_fails now get_dir set_dir cache_dir fst snd].
  rewrite Hw. cbn [fst snd set_dir cache_dir now].
  rewrite lookup_insert_eq. cbn [st_mtime content].
  rewrite (Qlt_bool_zero_age _ _ Hage). cbn [ret fst snd cache_dir].
  repeat split. cbn [cache_dir logged]. apply lookup_insert_eq.
Qed.

Lemma cache_set_then_get_witness :
  fst (LLMResponseCache.get llm_cache (lit "sys") (lit "usr") (lit "deepseek-chat")
         (snd (LLMResponseCache.set llm_cache (lit "sys") (lit "usr")
                 (lit "deepseek-chat") hello_response world_offline)))
  = Return hello_response.
Proof.
  apply (cache_set_then_get llm_cache (lit "sys") (lit "usr")
           (lit "deepseek-chat") (lit "87df568e6f831a89e79574ec4444f015")
           hello_response world_offline).
  - vm_compute. reflexivity.
  - reflexivity.
  - vm_compute. discriminate.
Defined.

(** ** The provider clients *)

Lemma cache_get_hit (self : LLMResponseCache.t) (sp up m key : pystr)
      (f : file) (v : value) (w : world) :
  LLMResponseCache.get_cache_key sp up m = Return key ->
  cache_dir w !! LLMResponseCache.file_name key = Some f ->
  ~ stale self w f ->
  content f = Some v ->
  LLMResponseCache.get self sp up m w
  = (Return v, logged (EvCacheRead (LLMResponseCache.file_name key)) w).
Proof.
  intros Hk Hf Hs Hc. unfold LLMResponseCache.get. rewrite Hk.
  unfold bind, lift, emit. cbn [cache_dir logged now]. rewrite Hf.
  destruct (Qlt_bool _ _) eqn:Hq.
  - apply Qlt_bool_iff in Hq. contradiction.
  - rewrite Hc. reflexivity.
Qed.

Lemma cached_answer_run
        (p : provider_client) (sp up : pystr) (model : option pystr)
        (max_tokens : Z) (temperature : Q) (so : value) (use_cache : bool)
        (w : world) (key : pystr) (v : value) :
  provider_debug_mode p = false ->
  cache_eligible use_cache temperature = true ->
  LLMResponseCache.get_cache_key sp up (provider_model p model) = Return key ->
  fresh_entry w key v ->
  truthy v = true ->
  provider_generate p sp up model max_tokens temperature so use_cache w
  = (Return v,
     logged (EvCacheRead (LLMResponseCache.file_name key))
            (logged (EvGenerate (provider_tag p)) w)).
Proof.
  intros Hdebug He Hk (f & Hf & Hc & Hs) Ht.
  destruct p as [c|c]; cbn [provider_debug_mode provider_model
                             provider_generate provider_tag] in *.
  - unfold DeepSeekClient.generate_response. rewrite Hdebug, He.
    unfold bind at 1, emit at 1. unfold bind at 1.
    rewrite (cache_get_hit llm_cache sp up _ key f v
               (logged (EvGenerate TheDeepSeekClient) w) Hk Hf Hs Hc).
    rewrite Ht. reflexivity.
  - unfold ClaudeClient.generate_response. rewrite Hdebug, He.
    unfold bind at 1, emit at 1. unfold bind at 1.
    rewrite (cache_get_hit llm_cache sp up _ key f v
               (logged (EvGenerate TheClaudeClient) w) Hk Hf Hs Hc).
    rewrite Ht. reflexivity.
Qed.

(** X2.  A cached answer is served without contacting the provider: when the
    request is eligible for the cache and its entry is fresh, readable and
    truthy, the call returns the payload; nothing is posted, slept or
    written, the world changes by the two trace events only. *)
Theorem provider_cache_hit
        (p : provider_client) (sp up : pystr) (model : option pystr)
        (max_tokens : Z) (temperature : Q) (so : value) (use_cache : bool)
        (w : world) (key : pystr) (v : value) :
  provider_debug_mode p = false ->
  cache_eligible use_cache temperature = true ->
  LLMResponseCache.get_cache_key sp up (provider_model p model) = Return key ->
  fresh_entry w key v ->
  truthy v = true ->
  provider_generate p sp up model max_tokens temperature so use_cache w
  = (Return v,
     logged (EvCacheRead (LLMResponseCache.file_name key))
            (logged (EvGenerate (provider_tag p)) w)).
Proof.
  intros Hdebug He Hk (f & Hf & Hc & Hs) Ht.
  destruct p as [c|c]; cbn [provider_debug_mode provider_model
                             provider_generate provider_tag] in *.
  - unfold DeepSeekClient.generate_response. rewrite Hdebug, He.
    unfold bind at 1, emit at 1. unfold bind at 1.
    rewrite (cache_get_hit llm_cache sp up _ key f v
               (logged (EvGenerate TheDeepSeekClient) w) Hk Hf Hs Hc).
    rewrite Ht. reflexivity.
  - unfold ClaudeClient.generate_response. rewrite Hdebug, He.
    unfold bind at 1, emit at 1. unfold bind at 1.
    rewrite (cache_get_hit llm_cache sp up _ key f v
               (logged (EvGenerate TheClaudeClient) w) Hk Hf Hs Hc).
    rewrite Ht. reflexivity.
Qed.

Lemma provider_cache_hit_witness :
  DeepSeekClient.generate_response (DeepSeekClient.Client false (lit "key"))
    (lit "sys") (lit "usr") None 100 0 VNone true
    (snd (LLMResponseCache.set llm_cache (lit "sys") (lit "usr")
            (lit "deepseek-chat") hello_response world_offline))
  = (Return hello_response,
     logged (EvCacheRead (lit "87df568e6f831a89e79574ec4444f015.json"))
       (logged (EvGenerate TheDeepSeekClient)
          (snd (LLMResponseCache.set llm_cache (lit "sys") (lit "usr")
                  (lit "deepseek-chat") hello_response world_offline)))).
Proof.
  apply (provider_cache_hit
           (DeepSeekProvider (DeepSeekClient.Client false (lit "key")))
           (lit "sys") (lit "usr") None 100 0 VNone true _
           (lit "87df568e6f831a89e79574ec4444f015") hello_response).
  - reflexivity.
  - vm_compute. reflexivity.
  - vm_compute. reflexivity.
  - eexists. split; [vm_compute; reflexivity|].
    split; [reflexivity|]. unfold stale. vm_compute. discriminate.
  - reflexivity.
Defined.

(** X3.  An error that is not a request exception is not retried: when the
    first request is answered but the answer cannot be used (a body without
    the expected fields, for instance), the call raises that error after one
    request and without sleeping. *)
Theorem provider_error_not_retried
        (p : provider_client) (sp up : pystr) (model : option pystr)
        (max_tokens : Z) (temperature : Q) (so : value) (use_cache : bool)
        (w : world) (e : exn) :
  provider_debug_mode p = false ->
  no_cached_answer w sp up (provider_model p model) temperature use_cache ->
  provider_attempt p model so
    (remote w (provider_endpoint p) (posts w (provider_endpoint p))) = Raise e ->
  is_request_exception e = false ->
  let run := provider_generate p sp up model max_tokens temperature so
               use_cache w in
  fst run = Raise e
  /\ sleeps (events_since w (snd run)) = []
  /\ posts_to (provider_endpoint p) (events_since w (snd run)) = 1%nat.
Proof.
  intros Hdebug Hmiss Ha He.
  destruct p as [c|c]; cbn [provider_debug_mode provider_model provider_attempt
                             provider_endpoint provider_generate] in *.
  - destruct (deepseek_generate_enters_loop c sp up model max_tokens temperature
                so use_cache w Hdebug Hmiss)
      as (w1 & payload & -> & evs & Ht & Hs & Hp & Hr & Hq).
    change (Z.to_nat max_retries) with 3%nat. cbv zeta.
    rewrite deepseek_retry_step, Hr, Hq, Ha, He. cbn [fst snd].
    rewrite (events_since_app w _ (evs ++ [EvPost DeepSeekAPI payload]))
      by (cbn [trace posted]; rewrite Ht, <- app_assoc; reflexivity).
    rewrite sleeps_app, posts_to_app, Hs, Hp. auto.
  - destruct (claude_generate_enters_loop c sp up model max_tokens temperature
                so use_cache w Hdebug Hmiss)
      as (w1 & payload & -> & evs & Ht & Hs & Hp & Hr & Hq).
    change (Z.to_nat max_retries) with 3%nat. cbv zeta.
    rewrite claude_retry_step, Hr, Hq, Ha, He. cbn [fst snd].
    rewrite (events_since_app w _ (evs ++ [EvPost ClaudeAPI payload]))
      by (cbn [trace posted]; rewrite Ht, <- app_assoc; reflexivity).
    rewrite sleeps_app, posts_to_app, Hs, Hp. auto.
Qed.

Lemma provider_error_not_retried_witness :
  let w := world_answering (lit "{}") in
  let run := DeepSeekClient.generate_response
               (DeepSeekClient.Client false (lit "key"))
               (lit "sys") (lit "usr") None 100 (7 # 10) VNone true w in
  fst run = Raise (Exn KeyError (lit "'choices'"))
  /\ sleeps (events_since w (snd run)) = []
  /\ posts_to DeepSeekAPI (events_since w (snd run)) = 1%nat.
Proof.
  apply (provider_error_not_retried
           (DeepSeekProvider (DeepSeekClient.Client false (lit "key")))
           (lit "sys") (lit "usr") None 100 (7 # 10) VNone true
           (world_answering (lit "{}")) (Exn KeyError (lit "'choices'"))).
  - reflexivity.
  - intros H. vm_compute in H. discriminate H.
  - vm_compute. reflexivity.
  - reflexivity.
Defined.

Lemma quiet_events (evs : list event) :
  forallb quiet evs = true ->
  sleeps evs = [] /\ forall t, posts_to t evs = 0%nat.
Proof.
  induction evs as [|e evs IH]; [auto|]. cbn [forallb].
  intros [He Hevs]%andb_prop. destruct (IH Hevs) as [Hs Hp].
  destruct e; try discriminate He; cbn; auto.
Qed.

Lemma quiet_cache (use_cache : bool) (temperature : Q) :
  cache_eligible use_cache temperature = true ->
  forall e, is_cache_event e = true -> quiet e = true.
Proof. intros _ [] H; try reflexivity; discriminate H. Qed.

Lemma posts_to_post (t target : endpoint) (p : value) (evs : list event) :
  posts_to t (EvPost target p :: evs)
  = ((if endpoint_eqb target t then 1 else 0) + posts_to t evs)%nat.
Proof. unfold posts_to. cbn. destruct (endpoint_eqb target t); reflexivity. Qed.

Lemma endpoint_eqb_ne (a b : endpoint) : b <> a -> endpoint_eqb a b = false.
Proof. destruct a, b; intros H; try reflexivity; congruence. Qed.

Lemma endpoint_eqb_refl (a : endpoint) : endpoint_eqb a a = true.
Proof. destruct a; reflexivity. Qed.

Lemma backoff_done (n : nat) (attempt d : Z) :
  (attempt <? max_retries - 1)%Z = false -> backoff n attempt d = [].
Proof. intros H. destruct n; cbn [backoff]; [|rewrite H]; reflexivity. Qed.

(** One request followed by events that are neither requests nor sleeps. *)
Lemma bounded_one_post (target : endpoint) (p : value) (n : nat)
      (delays : list Z) (evs : list event) :
  forallb quiet evs = true ->
  bounded_by target (S n) delays (EvPost target p :: evs).
Proof.
  intros Hq. destruct (quiet_events evs Hq) as [Hs Hp].
  unfold bounded_by. split; [|split].
  - rewrite posts_to_post, endpoint_eqb_refl, Hp. lia.
  - intros t Ht. rewrite posts_to_post, (endpoint_eqb_ne _ _ Ht), Hp.
    reflexivity.
  - change (sleeps (EvPost target p :: evs)) with (sleeps evs).
    rewrite Hs. apply prefix_nil.
Qed.

Lemma bounded_post_then (target : endpoint) (p : value) (n : nat)
      (delays : list Z) (evs : list event) :
  bounded_by target n delays evs ->
  bounded_by target (S n) delays (EvPost target p :: evs).
Proof.
  intros (Hp & Ho & Hs). split; [|split].
  - rewrite posts_to_post, endpoint_eqb_refl. lia.
  - intros t Ht. rewrite posts_to_post, (endpoint_eqb_ne _ _ Ht), (Ho t Ht).
    reflexivity.
  - exact Hs.
Qed.

Lemma bounded_post_sleep_then (target : endpoint) (p : value) (n : nat)
      (d : Z) (delays : list Z) (evs : list event) :
  bounded_by target n delays evs ->
  bounded_by target (S n) (d :: delays)
             (EvPost target p :: EvSleep d :: evs).
Proof.
  intros (Hp & Ho & Hs). split; [|split].
  - rewrite posts_to_post, endpoint_eqb_refl.
    change (posts_to target (EvSleep d :: evs)) with (posts_to target evs). lia.
  - intros t Ht. rewrite posts_to_post, (endpoint_eqb_ne _ _ Ht).
    change (posts_to t (EvSleep d :: evs)) with (posts_to t evs).
    rewrite (Ho t Ht). reflexivity.
  - change (sleeps (EvPost target p :: EvSleep d :: evs))
      with (d :: sleeps evs).
    apply prefix_cons, Hs.
Qed.

Lemma bounded_quiet_then (target : endpoint) (n : nat) (delays : list Z)
      (pre evs : list event) :
  forallb quiet pre = true ->
  bounded_by target n delays evs ->
  bounded_by target n delays (pre ++ evs).
Proof.
  intros Hq (Hp & Ho & Hs). destruct (quiet_events pre Hq) as [Hs' Hp'].
  split; [|split].
  - rewrite posts_to_app, Hp'. exact Hp.
  - intros t Ht. rewrite posts_to_app, Hp'. exact (Ho t Ht).
  - rewrite sleeps_app, Hs'. exact Hs.
Qed.

Lemma bounded_quiet (target : endpoint) (n : nat) (delays : list Z)
      (evs : list event) :
  forallb quiet evs = true -> bounded_by target n delays evs.
Proof.
  intros Hq. destruct (quiet_events evs Hq) as [Hs Hp].
  split; [|split].
  - rewrite Hp. lia.
  - intros t _. apply Hp.
  - rewrite Hs. apply prefix_nil.
Qed.

Lemma cache_write_quiet (sp up m : pystr) (temperature : Q) (use_cache : bool)
      (rd : value) (w : world) :
  exists evs,
    trace (snd ((cache_write sp up m temperature use_cache rd ;;; ret rd) w))
    = trace w ++ evs
    /\ forallb quiet evs = true.
Proof.
  apply (frame_bind (only quiet) (only_trans quiet)).
  - apply frame_cache_set, quiet_cache.
  - intros _. apply frame_ret, only_refl.
Qed.

Lemma deepseek_loop_bounded (sp up m : pystr) (temperature : Q)
      (use_cache : bool) (payload : value) (n : nat) :
  forall attempt d w,
  exists evs,
    trace (snd (DeepSeekClient.retry_loop sp up m temperature use_cache payload
                  n attempt d w)) = trace w ++ evs
    /\ bounded_by DeepSeekAPI n (backoff n attempt d) evs.
Proof.
  induction n as [|n IH]; intros attempt d w.
  - exists []. cbn. rewrite app_nil_r. split; [reflexivity|].
    apply bounded_quiet. reflexivity.
  - rewrite deepseek_retry_step.
    destruct (deepseek_attempt m _) as [rd|e].
    + destruct (cache_write_quiet sp up m temperature use_cache rd
                  (posted DeepSeekAPI payload w)) as (evs & Ht & Hq).
      exists (EvPost DeepSeekAPI payload :: evs). rewrite Ht. cbn [trace posted].
      rewrite <- app_assoc. split; [reflexivity|].
      apply bounded_one_post, Hq.
    + cbn [backoff].
      destruct (is_request_exception e), (attempt <? max_retries - 1)%Z.
      * destruct (IH (attempt + 1)%Z (d * 2)%Z
                     (slept d (posted DeepSeekAPI payload w)))
          as (evs & Ht & Hb).
        exists (EvPost DeepSeekAPI payload :: EvSleep d :: evs).
        rewrite Ht. cbn [trace slept posted]. rewrite <- !app_assoc.
        split; [reflexivity|]. apply bounded_post_sleep_then, Hb.
      * exists [EvPost DeepSeekAPI payload]. split; [reflexivity|].
        apply bounded_one_post. reflexivity.
      * exists [EvPost DeepSeekAPI payload]. split; [reflexivity|].
        apply bounded_one_post. reflexivity.
      * exists [EvPost DeepSeekAPI payload]. split; [reflexivity|].
        apply bounded_one_post. reflexivity.
Qed.

Lemma claude_loop_bounded (sp up m : pystr) (temperature : Q) (so : value)
      (use_cache : bool) (payload : value) (n : nat) :
  forall attempt d w,
  exists evs,
    trace (snd (ClaudeClient.retry_loop sp up m temperature so use_cache
                  payload n attempt d w)) = trace w ++ evs
    /\ bounded_by ClaudeAPI n (backoff n attempt d) evs.
Proof.
  induction n as [|n IH]; intros attempt d w.
  - exists []. cbn. rewrite app_nil_r. split; [reflexivity|].
    apply bounded_quiet. reflexivity.
  - rewrite claude_retry_step.
    destruct (claude_attempt m so _) as [rd|e].
    + destruct (cache_write_quiet sp up m temperature use_cache rd
                  (posted ClaudeAPI payload w)) as (evs & Ht & Hq).
      exists (EvPost ClaudeAPI payload :: evs). rewrite Ht. cbn [trace posted].
      rewrite <- app_assoc. split; [reflexivity|].
      apply bounded_one_post, Hq.
    + cbn [backoff].
      destruct (is_request_exception e);
        [destruct (attempt <? max_retries - 1)%Z eqn:Hlt|].
      * destruct (IH (attempt + 1)%Z (d * 2)%Z
                     (slept d (posted ClaudeAPI payload w)))
          as (evs & Ht & Hb).
        exists (EvPost ClaudeAPI payload :: EvSleep d :: evs).
        rewrite Ht. cbn [trace slept posted]. rewrite <- !app_assoc.
        split; [reflexivity|]. apply bounded_post_sleep_then, Hb.
      * destruct (IH (attempt + 1)%Z d (posted ClaudeAPI payload w))
          as (evs & Ht & Hb).
        rewrite backoff_done in Hb
          by (apply Z.ltb_ge; apply Z.ltb_ge in Hlt; lia).
        exists (EvPost ClaudeAPI payload :: evs).
        rewrite Ht. cbn [trace posted]. rewrite <- !app_assoc.
        split; [reflexivity|]. apply bounded_post_then, Hb.
      * exists [EvPost ClaudeAPI payload]. split; [reflexivity|].
        destruct (attempt <? max_retries - 1)%Z;
          apply bounded_one_post; reflexivity.
Qed.

(** X4.  Whatever the provider answers, a call makes at most three requests,
    all of them to its own endpoint, and its sleeps are the first ones of 2
    and 4 seconds: none, the first, or both. *)
Theorem provider_call_bounded
        (p : provider_client) (sp up : pystr) (model : option pystr)
        (max_tokens : Z) (temperature : Q) (so : value) (use_cache : bool)
        (w : world) :
  let run := provider_generate p sp up model max_tokens temperature so
               use_cache w in
  bounded_by (provider_endpoint p) 3 [2; 4]%Z (events_since w (snd run)).
Proof.
  cbv zeta.
  destruct p as [c|c]; cbn [provider_endpoint provider_generate].
  - unfold DeepSeekClient.generate_response.
    unfold bind at 1, emit at 1.
    set (w0 := logged (EvGenerate TheDeepSeekClient) w).
    destruct (DeepSeekClient.debug_mode c).
    { unfold lift. cbn [snd]. rewrite (events_since_app w w0 [EvGenerate TheDeepSeekClient] eq_refl).
      apply bounded_quiet. reflexivity. }
    unfold bind at 1.
    destruct (frame_cache_get quiet use_cache temperature
                (quiet_cache use_cache temperature) sp up
                (str_or model DeepSeekClient.DEFAULT_MODEL) w0)
      as (evs1 & Ht1 & Hq1).
    destruct ((if cache_eligible use_cache temperature
               then LLMResponseCache.get llm_cache sp up _ else ret VNone) w0)
      as [[cached|e] w1]; cbn [snd] in Ht1.
    2: { cbn [snd]. rewrite (events_since_app w w1 (EvGenerate TheDeepSeekClient :: evs1))
           by (rewrite Ht1; unfold w0; cbn [trace logged];
               rewrite <- app_assoc; reflexivity).
         apply bounded_quiet. cbn. exact Hq1. }
    destruct (_ && _).
    { cbn [ret snd]. rewrite (events_since_app w w1 (EvGenerate TheDeepSeekClient :: evs1))
        by (rewrite Ht1; unfold w0; cbn [trace logged];
            rewrite <- app_assoc; reflexivity).
      apply bounded_quiet. cbn. exact Hq1. }
    match goal with
    | |- context [DeepSeekClient.retry_loop _ _ ?m _ _ ?payload _ _ _ w1] =>
        destruct (deepseek_loop_bounded sp up m temperature use_cache payload
                    (Z.to_nat max_retries) 0 2 w1) as (evs & Ht & Hb)
    end.
    rewrite (events_since_app w _ ((EvGenerate TheDeepSeekClient :: evs1) ++ evs))
      by (rewrite Ht, Ht1; unfold w0; cbn [trace logged];
          rewrite <- !app_assoc; reflexivity).
    apply bounded_quiet_then; [cbn; exact Hq1|exact Hb].
  - unfold ClaudeClient.generate_response.
    unfold bind at 1, emit at 1.
    set (w0 := logged (EvGenerate TheClaudeClient) w).
    destruct (ClaudeClient.debug_mode c).
    { unfold lift. cbn [snd]. rewrite (events_since_app w w0 [EvGenerate TheClaudeClient] eq_refl).
      apply bounded_quiet. reflexivity. }
    unfold bind at 1.
    destruct (frame_cache_get quiet use_cache temperature
                (quiet_cache use_cache temperature) sp up
                (str_or model ClaudeClient.DEFAULT_MODEL) w0)
      as (evs1 & Ht1 & Hq1).
    destruct ((if cache_eligible use_cache temperature
               then LLMResponseCache.get llm_cache sp up _ else ret VNone) w0)
      as [[cached|e] w1]; cbn [snd] in Ht1.
    2: { cbn [snd]. rewrite (events_since_app w w1 (EvGenerate TheClaudeClient :: evs1))
           by (rewrite Ht1; unfold w0; cbn [trace logged];
               rewrite <- app_assoc; reflexivity).
         apply bounded_quiet. cbn. exact Hq1. }
    destruct (_ && _).
    { cbn [ret snd]. rewrite (events_since_app w w1 (EvGenerate TheClaudeClient :: evs1))
        by (rewrite Ht1; unfold w0; cbn [trace logged];
            rewrite <- app_assoc; reflexivity).
      apply bounded_quiet. cbn. exact Hq1. }
    destruct (truthy so).
    all: match goal with
    | |- context [ClaudeClient.retry_loop _ _ ?m _ _ _ ?payload _ _ _ ?W] =>
        destruct (claude_loop_bounded sp up m temperature so use_cache payload
                    (Z.to_nat max_retries) 0 2 W) as (evs & Ht & Hb)
    end.
    all: rewrite (events_since_app w _ ((EvGenerate TheClaudeClient :: evs1) ++ evs))
      by (rewrite Ht, Ht1; unfold w0; cbn [trace logged];
          rewrite <- !app_assoc; reflexivity).
    all: apply bounded_quiet_then; [cbn; exact Hq1|exact Hb].
Qed.

Ltac invert_obind H :=
  repeat match type of H with
         | obind ?o _ = Return _ =>
             let E := fresh "E" in
             destruct o eqn:E; cbn [obind] in H; [|discriminate H]
         end.

Lemma deepseek_attempt_truthy (m : pystr) (o : http_outcome) (rd : value) :
  deepseek_attempt m o = Return rd -> truthy rd = true.
Proof.
  unfold deepseek_attempt. destruct o as [e|r]; [discriminate|].
  intros H. invert_obind H. unfold DeepSeekClient.response_data_of in H.
  invert_obind H. injection H as <-. reflexivity.
Qed.

Lemma claude_attempt_truthy (m : pystr) (so : value) (o : http_outcome)
      (rd : value) :
  claude_attempt m so o = Return rd -> truthy rd = true.
Proof.
  unfold claude_attempt. destruct o as [e|r]; [discriminate|].
  destruct (negb _); [discriminate|].
  intros H. invert_obind H.
  match goal with
  | E : ClaudeClient.response_data_of _ _ = Return ?l |- _ =>
      assert (Hl : exists x rest, l = x :: rest)
        by (unfold ClaudeClient.response_data_of in E; invert_obind E;
            injection E as <-; eauto)
  end.
  destruct Hl as (x & rest & ->).
  destruct (truthy so).
  - invert_obind H. injection H as <-.
    match goal with
    | E : ClaudeClient.fix_structured _ = Return ?l |- _ =>
        unfold ClaudeClient.fix_structured in E; invert_obind E;
        repeat match type of E with
               | (if ?b then _ else _) = _ => destruct b
               | (let _ := _ in _) = _ => cbv zeta in E
               end;
        injection E as <-
    end.
    all: try reflexivity.
    all: destruct x as [k v]; cbn [Dict.set]; destruct (_ =s? _); reflexivity.
  - injection H as <-. reflexivity.
Qed.

(** What a successful eligible attempt leaves in the cache. *)
Lemma cache_write_stores (sp up m key : pystr) (temperature : Q)
      (use_cache : bool) (rd rd' : value) (w w' : world) :
  cache_eligible use_cache temperature = true ->
  LLMResponseCache.get_cache_key sp up m = Return key ->
  write_fails w CacheDir (LLMResponseCache.file_name key) = false ->
  (cache_write sp up m temperature use_cache rd ;;; ret rd) w = (Return rd', w') ->
  rd' = rd
  /\ entry_of key w' = Some (File (now w') (Some rd))
  /\ write_fails w' = write_fails w.
Proof.
  intros He Hk Hw. unfold cache_write, LLMResponseCache.set. rewrite He, Hk.
  unfold bind, lift, emit, LLMResponseCache.write_json, ret.
  cbn [logged write_fails]. rewrite Hw. cbn [fst snd].
  intros [= <- <-]. unfold entry_of. cbn [set_dir cache_dir now write_fails].
  rewrite lookup_insert_eq. auto.
Qed.

Lemma deepseek_loop_caches (sp up m key : pystr) (temperature : Q)
      (use_cache : bool) (payload : value) (n : nat) :
  cache_eligible use_cache temperature = true ->
  LLMResponseCache.get_cache_key sp up m = Return key ->
  forall attempt d w rd w',
    write_fails w CacheDir (LLMResponseCache.file_name key) = false ->
    DeepSeekClient.retry_loop sp up m temperature use_cache payload n attempt d w
    = (Return rd, w') ->
    entry_of key w' = Some (File (now w') (Some rd))
    /\ truthy rd = true
    /\ write_fails w' = write_fails w.
Proof.
  intros He Hk. induction n as [|n IH]; intros attempt d w rd w' Hw H.
  - discriminate H.
  - rewrite deepseek_retry_step in H.
    destruct (deepseek_attempt m _) as [rd0|e] eqn:Ha.
    + destruct (cache_write_stores sp up m key temperature use_cache rd0 rd
                  (posted DeepSeekAPI payload w) w' He Hk Hw H)
        as (-> & Hentry & Hf).
      split; [exact Hentry|]. split; [|exact Hf].
      exact (deepseek_attempt_truthy _ _ _ Ha).
    + destruct (is_request_exception e); [|discriminate H].
      destruct (attempt <? max_retries - 1)%Z; [|discriminate H].
      exact (IH _ _ (slept d (posted DeepSeekAPI payload w)) rd w' Hw H).
Qed.

Lemma claude_loop_caches (sp up m key : pystr) (temperature : Q) (so : value)
      (use_cache : bool) (payload : value) (n : nat) :
  cache_eligible use_cache temperature = true ->
  LLMResponseCache.get_cache_key sp up m = Return key ->
  forall attempt d w rd w',
    write_fails w CacheDir (LLMResponseCache.file_name key) = false ->
    ClaudeClient.retry_loop sp up m temperature so use_cache payload n attempt
                            d w
    = (Return rd, w') ->
    entry_of key w' = Some (File (now w') (Some rd))
    /\ truthy rd = true
    /\ write_fails w' = write_fails w.
Proof.
  intros He Hk. induction n as [|n IH]; intros attempt d w rd w' Hw H.
  - discriminate H.
  - rewrite claude_retry_step in H.
    destruct (claude_attempt m so _) as [rd0|e] eqn:Ha.
    + destruct (cache_write_stores sp up m key temperature use_cache rd0 rd
                  (posted ClaudeAPI payload w) w' He Hk Hw H)
        as (-> & Hentry & Hf).
      split; [exact Hentry|]. split; [|exact Hf].
      exact (claude_attempt_truthy _ _ _ _ Ha).
    + destruct (is_request_exception e); [|discriminate H].
      destruct (attempt <? max_retries - 1)%Z.
      * exact (IH _ _ (slept d (posted ClaudeAPI payload w)) rd w' Hw H).
      * exact (IH _ _ (posted ClaudeAPI payload w) rd w' Hw H).
Qed.

(** What [get] has done when it returns. *)
Lemma cache_get_returns (self : LLMResponseCache.t) (sp up m : pystr)
      (w w' : world) (v : value) :
  LLMResponseCache.get self sp up m w = (Return v, w') ->
  exists key,
    LLMResponseCache.get_cache_key sp up m = Return key
    /\ write_fails w' = write_fails w
    /\ now w' = now w
    /\ (truthy v = true ->
        w' = logged (EvCacheRead (LLMResponseCache.file_name key)) w
        /\ exists f, entry_of key w = Some f /\ content f = Some v
                     /\ ~ stale self w f).
Proof.
  unfold LLMResponseCache.get, entry_of.
  destruct (LLMResponseCache.get_cache_key sp up m) as [key|e];
    [|discriminate].
  unfold bind, lift, emit, LLMResponseCache.unlink, ret.
  cbn [fst snd logged cache_dir now].
  intros H. exists key. split; [reflexivity|].
  destruct (cache_dir w !! LLMResponseCache.file_name key) as [f|] eqn:Hf.
  - destruct (Qlt_bool _ _) eqn:Hq.
    + injection H as <- <-. cbn. repeat split; intros; discriminate.
    + destruct (content f) as [v0|] eqn:Hc.
      * injection H as <- <-. cbn. repeat split.
        exists f. repeat split; auto.
        unfold stale. rewrite <- Qlt_bool_iff. congruence.
      * injection H as <- <-. cbn. repeat split; intros; discriminate.
  - injection H as <- <-. cbn. repeat split; intros; discriminate.
Qed.

Lemma fresh_now (self : LLMResponseCache.t) (w : world) (v : value) :
  (0 <= LLMResponseCache.max_age_seconds self)%Z ->
  ~ stale self w (File (now w) (Some v)).
Proof.
  intros H. unfold stale. rewrite <- Qlt_bool_iff. cbn [st_mtime].
  rewrite (Qlt_bool_zero_age _ _ H). discriminate.
Qed.

(** A call that returns leaves a fresh entry holding what it returned. *)
Lemma provider_return_is_cached
      (p : provider_client) (sp up : pystr) (model : option pystr)
      (max_tokens : Z) (temperature : Q) (so : value) (use_cache : bool)
      (w w' : world) (key : pystr) (rd : value) :
  provider_debug_mode p = false ->
  cache_eligible use_cache temperature = true ->
  LLMResponseCache.get_cache_key sp up (provider_model p model) = Return key ->
  write_fails w CacheDir (LLMResponseCache.file_name key) = false ->
  provider_generate p sp up model max_tokens temperature so use_cache w
  = (Return rd, w') ->
  fresh_entry w' key rd /\ truthy rd = true.
Proof.
  intros Hdebug He Hk Hw.
  destruct p as [c|c]; cbn [provider_debug_mode provider_model
                             provider_generate] in *.
  - unfold DeepSeekClient.generate_response.
    rewrite Hdebug, He. unfold bind at 1, emit.
    set (w0 := logged (EvGenerate TheDeepSeekClient) w).
    unfold bind at 1.
    destruct (LLMResponseCache.get llm_cache sp up _ w0) as [[cached|e] w1] eqn:Hget;
      [|discriminate].
    destruct (cache_get_returns _ _ _ _ _ _ _ Hget)
      as (key' & Hk' & Hf1 & Hn1 & Hinv).
    assert (key' = key) as -> by congruence.
    cbn [andb]. destruct (truthy cached) eqn:Ht.
    + cbn [ret]. intros [= -> <-].
      destruct (Hinv eq_refl) as (-> & f & Hf & Hc & Hs).
      split; [|exact Ht]. exists f. repeat split; auto.
    + intros Hrun.
      destruct (deepseek_loop_caches sp up _ key temperature use_cache _ _ He Hk
                  _ _ w1 rd w' ltac:(rewrite Hf1; exact Hw) Hrun)
        as (Hentry & Htr & _).
      split; [|exact Htr].
      exists (File (now w') (Some rd)). repeat split; auto.
      apply fresh_now. vm_compute. discriminate.
  - unfold ClaudeClient.generate_response.
    rewrite Hdebug, He. unfold bind at 1, emit.
    set (w0 := logged (EvGenerate TheClaudeClient) w).
    unfold bind at 1.
    destruct (LLMResponseCache.get llm_cache sp up _ w0) as [[cached|e] w1] eqn:Hget;
      [|discriminate].
    destruct (cache_get_returns _ _ _ _ _ _ _ Hget)
      as (key' & Hk' & Hf1 & Hn1 & Hinv).
    assert (key' = key) as -> by congruence.
    cbn [andb]. destruct (truthy cached) eqn:Ht.
    + cbn [ret]. intros [= -> <-].
      destruct (Hinv eq_refl) as (-> & f & Hf & Hc & Hs).
      split; [|exact Ht]. exists f. repeat split; auto.
    + intros Hrun.
      destruct (truthy so);
        [destruct (negb (PyStr.contains _ sp))|]; cbv beta iota zeta in Hrun.
      all: destruct (claude_loop_caches sp up _ key temperature so use_cache _ _
                  He Hk _ _ w1 rd w' ltac:(rewrite Hf1; exact Hw) Hrun)
        as (Hentry & Htr & _).
      all: split; [|exact Htr].
      all: exists (File (now w') (Some rd)); repeat split; auto.
      all: apply fresh_now; vm_compute; discriminate.
Qed.

(** X5.  A call that has returned is repeatable at no cost: when the request
    is eligible for the cache and its file can be written, the same call
    made again at once returns the same response without a request or a
    pause; it changes neither the cache nor the clock. *)
Theorem repeated_call_is_served_from_cache
        (p : provider_client) (sp up : pystr) (model : option pystr)
        (max_tokens : Z) (temperature : Q) (so : value) (use_cache : bool)
        (w : world) (key : pystr) (rd : value) :
  provider_debug_mode p = false ->
  cache_eligible use_cache temperature = true ->
  LLMResponseCache.get_cache_key sp up (provider_model p model) = Return key ->
  write_fails w CacheDir (LLMResponseCache.file_name key) = false ->
  let first := provider_generate p sp up model max_tokens temperature so
                 use_cache w in
  fst first = Return rd ->
  let second := provider_generate p sp up model max_tokens temperature so
                  use_cache (snd first) in
  fst second = Return rd
  /\ posts (snd second) = posts (snd first)
  /\ cache_dir (snd second) = cache_dir (snd first)
  /\ now (snd second) = now (snd first)
  /\ sleeps (events_since (snd first) (snd second)) = [].
Proof.
  intros Hdebug He Hk Hw first Hfirst second.
  destruct first as [o w'] eqn:Hrun. cbn [fst snd] in *. subst o.
  destruct (provider_return_is_cached p sp up model max_tokens temperature so
              use_cache w w' key rd Hdebug He Hk Hw Hrun) as [Hfresh Ht].
  subst second.
  rewrite (cached_answer_run p sp up model max_tokens temperature so
             use_cache w' key rd Hdebug He Hk Hfresh Ht).
  cbn [fst snd logged posts cache_dir now].
  repeat split.
  unfold events_since. cbn [trace logged]. rewrite <- app_assoc.
  rewrite drop_app_length. reflexivity.
Qed.

Lemma repeated_call_is_served_from_cache_witness :
  let call := DeepSeekClient.generate_response
                (DeepSeekClient.Client false (lit "key"))
                (lit "sys") (lit "usr") None 100 0 VNone true in
  let first := call world_third_time_lucky in
  let second := call (snd first) in
  fst second = Return hello_response
  /\ posts (snd second) = posts (snd first)
  /\ cache_dir (snd second) = cache_dir (snd first)
  /\ now (snd second) = now (snd first)
  /\ sleeps (events_since (snd first) (snd second)) = [].
Proof.
  apply (repeated_call_is_served_from_cache
           (DeepSeekProvider (DeepSeekClient.Client false (lit "key")))
           (lit "sys") (lit "usr") None 100 0 VNone true
           world_third_time_lucky
           (lit "87df568e6f831a89e79574ec4444f015") hello_response).
  - reflexivity.
  - vm_compute. reflexivity.
  - vm_compute. reflexivity.
  - reflexivity.
  - vm_compute. reflexivity.
Defined.

(** ** The unified client *)

Lemma eqb_true (a b : pystr) : a = b -> (a =s? b) = true.
Proof. intros ->. unfold PyStr.eqb. apply bool_decide_eq_true_2. reflexivity. Qed.

Lemma eqb_false (a b : pystr) : a <> b -> (a =s? b) = false.
Proof. intros H. unfold PyStr.eqb. apply bool_decide_eq_false_2, H. Qed.

Lemma bind_ret_l {A B} (a : A) (k : A -> M B) : bind (ret a) k = k a.
Proof. reflexivity. Qed.

Lemma eqb_eq (a b : pystr) : (a =s? b) = true -> a = b.
Proof. unfold PyStr.eqb. apply bool_decide_eq_true_1. Qed.

(** X6.  When the requested provider is available and its client returns,
    the unified client returns that response and does nothing more: the
    other client is not called. *)
Theorem unified_requested_provider_answers
        (self : UnifiedLLMClient.t) (p : provider_client) (sp up : pystr)
        (model : option pystr) (max_tokens : Z) (temperature : Q) (so : value)
        (use_cache : bool) (provider : option pystr) (w : world) (r : value) :
  UnifiedLLMClient.debug_mode self = false ->
  configured self p ->
  requested_provider self provider = provider_name p ->
  fst (provider_generate p sp up model max_tokens temperature so use_cache w)
  = Return r ->
  UnifiedLLMClient.generate_response self sp up model max_tokens temperature
    so use_cache provider w
  = provider_generate p sp up model max_tokens temperature so use_cache w.
Proof.
  intros Hdebug Hconf Hreq Hret.
  unfold UnifiedLLMClient.generate_response.
  fold (requested_provider self provider). rewrite Hdebug, Hreq.
  destruct p as [d|c]; cbn [configured provider_name provider_generate] in *;
    destruct Hconf as [Hhas Hclient].
  - rewrite (eqb_true _ _ eq_refl), Hhas. cbn [andb].
    unfold UnifiedLLMClient.call_deepseek. rewrite Hclient.
    unfold bind, try_except, ret.
    destruct (DeepSeekClient.generate_response d sp up model max_tokens
                temperature so use_cache w) as [[r'|e] w'];
      [reflexivity|discriminate Hret].
  - rewrite (eqb_false (lit "claude") (lit "deepseek")) by discriminate.
    cbn [andb]. unfold bind at 1. unfold ret at 1.
    rewrite (eqb_true _ _ eq_refl), Hhas. cbn [andb].
    unfold UnifiedLLMClient.call_claude. rewrite Hclient.
    unfold bind, try_except, ret.
    destruct (ClaudeClient.generate_response c sp up model max_tokens
                temperature so use_cache w) as [[r'|e] w'];
      [reflexivity|discriminate Hret].
Qed.

Lemma unified_requested_provider_answers_witness :
  UnifiedLLMClient.generate_response the_unified_client (lit "sys")
    (lit "usr") None 100 0 VNone true (Some (lit "DeepSeek"))
    world_third_time_lucky
  = DeepSeekClient.generate_response
      (DeepSeekClient.Client false (lit "sk-deepseek")) (lit "sys")
      (lit "usr") None 100 0 VNone true world_third_time_lucky.
Proof.
  apply (unified_requested_provider_answers the_unified_client
           (DeepSeekProvider (DeepSeekClient.Client false (lit "sk-deepseek")))
           (lit "sys") (lit "usr") None 100 0 VNone true
           (Some (lit "DeepSeek")) world_third_time_lucky hello_response).
  - reflexivity.
  - split; reflexivity.
  - vm_compute. reflexivity.
  - vm_compute. reflexivity.
Defined.

(** X7.  DeepSeek requested, Claude not configured: when the DeepSeek client
    raises, whatever the error, the unified client raises a RuntimeError
    that carries its message, and nothing else happens. *)
Theorem unified_deepseek_fails_without_fallback
        (self : UnifiedLLMClient.t) (d : DeepSeekClient.t) (sp up : pystr)
        (model : option pystr) (max_tokens : Z) (temperature : Q) (so : value)
        (use_cache : bool) (provider : option pystr) (w : world) (e : exn) :
  UnifiedLLMClient.debug_mode self = false ->
  configured self (DeepSeekProvider d) ->
  UnifiedLLMClient.has_claude self = false ->
  requested_provider self provider = lit "deepseek" ->
  let call := DeepSeekClient.generate_response d sp up model max_tokens
                temperature so use_cache w in
  fst call = Raise e ->
  UnifiedLLMClient.generate_response self sp up model max_tokens temperature
    so use_cache provider w
  = (Raise (no_fallback_available e), snd call).
Proof.
  intros Hdebug [Hhas Hclient] Hnone Hreq call Hraise.
  unfold UnifiedLLMClient.generate_response.
  fold (requested_provider self provider). rewrite Hdebug, Hreq.
  rewrite (eqb_true _ _ eq_refl), Hhas, Hnone. cbn [andb].
  unfold UnifiedLLMClient.call_deepseek. rewrite Hclient.
  unfold bind, try_except, ret, raise. fold call.
  destruct call as [[r|e'] w']; cbn [fst snd] in *; [discriminate Hraise|].
  injection Hraise as ->. reflexivity.
Qed.

Lemma unified_deepseek_fails_without_fallback_witness :
  let d := DeepSeekClient.Client false (lit "sk-deepseek") in
  UnifiedLLMClient.generate_response
    (UnifiedLLMClient.Client false (lit "deepseek") (Some d) true None false)
    (lit "sys") (lit "usr") None 100 0 VNone true None world_offline
  = (Raise (no_fallback_available connection_refused_error),
     snd (DeepSeekClient.generate_response d (lit "sys") (lit "usr") None 100
            0 VNone true world_offline)).
Proof.
  apply (unified_deepseek_fails_without_fallback
           (UnifiedLLMClient.Client false (lit "deepseek")
              (Some (DeepSeekClient.Client false (lit "sk-deepseek"))) true
              None false)
           (DeepSeekClient.Client false (lit "sk-deepseek"))
           (lit "sys") (lit "usr") None 100 0 VNone true None world_offline
           connection_refused_error).
  - reflexivity.
  - split; reflexivity.
  - reflexivity.
  - reflexivity.
  - vm_compute. reflexivity.
Defined.

(** X8.  Claude requested and available: when the Claude client raises, the
    DeepSeek client is called once if it is available and its outcome is the
    outcome of the call; if it is not, the error raised names the failure of
    Claude. *)
Theorem unified_claude_fails_then_deepseek
        (self : UnifiedLLMClient.t) (c : ClaudeClient.t) (sp up : pystr)
        (model : option pystr) (max_tokens : Z) (temperature : Q) (so : value)
        (use_cache : bool) (provider : option pystr) (w : world) (e : exn) :
  UnifiedLLMClient.debug_mode self = false ->
  configured self (ClaudeProvider c) ->
  requested_provider self provider = lit "claude" ->
  let call := ClaudeClient.generate_response c sp up model max_tokens
                temperature so use_cache w in
  fst call = Raise e ->
  let run := UnifiedLLMClient.generate_response self sp up model max_tokens
               temperature so use_cache provider w in
  (forall d, configured self (DeepSeekProvider d) ->
             run = DeepSeekClient.generate_response d sp up model max_tokens
                     temperature so use_cache (snd call))
  /\ (UnifiedLLMClient.has_deepseek self = false ->
      run = (Raise (only_claude_failed e), snd call)).
Proof.
  intros Hdebug [Hhas Hclient] Hreq call Hraise run. subst run call.
  unfold UnifiedLLMClient.generate_response.
  fold (requested_provider self provider). rewrite Hdebug, Hreq.
  rewrite (eqb_false (lit "claude") (lit "deepseek")) by discriminate.
  cbn [andb]. rewrite bind_ret_l. cbv beta iota.
  rewrite (eqb_true _ _ eq_refl), Hhas. cbn [andb].
  unfold UnifiedLLMClient.call_claude. rewrite Hclient.
  unfold bind, try_except, ret, raise.
  destruct (ClaudeClient.generate_response c sp up model max_tokens
              temperature so use_cache w) as [[r|e'] w'];
    cbn [fst snd] in *; [discriminate Hraise|].
  injection Hraise as ->. cbn [UnifiedLLMClient.any_exception].
  rewrite str_in_bools_false. cbn [negb]. rewrite andb_true_r.
  split.
  - intros d [Hd Hdc]. rewrite Hd. unfold UnifiedLLMClient.call_deepseek.
    rewrite Hdc.
    destruct (DeepSeekClient.generate_response d sp up model max_tokens
                temperature so use_cache w') as [[r|e2] w2]; reflexivity.
  - intros ->. reflexivity.
Qed.

Lemma unified_claude_fails_then_deepseek_witness :
  let self := UnifiedLLMClient.Client false (lit "claude") None false
                (Some claude_with_bad_key) true in
  let call := ClaudeClient.generate_response claude_with_bad_key (lit "sys")
                (lit "usr") None 100 0 VNone true world_offline in
  let run := UnifiedLLMClient.generate_response self (lit "sys") (lit "usr")
               None 100 0 VNone true None world_offline in
  (forall d, configured self (DeepSeekProvider d) ->
             run = DeepSeekClient.generate_response d (lit "sys") (lit "usr")
                     None 100 0 VNone true (snd call))
  /\ (UnifiedLLMClient.has_deepseek self = false ->
      run = (Raise (only_claude_failed claude_gave_up), snd call)).
Proof.
  apply (unified_claude_fails_then_deepseek
           (UnifiedLLMClient.Client false (lit "claude") None false
              (Some claude_with_bad_key) true)
           claude_with_bad_key (lit "sys") (lit "usr") None 100 0 VNone true
           None world_offline claude_gave_up).
  - reflexivity.
  - split; reflexivity.
  - reflexivity.
  - vm_compute. reflexivity.
Defined.

(** X9.  A request for a provider that is not available is not served by the
    other one: outside debug mode, when the requested name is neither an
    available deepseek nor an available claude, no client is called and the
    call raises at once, saying that no provider is available. *)
Theorem unified_unavailable_provider_raises
        (self : UnifiedLLMClient.t) (sp up : pystr) (model : option pystr)
        (max_tokens : Z) (temperature : Q) (so : value) (use_cache : bool)
        (provider : option pystr) (w : world) :
  UnifiedLLMClient.debug_mode self = false ->
  (requested_provider self provider = lit "deepseek" ->
   UnifiedLLMClient.has_deepseek self = false) ->
  (requested_provider self provider = lit "claude" ->
   UnifiedLLMClient.has_claude self = false) ->
  UnifiedLLMClient.generate_response self sp up model max_tokens temperature
    so use_cache provider w
  = (Raise no_providers_available, w).
Proof.
  intros Hdebug Hd Hc.
  unfold UnifiedLLMClient.generate_response.
  fold (requested_provider self provider). rewrite Hdebug.
  assert (H1 : (requested_provider self provider =s? lit "deepseek")
               && UnifiedLLMClient.has_deepseek self = false).
  { destruct (_ =s? lit "deepseek") eqn:E; [|reflexivity].
    rewrite (Hd (eqb_eq _ _ E)). reflexivity. }
  assert (H2 : (requested_provider self provider =s? lit "claude")
               && UnifiedLLMClient.has_claude self = false).
  { destruct (_ =s? lit "claude") eqn:E; [|reflexivity].
    rewrite (Hc (eqb_eq _ _ E)). reflexivity. }
  rewrite H1. unfold bind at 1. unfold ret at 1. rewrite H2. reflexivity.
Qed.

Lemma unified_unavailable_provider_raises_witness :
  UnifiedLLMClient.generate_response
    (UnifiedLLMClient.Client false (lit "deepseek") None false
       (Some claude_with_bad_key) true)
    (lit "sys") (lit "usr") None 100 0 VNone true None world_offline
  = (Raise no_providers_available, world_offline).
Proof.
  apply (unified_unavailable_provider_raises
           (UnifiedLLMClient.Client false (lit "deepseek") None false
              (Some claude_with_bad_key) true)).
  - reflexivity.
  - intros _. reflexivity.
  - intros H. vm_compute in H. discriminate H.
Defined.

(** X10.  A unified client that was built has at least one provider; a
    provider is available exactly when it has a key or the client is in
    debug mode, and an available provider has a client in the debug mode of
    the unified client; the preferred provider is kept in lower case. *)
Theorem unified_init_providers
        (st : settings) (debug : option bool) (preferred : pystr)
        (self : UnifiedLLMClient.t) :
  UnifiedLLMClient.init st debug preferred = Return self ->
  let debug_mode := BaseLLMClient.init st debug in
  let deepseek_key := default [] (DEEPSEEK_API_KEY st) in
  let claude_key := default [] (CLAUDE_API_KEY st) in
  UnifiedLLMClient.debug_mode self = debug_mode
  /\ UnifiedLLMClient.preferred_provider self = PyStr.lower preferred
  /\ (UnifiedLLMClient.has_deepseek self = true
      \/ UnifiedLLMClient.has_claude self = true)
  /\ UnifiedLLMClient.has_deepseek self
     = debug_mode || truthy (VStr deepseek_key)
  /\ UnifiedLLMClient.has_claude self
     = debug_mode || truthy (VStr claude_key)
  /\ (UnifiedLLMClient.has_deepseek self = true ->
      configured self
        (DeepSeekProvider (DeepSeekClient.Client debug_mode deepseek_key)))
  /\ (UnifiedLLMClient.has_claude self = true ->
      configured self
        (ClaudeProvider (ClaudeClient.Client debug_mode claude_key))).
Proof.
  intros H. cbv zeta.
  unfold UnifiedLLMClient.init, DeepSeekClient.init, ClaudeClient.init in H.
  destruct (BaseLLMClient.init st debug),
    (truthy (VStr (default [] (DEEPSEEK_API_KEY st)))),
    (truthy (VStr (default [] (CLAUDE_API_KEY st))));
    cbn in H; try discriminate H;
    injection H as <-; cbn; repeat split; auto; discriminate.
Qed.

Lemma unified_init_providers_witness :
  let self := UnifiedLLMClient.Client false (lit "claude")
                (Some (DeepSeekClient.Client false (lit "sk-deepseek"))) true
                (Some (ClaudeClient.Client false (lit "sk-ant-claude"))) true in
  UnifiedLLMClient.debug_mode self = false
  /\ UnifiedLLMClient.preferred_provider self = lit "claude"
  /\ (UnifiedLLMClient.has_deepseek self = true
      \/ UnifiedLLMClient.has_claude self = true)
  /\ UnifiedLLMClient.has_deepseek self = true
  /\ UnifiedLLMClient.has_claude self = true
  /\ (UnifiedLLMClient.has_deepseek self = true ->
      configured self
        (DeepSeekProvider (DeepSeekClient.Client false (lit "sk-deepseek"))))
  /\ (UnifiedLLMClient.has_claude self = true ->
      configured self
        (ClaudeProvider (ClaudeClient.Client false (lit "sk-ant-claude")))).
Proof.
  apply (unified_init_providers both_configured None (lit "Claude")).
  vm_compute. reflexivity.
Defined.

(** ** Streamed calls *)

Lemma wrote_nothing_refl (w : world) : wrote_nothing w w.
Proof.
  split; [reflexivity|]. split; [reflexivity|].
  exists []. rewrite app_nil_r. auto.
Qed.

Lemma wrote_nothing_trans (a b c : world) :
  wrote_nothing a b -> wrote_nothing b c -> wrote_nothing a c.
Proof.
  intros (H1 & H2 & e1 & T1 & A1) (H3 & H4 & e2 & T2 & A2).
  split; [congruence|]. split; [etrans; eassumption|].
  exists (e1 ++ e2). rewrite T2, T1, <- app_assoc, forallb_app, A1, A2. auto.
Qed.

Lemma wrote_nothing_event (e : event) (w w' : world) :
  is_cache_write e = false ->
  context_cache_dir w' = context_cache_dir w ->
  cache_dir w' = cache_dir w ->
  trace w' = trace w ++ [e] ->
  wrote_nothing w w'.
Proof.
  intros He Hc Hd Ht. split; [exact Hc|]. split; [rewrite Hd; reflexivity|].
  exists [e]. cbn. rewrite He. auto.
Qed.

Lemma wrote_nothing_unlink (name : pystr) (w : world) :
  wrote_nothing w (snd (LLMResponseCache.unlink CacheDir name w)).
Proof.
  split; [reflexivity|]. split; [apply delete_subseteq|].
  exists []. rewrite app_nil_r. auto.
Qed.

Ltac quiet_step :=
  lazymatch goal with
  | |- frame _ (bind _ _) =>
      apply frame_bind; [apply wrote_nothing_trans | | intros ?]
  | |- frame _ (try_except _ _ _) =>
      apply frame_try_except; [apply wrote_nothing_trans | | intros ?]
  | |- frame _ (ret _) => apply frame_ret, wrote_nothing_refl
  | |- frame _ (raise _) => apply frame_raise, wrote_nothing_refl
  | |- frame _ (lift _) => apply frame_lift, wrote_nothing_refl
  | |- frame _ (emit ?e) =>
      intros ?; apply (wrote_nothing_event e); reflexivity
  | |- frame _ (sleep ?d) =>
      intros ?; apply (wrote_nothing_event (EvSleep d)); reflexivity
  | |- frame _ (if ?b then _ else _) => destruct b eqn:?
  | |- frame _ (match ?x with _ => _ end) => destruct x eqn:?
  end.

Lemma wrote_nothing_post (t : endpoint) (p : value) :
  frame wrote_nothing (requests_post t p).
Proof.
  intros w. unfold requests_post.
  destruct (remote w t (posts w t));
    apply (wrote_nothing_event (EvPost t p)); reflexivity.
Qed.

Lemma wrote_nothing_get_advanced (self : LLMResponseCache.t) (key_str : pystr) :
  frame wrote_nothing (LLMResponseCache.get_advanced self key_str).
Proof.
  unfold LLMResponseCache.get_advanced.
  repeat quiet_step.
  intros w. cbv beta zeta.
  destruct (cache_dir w !! LLMResponseCache.file_name _) as [f|];
    [|apply wrote_nothing_refl].
  destruct (Qlt_bool _ _); [apply wrote_nothing_unlink|].
  destruct (content f); [apply wrote_nothing_refl|apply wrote_nothing_unlink].
Qed.

Lemma wrote_nothing_load_context (self : OptimizedDeepSeekClient.t)
      (cid : pystr) :
  frame wrote_nothing (OptimizedDeepSeekClient.load_context self cid).
Proof.
  unfold OptimizedDeepSeekClient.load_context.
  apply frame_bind;
    [apply wrote_nothing_trans|apply frame_lift, wrote_nothing_refl|intros key].
  intros w. cbv beta zeta.
  destruct (context_cache_dir w !! LLMResponseCache.file_name _) as [f|];
    [|apply wrote_nothing_refl].
  destruct (content f); apply wrote_nothing_refl.
Qed.

Lemma wrote_nothing_streamed_loop (self : OptimizedDeepSeekClient.t)
      (sp up m : pystr) (temperature : Q) (use_cache : bool)
      (context_id : option pystr) (messages payload : value) (n : nat) :
  forall attempt d,
    frame wrote_nothing
      (OptimizedDeepSeekClient.retry_loop self sp up m temperature use_cache
         true context_id messages payload n attempt d).
Proof.
  induction n as [|n IH]; intros attempt d;
    cbn [OptimizedDeepSeekClient.retry_loop].
  - apply frame_raise, wrote_nothing_refl.
  - repeat first [apply wrote_nothing_post | apply IH | quiet_step].
Qed.

(** X11.  A streamed call writes nothing: whatever the answer, the optimized
    client neither stores the streamed response in the local cache nor adds
    the turn to the conversation context; the context files are left as they
    were and no cache file is created or changed. *)
Theorem streamed_call_writes_nothing
        (self : OptimizedDeepSeekClient.t) (sp up : pystr)
        (model : option pystr) (max_tokens : Z) (temperature : Q) (so : value)
        (use_cache : bool) (context_id cache_id : option pystr) (w : world) :
  wrote_nothing w
    (snd (OptimizedDeepSeekClient.generate_response self sp up model
            max_tokens temperature so use_cache true context_id cache_id w)).
Proof.
  revert w. change (frame wrote_nothing
    (OptimizedDeepSeekClient.generate_response self sp up model max_tokens
       temperature so use_cache true context_id cache_id)).
  unfold OptimizedDeepSeekClient.generate_response. cbv zeta.
  quiet_step; [quiet_step|].
  destruct (OptimizedDeepSeekClient.debug_mode self);
    [apply frame_lift, wrote_nothing_refl|].
  apply frame_bind; [apply wrote_nothing_trans| |intros cached].
  { destruct (cache_eligible use_cache temperature);
      [apply wrote_nothing_get_advanced|apply frame_ret, wrote_nothing_refl]. }
  destruct (_ && _); [apply frame_ret, wrote_nothing_refl|].
  apply frame_bind; [apply wrote_nothing_trans| |intros messages].
  - repeat first [apply wrote_nothing_load_context | quiet_step].
  - apply wrote_nothing_streamed_loop.
Qed.

Lemma lstrip_nil (p : N -> bool) (s : pystr) :
  PyStr.lstrip_by p s = [] -> forallb p s = true.
Proof.
  induction s as [|c s IH]; [reflexivity|]. cbn.
  destruct (p c); [exact IH|discriminate].
Qed.

Lemma data_line_not_blank (line : pystr) :
  PyStr.startswith (lit "data: ") line = true ->
  truthy (VStr line) = true
  /\ PyStr.startswith (lit ":") line = false
  /\ truthy (VStr (PyStr.strip line)) = true.
Proof.
  destruct line as [|c line]; [discriminate|].
  intros H. change (lit "data: ") with [100; 97; 116; 97; 58; 32] in H.
  cbn [PyStr.startswith] in H. apply andb_prop in H as [Hc _].
  apply N.eqb_eq in Hc. subst c.
  split; [reflexivity|]. split; [reflexivity|].
  unfold PyStr.strip, PyStr.strip_by. cbn [PyStr.lstrip_by].
  change (PyStr.isspace 100) with false. cbv iota.
  destruct (rev (PyStr.lstrip_by PyStr.isspace (rev (100 :: line)))) eqn:E;
    [|reflexivity].
  apply (f_equal (@rev N)) in E. rewrite rev_involutive in E. cbn [rev] in E.
  apply lstrip_nil in E. rewrite forallb_app in E.
  apply andb_prop in E as [_ E]. vm_compute in E. discriminate E.
Qed.

(** X12.  The stream handler reads the lines that start with the data
    prefix, in order, up to the end marker: every other line (keep-alive
    comments, blank lines, other fields) is skipped and nothing after the
    marker is read. *)
Theorem stream_reads_data_lines_until_done
        (lines after : list pystr) (st : OptimizedDeepSeekClient.stream_state) :
  OptimizedDeepSeekClient.stream_lines
    (lines ++ lit "data: [DONE]" :: after) st
  = OptimizedDeepSeekClient.stream_lines
      (List.filter (PyStr.startswith (lit "data: ")) lines) st.
Proof.
  revert st. induction lines as [|line lines IH]; intros st.
  - reflexivity.
  - cbn [app List.filter OptimizedDeepSeekClient.stream_lines].
    destruct (PyStr.startswith (lit "data: ") line) eqn:Hd.
    + destruct (data_line_not_blank line Hd) as (H1 & H2 & H3).
      cbn [OptimizedDeepSeekClient.stream_lines].
      rewrite H1, H2, H3, Hd. cbn [negb orb].
      destruct (_ =s? _); [reflexivity|].
      destruct (Json.loads _); try reflexivity; [|apply IH].
      destruct (OptimizedDeepSeekClient.absorb_chunk _ _); cbn [obind];
        [apply IH|reflexivity].
    + destruct (negb (truthy (VStr line))); [apply IH|].
      destruct (_ || _); apply IH.
Qed.

(** ** Conversation contexts: save, load, clear *)

(** X13.  What is saved for a conversation is what is loaded for it next;
    once the context is cleared an empty history is loaded. Neither
    operation touches the file of another conversation or the response
    cache. (The file can be written, and removed.) *)
Theorem context_save_load_clear
        (self : OptimizedDeepSeekClient.t) (cid key : pystr)
        (messages : value) (w : world) :
  OptimizedDeepSeekClient._get_context_key cid = Return key ->
  write_fails w ContextDir (LLMResponseCache.file_name key) = false ->
  let saved := snd (OptimizedDeepSeekClient.save_context self cid messages w) in
  let cleared := snd (OptimizedDeepSeekClient.clear_context self cid saved) in
  OptimizedDeepSeekClient.load_context self cid saved = (Return messages, saved)
  /\ OptimizedDeepSeekClient.load_context self cid cleared
     = (Return (VList []), cleared)
  /\ (forall name, name <> LLMResponseCache.file_name key ->
        context_cache_dir saved !! name = context_cache_dir w !! name
        /\ context_cache_dir cleared !! name = context_cache_dir w !! name)
  /\ cache_dir saved = cache_dir w
  /\ cache_dir cleared = cache_dir w.
Proof.
  intros Hk Hw saved cleared.
  assert (Hs : saved
               = set_dir ContextDir
                   (<[LLMResponseCache.file_name key := File (now w) (Some messages)]>
                      (context_cache_dir w)) w).
  { subst saved. unfold OptimizedDeepSeekClient.save_context. rewrite Hk.
    unfold bind, lift, LLMResponseCache.write_json. cbn [snd]. rewrite Hw.
    reflexivity. }
  assert (Hc : cleared
               = set_dir ContextDir
                   (delete (LLMResponseCache.file_name key)
                           (context_cache_dir saved)) saved).
  { assert (Hl : context_cache_dir saved !! LLMResponseCache.file_name key
                 = Some (File (now w) (Some messages))).
    { rewrite Hs. cbn [set_dir context_cache_dir]. apply lookup_insert_eq. }
    subst cleared. unfold OptimizedDeepSeekClient.clear_context. rewrite Hk.
    unfold bind, lift. rewrite Hl. reflexivity. }
  repeat split.
  - rewrite (load_context_run self cid key saved Hk). f_equal. f_equal.
    unfold stored_messages. rewrite Hs. cbn [set_dir context_cache_dir].
    rewrite lookup_insert_eq. reflexivity.
  - rewrite (load_context_run self cid key cleared Hk). f_equal. f_equal.
    unfold stored_messages. rewrite Hc. cbn [set_dir context_cache_dir].
    rewrite lookup_delete_eq. reflexivity.
  - rewrite Hs. cbn [set_dir context_cache_dir].
    apply lookup_insert_ne. congruence.
  - rewrite Hc. cbn [set_dir context_cache_dir].
    rewrite lookup_delete_ne by congruence.
    rewrite Hs. cbn [set_dir context_cache_dir].
    apply lookup_insert_ne. congruence.
  - rewrite Hs. reflexivity.
  - rewrite Hc, Hs. reflexivity.
Qed.

Lemma context_save_load_clear_witness :
  let self := the_optimized_client in
  let w := world_offline in
  let saved := snd (OptimizedDeepSeekClient.save_context self (lit "c1")
                      (VList [message (lit "user") (lit "hi")]) w) in
  let cleared := snd (OptimizedDeepSeekClient.clear_context self (lit "c1")
                        saved) in
  OptimizedDeepSeekClient.load_context self (lit "c1") saved
  = (Return (VList [message (lit "user") (lit "hi")]), saved)
  /\ OptimizedDeepSeekClient.load_context self (lit "c1") cleared
     = (Return (VList []), cleared)
  /\ (forall name,
        name <> LLMResponseCache.file_name
                  (lit "a9f7e97965d6cf799a529102a973b8b9") ->
        context_cache_dir saved !! name = context_cache_dir w !! name
        /\ context_cache_dir cleared !! name = context_cache_dir w !! name)
  /\ cache_dir saved = cache_dir w
  /\ cache_dir cleared = cache_dir w.
Proof.
  apply (context_save_load_clear the_optimized_client (lit "c1")
           (lit "a9f7e97965d6cf799a529102a973b8b9")
           (VList [message (lit "user") (lit "hi")]) world_offline).
  - vm_compute. reflexivity.
  - reflexivity.
Defined.

(** X14.  Clearing a conversation through the manager: with the optimized
    client enabled the call reports success whether or not the conversation
    existed, an empty history is loaded for it afterwards and the response
    cache is not touched; an id that cannot be encoded raises; with the
    optimized client disabled nothing is done and the call reports failure. *)
Theorem manager_clear_conversation_context
        (self : LLMManager.t) (cid : pystr) (w : world) :
  let run := LLMManager.clear_conversation_context self cid w in
  let client := LLMManager.optimized_deepseek_client self in
  (LLMManager.use_optimized_deepseek self = false ->
   run = (Return (VDict [(lit "success", VBool false);
                         (lit "message",
                          VStr (lit "Optimized DeepSeek client not enabled, context management unavailable"))]),
          w))
  /\ (LLMManager.use_optimized_deepseek self = true ->
      forall key,
        OptimizedDeepSeekClient._get_context_key cid = Return key ->
        fst run = Return (VDict [(lit "success", VBool true);
                                 (lit "message",
                                  VStr (lit "Context " ++ cid ++ lit " cleared"))])
        /\ OptimizedDeepSeekClient.load_context client cid (snd run)
           = (Return (VList []), snd run)
        /\ cache_dir (snd run) = cache_dir w
        /\ trace (snd run) = trace w)
  /\ (LLMManager.use_optimized_deepseek self = true ->
      forall e,
        OptimizedDeepSeekClient._get_context_key cid = Raise e ->
        run = (Raise e, w)).
Proof.
  cbv zeta. unfold LLMManager.clear_conversation_context.
  split; [intros ->; reflexivity|].
  split; intros ->.
  - intros key Hk. unfold OptimizedDeepSeekClient.clear_context. rewrite Hk.
    unfold bind, lift, ret.
    destruct (context_cache_dir w !! LLMResponseCache.file_name key) as [f|] eqn:Hf;
      cbn [fst snd LLMResponseCache.unlink].
    + repeat split.
      rewrite (load_context_run _ cid key _ Hk). f_equal. f_equal.
      unfold stored_messages. cbn [set_dir context_cache_dir get_dir].
      rewrite lookup_delete_eq. reflexivity.
    + repeat split.
      rewrite (load_context_run _ cid key _ Hk). f_equal. f_equal.
      unfold stored_messages. rewrite Hf. reflexivity.
  - intros e Hk. unfold OptimizedDeepSeekClient.clear_context. rewrite Hk.
    reflexivity.
Qed.

(** ** The system prompt in a conversation *)

Lemma optimized_loop_without_cache (self : OptimizedDeepSeekClient.t)
      (sp sp' up m : pystr) (temperature : Q) (use_cache stream : bool)
      (context_id : option pystr) (messages payload : value) (n : nat) :
  cache_eligible use_cache temperature = false ->
  forall attempt d w,
    OptimizedDeepSeekClient.retry_loop self sp up m temperature use_cache
      stream context_id messages payload n attempt d w
    = OptimizedDeepSeekClient.retry_loop self sp' up m temperature use_cache
        stream context_id messages payload n attempt d w.
Proof.
  intros He. induction n as [|n IH]; intros attempt d w; [reflexivity|].
  cbn [OptimizedDeepSeekClient.retry_loop]. rewrite He.
  unfold try_except.
  match goal with
  | |- (let (_, _) := ?body w in _) = _ => destruct (body w) as [[r|e] w1]
  end; [reflexivity|].
  destruct (is_request_exception e); [|reflexivity].
  destruct (attempt <? max_retries - 1)%Z; [|reflexivity].
  unfold bind, sleep. apply IH.
Qed.

(** X15.  Once a conversation has a stored history the system prompt of a
    call no longer matters: when the local cache is not used for the
    request, two calls that differ in the system prompt only do the same
    thing and give the same outcome. *)
Theorem system_prompt_ignored_in_conversation
        (self : OptimizedDeepSeekClient.t) (sp sp' up cid key : pystr)
        (model : option pystr) (max_tokens : Z) (temperature : Q) (so : value)
        (use_cache stream : bool) (cache_id : option pystr) (w : world) :
  OptimizedDeepSeekClient.debug_mode self = false ->
  cache_eligible use_cache temperature = false ->
  OptimizedDeepSeekClient.has_context (Some cid) = Some cid ->
  OptimizedDeepSeekClient._get_context_key cid = Return key ->
  truthy (stored_messages w (LLMResponseCache.file_name key)) = true ->
  OptimizedDeepSeekClient.generate_response self sp up model max_tokens
    temperature so use_cache stream (Some cid) cache_id w
  = OptimizedDeepSeekClient.generate_response self sp' up model max_tokens
      temperature so use_cache stream (Some cid) cache_id w.
Proof.
  intros Hdebug He Hcid Hk Hstored.
  unfold OptimizedDeepSeekClient.generate_response.
  rewrite Hdebug, He, Hcid. cbn [andb].
  unfold bind, emit, ret, lift. cbv beta iota.
  rewrite (load_context_run self cid key _ Hk).
  change (stored_messages (logged (EvGenerate TheOptimizedDeepSeekClient) w)
            (LLMResponseCache.file_name key))
    with (stored_messages w (LLMResponseCache.file_name key)).
  rewrite Hstored. cbn [negb].
  destruct (Py.append _ _) as [messages|e]; [|reflexivity].
  apply optimized_loop_without_cache, He.
Qed.

Lemma system_prompt_ignored_in_conversation_witness :
  let w := snd (OptimizedDeepSeekClient.save_context the_optimized_client
                  (lit "c1") (VList [message (lit "system") (lit "old")])
                  world_offline) in
  OptimizedDeepSeekClient.generate_response the_optimized_client
    (lit "be brief") (lit "usr") None 100 (7 # 10) VNone true false
    (Some (lit "c1")) None w
  = OptimizedDeepSeekClient.generate_response the_optimized_client
      (lit "be verbose") (lit "usr") None 100 (7 # 10) VNone true false
      (Some (lit "c1")) None w.
Proof.
  apply (system_prompt_ignored_in_conversation the_optimized_client
           (lit "be brief") (lit "be verbose") (lit "usr") (lit "c1")
           (lit "a9f7e97965d6cf799a529102a973b8b9")).
  - reflexivity.
  - vm_compute. reflexivity.
  - reflexivity.
  - vm_compute. reflexivity.
  - vm_compute. reflexivity.
Defined.

(** ** Clearing the cache *)

Lemma startswith_app (p s : pystr) : PyStr.startswith p (p ++ s) = true.
Proof.
  induction p as [|c p IH]; [destruct s; reflexivity|].
  cbn. rewrite N.eqb_refl. exact IH.
Qed.

Lemma file_name_matches_json (key : pystr) :
  CacheFiles.matches_json (LLMResponseCache.file_name key) = true.
Proof.
  unfold CacheFiles.matches_json, LLMResponseCache.file_name.
  rewrite rev_app_distr. apply startswith_app.
Qed.

Lemma clear_lookup (self : LLMResponseCache.t) (max_age : option Z)
      (w : world) (name : pystr) :
  cache_dir (snd (CacheFiles.clear self max_age w)) !! name
  = match cache_dir w !! name with
    | Some f => if CacheFiles.to_clear max_age (now w) (name, f)
                then None else Some f
    | None => None
    end.
Proof.
  unfold CacheFiles.clear. cbn [snd set_dir cache_dir].
  rewrite map_lookup_filter.
  destruct (cache_dir w !! name) as [f|]; [|reflexivity]. cbn.
  destruct (CacheFiles.to_clear max_age (now w) (name, f)).
  - rewrite option_guard_False by auto. reflexivity.
  - rewrite option_guard_True by discriminate. reflexivity.
Qed.

(** X16.  Clearing the whole cache leaves no answer behind: afterwards every
    lookup misses, whatever the prompts and the model, and the file of the
    server cache statistics, which lives in the same directory, is gone too.
    Files that are not JSON files are left alone. *)
Theorem clear_all_empties_the_cache
        (self : LLMResponseCache.t) (w : world) :
  let cleared := snd (CacheFiles.clear self None w) in
  (forall cache sp up m key,
     LLMResponseCache.get_cache_key sp up m = Return key ->
     LLMResponseCache.get cache sp up m cleared
     = (Return VNone, logged (EvCacheRead (LLMResponseCache.file_name key))
                             cleared))
  /\ cache_dir cleared !! metadata_file = None
  /\ (forall name, CacheFiles.matches_json name = false ->
                   cache_dir cleared !! name = cache_dir w !! name)
  /\ context_cache_dir cleared = context_cache_dir w.
Proof.
  cbv zeta. repeat split.
  - intros cache sp up m key Hk.
    unfold LLMResponseCache.get. rewrite Hk.
    unfold bind, lift, emit. cbn [logged cache_dir].
    rewrite clear_lookup. unfold CacheFiles.to_clear. cbn [fst].
    rewrite file_name_matches_json.
    destruct (cache_dir w !! LLMResponseCache.file_name key); reflexivity.
  - rewrite clear_lookup. unfold CacheFiles.to_clear. cbn [fst].
    change (CacheFiles.matches_json metadata_file) with true.
    destruct (cache_dir w !! metadata_file); reflexivity.
  - intros name Hname. rewrite clear_lookup. unfold CacheFiles.to_clear.
    cbn [fst]. rewrite Hname.
    destruct (cache_dir w !! name); reflexivity.
Qed.

(** X17.  Clearing the entries older than the maximum age of the cache
    changes the result of no lookup: what [get] would have removed itself is
    removed, every other entry is kept. *)
Theorem clear_stale_keeps_every_answer
        (self : LLMResponseCache.t) (sp up m : pystr) (w : world) :
  let cleared :=
    snd (CacheFiles.clear self
           (Some (LLMResponseCache.max_age_seconds self)) w) in
  fst (LLMResponseCache.get self sp up m cleared)
  = fst (LLMResponseCache.get self sp up m w).
Proof.
  cbv zeta. unfold LLMResponseCache.get.
  destruct (LLMResponseCache.get_cache_key sp up m) as [key|e];
    [|reflexivity].
  unfold bind, lift, emit. cbn [logged cache_dir now].
  rewrite clear_lookup. unfold CacheFiles.to_clear. cbn [fst snd].
  rewrite file_name_matches_json. cbn [andb].
  change (now (snd (CacheFiles.clear self
                      (Some (LLMResponseCache.max_age_seconds self)) w)))
    with (now w).
  destruct (cache_dir w !! LLMResponseCache.file_name key) as [f|];
    [|reflexivity].
  destruct (Qlt_bool _ _) eqn:Hq; [reflexivity|].
  rewrite Hq. destruct (content f); reflexivity.
Qed.

(** The count returned by [clear] is the number of files that were there
    before and are not there after. *)
Theorem clear_counts_removed_files
        (self : LLMResponseCache.t) (max_age : option Z) (w : world) :
  let run := CacheFiles.clear self max_age w in
  exists n : nat,
    fst run = Return (Z.of_nat n)
    /\ size (cache_dir w) = (n + size (cache_dir (snd run)))%nat.
Proof.
  cbv zeta. unfold CacheFiles.clear. cbn [fst snd set_dir cache_dir].
  eexists. split; [reflexivity|].
  rewrite <- map_size_disj_union.
  - f_equal. symmetry. apply map_filter_union_complement.
  - apply map_disjoint_filter_complement.
Qed.

(** ** The cache is shared between the clients *)

Lemma cache_get_advanced_hit (self : LLMResponseCache.t) (sp up m key : pystr)
      (f : file) (v : value) (w : world) :
  LLMResponseCache.get_cache_key sp up m = Return key ->
  cache_dir w !! LLMResponseCache.file_name key = Some f ->
  ~ stale self w f ->
  content f = Some v ->
  LLMResponseCache.get_advanced self
    (OptimizedDeepSeekClient.cache_key_of sp up m None) w
  = (Return v, logged (EvCacheRead (LLMResponseCache.file_name key)) w).
Proof.
  intros Hk Hf Hs Hc. unfold LLMResponseCache.get_advanced.
  change (LLMResponseCache.get_advanced_cache_key
            (OptimizedDeepSeekClient.cache_key_of sp up m None))
    with (LLMResponseCache.get_cache_key sp up m).
  rewrite Hk.
  unfold bind, lift, emit. cbn [cache_dir logged now]. rewrite Hf.
  destruct (Qlt_bool _ _) eqn:Hq.
  - apply Qlt_bool_iff in Hq. contradiction.
  - rewrite Hc. reflexivity.
Qed.

Lemma optimized_cache_hit (self : OptimizedDeepSeekClient.t) (sp up : pystr)
      (model : option pystr) (max_tokens : Z) (temperature : Q) (so : value)
      (use_cache stream : bool) (context_id cache_id : option pystr)
      (w : world) (key : pystr) (v : value) :
  OptimizedDeepSeekClient.debug_mode self = false ->
  cache_eligible use_cache temperature = true ->
  OptimizedDeepSeekClient.has_context context_id = None ->
  LLMResponseCache.get_cache_key sp up
    (str_or model OptimizedDeepSeekClient.DEFAULT_MODEL) = Return key ->
  fresh_entry w key v ->
  truthy v = true ->
  OptimizedDeepSeekClient.generate_response self sp up model max_tokens
    temperature so use_cache stream context_id cache_id w
  = (Return v,
     logged (EvCacheRead (LLMResponseCache.file_name key))
            (logged (EvGenerate TheOptimizedDeepSeekClient) w)).
Proof.
  intros Hdebug He Hctx Hk (f & Hf & Hc & Hs) Ht.
  unfold OptimizedDeepSeekClient.generate_response. rewrite Hdebug, He.
  assert (Hkey : OptimizedDeepSeekClient.cache_key_of sp up
                   (str_or model OptimizedDeepSeekClient.DEFAULT_MODEL)
                   context_id
                 = OptimizedDeepSeekClient.cache_key_of sp up
                     (str_or model OptimizedDeepSeekClient.DEFAULT_MODEL) None).
  { destruct context_id as [[|c s]|]; [reflexivity|discriminate Hctx
                                      |reflexivity]. }
  rewrite Hkey. unfold bind at 1, emit at 1. unfold bind at 1.
  rewrite (cache_get_advanced_hit llm_cache sp up _ key f v
             (logged (EvGenerate TheOptimizedDeepSeekClient) w) Hk Hf Hs Hc).
  rewrite Ht. reflexivity.
Qed.

(** X18.  The optimized client reads the entries of the plain cache: once
    [LLMResponseCache.set] has stored a non-empty response for the prompts
    and the model, the optimized client, asked the same thing outside a
    conversation, returns that response from the cache without a request
    and leaves the cache as it is. *)
Theorem optimized_client_reads_stored_entries
        (self : OptimizedDeepSeekClient.t)
        (sp up : pystr) (model : option pystr) (max_tokens : Z)
        (temperature : Q) (so : value) (use_cache stream : bool)
        (context_id cache_id : option pystr) (w : world) (key : pystr)
        (rd : value) :
  OptimizedDeepSeekClient.debug_mode self = false ->
  cache_eligible use_cache temperature = true ->
  OptimizedDeepSeekClient.has_context context_id = None ->
  LLMResponseCache.get_cache_key sp up
    (str_or model OptimizedDeepSeekClient.DEFAULT_MODEL) = Return key ->
  write_fails w CacheDir (LLMResponseCache.file_name key) = false ->
  truthy rd = true ->
  let stored := LLMResponseCache.set llm_cache sp up
                  (str_or model OptimizedDeepSeekClient.DEFAULT_MODEL) rd w in
  let read := OptimizedDeepSeekClient.generate_response self sp up model
                max_tokens temperature so use_cache stream context_id
                cache_id (snd stored) in
  fst stored = Return tt
  /\ fst read = Return rd
  /\ posts (snd read) = posts w
  /\ cache_dir (snd read) = cache_dir (snd stored)
  /\ context_cache_dir (snd read) = context_cache_dir w.
Proof.
  intros Hself He Hctx Hk Hw Ht stored read.
  assert (Hset : stored
                 = (Return tt,
                    set_dir CacheDir
                      (<[LLMResponseCache.file_name key :=
                           File (now w) (Some rd)]> (cache_dir w))
                      (logged (EvCacheWrite (LLMResponseCache.file_name key)
                                            rd) w))).
  { subst stored. unfold LLMResponseCache.set. rewrite Hk.
    unfold bind, lift, emit, LLMResponseCache.write_json.
    cbn [logged write_fails now get_dir set_dir cache_dir fst snd].
    rewrite Hw. reflexivity. }
  subst read. rewrite Hset. cbn [fst snd].
  rewrite (optimized_cache_hit self sp up model max_tokens temperature so
             use_cache stream context_id cache_id _ key rd Hself He Hctx Hk).
  - repeat split.
  - exists (File (now w) (Some rd)). split.
    + unfold entry_of. cbn [set_dir cache_dir logged]. apply lookup_insert_eq.
    + split; [reflexivity|].
      refine (fresh_now llm_cache w rd _). vm_compute. discriminate.
  - exact Ht.
Qed.

Lemma optimized_client_reads_stored_entries_witness :
  let stored := LLMResponseCache.set llm_cache (lit "sys") (lit "usr")
                  (lit "deepseek-chat") hello_response world_offline in
  let read := OptimizedDeepSeekClient.generate_response
                the_optimized_client (lit "sys") (lit "usr") None 5 0
                VNone true true None None (snd stored) in
  fst stored = Return tt
  /\ fst read = Return hello_response
  /\ posts (snd read) = posts world_offline
  /\ cache_dir (snd read) = cache_dir (snd stored)
  /\ context_cache_dir (snd read) = context_cache_dir world_offline.
Proof.
  apply (optimized_client_reads_stored_entries
           the_optimized_client (lit "sys") (lit "usr") None 5 0 VNone true
           true None None world_offline
           (lit "87df568e6f831a89e79574ec4444f015") hello_response).
  - reflexivity.
  - vm_compute. reflexivity.
  - reflexivity.
  - vm_compute. reflexivity.
  - reflexivity.
  - reflexivity.
Defined.

(** ** The status of the providers *)

Lemma guarded_call_returns {A} (m : M A) (ok : value) (failed : exn -> value)
      (w : world) :
  exists v,
    fst (try_except (m ;;; ret ok) UnifiedLLMClient.any_exception
           (fun e => ret (failed e)) w) = Return v
    /\ (v = ok \/ exists e, v = failed e).
Proof.
  unfold try_except, bind, ret.
  destruct (m w) as [[a|e] w1]; cbn; eauto.
Qed.

(** X19.  The status checks never raise: each gives a status that is
    inactive, active or error, inactive exactly when the provider has no
    key, and the summary of the providers always returns. *)
Theorem status_checks_never_raise (self : LLMManager.t) (w : world) :
  (exists state message,
     fst (ProviderStatus.check_claude_balance self w)
     = Return (ProviderStatus.status state message)
     /\ In state [lit "inactive"; lit "active"; lit "error"]
     /\ (state = lit "inactive" <-> LLMManager.has_claude self = false))
  /\ (exists state message,
        fst (ProviderStatus.check_deepseek_balance self w)
        = Return (ProviderStatus.status state message)
        /\ In state [lit "inactive"; lit "active"; lit "error"]
        /\ (state = lit "inactive" <-> LLMManager.has_deepseek self = false))
  /\ exists providers,
       fst (ProviderStatus.get_provider_status self w)
       = Return (VDict [(lit "default_provider",
                         VStr (LLMManager.default_provider self));
                        (lit "providers", VDict providers)]).
Proof.
  assert (Hc : forall w, exists state message,
               fst (ProviderStatus.check_claude_balance self w)
               = Return (ProviderStatus.status state message)
               /\ In state [lit "inactive"; lit "active"; lit "error"]
               /\ (state = lit "inactive" <-> LLMManager.has_claude self = false)).
  { intros w0. unfold ProviderStatus.check_claude_balance.
    destruct (LLMManager.has_claude self); cbn [negb].
    - destruct (guarded_call_returns
                  (ClaudeClient.generate_response (LLMManager.claude_client self)
                     (lit "You are a helpful assistant.") (lit "Hi") None 1 0
                     VNone true)
                  (ProviderStatus.status (lit "active")
                     (lit "Claude API is available and responding"))
                  (fun e => ProviderStatus.status (lit "error")
                              (lit "Claude API error: " ++ exn_msg e)) w0)
        as (v & Hv & [->|[e ->]]); rewrite Hv.
      + do 2 eexists. split; [reflexivity|]. split; [cbn; auto|].
        split; discriminate.
      + do 2 eexists. split; [reflexivity|]. split; [cbn; auto|].
        split; discriminate.
    - do 2 eexists. split; [reflexivity|]. split; [cbn; auto|]. split; auto. }
  assert (Hd : forall w, exists state message,
               fst (ProviderStatus.check_deepseek_balance self w)
               = Return (ProviderStatus.status state message)
               /\ In state [lit "inactive"; lit "active"; lit "error"]
               /\ (state = lit "inactive" <-> LLMManager.has_deepseek self = false)).
  { intros w0. unfold ProviderStatus.check_deepseek_balance.
    destruct (LLMManager.has_deepseek self); cbn [negb].
    - match goal with
      | |- context [try_except (bind ?m _) _ _ w0] =>
          destruct (guarded_call_returns m
                      (ProviderStatus.status (lit "active")
                         (lit "DeepSeek API is available and responding"))
                      (fun e => ProviderStatus.status (lit "error")
                                  (lit "DeepSeek API error: " ++ exn_msg e)) w0)
            as (v & Hv & [->|[e ->]]); rewrite Hv
      end.
      + do 2 eexists. split; [reflexivity|]. split; [cbn; auto|].
        split; discriminate.
      + do 2 eexists. split; [reflexivity|]. split; [cbn; auto|].
        split; discriminate.
    - do 2 eexists. split; [reflexivity|]. split; [cbn; auto|]. split; auto. }
  split; [apply Hc|]. split; [apply Hd|].
  unfold ProviderStatus.get_provider_status, bind, ret.
  destruct (LLMManager.has_claude self).
  - destruct (Hc w) as (s1 & m1 & H1 & _).
    destruct (ProviderStatus.check_claude_balance self w) as [o1 w1].
    cbn [fst] in H1. subst o1.
    destruct (LLMManager.has_deepseek self); [|eauto].
    destruct (Hd w1) as (s2 & m2 & H2 & _).
    destruct (ProviderStatus.check_deepseek_balance self w1) as [o2 w2].
    cbn [fst] in H2. subst o2. eauto.
  - destruct (LLMManager.has_deepseek self); [|eauto].
    destruct (Hd w) as (s2 & m2 & H2 & _).
    destruct (ProviderStatus.check_deepseek_balance self w) as [o2 w2].
    cbn [fst] in H2. subst o2. eauto.
Qed.

(** X20.  A cached reply is enough for an active status: when the manager
    uses the optimized DeepSeek client and the cache holds a fresh answer to
    the request of the check, the DeepSeek check reports active without
    contacting the API, whatever the API would answer. *)
Theorem deepseek_status_answered_from_cache
        (self : LLMManager.t) (w : world) (key : pystr) (v : value) :
  LLMManager.has_deepseek self = true ->
  LLMManager.use_optimized_deepseek self = true ->
  OptimizedDeepSeekClient.debug_mode (LLMManager.optimized_deepseek_client self)
  = false ->
  health_check_key OptimizedDeepSeekClient.DEFAULT_MODEL = Return key ->
  fresh_entry w key v ->
  truthy v = true ->
  let run := ProviderStatus.check_deepseek_balance self w in
  fst run = Return (active "DeepSeek")
  /\ posts (snd run) = posts w
  /\ sleeps (events_since w (snd run)) = [].
Proof.
  intros Hhas Hopt Ho Hk Hfresh Ht run. subst run.
  unfold ProviderStatus.check_deepseek_balance. rewrite Hhas, Hopt.
  cbn [negb]. unfold try_except, bind.
  rewrite (optimized_cache_hit _ _ _ None 1 0 VNone true false None None w
             key v Ho eq_refl eq_refl Hk Hfresh Ht).
  cbn [fst snd ret logged posts]. repeat split.
  unfold events_since. cbn [trace logged]. rewrite <- app_assoc.
  rewrite drop_app_length. reflexivity.
Qed.

Lemma deepseek_status_answered_from_cache_witness :
  let w := snd (LLMResponseCache.set llm_cache
                  (lit "You are a helpful assistant.") (lit "Hi")
                  (lit "deepseek-chat") hello_response world_offline) in
  let run := ProviderStatus.check_deepseek_balance the_manager w in
  fst run = Return (active "DeepSeek")
  /\ posts (snd run) = posts w
  /\ sleeps (events_since w (snd run)) = [].
Proof.
  apply (deepseek_status_answered_from_cache the_manager _
           (lit "9c18a1a3f5355310fdc36b3076a798cc") hello_response).
  - reflexivity.
  - reflexivity.
  - reflexivity.
  - vm_compute. reflexivity.
  - eexists. split; [vm_compute; reflexivity|].
    split; [reflexivity|]. unfold stale. vm_compute. discriminate.
  - reflexivity.
Defined.

(** ** The persona extracted from a text *)

Ltac persona_step :=
  intros (d & tt & p & s & k & a & v & ds & pc & ct & ->);
  first [ unfold extract_array; destruct (Re.search _ _) as [m|]
        | unfold extract_string; destruct (Re.search _ _) as [m|] ];
  [|do 10 eexists; reflexivity];
  match goal with
  | |- is_persona (set_nested _ _ (strs ?x) _) => generalize x
  | |- is_persona (set_nested _ _ (VStr ?x) _) => generalize x
  end;
  intros new; unfold is_persona.

Lemma extract_demographics (content : pystr) (result : Dict.t) :
  is_persona result ->
  is_persona (extract_array content "demographics" "ideal_guests"
                            "demographics" result).
Proof.
  persona_step. exists new, tt, p, s, k, a, v, ds, pc, ct.
  vm_compute. reflexivity.
Qed.

Lemma extract_traveler_types (content : pystr) (result : Dict.t) :
  is_persona result ->
  is_persona (extract_array content "traveler_types" "ideal_guests"
                            "traveler_types" result).
Proof.
  persona_step. exists d, new, p, s, k, a, v, ds, pc, ct.
  vm_compute. reflexivity.
Qed.

Lemma extract_primary (content : pystr) (result : Dict.t) :
  is_persona result ->
  is_persona (extract_array content "primary" "use_cases" "primary" result).
Proof.
  persona_step. exists d, tt, new, s, k, a, v, ds, pc, ct.
  vm_compute. reflexivity.
Qed.

Lemma extract_secondary (content : pystr) (result : Dict.t) :
  is_persona result ->
  is_persona (extract_array content "secondary" "use_cases" "secondary" result).
Proof.
  persona_step. exists d, tt, p, new, k, a, v, ds, pc, ct.
  vm_compute. reflexivity.
Qed.

Lemma extract_key_selling_points (content : pystr) (result : Dict.t) :
  is_persona result ->
  is_persona (extract_array content "key_selling_points" "unique_attributes"
                            "key_selling_points" result).
Proof.
  persona_step. exists d, tt, p, s, new, a, v, ds, pc, ct.
  vm_compute. reflexivity.
Qed.

Lemma extract_stand_out_amenities (content : pystr) (result : Dict.t) :
  is_persona result ->
  is_persona (extract_array content "stand_out_amenities" "unique_attributes"
                            "stand_out_amenities" result).
Proof.
  persona_step. exists d, tt, p, s, k, new, v, ds, pc, ct.
  vm_compute. reflexivity.
Qed.

Lemma extract_overall_vibe (content : pystr) (result : Dict.t) :
  is_persona result ->
  is_persona (extract_string content "overall_vibe" "atmosphere"
                             "overall_vibe" result).
Proof.
  persona_step. exists d, tt, p, s, k, a, new, ds, pc, ct.
  vm_compute. reflexivity.
Qed.

Lemma extract_descriptors (content : pystr) (result : Dict.t) :
  is_persona result ->
  is_persona (extract_array content "descriptors" "atmosphere" "descriptors"
                            result).
Proof.
  persona_step. exists d, tt, p, s, k, a, v, new, pc, ct.
  vm_compute. reflexivity.
Qed.

Lemma extract_property_class (content : pystr) (result : Dict.t) :
  is_persona result ->
  is_persona (extract_string content "property_class" "market_position"
                             "property_class" result).
Proof.
  persona_step. exists d, tt, p, s, k, a, v, ds, new, ct.
  vm_compute. reflexivity.
Qed.

Lemma extract_comparable_to (content : pystr) (result : Dict.t) :
  is_persona result ->
  is_persona (extract_array content "comparable_to" "market_position"
                            "comparable_to" result).
Proof.
  persona_step. exists d, tt, p, s, k, a, v, ds, pc, new.
  vm_compute. reflexivity.
Qed.

Lemma reconstruct_is_persona (content : pystr) :
  exists result,
    reconstruct_json_from_claude content = VDict result /\ is_persona result.
Proof.
  unfold reconstruct_json_from_claude. cbv zeta. eexists. split; [reflexivity|].
  apply extract_comparable_to, extract_property_class, extract_descriptors,
    extract_overall_vibe, extract_stand_out_amenities,
    extract_key_selling_points, extract_secondary, extract_primary,
    extract_traveler_types, extract_demographics.
  exists [], [], [], [], [], [], (lit "comfortable"), [], (lit "mid-range"), [].
  reflexivity.
Qed.

(** X21.  Whatever the text, the extraction returns a complete persona: the
    five sections with their two fields each, the array fields lists of
    strings, the two text fields strings. *)
Theorem reconstruct_json_is_always_complete (content : pystr) :
  exists demographics traveler_types primary secondary key_selling_points
         stand_out_amenities overall_vibe descriptors property_class
         comparable_to,
    reconstruct_json_from_claude content
    = VDict (persona demographics traveler_types primary secondary
                     key_selling_points stand_out_amenities overall_vibe
                     descriptors property_class comparable_to).
Proof.
  destruct (reconstruct_is_persona content)
    as (result & -> & d & tt & p & s & k & a & v & ds & pc & ct & ->).
  exists d, tt, p, s, k, a, v, ds, pc, ct. reflexivity.
Qed.

(** X22.  The parsing of [generate_property_persona] never asks for a new
    response: on every text it returns a persona or raises; the branch that
    finds a required key missing after the extraction is never taken. What
    the extraction gives is returned with its origin. *)
Theorem persona_parsing_never_gives_up (content : pystr) :
  persona_of_content content <> Return None
  /\ forall msg pos msg' pos' fixed,
       Json.loads content = Json.JSONDecodeError msg pos ->
       fix_json_format content = Return fixed ->
       Json.loads fixed = Json.JSONDecodeError msg' pos' ->
       persona_of_content content
       = Return (tagged (reconstruct_json_from_claude content)
                        "regex-extraction").
Proof.
  assert (Hc : forall result origin, created_by result origin <> Return None).
  { intros result origin. unfold created_by.
    destruct (Py.setitem_key _ _ _); cbn; discriminate. }
  assert (Hx : (let result := reconstruct_json_from_claude content in
                missing <~
                  (fix missing_keys (keys : list pystr) : outcome (list pystr) :=
                     match keys with
                     | [] => Return []
                     | key :: rest =>
                         present <~ Py.contains_str key result ;;
                         others <~ missing_keys rest ;;
                         Return (if present then others else key :: others)
                     end) required_keys ;;
                match missing with
                | [] => created_by result "regex-extraction"
                | _ => Return None
                end)
               = Return (tagged (reconstruct_json_from_claude content)
                                "regex-extraction")).
  { destruct (reconstruct_is_persona content)
      as (result & -> & d & tt & p & s & k & a & v & ds & pc & ct & ->).
    vm_compute. reflexivity. }
  split.
  - unfold persona_of_content.
    destruct (Json.loads content); [apply Hc| |discriminate].
    destruct (fix_json_format content) as [fixed|e]; [|discriminate].
    cbn [obind].
    destruct (Json.loads fixed); [apply Hc| |discriminate].
    cbv zeta in Hx |- *. rewrite Hx.
    destruct (reconstruct_is_persona content) as (result & -> & _).
    discriminate.
  - intros msg pos msg' pos' fixed H1 H2 H3. unfold persona_of_content.
    rewrite H1, H2. cbn [obind]. rewrite H3. exact Hx.
Qed.

(** ** Repairing JSON *)

Lemma replace_absent (c : N) (old' new s : pystr) :
  ~ In c s -> PyStr.replace (c :: old') new s = s.
Proof.
  unfold PyStr.replace. induction s as [|x s IH]; intros Hc; [reflexivity|].
  cbn [PyStr.replace_aux PyStr.startswith].
  destruct (N.eqb_spec c x) as [->|Hne]; [exfalso; apply Hc; left; reflexivity|].
  cbn [andb]. f_equal. apply IH. intros H. apply Hc. right. exact H.
Qed.

(** X23.  Except at its last resort [fix_json_format] returns a text that
    [json.loads] reads. *)
Theorem fix_json_format_result_parses
        (content text : pystr) (stage : fix_stage) :
  fix_json_format_staged content = Return (text, stage) ->
  stage <> LastResort ->
  fix_json_format content = Return text
  /\ exists v, Json.loads text = Json.Loaded v.
Proof.
  intros H Hs. split; [unfold fix_json_format; rewrite H; reflexivity|].
  revert H. unfold fix_json_format_staged. cbv zeta.
  match goal with
  | |- match Json.loads ?c with _ => _ end = _ -> _ =>
      generalize c; intros basic
  end.
  destruct (Json.loads basic) as [v|msg pos|] eqn:Hbasic;
    [intros H; inversion H; subst; eauto| |discriminate].
  match goal with
  | |- (let '(_, _) := ?x in _) = _ -> _ => destruct x as [regex fixed] eqn:Hx
  end.
  clear Hbasic. destruct fixed.
  - intros H; inversion H; subst.
    destruct (PyStr.contains _ _); [|discriminate Hx].
    match type of Hx with
    | context [match Json.loads ?t with _ => _ end] =>
        destruct (Json.loads t) as [v| |] eqn:Hr
    end; [|discriminate Hx..].
    inversion Hx; subst. eauto.
  - destruct (formatted_pairs _) as [pairs|e].
    + match goal with
      | |- context [match Json.loads ?t with _ => _ end] =>
          destruct (Json.loads t) as [v| |] eqn:Hr
      end.
      * intros H; inversion H; subst. eauto.
      * intros H; inversion H; subst. contradiction.
      * intros H; inversion H; subst. contradiction.
    + intros H; inversion H; subst. contradiction.
Qed.

Lemma fix_json_format_result_parses_witness :
  fix_json_format unquoted_key_text = Return quoted_key_text
  /\ exists v, Json.loads quoted_key_text = Json.Loaded v.
Proof.
  apply (fix_json_format_result_parses unquoted_key_text quoted_key_text
           RegexFixes).
  - vm_compute. reflexivity.
  - discriminate.
Defined.

(** X24.  A text that is already a JSON object and holds neither a carriage
    return nor an apostrophe is returned as it is. *)
Theorem fix_json_format_keeps_valid_json (content : pystr) (v : value) :
  PyStr.startswith (lit "{") content = true ->
  ~ In 13 content ->
  ~ In (ch "'") content ->
  Json.loads content = Json.Loaded v ->
  fix_json_format_staged content = Return (content, BasicFixes).
Proof.
  intros Hb Hcr Hq Hv. unfold fix_json_format_staged. cbv zeta.
  rewrite Hb. cbn [negb].
  rewrite (replace_absent 13 [10] [10] content Hcr).
  rewrite (replace_absent 13 [] [10] content Hcr).
  change (lit "'") with [ch "'"].
  rewrite (replace_absent (ch "'") [] dq content Hq).
  rewrite Hv. reflexivity.
Qed.

Lemma fix_json_format_keeps_valid_json_witness :
  fix_json_format_staged quoted_key_text = Return (quoted_key_text, BasicFixes).
Proof.
  apply (fix_json_format_keeps_valid_json quoted_key_text
           (VDict [(lit "a", VInt 1); (lit "b", VStr (lit "x"))])).
  - vm_compute. reflexivity.
  - vm_compute. intuition discriminate.
  - vm_compute. intuition discriminate.
  - vm_compute. reflexivity.
Defined.

(** ** Prompts that cannot be encoded *)

Lemma encode_app_none (a b : pystr) :
  Utf8.encode a = None \/ Utf8.encode b = None -> Utf8.encode (a ++ b) = None.
Proof.
  induction a as [|c a IH]; cbn [app Utf8.encode].
  - intros [H|H]; [discriminate H|exact H].
  - intros H. destruct (Utf8.encode_char c); [|reflexivity].
    destruct (Utf8.encode a) eqn:Ha.
    + destruct H as [H|H]; [discriminate H|]. rewrite IH; auto.
    + rewrite IH; auto.
Qed.

Lemma md5_hex_unencodable (s : pystr) :
  Utf8.encode s = None -> LLMResponseCache.md5_hex s = Raise surrogates_not_allowed.
Proof. intros H. unfold LLMResponseCache.md5_hex. rewrite H. reflexivity. Qed.

(** X25.  A prompt that holds a lone surrogate cannot be hashed: in debug
    mode, and whenever the request is eligible for the cache, the call
    raises the encoding error before anything is requested or looked up. *)
Theorem unencodable_prompt_raises
        (p : provider_client) (sp up : pystr) (model : option pystr)
        (max_tokens : Z) (temperature : Q) (so : value) (use_cache : bool)
        (w : world) :
  Utf8.encode sp = None \/ Utf8.encode up = None ->
  provider_debug_mode p = true \/ cache_eligible use_cache temperature = true ->
  exists message,
    provider_generate p sp up model max_tokens temperature so use_cache w
    = (Raise (Exn UnicodeEncodeError message),
       logged (EvGenerate (provider_tag p)) w).
Proof.
  intros Hprompt Hmode. exists (exn_msg surrogates_not_allowed).
  change (Exn UnicodeEncodeError (exn_msg surrogates_not_allowed))
    with surrogates_not_allowed.
  assert (Hkey : forall m,
             LLMResponseCache.get_cache_key sp up m = Raise surrogates_not_allowed).
  { intros m. apply md5_hex_unencodable.
    destruct Hprompt as [H|H].
    - apply encode_app_none. left. exact H.
    - apply encode_app_none. right. apply encode_app_none. right.
      apply encode_app_none. left. exact H. }
  assert (Hmock : forall m,
             BaseLLMClient._get_mock_response sp up m so
             = Raise surrogates_not_allowed).
  { intros m. unfold BaseLLMClient._get_mock_response.
    rewrite md5_hex_unencodable; [reflexivity|].
    destruct Hprompt as [H|H].
    - apply encode_app_none. left. exact H.
    - apply encode_app_none. right. apply encode_app_none. right.
      apply encode_app_none. left. exact H. }
  destruct p as [c|c]; cbn [provider_debug_mode provider_generate provider_tag] in *.
  - unfold DeepSeekClient.generate_response, bind, emit, lift.
    destruct (DeepSeekClient.debug_mode c); [rewrite Hmock; reflexivity|].
    destruct Hmode as [Hm|Hm]; [discriminate Hm|]. rewrite Hm.
    unfold LLMResponseCache.get, bind, lift. rewrite Hkey. reflexivity.
  - unfold ClaudeClient.generate_response, bind, emit, lift.
    destruct (ClaudeClient.debug_mode c); [rewrite Hmock; reflexivity|].
    destruct Hmode as [Hm|Hm]; [discriminate Hm|]. rewrite Hm.
    unfold LLMResponseCache.get, bind, lift. rewrite Hkey. reflexivity.
Qed.

Lemma unencodable_prompt_raises_witness :
  exists message,
    ClaudeClient.generate_response claude_with_bad_key (lit "sys")
      (lit "usr" ++ [55296]) None 100 0 VNone true world_offline
    = (Raise (Exn UnicodeEncodeError message),
       logged (EvGenerate TheClaudeClient) world_offline).
Proof.
  apply (unencodable_prompt_raises (ClaudeProvider claude_with_bad_key)
           (lit "sys") (lit "usr" ++ [55296]) None 100 0 VNone true
           world_offline).
  - right. vm_compute. reflexivity.
  - right. vm_compute. reflexivity.
Defined.

(** ** Debug mode *)

Lemma untouched_refl (w : world) : untouched w w.
Proof. repeat split. Qed.

Lemma untouched_trans (a b c : world) :
  untouched a b -> untouched b c -> untouched a c.
Proof.
  intros (H1 & H2 & H3 & H4) (H5 & H6 & H7 & H8). repeat split; congruence.
Qed.

Ltac offline_step :=
  lazymatch goal with
  | |- frame _ (bind _ _) =>
      apply frame_bind; [apply untouched_trans | | intros ?]
  | |- frame _ (try_except _ _ _) =>
      apply frame_try_except; [apply untouched_trans | | intros ?]
  | |- frame _ (ret _) => apply frame_ret, untouched_refl
  | |- frame _ (raise _) => apply frame_raise, untouched_refl
  | |- frame _ (lift _) => apply frame_lift, untouched_refl
  | |- frame _ (emit _) => intros ?; repeat split
  | |- frame _ (if ?b then _ else _) => destruct b eqn:?
  | |- frame _ (match ?x with _ => _ end) => destruct x eqn:?
  end.

Lemma offline_deepseek (d : DeepSeekClient.t) (sp up : pystr)
      (model : option pystr) (max_tokens : Z) (temperature : Q) (so : value)
      (use_cache : bool) :
  DeepSeekClient.debug_mode d = true ->
  frame untouched
    (DeepSeekClient.generate_response d sp up model max_tokens temperature so
       use_cache).
Proof.
  intros H. unfold DeepSeekClient.generate_response. rewrite H.
  repeat offline_step.
Qed.

Lemma offline_claude (c : ClaudeClient.t) (sp up : pystr)
      (model : option pystr) (max_tokens : Z) (temperature : Q) (so : value)
      (use_cache : bool) :
  ClaudeClient.debug_mode c = true ->
  frame untouched
    (ClaudeClient.generate_response c sp up model max_tokens temperature so
       use_cache).
Proof.
  intros H. unfold ClaudeClient.generate_response. rewrite H.
  repeat offline_step.
Qed.

Lemma offline_optimized (self : OptimizedDeepSeekClient.t) (sp up : pystr)
      (model : option pystr) (max_tokens : Z) (temperature : Q) (so : value)
      (use_cache stream : bool) (context_id cache_id : option pystr) :
  OptimizedDeepSeekClient.debug_mode self = true ->
  frame untouched
    (OptimizedDeepSeekClient.generate_response self sp up model max_tokens
       temperature so use_cache stream context_id cache_id).
Proof.
  intros H. unfold OptimizedDeepSeekClient.generate_response. rewrite H.
  repeat offline_step.
Qed.

(** X26.  In debug mode the layer is offline: when every client is in debug
    mode, a call of the manager makes no request, reads and writes no cache
    or context file and does not sleep, whatever the provider, the
    temperature and the other arguments are. *)
Theorem debug_mode_is_offline
        (self : LLMManager.t) (sp up : pystr) (model : option pystr)
        (max_tokens : Z) (temperature : Q) (so : value) (use_cache : bool)
        (provider context_id : option pystr) (stream force_cache : bool)
        (w : world) :
  all_in_debug_mode self ->
  let run := LLMManager.generate_response self sp up model max_tokens
               temperature so use_cache provider context_id stream
               force_cache w in
  untouched w (snd run)
  /\ cache_events (events_since w (snd run)) = []
  /\ sleeps (events_since w (snd run)) = []
  /\ forall t, posts_to t (events_since w (snd run)) = 0%nat.
Proof.
  intros (Ho & Hd & Hc) run. subst run.
  assert (Hframe : frame untouched
            (LLMManager.generate_response self sp up model max_tokens
               temperature so use_cache provider context_id stream
               force_cache)).
  { unfold LLMManager.generate_response.
    destruct (LLMManager.select_provider _ _ _ _ _ _) as [should provider'].
    destruct (_ && _); [apply offline_optimized, Ho|].
    unfold UnifiedLLMClient.generate_response,
      UnifiedLLMClient.call_deepseek, UnifiedLLMClient.call_claude.
    cbv zeta.
    repeat first [ apply offline_deepseek; eauto
                 | apply offline_claude; eauto
                 | offline_step ]. }
  split; [apply Hframe|].
  assert (Honly : only (fun e => match e with EvGenerate _ => true | _ => false end)
                       w (snd (LLMManager.generate_response self sp up model
                                 max_tokens temperature so use_cache provider
                                 context_id stream force_cache w))).
  { revert w.
    change (frame (only (fun e => match e with EvGenerate _ => true | _ => false end))
              (LLMManager.generate_response self sp up model max_tokens
                 temperature so use_cache provider context_id stream
                 force_cache)).
    assert (Hds : forall d, DeepSeekClient.debug_mode d = true ->
              frame (only (fun e => match e with EvGenerate _ => true | _ => false end))
                (DeepSeekClient.generate_response d sp up model max_tokens
                   temperature so use_cache)).
    { intros d H. unfold DeepSeekClient.generate_response. rewrite H.
      repeat first [apply frame_emit; reflexivity | frame_step]. }
    assert (Hcl : forall c, ClaudeClient.debug_mode c = true ->
              frame (only (fun e => match e with EvGenerate _ => true | _ => false end))
                (ClaudeClient.generate_response c sp up model max_tokens
                   temperature so use_cache)).
    { intros c H. unfold ClaudeClient.generate_response. rewrite H.
      repeat first [apply frame_emit; reflexivity | frame_step]. }
    unfold LLMManager.generate_response.
    destruct (LLMManager.select_provider _ _ _ _ _ _) as [should provider'].
    destruct (_ && _).
    - unfold OptimizedDeepSeekClient.generate_response. rewrite Ho.
      repeat first [apply frame_emit; reflexivity | frame_step].
    - unfold UnifiedLLMClient.generate_response,
        UnifiedLLMClient.call_deepseek, UnifiedLLMClient.call_claude.
      cbv zeta.
      repeat first [ apply Hds; eauto | apply Hcl; eauto | frame_step ]. }
  destruct Honly as (evs & Ht & Ha).
  rewrite (events_since_app _ _ _ Ht).
  clear Ht. induction evs as [|e evs IH]; [repeat split|].
  cbn [forallb] in Ha. apply andb_prop in Ha as [He Ha].
  destruct e; try discriminate He. exact (IH Ha).
Qed.

Lemma debug_manager_is_built :
  DeepSeekClient.init debug_settings None
  = Return (LLMManager.deepseek_client debug_manager)
  /\ ClaudeClient.init debug_settings None
     = Return (LLMManager.claude_client debug_manager)
  /\ OptimizedDeepSeekClient.init debug_settings None
     = Return (LLMManager.optimized_deepseek_client debug_manager)
  /\ UnifiedLLMClient.init debug_settings None (lit "deepseek")
     = Return (LLMManager.unified_client debug_manager).
Proof. repeat split. Qed.

Lemma debug_mode_is_offline_witness :
  let run := LLMManager.generate_response debug_manager (lit "sys")
               (lit "usr") None 100 0 VNone true (Some (lit "claude")) None
               false false world_offline in
  untouched world_offline (snd run)
  /\ cache_events (events_since world_offline (snd run)) = []
  /\ sleeps (events_since world_offline (snd run)) = []
  /\ forall t, posts_to t (events_since world_offline (snd run)) = 0%nat.
Proof.
  apply (debug_mode_is_offline debug_manager (lit "sys") (lit "usr") None 100
           0 VNone true (Some (lit "claude")) None false false world_offline).
  split; [reflexivity|].
  split; intros ? [= <-]; reflexivity.
Defined.

(** ** The statistics of the server cache *)

Lemma dict_get_set (k : pystr) (v : value) (d : Dict.t) :
  Dict.get k (Dict.set k v d) = Some v.
Proof.
  induction d as [|[k' v'] d IH]; cbn [Dict.set Dict.get].
  - rewrite (eqb_true k k eq_refl). reflexivity.
  - destruct (k =s? k') eqn:E; cbn [Dict.get]; rewrite E; [reflexivity|exact IH].
Qed.

Lemma update_stats {A} (h m H M R : Z) (S s : Q) (k : value -> outcome A) :
  (stats <~ add_to (server_cache_stats H M S R) (lit "total_hit_tokens") (VInt h) ;;
   stats <~ add_to stats (lit "total_miss_tokens") (VInt m) ;;
   stats <~ add_to stats (lit "estimated_savings") (VFloat s) ;;
   stats <~ add_to stats (lit "total_requests") (VInt 1) ;;
   k stats)
  = k (server_cache_stats (H + h) (M + m) (Qred (S + s)) (R + 1)).
Proof. reflexivity. Qed.

(** X27.  The statistics accumulate: a usage report with integer token
    counts, not both zero, adds its counts to the totals of the metadata
    file and counts one more request; without a file the totals start from
    zero. (The file can be written.) *)
Theorem server_cache_totals_accumulate
        (usage : value) (h m H M R : Z) (w : world) :
  truthy usage = true ->
  Py.get usage (lit "prompt_cache_hit_tokens") (VInt 0) = Return (VInt h) ->
  Py.get usage (lit "prompt_cache_miss_tokens") (VInt 0) = Return (VInt m) ->
  h <> 0%Z \/ m <> 0%Z ->
  write_fails w CacheDir metadata_file = false ->
  totals_before w H M R ->
  let run := track_deepseek_server_cache usage w in
  fst run = Return tt
  /\ records (snd run) (H + h) (M + m) (R + 1)
  /\ forall name, name <> metadata_file ->
                  cache_dir (snd run) !! name = cache_dir w !! name.
Proof.
  intros Ht Hh Hm Hnz Hw Hbefore run.
  assert (Hrun : exists d savings,
             run = (Return tt,
                    set_dir CacheDir
                      (<[metadata_file := File (now w) (Some (VDict d))]>
                         (cache_dir w)) w)
             /\ Dict.get (lit "server_cache_stats") d
                = Some (server_cache_stats (H + h) (M + m) savings (R + 1))).
  { subst run.
    unfold track_deepseek_server_cache. rewrite Ht. cbn [negb].
    unfold bind at 1. unfold lift at 1. rewrite Hh.
    unfold bind at 1. unfold lift at 1. rewrite Hm.
    assert (Hz : Py.is_zero (VInt h) && Py.is_zero (VInt m) = false).
    { unfold Py.is_zero. cbn [Py.number].
      destruct Hnz as [Hn|Hn]; apply Z.eqb_neq in Hn; rewrite Hn;
        [reflexivity|apply andb_false_r]. }
    rewrite Hz. cbn [Py.scale Py.number]. unfold bind at 1 2, lift at 1 2.
    cbn [Py.sub_floats].
    set (s := Qred (_ - _)).
    destruct Hbefore as [(f & d & S & Hf & Hc & Hd)|(Hf & -> & -> & ->)].
    - rewrite Hf, Hc. cbn [default from_option id].
      unfold bind, lift. cbn [Py.contains_str obind]. unfold Dict.mem.
      rewrite Hd. cbn [negb Py.getitem_key obind]. rewrite Hd. cbn [obind].
      rewrite (update_stats h m H M R S s
                 (fun stats => Py.setitem_key (VDict d)
                                 (lit "server_cache_stats") stats)).
      cbn [obind Py.setitem_key].
      unfold LLMResponseCache.write_json. rewrite Hw.
      cbn [get_dir]. eexists _, _. split; [reflexivity|]. apply dict_get_set.
    - rewrite Hf.
      unfold bind, lift. cbn [Py.contains_str obind Dict.mem Dict.get negb
                                Py.setitem_key Dict.set Py.getitem_key].
      rewrite (eqb_true _ _ eq_refl).
      change initial_server_cache_stats with (server_cache_stats 0 0 0 0).
      cbn [obind].
      rewrite (update_stats h m 0 0 0 0 s
                 (fun stats =>
                    Return (VDict [(lit "server_cache_stats", stats)]))).
      unfold LLMResponseCache.write_json. rewrite Hw.
      cbn [get_dir]. eexists _, _. split; [reflexivity|].
      cbn [Dict.get]. rewrite (eqb_true _ _ eq_refl). reflexivity. }
  destruct Hrun as (d' & S' & -> & Hd').
  cbn [fst snd set_dir cache_dir].
  split; [reflexivity|]. split.
  - exists (File (now w) (Some (VDict d'))), d', S'.
    split; [apply lookup_insert_eq|]. split; [reflexivity|exact Hd'].
  - intros name Hname. apply lookup_insert_ne. congruence.
Qed.

Lemma server_cache_totals_accumulate_witness :
  let usage := VDict [(lit "prompt_cache_hit_tokens", VInt 1200);
                      (lit "prompt_cache_miss_tokens", VInt 300)] in
  let run := track_deepseek_server_cache usage world_offline in
  fst run = Return tt
  /\ records (snd run) (0 + 1200) (0 + 300) (0 + 1)
  /\ forall name, name <> metadata_file ->
                  cache_dir (snd run) !! name = cache_dir world_offline !! name.
Proof.
  apply (server_cache_totals_accumulate
           (VDict [(lit "prompt_cache_hit_tokens", VInt 1200);
                   (lit "prompt_cache_miss_tokens", VInt 300)])
           1200 300 0 0 0 world_offline).
  - reflexivity.
  - vm_compute. reflexivity.
  - vm_compute. reflexivity.
  - left. discriminate.
  - reflexivity.
  - right. repeat split.
Defined.

(** ** The repair of structured output in the Claude client *)

Lemma dict_get_set_ne (k k' : pystr) (v : value) (d : Dict.t) :
  k' <> k -> Dict.get k' (Dict.set k v d) = Dict.get k' d.
Proof.
  intros Hne. induction d as [|[k0 v0] d IH]; cbn [Dict.set Dict.get].
  - rewrite (eqb_false k' k Hne). reflexivity.
  - destruct (k =s? k0) eqn:E; cbn [Dict.get].
    + apply eqb_eq in E. subst k0. rewrite (eqb_false k' k Hne). reflexivity.
    + destruct (k' =s? k0); [reflexivity|exact IH].
Qed.

(** X28.  What the Claude client does to structured output: the content it
    returns starts with an opening brace, and it differs from the content
    received only by that brace, when the content did not start with one, or
    by a quote put after the brace, when a name followed the brace directly;
    every other field is left alone. *)
Theorem fix_structured_content
        (response_data fixed : list (pystr * value)) :
  ClaudeClient.fix_structured response_data = Return fixed ->
  exists content content',
    Dict.get (lit "content") response_data = Some (VStr content)
    /\ Dict.get (lit "content") fixed = Some (VStr content')
    /\ PyStr.startswith (lit "{") content' = true
    /\ (content' = content
        \/ content' = lit "{" ++ content
        \/ exists rest, content = lit "{" ++ rest
                        /\ content' = lit "{" ++ dq ++ rest)
    /\ forall k, k <> lit "content" ->
                 Dict.get k fixed = Dict.get k response_data.
Proof.
  unfold ClaudeClient.fix_structured. cbn [Py.getitem_key].
  destruct (Dict.get (lit "content") response_data) as [v|] eqn:Hget;
    [|discriminate].
  cbn [obind]. destruct v; try discriminate. cbn [Py.as_str obind].
  rename s into content.
  destruct (PyStr.startswith (lit "{") content) eqn:Hb; cbn [andb negb].
  - destruct (negb (PyStr.startswith (lit "{" ++ dq) content)) eqn:Hq.
    + destruct (1 <? PyStr.find dq content)%Z eqn:Hfind.
      * intros [= <-]. exists content. eexists.
        split; [reflexivity|]. split; [apply dict_get_set|].
        split; [reflexivity|]. split.
        -- right. right. destruct content as [|c rest]; [discriminate Hb|].
           change (lit "{") with [ch "{"] in *. cbn [PyStr.startswith] in Hb.
           apply andb_prop in Hb as [Hc _]. apply N.eqb_eq in Hc. subst c.
           exists rest. split; [reflexivity|].
           cbn [app]. f_equal. f_equal.
           assert (Hn : exists n, Z.to_nat (PyStr.find dq (ch "{" :: rest)) = S n).
           { apply Z.ltb_lt in Hfind.
             exists (Z.to_nat (PyStr.find dq (ch "{" :: rest) - 1)). lia. }
           destruct Hn as [n ->]. cbn [take drop].
           apply (take_drop n rest).
        -- intros k Hk. apply dict_get_set_ne, Hk.
      * intros [= <-]. exists content, content. repeat split; auto.
    + intros [= <-]. exists content, content. repeat split; auto.
  - intros [= <-]. exists content. eexists.
    split; [reflexivity|]. split; [apply dict_get_set|].
    split; [reflexivity|]. split; [auto|].
    intros k Hk. apply dict_get_set_ne, Hk.
Qed.

Lemma fix_structured_content_witness :
  exists content content',
    Dict.get (lit "content") [(lit "content", VStr (lit "a" ++ dq ++ lit ": 1}"))]
    = Some (VStr content)
    /\ Dict.get (lit "content")
         [(lit "content", VStr (lit "{a" ++ dq ++ lit ": 1}"))]
       = Some (VStr content')
    /\ PyStr.startswith (lit "{") content' = true
    /\ (content' = content
        \/ content' = lit "{" ++ content
        \/ exists rest, content = lit "{" ++ rest
                        /\ content' = lit "{" ++ dq ++ rest)
    /\ forall k, k <> lit "content" ->
                 Dict.get k [(lit "content", VStr (lit "{a" ++ dq ++ lit ": 1}"))]
                 = Dict.get k [(lit "content", VStr (lit "a" ++ dq ++ lit ": 1}"))].
Proof.
  apply (fix_structured_content
           [(lit "content", VStr (lit "a" ++ dq ++ lit ": 1}"))]
           [(lit "content", VStr (lit "{a" ++ dq ++ lit ": 1}"))]).
  vm_compute. reflexivity.
Defined.

(** ** The parsing of [generate_property_summary] *)

Lemma setitem_returns_dict (v : value) (k : pystr) (x r : value) :
  Py.setitem_key v k x = Return r ->
  exists d, v = VDict d /\ r = VDict (Dict.set k x d).
Proof. destruct v; try discriminate. intros [= <-]. eauto. Qed.

Lemma dict_mem_set (k k' : pystr) (x : value) (d : Dict.t) :
  Dict.mem k' (Dict.set k x d) = (k' =s? k) || Dict.mem k' d.
Proof.
  unfold Dict.mem. destruct (k' =s? k) eqn:E.
  - apply eqb_eq in E. subst k'. rewrite dict_get_set. reflexivity.
  - rewrite dict_get_set_ne; [reflexivity|].
    intros ->. rewrite (eqb_true k k eq_refl) in E. discriminate E.
Qed.

Ltac closed :=
  repeat split; try reflexivity; try assumption; try (intros; discriminate);
  try congruence.

Ltac keys :=
  repeat first
    [ rewrite dict_mem_set
    | match goal with
      | |- context [?a =s? ?b] =>
          first [ rewrite (eqb_true a b eq_refl)
                | rewrite (eqb_false a b) by discriminate ]
      end ];
  cbn [orb].

(** X29.  What [generate_property_summary] reads from a response is an
    object that has highlights and names its origin. It has a summary too,
    except in one case: an object parsed with neither field is given the
    default highlights and no summary. *)
Theorem summary_parsing_fields
        (property_obj : Property.t) (content : pystr) (result : value) :
  summary_of_content property_obj content = Return result ->
  exists d,
    result = VDict d
    /\ Dict.mem (lit "highlights") d = true
    /\ Dict.mem (lit "created_by") d = true
    /\ (Dict.mem (lit "summary") d = false ->
        Dict.get (lit "highlights") d = Some (default_highlights property_obj)
        /\ exists text parsed,
             (text = content \/ fix_json_format content = Return text)
             /\ Json.loads text = Json.Loaded (VDict parsed)
             /\ Dict.mem (lit "summary") parsed = false
             /\ Dict.mem (lit "highlights") parsed = false).
Proof.
  assert (Hensure : forall text parsed origin,
             Json.loads text = Json.Loaded parsed ->
             (text = content \/ fix_json_format content = Return text) ->
             ensure_fields property_obj parsed origin = Return result ->
             exists d,
               result = VDict d
               /\ Dict.mem (lit "highlights") d = true
               /\ Dict.mem (lit "created_by") d = true
               /\ (Dict.mem (lit "summary") d = false ->
                   Dict.get (lit "highlights") d
                   = Some (default_highlights property_obj)
                   /\ exists text parsed,
                        (text = content \/ fix_json_format content = Return text)
                        /\ Json.loads text = Json.Loaded (VDict parsed)
                        /\ Dict.mem (lit "summary") parsed = false
                        /\ Dict.mem (lit "highlights") parsed = false)).
  { intros text parsed origin Hload Htext. unfold ensure_fields.
    destruct (Py.contains_str (lit "summary") parsed) as [has_summary|e] eqn:Hs;
      [|discriminate].
    cbn [obind].
    destruct has_summary; cbn [negb].
    - (* the summary is there *)
      cbn [obind].
      destruct (Py.contains_str (lit "highlights") parsed) as [has_h|e] eqn:Hh;
        [|discriminate].
      cbn [obind]. destruct has_h; cbn [negb obind].
      + intros H. apply setitem_returns_dict in H as (d & -> & ->).
        cbn [Py.contains_str] in Hs, Hh. injection Hs as Hs. injection Hh as Hh.
        eexists. split; [reflexivity|]. keys. rewrite Hs, Hh. closed.
      + destruct (Py.setitem_key parsed _ _) as [r1|e] eqn:H1; [|discriminate].
        cbn [obind]. intros H.
        apply setitem_returns_dict in H1 as (d & -> & ->).
        apply setitem_returns_dict in H as (d' & [= <-] & ->).
        cbn [Py.contains_str] in Hs. injection Hs as Hs.
        eexists. split; [reflexivity|]. keys. rewrite ?Hs. closed.
    - (* no summary *)
      destruct (Py.contains_str (lit "highlights") parsed) as [has_h|e] eqn:Hh;
        [|discriminate].
      cbn [obind]. destruct has_h.
      + (* a summary is made from the highlights *)
        destruct (Py.getitem_key parsed _) as [h|e]; [|discriminate].
        cbn [obind].
        destruct (join_value _ h) as [joined|e]; [|discriminate].
        cbn [obind].
        destruct (Py.setitem_key parsed _ _) as [r1|e] eqn:H1; [|discriminate].
        cbn [obind].
        apply setitem_returns_dict in H1 as (d & -> & ->).
        cbn [Py.contains_str] in Hh |- *. injection Hh as Hh.
        keys. rewrite Hh. cbn [orb negb obind].
        intros H. apply setitem_returns_dict in H as (d' & [= <-] & ->).
        eexists. split; [reflexivity|]. keys. rewrite ?Hh. closed.
      + (* neither field *)
        cbn [obind]. rewrite Hh. cbn [obind negb].
        destruct (Py.setitem_key parsed _ _) as [r1|e] eqn:H1; [|discriminate].
        cbn [obind]. intros H.
        apply setitem_returns_dict in H1 as (d & -> & ->).
        apply setitem_returns_dict in H as (d' & [= <-] & ->).
        cbn [Py.contains_str] in Hs, Hh. injection Hs as Hs. injection Hh as Hh.
        eexists. split; [reflexivity|]. keys.
        repeat split; try reflexivity.
        * rewrite dict_get_set_ne by discriminate. apply dict_get_set.
        * exists text, d. repeat split; assumption. }
  unfold summary_of_content.
  destruct (Json.loads content) as [parsed|msg pos|] eqn:H1; [| |discriminate].
  - apply (Hensure content parsed "claude"%string H1). left. reflexivity.
  - destruct (fix_json_format content) as [fixed|e] eqn:Hfix; [|discriminate].
    cbn [obind].
    destruct (Json.loads fixed) as [parsed|msg' pos'|] eqn:H2; [| |discriminate].
    + apply (Hensure fixed parsed "claude-fixed"%string H2). right. reflexivity.
    + intros [= <-]. unfold extract_summary. cbv zeta.
      eexists. split; [reflexivity|].
      destruct (Re.search summary_field fixed);
        destruct (Re.search highlights_field fixed);
        try destruct (Re.findall1 quoted_nonempty _);
        keys; cbn [Dict.mem Dict.get]; keys; closed.
Qed.

Lemma summary_parsing_fields_witness :
  exists d,
    VDict [(lit "highlights", default_highlights reviewed_property);
           (lit "created_by", VStr (lit "claude"))] = VDict d
    /\ Dict.mem (lit "highlights") d = true
    /\ Dict.mem (lit "created_by") d = true
    /\ (Dict.mem (lit "summary") d = false ->
        Dict.get (lit "highlights") d
        = Some (default_highlights reviewed_property)
        /\ exists text parsed,
             (text = lit "{}" \/ fix_json_format (lit "{}") = Return text)
             /\ Json.loads text = Json.Loaded (VDict parsed)
             /\ Dict.mem (lit "summary") parsed = false
             /\ Dict.mem (lit "highlights") parsed = false).
Proof.
  apply (summary_parsing_fields reviewed_property (lit "{}")).
  vm_compute. reflexivity.
Defined.

(** X30.  The extraction of the third level always gives a complete summary:
    a summary text, a list of highlights that is not empty, and the origin;
    what the patterns do not find is filled in from the property. *)
Theorem extract_summary_is_complete
        (property_obj : Property.t) (fixed_content : pystr) :
  exists summary first rest,
    extract_summary property_obj fixed_content
    = VDict [(lit "summary", VStr summary);
             (lit "highlights", strs (first :: rest));
             (lit "created_by", VStr (lit "regex-extraction"))].
Proof.
  unfold extract_summary. cbv zeta.
  destruct (Re.search summary_field fixed_content) as [m|];
    destruct (Re.search highlights_field fixed_content) as [m'|];
    try destruct (Re.findall1 quoted_nonempty _) as [|h hs];
    do 3 eexists; reflexivity.
Qed.
